(** * Lights_PI_Show: the pattern engine of [into.py]

    A shallow embedding of the LED pattern runner: the colour helpers, the
    software sink ([VirtualStrip]), the animation state ([AppState]), the four
    stepping functions, the sensor response, the keyboard interpreter and the
    settings loader, followed by the properties of the specification.

    Python integers are [Z]; Python floats are IEEE binary64 values of the
    standard library's executable model ([spec_float], precision 53, emax
    1024); strings are sequences of code points below 256; dictionaries
    whose iteration order matters are association lists; exceptions are the
    [Raise] results of a small error monad. *)

From Stdlib Require Import ZArith List String Ascii Bool Lia.
From Stdlib Require Import DecimalString.
From Stdlib Require Import Floats.SpecFloat.
Import ListNotations.

Local Open Scope string_scope.
Local Open Scope Z_scope.

(** ** Exceptions *)

Inductive exn : Type :=
| KeyError
| IndexError
| ValueError
| TypeError
| OverflowError
| ZeroDivisionError
| RuntimeError
| OSError.

Inductive result (A : Type) : Type :=
| Ok (a : A)
| Raise (e : exn).

Arguments Ok {A} a.
Arguments Raise {A} e.

Definition bind {A B : Type} (c : result A) (k : A -> result B) : result B :=
  match c with
  | Ok a => k a
  | Raise e => Raise e
  end.

Notation "x <- c ;; k" := (bind c (fun x => k))
  (at level 61, c at next level, right associativity).
Notation "' p <- c ;; k" := (bind c (fun x => let 'p := x in k))
  (at level 61, p pattern, c at next level, right associativity).

(** ** Python built-ins used by the program *)

Module Py.

(** Dictionaries with string keys, in insertion order. *)
Definition dict (V : Type) : Type := list (string * V).

Fixpoint get {V : Type} (d : dict V) (k : string) : option V :=
  match d with
  | [] => None
  | (k', v) :: d' => if String.eqb k k' then Some v else get d' k
  end.

Definition mem {V : Type} (k : string) (d : dict V) : bool :=
  match get d k with
  | Some _ => true
  | None => false
  end.

(** [d[k]] *)
Definition item {V : Type} (d : dict V) (k : string) : result V :=
  match get d k with
  | Some v => Ok v
  | None => Raise KeyError
  end.

Definition keys {V : Type} (d : dict V) : list string := map fst d.

(** [l.index(x)] on a list of strings *)
Fixpoint index (l : list string) (x : string) : result Z :=
  match l with
  | [] => Raise ValueError
  | y :: l' => if String.eqb x y then Ok 0 else i <- index l' x ;; Ok (i + 1)
  end.

Definition len {A : Type} (l : list A) : Z := Z.of_nat (List.length l).

(** [l[i]]: indices from [-len] to [len - 1] are accepted. *)
Definition subscript {A : Type} (l : list A) (i : Z) : result A :=
  let j := if i <? 0 then i + len l else i in
  if (j <? 0) || (len l <=? j) then Raise IndexError
  else match nth_error l (Z.to_nat j) with
       | Some a => Ok a
       | None => Raise IndexError
       end.

(** [a % b]: the result has the sign of [b]. *)
Definition modulo (a b : Z) : result Z :=
  if b =? 0 then Raise ZeroDivisionError else Ok (a mod b).

(** [l[i] = v] for an index already known to be non-negative. *)
Fixpoint store {A : Type} (l : list A) (i : nat) (v : A) : result (list A) :=
  match l, i with
  | [], _ => Raise IndexError
  | _ :: l', O => Ok (v :: l')
  | a :: l', S i' => r <- store l' i' v ;; Ok (a :: r)
  end.

(** [range(n)] *)
Definition range (n : Z) : list Z := map Z.of_nat (seq 0 (Z.to_nat n)).

(** [str(n)] for an integer *)
Definition str_int (n : Z) : string := NilZero.string_of_int (Z.to_int n).

Fixpoint zeros (n : nat) : string :=
  match n with
  | O => ""
  | S n' => String "0" (zeros n')
  end.

(** [f"{n:0{w}d}"]: the sign first, then zeros up to the width. *)
Definition format_0d (w : nat) (n : Z) : string :=
  let digits := str_int (Z.abs n) in
  if n <? 0
  then String "-" (zeros (w - 1 - String.length digits) ++ digits)
  else zeros (w - String.length digits) ++ digits.

Fixpoint take (n : nat) (s : string) : string :=
  match n, s with
  | S n', String c s' => String c (take n' s')
  | _, _ => ""
  end.

Fixpoint drop (n : nat) (s : string) : string :=
  match n, s with
  | S n', String _ s' => drop n' s'
  | _, _ => s
  end.

(** [s.ljust(w)] *)
Fixpoint spaces (n : nat) : string :=
  match n with
  | O => ""
  | S n' => String " " (spaces n')
  end.

Definition ljust (w : Z) (s : string) : string :=
  s ++ spaces (Z.to_nat w - String.length s).

Definition join (sep : string) (l : list string) : string :=
  match l with
  | [] => ""
  | x :: l' => fold_left (fun acc y => acc ++ sep ++ y) l' x
  end.

(** [s.strip()] and [s.lower()]. A string is the sequence of its code
    points and a character of the model is a code point below 256. Of these,
    [str.isspace] holds for 9 to 13, 28 to 32, 133 (next line) and 160
    (no-break space), and [str.lower] moves the letters 65 to 90, 192 to 214
    and 216 to 222 up by 32. *)
Definition is_space (c : ascii) : bool :=
  let n := nat_of_ascii c in
  ((Nat.leb 9 n && Nat.leb n 13) || (Nat.leb 28 n && Nat.leb n 32)
   || Nat.eqb n 133 || Nat.eqb n 160)%bool.

Fixpoint lstrip (s : string) : string :=
  match s with
  | String c s' => if is_space c then lstrip s' else s
  | EmptyString => s
  end.

Fixpoint rstrip (s : string) : string :=
  match s with
  | String c s' =>
      let r := rstrip s' in
      if is_space c && String.eqb r "" then "" else String c r
  | EmptyString => s
  end.

Definition strip (s : string) : string := rstrip (lstrip s).

Definition lower_ascii (c : ascii) : ascii :=
  let n := nat_of_ascii c in
  if ((Nat.leb 65 n && Nat.leb n 90) || (Nat.leb 192 n && Nat.leb n 214)
      || (Nat.leb 216 n && Nat.leb n 222))%bool
  then ascii_of_nat (n + 32) else c.

Fixpoint lower (s : string) : string :=
  match s with
  | String c s' => String (lower_ascii c) (lower s')
  | EmptyString => s
  end.

(** *** Floats (binary64) *)

Definition prec : Z := 53.
Definition emax : Z := 1024.

Definition float : Type := spec_float.

Definition overflow_check (f : float) : result float :=
  match f with
  | S754_infinity _ => Raise OverflowError
  | _ => Ok f
  end.

(** [float(n)] for an integer: nearest double, ties to even. *)
Definition float_of_int (n : Z) : result float :=
  overflow_check (binary_normalize prec emax n 0 false).

(** [a / b] on integers: the correctly rounded quotient. *)
Definition truediv (a b : Z) : result float :=
  if b =? 0 then Raise ZeroDivisionError
  else
    let s := xorb (a <? 0) (b <? 0) in
    if a =? 0 then Ok (S754_zero s)
    else
      let '(mz, ez, lz) := SFdiv_core_binary prec emax (Z.abs a) 0 (Z.abs b) 0 in
      overflow_check (binary_round_aux prec emax s mz ez lz).

(** [x * n] with a float [x] and an integer [n]. *)
Definition mul_int (x : float) (n : Z) : result float :=
  y <- float_of_int n ;;
  Ok (SFmul prec emax x y).

(** [int(x)] for a float: truncation toward zero. *)
Definition int_of_float (x : float) : result Z :=
  match x with
  | S754_nan => Raise ValueError
  | S754_infinity _ => Raise OverflowError
  | S754_zero _ => Ok 0
  | S754_finite s m e =>
      let a := if 0 <=? e then Zpos m * 2 ^ e else Zpos m / 2 ^ (- e) in
      Ok (if s then - a else a)
  end.

(** A decimal literal [n / d] (as in [0.08 = 8/100]) denotes the double
    nearest to it. *)
Definition literal (n d : Z) : float :=
  match truediv n d with
  | Ok f => f
  | Raise _ => S754_nan
  end.

(** [max(a, x)] on floats returns [x] only when [x > a]. *)
Definition max_float (a x : float) : float :=
  if SFltb a x then x else a.

End Py.

(** ** Constants and tables *)

(** The fallback [Color] of the module (used when the driver is absent). *)
Definition Color (r g b : Z) : Z :=
  Z.lor (Z.lor (Z.shiftl (Z.land r 255) 16) (Z.shiftl (Z.land g 255) 8))
        (Z.land b 255).

Definition LED_BRIGHTNESS : Z := 255.
Definition EMERGENCY_DELAY_SECONDS : Py.float := Py.literal 12 100.

Definition EMERGENCY_COLORS : list (string * Z) :=
  [ ("Red", Color 255 0 0);
    ("Blue", Color 0 0 255);
    ("White", Color 255 255 255) ].

Definition EMERGENCY_SOS_STEPS : list Z :=
  [ 1; 0; 1; 0; 1; 0;
    1; 1; 1; 0; 1; 1; 1; 0; 1; 1; 1; 0;
    1; 0; 1; 0; 1; 0;
    0; 0; 0; 0 ].

Definition PATTERN_NAMES : Py.dict string :=
  [ ("1", "Chase"); ("2", "Random"); ("3", "Bounce"); ("4", "Emergency SOS") ].

Definition available_patterns (emergency_only : bool) : Py.dict string :=
  if emergency_only
  then match Py.get PATTERN_NAMES "4" with
       | Some v => [("4", v)]
       | None => []
       end
  else filter (fun kv => negb (String.eqb (fst kv) "4")) PATTERN_NAMES.

Definition SPEED_LABELS : Py.dict string :=
  [ ("1", "Slow"); ("2", "Medium"); ("3", "Fast") ].

Definition SPEED_MAP : Py.dict (Py.dict Py.float) :=
  [ ("1", [ ("1", Py.literal 8 100); ("2", Py.literal 3 100); ("3", Py.literal 1 100) ]);
    ("2", [ ("1", Py.literal 30 100); ("2", Py.literal 12 100); ("3", Py.literal 5 100) ]);
    ("3", [ ("1", Py.literal 6 100); ("2", Py.literal 2 100); ("3", Py.literal 8 1000) ]) ].

Definition CHASE_COLORS : Py.dict (string * Z) :=
  [ ("1", ("Orange", Color 255 140 0));
    ("2", ("Green", Color 0 255 0));
    ("3", ("Blue", Color 0 0 255));
    ("4", ("Rainbow", 0)) ].

(** [None] stands for the unrestricted palette. *)
Definition RANDOM_PALETTES : Py.dict (string * option (list Z)) :=
  [ ("1", ("Any RGB", None));
    ("2", ("Warm", Some [Color 255 0 0; Color 255 120 0; Color 255 255 0]));
    ("3", ("Cool", Some [Color 0 255 255; Color 0 0 255; Color 180 0 255])) ].

Definition BOUNCE_COLORS : Py.dict (string * Z) :=
  [ ("1", ("Blue", Color 0 0 255));
    ("2", ("Purple", Color 180 0 255));
    ("3", ("White", Color 255 255 255));
    ("4", ("Rainbow", 0)) ].

Definition INPUT_MODES : list string := ["off"; "digital"; "analog"].

Definition DEFAULT_ANALOG_PATH : string :=
  "/sys/bus/iio/devices/iio:device0/in_voltage0_raw".

(** ** The animation state *)

Record AppState : Type := mkAppState {
  pattern : string;
  speed : string;
  chase_color : string;
  random_palette : string;
  bounce_color : string;
  max_brightness : Z;
  brightness : Z;
  input_mode : string;
  input_pin : Z;
  analog_path : string;
  analog_max : Z;
  emergency_only : bool;
  emergency_step : Z;
  emergency_color_index : Z;
  chase_position : Z;
  bounce_position : Z;
  bounce_direction : Z;
  rainbow_offset : Z
}.

(** The dataclass constructor with its defaults for the progress counters. *)
Definition new_AppState (pattern speed chase_color random_palette bounce_color : string)
    (max_brightness brightness : Z) (input_mode : string) (input_pin : Z)
    (analog_path : string) (analog_max : Z) (emergency_only : bool) : AppState :=
  mkAppState pattern speed chase_color random_palette bounce_color
             max_brightness brightness input_mode input_pin analog_path
             analog_max emergency_only 0 0 0 0 1 0.

Definition set_pattern (v : string) (s : AppState) : AppState :=
  let '(mkAppState _ b c d e f g h i j k l m n o p q r) := s in
  mkAppState v b c d e f g h i j k l m n o p q r.
Definition set_speed (v : string) (s : AppState) : AppState :=
  let '(mkAppState a _ c d e f g h i j k l m n o p q r) := s in
  mkAppState a v c d e f g h i j k l m n o p q r.
Definition set_chase_color (v : string) (s : AppState) : AppState :=
  let '(mkAppState a b _ d e f g h i j k l m n o p q r) := s in
  mkAppState a b v d e f g h i j k l m n o p q r.
Definition set_random_palette (v : string) (s : AppState) : AppState :=
  let '(mkAppState a b c _ e f g h i j k l m n o p q r) := s in
  mkAppState a b c v e f g h i j k l m n o p q r.
Definition set_bounce_color (v : string) (s : AppState) : AppState :=
  let '(mkAppState a b c d _ f g h i j k l m n o p q r) := s in
  mkAppState a b c d v f g h i j k l m n o p q r.
Definition set_max_brightness (v : Z) (s : AppState) : AppState :=
  let '(mkAppState a b c d e _ g h i j k l m n o p q r) := s in
  mkAppState a b c d e v g h i j k l m n o p q r.
Definition set_brightness (v : Z) (s : AppState) : AppState :=
  let '(mkAppState a b c d e f _ h i j k l m n o p q r) := s in
  mkAppState a b c d e f v h i j k l m n o p q r.
Definition set_input_mode (v : string) (s : AppState) : AppState :=
  let '(mkAppState a b c d e f g _ i j k l m n o p q r) := s in
  mkAppState a b c d e f g v i j k l m n o p q r.
Definition set_input_pin (v : Z) (s : AppState) : AppState :=
  let '(mkAppState a b c d e f g h _ j k l m n o p q r) := s in
  mkAppState a b c d e f g h v j k l m n o p q r.
Definition set_analog_path (v : string) (s : AppState) : AppState :=
  let '(mkAppState a b c d e f g h i _ k l m n o p q r) := s in
  mkAppState a b c d e f g h i v k l m n o p q r.
Definition set_analog_max (v : Z) (s : AppState) : AppState :=
  let '(mkAppState a b c d e f g h i j _ l m n o p q r) := s in
  mkAppState a b c d e f g h i j v l m n o p q r.
Definition set_emergency_only (v : bool) (s : AppState) : AppState :=
  let '(mkAppState a b c d e f g h i j k _ m n o p q r) := s in
  mkAppState a b c d e f g h i j k v m n o p q r.
Definition set_emergency_step (v : Z) (s : AppState) : AppState :=
  let '(mkAppState a b c d e f g h i j k l _ n o p q r) := s in
  mkAppState a b c d e f g h i j k l v n o p q r.
Definition set_emergency_color_index (v : Z) (s : AppState) : AppState :=
  let '(mkAppState a b c d e f g h i j k l m _ o p q r) := s in
  mkAppState a b c d e f g h i j k l m v o p q r.
Definition set_chase_position (v : Z) (s : AppState) : AppState :=
  let '(mkAppState a b c d e f g h i j k l m n _ p q r) := s in
  mkAppState a b c d e f g h i j k l m n v p q r.
Definition set_bounce_position (v : Z) (s : AppState) : AppState :=
  let '(mkAppState a b c d e f g h i j k l m n o _ q r) := s in
  mkAppState a b c d e f g h i j k l m n o v q r.
Definition set_bounce_direction (v : Z) (s : AppState) : AppState :=
  let '(mkAppState a b c d e f g h i j k l m n o p _ r) := s in
  mkAppState a b c d e f g h i j k l m n o p v r.
Definition set_rainbow_offset (v : Z) (s : AppState) : AppState :=
  let '(mkAppState a b c d e f g h i j k l m n o p q _) := s in
  mkAppState a b c d e f g h i j k l m n o p q v.

Record RunOptions : Type := mkRunOptions {
  frames : Z;
  duration_seconds : Py.float;
  start_delay_seconds : Py.float
}.

Definition normalize_pattern_for_mode (state : AppState) : AppState :=
  if emergency_only state then set_pattern "4" state
  else if String.eqb (pattern state) "4" then set_pattern "1" state
  else state.

(** ** The software sink *)

Record VirtualStrip : Type := mkVirtualStrip {
  count : Z;
  pixels : list Z;
  strip_brightness : Z;
  frame : Z;
  render_width : Z;
  rendered_lines : Z;
  has_animated : bool
}.

(** [VirtualStrip(count)]; the terminal width comes from the environment. *)
Definition new_VirtualStrip (count terminal_width : Z) : VirtualStrip :=
  mkVirtualStrip count (repeat (Color 0 0 0) (Z.to_nat count)) LED_BRIGHTNESS 0
                 (Z.max 20 (terminal_width - 2)) 0 false.

Definition with_pixels (px : list Z) (vs : VirtualStrip) : VirtualStrip :=
  mkVirtualStrip (count vs) px (strip_brightness vs) (frame vs)
                 (render_width vs) (rendered_lines vs) (has_animated vs).

Definition setPixelColor (vs : VirtualStrip) (n color : Z) : result VirtualStrip :=
  if (0 <=? n) && (n <? count vs)
  then
    px <- Py.store (pixels vs) (Z.to_nat n) color ;;
    Ok (with_pixels px vs)
  else Ok vs.

Definition setBrightness (vs : VirtualStrip) (b : Z) : VirtualStrip :=
  mkVirtualStrip (count vs) (pixels vs) (Z.max 0 (Z.min 255 b)) (frame vs)
                 (render_width vs) (rendered_lines vs) (has_animated vs).

Definition color_to_ascii (color : Z) : string :=
  if color =? 0 then "."
  else
    let red := Z.land (Z.shiftr color 16) 255 in
    let green := Z.land (Z.shiftr color 8) 255 in
    let blue := Z.land color 255 in
    if (180 <? red) && (180 <? green) && (180 <? blue) then "W"
    else if (green <=? red) && (blue <=? red) then "R"
    else if (red <=? green) && (blue <=? green) then "G"
    else "B".

Definition ESC : string := String (ascii_of_nat 27) "".
Definition CR : string := String (ascii_of_nat 13) "".
Definition LF : string := String (ascii_of_nat 10) "".

(** [[tail[i : i + w] for i in range(0, len(tail), w)]] *)
Fixpoint slices (fuel w : nat) (s : string) : list string :=
  match fuel, s with
  | S fuel', String _ _ => Py.take w s :: slices fuel' w (Py.drop w s)
  | _, _ => []
  end.

Definition render_lines (w : Z) (tail : string) : result (list string) :=
  if w =? 0 then Raise ValueError
  else if w <? 0 then Ok []
  else Ok (slices (String.length tail) (Z.to_nat w) tail).

Definition frame_prefix (n : Z) : string :=
  "Frame " ++ Py.format_0d 4 n ++ " | ".

(** [show]: the new sink and the chunks written to standard output. *)
Definition show (vs : VirtualStrip) (isatty : bool)
  : result (VirtualStrip * list string) :=
  let fr := frame vs + 1 in
  let ascii_pixels := String.concat "" (map color_to_ascii (pixels vs)) in
  if negb isatty
  then Ok (mkVirtualStrip (count vs) (pixels vs) (strip_brightness vs) fr
                          (render_width vs) (rendered_lines vs) (has_animated vs),
           [frame_prefix fr ++ ascii_pixels ++ LF])
  else
    let prefix := frame_prefix fr in
    let first_line_capacity :=
      Z.to_nat (Z.max 10 (render_width vs - Z.of_nat (String.length prefix))) in
    let tail := Py.drop first_line_capacity ascii_pixels in
    rest <- render_lines (render_width vs) tail ;;
    let lines := (prefix ++ Py.take first_line_capacity ascii_pixels) :: rest in
    let chunks := map (Py.ljust (render_width vs)) lines in
    let cursor_up :=
      if has_animated vs
      then [ESC ++ "[" ++ Py.str_int (rendered_lines vs) ++ "A" ++ CR]
      else [] in
    let body := flat_map (fun chunk => [ESC ++ "[2K" ++ CR; chunk ++ LF]) chunks in
    Ok (mkVirtualStrip (count vs) (pixels vs) (strip_brightness vs) fr
                       (render_width vs) (Py.len chunks + 1) true,
        (cursor_up ++ body)%list).

(** [finish]: the chunks written when the run ends. *)
Definition finish (vs : VirtualStrip) (isatty : bool) : list string :=
  if isatty && has_animated vs then [LF] else [].

(** ** The world: the global sink, standard output and the external inputs *)

(** The module keeps its sink in a global that is [None] until one of the
    [init] functions runs. The hardware driver is an external device; the
    sink modelled here is the [VirtualStrip] of test mode. Random draws and
    sensor reads are answered by oracles of the world. *)

Record World : Type := mkWorld {
  strip : option VirtualStrip;
  stdout : list string;
  stdout_isatty : bool;
  rand : nat -> Z;
  rand_pos : nat;
  gpio : Z -> option Z;
  sysfs : string -> option Z
}.

Definition with_strip (vs : option VirtualStrip) (w : World) : World :=
  mkWorld vs (stdout w) (stdout_isatty w) (rand w) (rand_pos w) (gpio w) (sysfs w).

Definition write (chunks : list string) (w : World) : World :=
  mkWorld (strip w) (stdout w ++ chunks)%list (stdout_isatty w) (rand w) (rand_pos w)
          (gpio w) (sysfs w).

Definition print (s : string) (w : World) : World := write [s ++ LF] w.

(** [random.randint(lo, hi)] and [random.choice(l)], fed by the oracle. *)
Definition draw (w : World) : Z * World :=
  (rand w (rand_pos w),
   mkWorld (strip w) (stdout w) (stdout_isatty w) (rand w) (S (rand_pos w))
           (gpio w) (sysfs w)).

Definition randint (lo hi : Z) (w : World) : Z * World :=
  let '(r, w') := draw w in (lo + r mod (hi - lo + 1), w').

Definition choice (l : list Z) (w : World) : result (Z * World) :=
  match l with
  | [] => Raise IndexError
  | _ => let '(r, w') := draw w in
         v <- Py.subscript l (r mod Py.len l) ;; Ok (v, w')
  end.

Definition init_virtual_strip (led_count terminal_width : Z) (w : World) : World :=
  with_strip (Some (new_VirtualStrip led_count terminal_width)) w.

Definition get_strip (w : World) : result VirtualStrip :=
  match strip w with
  | Some vs => Ok vs
  | None => Raise RuntimeError
  end.

Definition strip_setPixelColor (n color : Z) (w : World) : result World :=
  vs <- get_strip w ;;
  vs' <- setPixelColor vs n color ;;
  Ok (with_strip (Some vs') w).

Definition strip_show (w : World) : result World :=
  vs <- get_strip w ;;
  '(vs', out) <- show vs (stdout_isatty w) ;;
  Ok (write out (with_strip (Some vs') w)).

(** [for i in l: body] *)
Fixpoint for_each {S : Type} (l : list Z) (body : Z -> S -> result S) (s : S)
  : result S :=
  match l with
  | [] => Ok s
  | i :: l' => s' <- body i s ;; for_each l' body s'
  end.

Definition clamp_brightness (value : Z) : Z := Z.max 0 (Z.min 255 value).

Definition set_strip_brightness (value : Z) (w : World) : result World :=
  active_strip <- get_strip w ;;
  Ok (with_strip (Some (setBrightness active_strip (clamp_brightness value))) w).

Definition apply_brightness_from_state (state : AppState) (w : World)
  : result (AppState * World) :=
  let state := set_brightness (clamp_brightness (brightness state)) state in
  let state := set_max_brightness (clamp_brightness (max_brightness state)) state in
  w' <- set_strip_brightness (brightness state) w ;;
  Ok (state, w').

Definition read_digital_input (pin : Z) (w : World) : option Z := gpio w pin.
Definition read_analog_input (path : string) (w : World) : option Z := sysfs w path.

Definition apply_pi_input_response (state : AppState) (w : World)
  : result (AppState * World) :=
  if String.eqb (input_mode state) "off" then Ok (state, w)
  else if String.eqb (input_mode state) "digital" then
    match read_digital_input (input_pin state) w with
    | None => Ok (state, w)
    | Some digital_value =>
        let state :=
          set_brightness (if 0 <? digital_value then max_brightness state else 0)
                         state in
        w' <- set_strip_brightness (brightness state) w ;;
        Ok (state, w')
    end
  else
    match read_analog_input (analog_path state) w with
    | None => Ok (state, w)
    | Some analog_value =>
        let analog_max := Z.max 1 (analog_max state) in
        let bounded := Z.max 0 (Z.min analog_max analog_value) in
        ratio <- Py.truediv bounded analog_max ;;
        product <- Py.mul_int ratio (max_brightness state) ;;
        scaled <- Py.int_of_float product ;;
        let state := set_brightness (clamp_brightness scaled) state in
        w' <- set_strip_brightness (brightness state) w ;;
        Ok (state, w')
    end.

Definition wheel (position : Z) : Z :=
  let pos := 255 - position in
  if pos <? 85 then Color (255 - pos * 3) 0 (pos * 3)
  else if pos <? 170 then
    let pos := pos - 85 in Color 0 (pos * 3) (255 - pos * 3)
  else
    let pos := pos - 170 in Color (pos * 3) (255 - pos * 3) 0.

Definition get_delay (state : AppState) : result Py.float :=
  if String.eqb (pattern state) "4" then Ok EMERGENCY_DELAY_SECONDS
  else
    row <- Py.item SPEED_MAP (pattern state) ;;
    Py.item row (speed state).

Definition cycle_choice {V : Type} (current : string) (choices : Py.dict V)
  : result string :=
  let keys := Py.keys choices in
  idx <- Py.index keys current ;;
  j <- Py.modulo (idx + 1) (Py.len keys) ;;
  Py.subscript keys j.

(** ** The pattern engine *)

Section Engine.

(** The strip length, [120] in the reference configuration. *)
Variable LED_COUNT : Z.

Definition clear_strip (show_now : bool) (w : World) : result World :=
  match strip w with
  | None => Ok w
  | Some _ =>
      w1 <- for_each (Py.range LED_COUNT)
                     (fun i w => strip_setPixelColor i (Color 0 0 0) w) w ;;
      if show_now then strip_show w1 else Ok w1
  end.

Definition pattern_step_chase (state : AppState) (w : World)
  : result (AppState * World) :=
  _ <- get_strip w ;;
  w <- clear_strip false w ;;
  '(color, state) <-
    (if String.eqb (chase_color state) "4"
     then Ok (wheel (Z.land (rainbow_offset state + chase_position state * 8) 255),
              set_rainbow_offset (Z.land (rainbow_offset state + 3) 255) state)
     else entry <- Py.item CHASE_COLORS (chase_color state) ;;
          Ok (snd entry, state)) ;;
  w <- strip_setPixelColor (chase_position state) color w ;;
  w <- strip_show w ;;
  next <- Py.modulo (chase_position state + 1) LED_COUNT ;;
  Ok (set_chase_position next state, w).

Definition random_pixel (palette : option (list Z)) (i : Z) (w : World)
  : result World :=
  match palette with
  | None =>
      let '(r, w) := randint 0 255 w in
      let '(g, w) := randint 0 255 w in
      let '(b, w) := randint 0 255 w in
      strip_setPixelColor i (Color r g b) w
  | Some colors =>
      '(c, w) <- choice colors w ;;
      strip_setPixelColor i c w
  end.

Definition pattern_step_random (state : AppState) (w : World)
  : result (AppState * World) :=
  _ <- get_strip w ;;
  entry <- Py.item RANDOM_PALETTES (random_palette state) ;;
  w <- for_each (Py.range LED_COUNT) (random_pixel (snd entry)) w ;;
  w <- strip_show w ;;
  Ok (state, w).

Definition pattern_step_bounce (state : AppState) (w : World)
  : result (AppState * World) :=
  _ <- get_strip w ;;
  w <- clear_strip false w ;;
  '(color, state) <-
    (if String.eqb (bounce_color state) "4"
     then Ok (wheel (Z.land (rainbow_offset state + bounce_position state * 8) 255),
              set_rainbow_offset (Z.land (rainbow_offset state + 3) 255) state)
     else entry <- Py.item BOUNCE_COLORS (bounce_color state) ;;
          Ok (snd entry, state)) ;;
  w <- strip_setPixelColor (bounce_position state) color w ;;
  w <- strip_show w ;;
  let state :=
    if bounce_position state =? LED_COUNT - 1 then set_bounce_direction (-1) state
    else if bounce_position state =? 0 then set_bounce_direction 1 state
    else state in
  Ok (set_bounce_position (bounce_position state + bounce_direction state) state, w).

Definition pattern_step_emergency (state : AppState) (w : World)
  : result (AppState * World) :=
  _ <- get_strip w ;;
  level <- Py.subscript EMERGENCY_SOS_STEPS (emergency_step state) ;;
  let step_on := 0 <? level in
  entry <- Py.subscript EMERGENCY_COLORS (emergency_color_index state) ;;
  let color := snd entry in
  w <- for_each (Py.range LED_COUNT)
                (fun i w => strip_setPixelColor i (if step_on then color else Color 0 0 0) w)
                w ;;
  w <- strip_show w ;;
  let state := set_emergency_step (emergency_step state + 1) state in
  if Py.len EMERGENCY_SOS_STEPS <=? emergency_step state
  then
    next <- Py.modulo (emergency_color_index state + 1) (Py.len EMERGENCY_COLORS) ;;
    Ok (set_emergency_color_index next (set_emergency_step 0 state), w)
  else Ok (state, w).

(** The dispatch of the run loop on the current pattern. *)
Definition pattern_step (state : AppState) (w : World) : result (AppState * World) :=
  if String.eqb (pattern state) "1" then pattern_step_chase state w
  else if String.eqb (pattern state) "2" then pattern_step_random state w
  else if String.eqb (pattern state) "3" then pattern_step_bounce state w
  else pattern_step_emergency state w.

End Engine.

(** ** The command interpreter *)

Definition status_detail (state : AppState) : result string :=
  if String.eqb (pattern state) "1" then
    entry <- Py.item CHASE_COLORS (chase_color state) ;;
    Ok ("Color: " ++ fst entry)
  else if String.eqb (pattern state) "2" then
    entry <- Py.item RANDOM_PALETTES (random_palette state) ;;
    Ok ("Palette: " ++ fst entry)
  else if String.eqb (pattern state) "3" then
    entry <- Py.item BOUNCE_COLORS (bounce_color state) ;;
    Ok ("Color: " ++ fst entry)
  else
    entry <- Py.subscript EMERGENCY_COLORS (emergency_color_index state) ;;
    Ok ("Color: " ++ fst entry ++ " | Panic SOS").

Definition print_status (state : AppState) (w : World) : result World :=
  pattern_name <- Py.item PATTERN_NAMES (pattern state) ;;
  speed_name <- Py.item SPEED_LABELS (speed state) ;;
  detail <- status_detail state ;;
  ratio <- Py.truediv (Z.max 0 (brightness state)) (Z.max 1 (max_brightness state)) ;;
  percent <- Py.mul_int ratio 100 ;;
  brightness_pct <- Py.int_of_float percent ;;
  Ok (print ("Pattern: " ++ pattern_name ++ " | Speed: " ++ speed_name
             ++ " | Brightness: " ++ Py.str_int (brightness state)
             ++ " (" ++ Py.str_int brightness_pct ++ "%) | " ++ detail) w).

Definition SHORTCUTS_TEXT : string :=
  "Runtime shortcuts:" ++ LF ++
  "    1 / 2 / 3 / 4 Switch pattern (1=Chase, 2=Random, 3=Bounce, 4=SOS)" ++ LF ++
  "        p           Cycle pattern (Chase -> Random -> Bounce -> SOS)" ++ LF ++
  "  s           Cycle speed (Slow -> Medium -> Fast)" ++ LF ++
  "  c           Cycle color option for current pattern" ++ LF ++
  "    + / -       Brightness up/down" ++ LF ++
  "    Ctrl+O      Print nohup command for current settings" ++ LF ++
  "  h           Show this shortcuts help again" ++ LF ++
  "  q           Quit" ++ LF ++
  "  Ctrl+C      Quit".

Definition float_positive (x : Py.float) : bool :=
  SFltb (S754_zero false) x.

Section Commands.

(** [sys.executable] and [str] on floats belong to the interpreter. *)
Variable sys_executable : string.
Variable str_float : Py.float -> string.

Definition build_nohup_command (state : AppState) (options : RunOptions) : string :=
  let command :=
    [ "nohup"; sys_executable; "into.py";
      "--pattern"; pattern state;
      "--speed"; speed state;
      "--chase-color"; chase_color state;
      "--random-palette"; random_palette state;
      "--bounce-color"; bounce_color state;
      "--brightness"; Py.str_int (brightness state);
      "--max-brightness"; Py.str_int (max_brightness state);
      "--pi-input-mode"; input_mode state;
      "--pi-input-pin"; Py.str_int (input_pin state);
      "--analog-path"; analog_path state;
      "--analog-max"; Py.str_int (analog_max state) ] in
  let command :=
    if 0 <? frames options
    then (command ++ ["--frames"; Py.str_int (frames options)])%list
    else command in
  let command :=
    if float_positive (duration_seconds options)
    then (command ++ ["--duration-seconds"; str_float (duration_seconds options)])%list
    else command in
  let command :=
    if float_positive (start_delay_seconds options)
    then (command ++ ["--start-delay-seconds";
                      str_float (start_delay_seconds options)])%list
    else command in
  let command :=
    if emergency_only state then (command ++ ["--emergency-only"])%list
    else command in
  Py.join " " (command ++ [">"; "runtime_live.log"; "2>&1"; "&"; "echo"; "$!"; ">";
                           "runtime_live.pid"])%list.

Definition CTRL_O : string := String (ascii_of_nat 15) "".

(** [handle_key]: the new state and world, and whether the loop goes on. *)
Definition handle_key (state : AppState) (options : RunOptions) (key : string)
    (w : World) : result (AppState * World * bool) :=
  let allowed := available_patterns (emergency_only state) in
  if Py.mem key allowed then
    let state := set_pattern key state in
    w <- print_status state w ;;
    Ok (state, w, true)
  else if String.eqb key "p" then
    next <- cycle_choice (pattern state) allowed ;;
    let state := set_pattern next state in
    w <- print_status state w ;;
    Ok (state, w, true)
  else if String.eqb key "s" then
    next <- cycle_choice (speed state) SPEED_LABELS ;;
    let state := set_speed next state in
    w <- print_status state w ;;
    Ok (state, w, true)
  else if String.eqb key "c" then
    state <-
      (if String.eqb (pattern state) "1" then
         next <- cycle_choice (chase_color state) CHASE_COLORS ;;
         Ok (set_chase_color next state)
       else if String.eqb (pattern state) "2" then
         next <- cycle_choice (random_palette state) RANDOM_PALETTES ;;
         Ok (set_random_palette next state)
       else if String.eqb (pattern state) "3" then
         next <- cycle_choice (bounce_color state) BOUNCE_COLORS ;;
         Ok (set_bounce_color next state)
       else Ok state) ;;
    w <- print_status state w ;;
    Ok (state, w, true)
  else if String.eqb key "+" then
    let state := set_brightness (clamp_brightness (brightness state + 16)) state in
    w <- set_strip_brightness (brightness state) w ;;
    w <- print_status state w ;;
    Ok (state, w, true)
  else if String.eqb key "-" then
    let state := set_brightness (clamp_brightness (brightness state - 16)) state in
    w <- set_strip_brightness (brightness state) w ;;
    w <- print_status state w ;;
    Ok (state, w, true)
  else if String.eqb key "h" then
    w <- print_status state (print SHORTCUTS_TEXT w) ;;
    Ok (state, w, true)
  else if String.eqb key CTRL_O then
    Ok (state,
        print (build_nohup_command state options) (print "nohup launch command:" w),
        true)
  else if String.eqb key "q" then Ok (state, w, false)
  else Ok (state, w, true).

(** The keys of a sitting, one after the other, until [q] stops the loop. *)
Fixpoint handle_keys (state : AppState) (options : RunOptions) (keys : list string)
    (w : World) : result (AppState * World * bool) :=
  match keys with
  | [] => Ok (state, w, true)
  | key :: keys' =>
      '(state', w', continue) <- handle_key state options key w ;;
      if continue then handle_keys state' options keys' w'
      else Ok (state', w', false)
  end.

(** One turn of the interactive loop: an optional key, the sensor, a frame. *)
Definition loop_body (LED_COUNT : Z) (state : AppState) (options : RunOptions)
    (key : option string) (w : World) : result (AppState * World * bool) :=
  '(state, w, continue) <-
    match key with
    | Some k => handle_key state options k w
    | None => Ok (state, w, true)
    end ;;
  if continue then
    '(state, w) <- apply_pi_input_response state w ;;
    '(state, w) <- pattern_step LED_COUNT state w ;;
    Ok (state, w, true)
  else Ok (state, w, false).

End Commands.

(** ** Persisted settings *)

(** The values [json.loads] produces. *)
#[local] Set Warnings "-register-all".
Inductive json : Type :=
| JNull
| JBool (b : bool)
| JInt (n : Z)
| JFloat (x : Py.float)
| JStr (s : string)
| JList (l : list json)
| JDict (d : list (string * json)).

(** [d.get(k)], with [None] read as [JNull]. *)
Definition dict_get (d : Py.dict json) (k : string) : json :=
  match Py.get d k with
  | Some v => v
  | None => JNull
  end.

(** [value if isinstance(value, dict) else {}] *)
Definition dict_or_empty (value : json) : Py.dict json :=
  match value with
  | JDict d => d
  | _ => []
  end.

Definition as_bool (value : json) (default : bool) : bool :=
  match value with
  | JBool b => b
  | JStr s =>
      let normalized := Py.lower (Py.strip s) in
      if existsb (String.eqb normalized) ["1"; "true"; "yes"; "y"; "on"] then true
      else if existsb (String.eqb normalized) ["0"; "false"; "no"; "n"; "off"]
      then false
      else default
  | _ => default
  end.

Definition as_str (value : json) (default : string) : string :=
  match value with
  | JStr s => s
  | _ => default
  end.

(** [if state.field not in table: state.field = default] *)
Definition fallback {V : Type} (field : AppState -> string)
    (set_field : string -> AppState -> AppState) (table : Py.dict V)
    (default : string) (state : AppState) : AppState :=
  if Py.mem (field state) table then state else set_field default state.

Section Settings.

(** [int] and [float] applied to a string: [None] stands for [ValueError]. *)
Variable int_of_str : string -> option Z.
Variable float_of_str : string -> option Py.float.

(** [int(value)] *)
Definition py_int (value : json) : result Z :=
  match value with
  | JBool b => Ok (if b then 1 else 0)
  | JInt n => Ok n
  | JFloat x => Py.int_of_float x
  | JStr s => match int_of_str s with
              | Some n => Ok n
              | None => Raise ValueError
              end
  | JNull | JList _ | JDict _ => Raise TypeError
  end.

(** [float(value)] *)
Definition py_float (value : json) : result Py.float :=
  match value with
  | JBool b => Py.float_of_int (if b then 1 else 0)
  | JInt n => Py.float_of_int n
  | JFloat x => Ok x
  | JStr s => match float_of_str s with
              | Some x => Ok x
              | None => Raise ValueError
              end
  | JNull | JList _ | JDict _ => Raise TypeError
  end.

(** [try: ... except (TypeError, ValueError): return default] *)
Definition except_type_value {A : Type} (c : result A) (default : A) : result A :=
  match c with
  | Raise TypeError | Raise ValueError => Ok default
  | other => other
  end.

Definition as_int (value : json) (default : Z) : result Z :=
  except_type_value (py_int value) default.

Definition as_float (value : json) (default : Py.float) : result Py.float :=
  except_type_value (py_float value) default.

Definition float_zero : Py.float := S754_zero false.

Definition state_options_from_headless_data (data : Py.dict json)
  : result (AppState * RunOptions * bool) :=
  let input_data := dict_or_empty (dict_get data "input") in
  let run_data := dict_or_empty (dict_get data "run") in
  b <- as_int (dict_get data "brightness") LED_BRIGHTNESS ;;
  mb <- as_int (dict_get data "max_brightness") LED_BRIGHTNESS ;;
  pin <- as_int (dict_get input_data "pin") 23 ;;
  amax <- as_int (dict_get input_data "analog_max") 4095 ;;
  let state :=
    new_AppState
      (as_str (dict_get data "pattern") "1")
      (as_str (dict_get data "speed") "2")
      (as_str (dict_get data "chase_color") "1")
      (as_str (dict_get data "random_palette") "1")
      (as_str (dict_get data "bounce_color") "1")
      (clamp_brightness mb)
      (clamp_brightness b)
      (as_str (dict_get input_data "mode") "off")
      pin
      (as_str (dict_get input_data "analog_path") DEFAULT_ANALOG_PATH)
      (Z.max 1 amax)
      (as_bool (dict_get data "emergency_only") false) in
  fr <- as_int (dict_get run_data "frames") 0 ;;
  dur <- as_float (dict_get run_data "duration_seconds") float_zero ;;
  delay <- as_float (dict_get run_data "start_delay_seconds") float_zero ;;
  let options :=
    mkRunOptions (Z.max 0 fr) (Py.max_float float_zero dur)
                 (Py.max_float float_zero delay) in
  let test_mode := as_bool (dict_get data "test") false in
  let state := fallback pattern set_pattern PATTERN_NAMES "1" state in
  let state := fallback speed set_speed SPEED_LABELS "2" state in
  let state := fallback chase_color set_chase_color CHASE_COLORS "1" state in
  let state := fallback random_palette set_random_palette RANDOM_PALETTES "1" state in
  let state := fallback bounce_color set_bounce_color BOUNCE_COLORS "1" state in
  let state :=
    if existsb (String.eqb (input_mode state)) INPUT_MODES then state
    else set_input_mode "off" state in
  Ok (normalize_pattern_for_mode state, options, test_mode).

End Settings.

(** ** Command-line settings *)

(** The namespace [parse_args] returns; an absent option is [None]. *)
Record Args : Type := mkArgs {
  arg_pattern : option string;
  arg_speed : option string;
  arg_chase_color : option string;
  arg_random_palette : option string;
  arg_bounce_color : option string;
  arg_brightness : option Z;
  arg_max_brightness : option Z;
  arg_pi_input_mode : option string;
  arg_pi_input_pin : option Z;
  arg_analog_path : option string;
  arg_analog_max : option Z;
  arg_test : bool;
  arg_frames : option Z;
  arg_duration_seconds : option Py.float;
  arg_start_delay_seconds : option Py.float;
  arg_emergency_only : bool
}.

(** [x or default] on an optional string *)
Definition str_or (x : option string) (default : string) : string :=
  match x with
  | Some s => if String.eqb s "" then default else s
  | None => default
  end.

(** [x if x is not None else default] *)
Definition if_given {A : Type} (x : option A) (default : A) : A :=
  match x with
  | Some a => a
  | None => default
  end.

Definition state_from_args (args : Args) : AppState * RunOptions :=
  let state :=
    new_AppState
      (str_or (arg_pattern args) "1")
      (str_or (arg_speed args) "2")
      (str_or (arg_chase_color args) "1")
      (str_or (arg_random_palette args) "1")
      (str_or (arg_bounce_color args) "1")
      (clamp_brightness (if_given (arg_max_brightness args) LED_BRIGHTNESS))
      (clamp_brightness (if_given (arg_brightness args) LED_BRIGHTNESS))
      (str_or (arg_pi_input_mode args) "off")
      (if_given (arg_pi_input_pin args) 23)
      (str_or (arg_analog_path args) DEFAULT_ANALOG_PATH)
      (Z.max 1 (if_given (arg_analog_max args) 4095))
      (arg_emergency_only args) in
  let state := set_brightness (Z.min (brightness state) (max_brightness state)) state in
  let state := normalize_pattern_for_mode state in
  let options :=
    mkRunOptions (Z.max 0 (if_given (arg_frames args) 0))
                 (Py.max_float float_zero (if_given (arg_duration_seconds args) float_zero))
                 (Py.max_float float_zero
                               (if_given (arg_start_delay_seconds args) float_zero)) in
  (state, options).

(** [if x is not None: state.field = f(x)] *)
Definition override {A S : Type} (x : option A) (f : A -> S -> S) (s : S) : S :=
  match x with
  | Some a => f a s
  | None => s
  end.

Definition apply_cli_overrides (state : AppState) (options : RunOptions) (args : Args)
  : AppState * RunOptions :=
  let state := override (arg_pattern args) set_pattern state in
  let state := override (arg_speed args) set_speed state in
  let state := override (arg_chase_color args) set_chase_color state in
  let state := override (arg_random_palette args) set_random_palette state in
  let state := override (arg_bounce_color args) set_bounce_color state in
  let state :=
    override (arg_max_brightness args)
             (fun v => set_max_brightness (clamp_brightness v)) state in
  let state :=
    override (arg_brightness args) (fun v => set_brightness (clamp_brightness v)) state in
  let state := set_brightness (Z.min (brightness state) (max_brightness state)) state in
  let state := override (arg_pi_input_mode args) set_input_mode state in
  let state := override (arg_pi_input_pin args) set_input_pin state in
  let state := override (arg_analog_path args) set_analog_path state in
  let state :=
    override (arg_analog_max args) (fun v => set_analog_max (Z.max 1 v)) state in
  let options :=
    override (arg_frames args)
             (fun v o => mkRunOptions (Z.max 0 v) (duration_seconds o)
                                      (start_delay_seconds o)) options in
  let options :=
    override (arg_duration_seconds args)
             (fun v o => mkRunOptions (frames o) (Py.max_float float_zero v)
                                      (start_delay_seconds o)) options in
  let options :=
    override (arg_start_delay_seconds args)
             (fun v o => mkRunOptions (frames o) (duration_seconds o)
                                      (Py.max_float float_zero v)) options in
  let state :=
    if arg_emergency_only args then set_emergency_only true state else state in
  (normalize_pattern_for_mode state, options).

(** ** Saving the settings *)

(** The record [save_headless_config] hands to [json.dumps]. *)
Definition headless_payload (state : AppState) (options : RunOptions)
    (test_mode : bool) : Py.dict json :=
  [ ("test", JBool test_mode);
    ("pattern", JStr (pattern state));
    ("speed", JStr (speed state));
    ("chase_color", JStr (chase_color state));
    ("random_palette", JStr (random_palette state));
    ("bounce_color", JStr (bounce_color state));
    ("brightness", JInt (brightness state));
    ("max_brightness", JInt (max_brightness state));
    ("emergency_only", JBool (emergency_only state));
    ("input", JDict [ ("mode", JStr (input_mode state));
                      ("pin", JInt (input_pin state));
                      ("analog_path", JStr (analog_path state));
                      ("analog_max", JInt (analog_max state)) ]);
    ("run", JDict [ ("frames", JInt (frames options));
                    ("duration_seconds", JFloat (duration_seconds options));
                    ("start_delay_seconds", JFloat (start_delay_seconds options)) ]) ].

(** ** Leaving the program *)

(** The [finally] of the module, for the software sink: the pixels are
    blanked without a flush and the sink is finished. *)
Definition final_cleanup (LED_COUNT : Z) (w : World) : result World :=
  match strip w with
  | None => clear_strip LED_COUNT true w
  | Some _ =>
      w <- clear_strip LED_COUNT false w ;;
      vs <- get_strip w ;;
      Ok (write (finish vs (stdout_isatty w)) w)
  end.

(** ** The run loop *)

(** What the loop asks of its surroundings, as oracles: whether standard
    input is a terminal, the key pending at each poll, the readings of the
    monotonic clock, the sensors as they stand at each frame, and what each
    call of [time.sleep] answers. *)
Record Env : Type := mkEnv {
  stdin_isatty : bool;
  pending_key : nat -> option string;
  monotonic : nat -> Py.float;
  sensors_at : nat -> (Z -> option Z) * (string -> option Z);
  sleeps : nat -> Py.float -> result unit
}.

Definition with_sensors (s : (Z -> option Z) * (string -> option Z)) (w : World)
  : World :=
  mkWorld (strip w) (stdout w) (stdout_isatty w) (rand w) (rand_pos w) (fst s) (snd s).

(** [time.sleep(d)] belongs to the interpreter and the operating system:
    which delays it accepts, and whether it rejects another with
    [ValueError], [OverflowError] or [OSError], differs from one to the
    next, so the answer is the oracle's. The start delay is call 0 and the
    sleep that follows frame [k] is call [k]. *)
Definition time_sleep (env : Env) (call : nat) (d : Py.float) : result unit :=
  sleeps env call d.

Section RunLoop.

Variable LED_COUNT : Z.
Variable sys_executable : string.
Variable str_float : Py.float -> string.
Variable env : Env.

(** [maybe_read_key] at the given poll; without a terminal no key is read. *)
Definition poll_key (polls : nat) : option string :=
  if stdin_isatty env then pending_key env polls else None.

(** The [while True] of [run_loop], from the given frame count, with the
    number of turns it may still take; the boolean tells whether it stopped. *)
Fixpoint loop_from (turns : nat) (options : RunOptions) (start_time : Py.float)
    (state : AppState) (w : World) (frame_count : Z) (reads : nat)
  : result (AppState * World * Z * bool) :=
  match turns with
  | O => Ok (state, w, frame_count, false)
  | S turns' =>
      '(state, w, go) <-
        loop_body sys_executable str_float LED_COUNT state options
                  (poll_key (Z.to_nat frame_count))
                  (with_sensors (sensors_at env (Z.to_nat frame_count)) w) ;;
      if negb go then Ok (state, w, frame_count, true)
      else
        let frame_count := frame_count + 1 in
        if (0 <? frames options) && (frames options <=? frame_count)
        then Ok (state, w, frame_count, true)
        else if float_positive (duration_seconds options)
        then
          if SFleb (duration_seconds options)
                   (SFsub Py.prec Py.emax (monotonic env (S reads)) start_time)
          then Ok (state, w, frame_count, true)
          else
            d <- get_delay state ;;
            _ <- time_sleep env (Z.to_nat frame_count) d ;;
            loop_from turns' options start_time state w frame_count (S reads)
        else
          d <- get_delay state ;;
          _ <- time_sleep env (Z.to_nat frame_count) d ;;
          loop_from turns' options start_time state w frame_count reads
  end.

(** [run_loop]: the banner, the status line, the start delay, then the loop.
    The terminal settings saved and restored around the interactive loop
    belong to the terminal and are not part of the state modelled here. *)
Definition run_loop (turns : nat) (state : AppState) (options : RunOptions)
    (w : World) : result (AppState * World * Z * bool) :=
  _ <- get_strip w ;;
  let w := print "Test mode: realtime ASCII overlay (press q to quit)." w in
  w <- print_status state w ;;
  _ <- (if float_positive (start_delay_seconds options)
        then time_sleep env 0
                        (Py.max_float (S754_zero false) (start_delay_seconds options))
        else Ok tt) ;;
  loop_from turns options (monotonic env 0) state w 0 0.

End RunLoop.


(** ** The entry point, in test mode *)

Definition LED_COUNT : Z := 120.

(** [main] once the settings are built, when [test_mode] holds and no
    settings file is to be written: the notice, the software sink, the
    blanking without a flush, the brightness, then the loop. The terminal
    width is what [shutil.get_terminal_size] answers. *)
Definition main_test_mode (sys_executable : string) (str_float : Py.float -> string)
    (env : Env) (terminal_width : Z) (turns : nat)
    (state : AppState) (options : RunOptions) (w : World)
  : result (AppState * World * Z * bool) :=
  let w := print "Running in --test ASCII mode (hardware disabled)." w in
  let w := init_virtual_strip LED_COUNT terminal_width w in
  _ <- get_strip w ;;
  w <- clear_strip LED_COUNT false w ;;
  '(state, w) <- apply_brightness_from_state state w ;;
  run_loop LED_COUNT sys_executable str_float env turns state options w.

(** ** The interactive questions *)

(** Each question is modelled from the line [input] has returned; the
    prompt it writes is not part of the result. *)

Section Interactive.

Variable int_of_str : string -> option Z.
Variable float_of_str : string -> option Py.float.

(** [x or default] on a string *)
Definition or_default (x default : string) : string :=
  if String.eqb x "" then default else x.

Definition ask_choice {V : Type} (line default : string) (options : Py.dict V)
  : string :=
  let value := or_default (Py.strip line) default in
  if Py.mem value options then value else default.

Definition ask_int (line : string) (default minimum maximum : Z) : Z :=
  let raw := Py.strip line in
  if String.eqb raw "" then default
  else match int_of_str raw with
       | Some value => Z.max minimum (Z.min maximum value)
       | None => default
       end.

Definition ask_float (line : string) (default minimum : Py.float) : Py.float :=
  let raw := Py.strip line in
  if String.eqb raw "" then default
  else match float_of_str raw with
       | Some value => Py.max_float minimum value
       | None => default
       end.

Definition ask_yes_no (line : string) (default : bool) : bool :=
  let raw := Py.lower (Py.strip line) in
  if String.eqb raw "" then default
  else existsb (String.eqb raw) ["y"; "yes"; "1"; "true"].

Definition INPUT_MODE_NAMES : Py.dict string :=
  [ ("off", "Off"); ("digital", "Digital"); ("analog", "Analog") ].

(** [interactive_setup] when the first answer declines the settings file:
    the sixteen answers that follow, in the order they are asked. The two
    last components of the result are constants of this branch ([False] and
    the default path of the settings file) and are left out. *)
Definition interactive_setup (answers : nat -> string)
  : AppState * RunOptions * bool :=
  let pattern := ask_choice (answers 0%nat) "1" PATTERN_NAMES in
  let speed := ask_choice (answers 1%nat) "2" SPEED_LABELS in
  let chase_color := ask_choice (answers 2%nat) "1" CHASE_COLORS in
  let random_palette := ask_choice (answers 3%nat) "1" RANDOM_PALETTES in
  let bounce_color := ask_choice (answers 4%nat) "1" BOUNCE_COLORS in
  let max_brightness := ask_int (answers 5%nat) LED_BRIGHTNESS 0 255 in
  let brightness := ask_int (answers 6%nat) max_brightness 0 255 in
  let input_mode := ask_choice (answers 7%nat) "off" INPUT_MODE_NAMES in
  let input_pin := ask_int (answers 8%nat) 23 0 40 in
  let analog_path := or_default (Py.strip (answers 9%nat)) DEFAULT_ANALOG_PATH in
  let analog_max := ask_int (answers 10%nat) 4095 1 999999 in
  let emergency_only := ask_yes_no (answers 11%nat) false in
  let test_mode := ask_yes_no (answers 12%nat) false in
  let frames := ask_int (answers 13%nat) 0 0 10000000 in
  let duration_seconds := ask_float (answers 14%nat) float_zero float_zero in
  let start_delay_seconds := ask_float (answers 15%nat) float_zero float_zero in
  let state :=
    new_AppState pattern speed chase_color random_palette bounce_color
                 max_brightness (Z.min brightness max_brightness)
                 input_mode input_pin analog_path analog_max emergency_only in
  let state := normalize_pattern_for_mode state in
  (state, mkRunOptions frames duration_seconds start_delay_seconds, test_mode).

End Interactive.
(** ** Vocabulary of the properties *)

(** The sink a run starts from: [VirtualStrip(LED_COUNT)] keeps one pixel per
    position and a usable render width. *)
Definition sink_ok (LED_COUNT : Z) (w : World) : Prop :=
  exists vs,
    strip w = Some vs /\ count vs = LED_COUNT /\
    Py.len (pixels vs) = LED_COUNT /\ render_width vs <> 0.

(** [n] consecutive invocations of a stepping function. *)
Fixpoint steps (n : nat) (step : AppState -> World -> result (AppState * World))
    (state : AppState) (w : World) : result (AppState * World) :=
  match n with
  | O => Ok (state, w)
  | S n' => '(state', w') <- step state w ;; steps n' step state' w'
  end.

(** The pixel buffer with one position lit and the others off. *)
Definition one_lit (LED_COUNT pos color : Z) : list Z :=
  (repeat 0 (Z.to_nat pos) ++ color :: repeat 0 (Z.to_nat (LED_COUNT - pos - 1)))%list.

(** The pixels of a buffer that are not off. *)
Definition lit_pixels (px : list Z) : list Z :=
  filter (fun c => negb (c =? 0)) px.

(** The channels of a packed colour, as [color_to_ascii] reads them. *)
Definition red_of (color : Z) : Z := Z.land (Z.shiftr color 16) 255.
Definition green_of (color : Z) : Z := Z.land (Z.shiftr color 8) 255.
Definition blue_of (color : Z) : Z := Z.land color 255.

(** The pixel buffer of the world's sink, empty when there is none. *)
Definition pixels_of (w : World) : list Z :=
  match strip w with
  | Some vs => pixels vs
  | None => []
  end.

(** The number of frames the sink has flushed. *)
Definition frame_of (w : World) : Z :=
  match strip w with
  | Some vs => frame vs
  | None => 0
  end.

(** The brightness the sink was last given. *)
Definition sink_brightness (w : World) : option Z :=
  match strip w with
  | Some vs => Some (strip_brightness vs)
  | None => None
  end.

(** A process with the software sink, output that is not a terminal, and no
    sensor attached. *)
Definition test_world (LED_COUNT : Z) : World :=
  init_virtual_strip LED_COUNT 120
    (mkWorld None [] false (fun _ => 0) 0 (fun _ => None) (fun _ => None)).

(** The state [state_from_args] builds when no option is given. *)
Definition default_state : AppState :=
  new_AppState "1" "2" "1" "1" "1" 255 255 "off" 23 DEFAULT_ANALOG_PATH 4095 false.

(** The run options with no limit set. *)
Definition default_options : RunOptions :=
  mkRunOptions 0 float_zero float_zero.

(** [x <= y] and [x < y] on floats. *)
Definition float_le (x y : Py.float) : bool := SFleb x y.
Definition float_lt (x y : Py.float) : bool := SFltb x y.

(** What is checked of [wheel] at each position of the ramp. *)
Definition wheel_check (x : Z) : bool :=
  let c := wheel x in
  let r := red_of c in
  let g := green_of c in
  let b := blue_of c in
  (c =? Color r g b) && (r + g + b =? 255) && negb (c =? 0)
  && (c =? 65536 * r + 256 * g + b).

(** The three arguments [wheel] hands to [Color], before [Color] masks
    them. *)
Definition wheel_channels (position : Z) : Z * Z * Z :=
  let pos := 255 - position in
  if pos <? 85 then (255 - pos * 3, 0, pos * 3)
  else if pos <? 170 then
    let pos := pos - 85 in (0, pos * 3, 255 - pos * 3)
  else
    let pos := pos - 170 in (pos * 3, 255 - pos * 3, 0).

(** What is checked of the channels at each position of the ramp. *)
Definition channels_check (x : Z) : bool :=
  let '(r, g, b) := wheel_channels x in
  (wheel x =? 65536 * r + 256 * g + b)
  && (red_of (wheel x) =? r) && (green_of (wheel x) =? g) && (blue_of (wheel x) =? b).

(** The line the next flush of a sink writes when output is not a terminal. *)
Definition frame_line (vs : VirtualStrip) : string :=
  frame_prefix (frame vs + 1) ++ String.concat "" (map color_to_ascii (pixels vs)).

(** The colour a chase or bounce step draws: the wheel for the Rainbow key,
    the table's colour otherwise. *)
Definition active_color (table : Py.dict (string * Z)) (key : string) (offset pos : Z) : Z :=
  if String.eqb key "4" then wheel (Z.land (offset + pos * 8) 255)
  else match Py.get table key with
       | Some entry => snd entry
       | None => 0
       end.

(** The state a chase step leaves. *)
Definition chase_next (N : Z) (state : AppState) : AppState :=
  set_chase_position ((chase_position state + 1) mod N)
    (if String.eqb (chase_color state) "4"
     then set_rainbow_offset (Z.land (rainbow_offset state + 3) 255) state
     else state).

(** The pixel buffers flushed by [n] consecutive steps. *)
Fixpoint frames_of (n : nat) (step : AppState -> World -> result (AppState * World))
    (state : AppState) (w : World) : result (list (list Z)) :=
  match n with
  | O => Ok []
  | S n' =>
      '(state', w') <- step state w ;;
      rest <- frames_of n' step state' w' ;;
      Ok (pixels_of w' :: rest)
  end.

(** What the steps of a run have written to standard output. *)
Definition output_of (run : result (AppState * World)) : result (list string) :=
  '(_, w') <- run ;; Ok (stdout w').

(** A row of [n] dark pixels, as [color_to_ascii] draws them. *)
Fixpoint dots (n : nat) : string :=
  match n with
  | O => ""
  | S n' => String "." (dots n')
  end.

(** The world a flush leaves when the sink holds the pixel buffer [px]:
    [show] runs on that buffer and what it writes follows what was written
    before. *)
Definition flushed (px : list Z) (w w' : World) : Prop :=
  exists vs vs' out,
    strip w = Some vs /\
    show (with_pixels px vs) (stdout_isatty w) = Ok (vs', out) /\
    w' = write out (with_strip (Some vs') w).

(** What a chase step relies on. *)
Definition chase_ready (N : Z) (state : AppState) (w : World) : Prop :=
  sink_ok N w /\ 0 <= chase_position state < N /\
  Py.mem (chase_color state) CHASE_COLORS = true.

(** The direction a bounce step moves in, and the state it leaves. *)
Definition bounce_turn (N : Z) (state : AppState) : Z :=
  if bounce_position state =? N - 1 then -1
  else if bounce_position state =? 0 then 1
  else bounce_direction state.

Definition bounce_next (N : Z) (state : AppState) : AppState :=
  set_bounce_position (bounce_position state + bounce_turn N state)
    (set_bounce_direction (bounce_turn N state)
       (if String.eqb (bounce_color state) "4"
        then set_rainbow_offset (Z.land (rainbow_offset state + 3) 255) state
        else state)).

(** What a bounce step relies on. *)
Definition bounce_ready (N : Z) (state : AppState) (w : World) : Prop :=
  sink_ok N w /\ 0 <= bounce_position state < N /\
  (bounce_direction state = 1 \/ bounce_direction state = -1) /\
  Py.mem (bounce_color state) BOUNCE_COLORS = true.

(** The state an emergency step leaves, and what the step relies on. *)
Definition emergency_next (state : AppState) : AppState :=
  let state := set_emergency_step (emergency_step state + 1) state in
  if Py.len EMERGENCY_SOS_STEPS <=? emergency_step state
  then set_emergency_color_index
         ((emergency_color_index state + 1) mod Py.len EMERGENCY_COLORS)
         (set_emergency_step 0 state)
  else state.

Definition emergency_ready (N : Z) (state : AppState) (w : World) : Prop :=
  sink_ok N w /\ 0 <= emergency_step state < 28 /\
  0 <= emergency_color_index state < 3.

(** The colour every pixel takes at a step of the waveform. *)
Definition emergency_frame_color (state : AppState) : Z :=
  if 0 <? nth (Z.to_nat (emergency_step state)) EMERGENCY_SOS_STEPS 0
  then snd (nth (Z.to_nat (emergency_color_index state)) EMERGENCY_COLORS ("", 0))
  else 0.

(** The state with a pattern and a speed selected. *)
Definition with_pattern_speed (p s : string) : AppState :=
  set_speed s (set_pattern p default_state).

(** The character [color_to_ascii] draws for a pixel. *)
Definition glyph (color : Z) : ascii :=
  match color_to_ascii color with
  | String a _ => a
  | EmptyString => "."%char
  end.

(** Bounds on binary64 values, read off the rounding functions. *)
Definition inexact (l : location) : Z :=
  match l with
  | loc_Exact => 0
  | loc_Inexact _ => 1
  end.

Definition upper (mrs : shr_record) : Z :=
  shr_m mrs + inexact (loc_of_shr_record mrs).

Definition float_at_most (x : Py.float) (B : Z) : Prop :=
  match x with
  | S754_zero _ => True
  | S754_finite false m e => e <= 0 /\ Zpos m <= B * 2 ^ (- e)
  | _ => False
  end.

(** A float read as a mantissa at an exponent, zero being the mantissa 0. *)
Definition float_is (x : Py.float) (m e : Z) : Prop :=
  match x with
  | S754_zero false => m = 0
  | S754_finite false p e' => m = Zpos p /\ e = e'
  | _ => False
  end.

(** The mantissa [m], in units of [W], is the integer part of [X]. *)
Definition cut (m W X : Z) : Prop := m * W <= X < (m + 1) * W.

(** The mantissa [m], in units of [W], is within one unit of [X]. *)
Definition near (m W X : Z) : Prop := (m - 1) * W <= X < (m + 1) * W.

(** What is checked of the double of each small integer: it is that
    integer, exactly. *)
Definition small_int_float_check (n : Z) : bool :=
  match Py.float_of_int n with
  | Ok (S754_zero _) => n =? 0
  | Ok (S754_finite false m e) => (e <=? 0) && (Zpos m =? n * 2 ^ (- e))
  | _ => false
  end.

(** The settings every constructor of the state establishes: each selection
    is a key of its table, and the brightness and the colour index are in
    range. *)
Definition state_ok (state : AppState) : Prop :=
  Py.mem (pattern state) PATTERN_NAMES = true /\
  Py.mem (speed state) SPEED_LABELS = true /\
  Py.mem (chase_color state) CHASE_COLORS = true /\
  Py.mem (random_palette state) RANDOM_PALETTES = true /\
  Py.mem (bounce_color state) BOUNCE_COLORS = true /\
  0 <= emergency_color_index state < 3 /\
  0 <= brightness state <= 255.

(** The pattern is one the mode allows, as after [normalize_pattern_for_mode]. *)
Definition mode_ok (state : AppState) : Prop :=
  Py.mem (pattern state) (available_patterns (emergency_only state)) = true.

(** The double 1.0, and what is checked of products with small integers. *)
Definition float_one : Py.float := S754_finite false 4503599627370496 (-52).

Definition one_times_check (n : Z) : bool :=
  match (product <- Py.mul_int float_one n ;; Py.int_of_float product) with
  | Ok z => z =? n
  | Raise _ => false
  end.

Definition zero_times_check (n : Z) : bool :=
  match (product <- Py.mul_int (S754_zero false) n ;; Py.int_of_float product) with
  | Ok z => z =? 0
  | Raise _ => false
  end.

(** A process with the software sink and a sensor that answers every read
    with the given samples. *)
Definition sensor_world (LED_COUNT : Z) (digital analog : option Z) : World :=
  init_virtual_strip LED_COUNT 120
    (mkWorld None [] false (fun _ => 0) 0 (fun _ => digital) (fun _ => analog)).

(** A state in analog mode at full brightness. *)
Definition analog_state (analog_max max_brightness : Z) : AppState :=
  new_AppState "1" "2" "1" "1" "1" max_brightness max_brightness "analog" 23
               DEFAULT_ANALOG_PATH analog_max false.

(** What the settings loader is asked to do with an enumerated field: keep a
    string that is a key of the table, and take the default otherwise. *)
Definition enum_or_default {V : Type} (value : json) (table : Py.dict V)
    (default : string) : string :=
  match value with
  | JStr s => if Py.mem s table then s else default
  | _ => default
  end.

(** The same for a field whose choices are a list. *)
Definition choice_or_default (value : json) (choices : list string)
    (default : string) : string :=
  match value with
  | JStr s => if existsb (String.eqb s) choices then s else default
  | _ => default
  end.

(** What the loader is asked to do with an integer field: a boolean counts
    as 0 or 1, an integer is kept, a float is cut to its integer part, a
    string is read as [int] reads it, and the default stands for a value of
    another type and for a string or a float (NaN) that [int] rejects. *)
Definition int_or_default (int_of_str : string -> option Z) (value : json)
    (default : Z) : Z :=
  match value with
  | JBool b => if b then 1 else 0
  | JInt n => n
  | JFloat x => match Py.int_of_float x with
                | Ok n => n
                | Raise _ => default
                end
  | JStr s => match int_of_str s with
              | Some n => n
              | None => default
              end
  | JNull | JList _ | JDict _ => default
  end.

(** The same for a duration: a boolean counts as 0.0 or 1.0, an integer is
    rounded to the nearest double, a float is kept, a string is read as
    [float] reads it, and the default stands for the rest. *)
Definition float_or_default (float_of_str : string -> option Py.float) (value : json)
    (default : Py.float) : Py.float :=
  match value with
  | JBool b => if b then float_one else float_zero
  | JInt n => match Py.float_of_int n with
              | Ok x => x
              | Raise _ => default
              end
  | JFloat x => x
  | JStr s => match float_of_str s with
              | Some x => x
              | None => default
              end
  | JNull | JList _ | JDict _ => default
  end.

(** The values [int] and [float] convert or reject with the errors the
    loader catches. *)
Definition int_convertible (value : json) : Prop :=
  match value with
  | JFloat (S754_infinity _) => False
  | _ => True
  end.

Definition float_convertible (value : json) : Prop :=
  match value with
  | JInt n => Py.float_of_int n <> Raise OverflowError
  | _ => True
  end.

Definition settings_convertible (data : Py.dict json) : Prop :=
  int_convertible (dict_get data "brightness") /\
  int_convertible (dict_get data "max_brightness") /\
  int_convertible (dict_get (dict_or_empty (dict_get data "input")) "pin") /\
  int_convertible (dict_get (dict_or_empty (dict_get data "input")) "analog_max") /\
  int_convertible (dict_get (dict_or_empty (dict_get data "run")) "frames") /\
  float_convertible (dict_get (dict_or_empty (dict_get data "run")) "duration_seconds") /\
  float_convertible
    (dict_get (dict_or_empty (dict_get data "run")) "start_delay_seconds").

(** A record whose brightness and emergency flag have the wrong type. *)
Definition coerced_settings : Py.dict json :=
  [ ("brightness", JBool true); ("emergency_only", JStr "yes"); ("pattern", JStr "2") ].

(** A record with an out-of-enumeration pattern and nothing else. *)
Definition odd_pattern_settings : Py.dict json := [ ("pattern", JStr "9") ].

(** A state dimmed to a ceiling of 100. *)
Definition dimmed_state : AppState :=
  set_brightness 100 (set_max_brightness 100 default_state).

(** The command line with no option given. *)
Definition no_args : Args :=
  mkArgs None None None None None None None None None None None false None None None
         false.


(** ** Vocabulary of the further properties *)

(** The number of draws the random pattern takes for one pixel. *)
Definition draws_per_pixel (palette : option (list Z)) : nat :=
  match palette with
  | None => 3
  | Some _ => 1
  end.

(** The colour the random pattern paints when the oracle stands at draw
    [pos]: three channels for the unrestricted palette, one pick otherwise. *)
Definition drawn_color (palette : option (list Z)) (rand : nat -> Z) (pos : nat) : Z :=
  match palette with
  | None => Color (rand pos mod 256) (rand (S pos) mod 256) (rand (S (S pos)) mod 256)
  | Some colors => nth (Z.to_nat (rand pos mod Py.len colors)) colors 0
  end.

(** The colour of pixel [i] in a frame whose first draw is number [base]. *)
Definition random_color (palette : option (list Z)) (rand : nat -> Z) (base i : nat) : Z :=
  drawn_color palette rand (base + draws_per_pixel palette * i).

(** The world after [k] more draws and with the given sink. *)
Definition after_draws (k : nat) (vs : VirtualStrip) (w : World) : World :=
  mkWorld (Some vs) (stdout w) (stdout_isatty w) (rand w) (rand_pos w + k)
          (gpio w) (sysfs w).

(** [k] presses of a cycling key, starting from [current]. *)
Fixpoint cycle_times {V : Type} (k : nat) (current : string) (choices : Py.dict V)
  : result string :=
  match k with
  | O => Ok current
  | S k' => next <- cycle_choice current choices ;; cycle_times k' next choices
  end.

(** Two states with the same animation progress. *)
Definition same_progress (s s' : AppState) : Prop :=
  emergency_step s' = emergency_step s /\
  emergency_color_index s' = emergency_color_index s /\
  chase_position s' = chase_position s /\
  bounce_position s' = bounce_position s /\
  bounce_direction s' = bounce_direction s /\
  rainbow_offset s' = rainbow_offset s.

(** Two states with the same ceiling, sensor set-up and mode. *)
Definition same_setup (s s' : AppState) : Prop :=
  max_brightness s' = max_brightness s /\
  input_mode s' = input_mode s /\
  input_pin s' = input_pin s /\
  analog_path s' = analog_path s /\
  analog_max s' = analog_max s /\
  emergency_only s' = emergency_only s.

(** The second world is the first one after some more output, with the same
    pixels, frame counter and random stream, and a sink of the same shape. *)
Definition only_output (w w' : World) : Prop :=
  pixels_of w' = pixels_of w /\ frame_of w' = frame_of w /\
  rand_pos w' = rand_pos w /\
  (forall N, sink_ok N w -> sink_ok N w') /\
  exists out, stdout w' = (stdout w ++ out)%list.

(** The keys [handle_key] reacts to. *)
Definition KNOWN_KEYS : list string :=
  ["1"; "2"; "3"; "4"; "p"; "s"; "c"; "+"; "-"; "h"; CTRL_O; "q"].

(** The number of presses after which a cycling key has gone round: the
    size of the table it steps through in the given state. *)
Definition key_period (state : AppState) (key : string) : nat :=
  if String.eqb key "p" then List.length (available_patterns (emergency_only state))
  else if String.eqb key "s" then List.length SPEED_LABELS
  else if String.eqb (pattern state) "1" then List.length CHASE_COLORS
  else if String.eqb (pattern state) "2" then List.length RANDOM_PALETTES
  else if String.eqb (pattern state) "3" then List.length BOUNCE_COLORS
  else 1.

(** The state a cycling key leaves, when the cycled value is a key of its
    table. *)
Definition or_keep (next : result string) (set : string -> AppState -> AppState)
    (state : AppState) : AppState :=
  match next with
  | Ok n => set n state
  | Raise _ => state
  end.

Definition pressed (key : string) (state : AppState) : AppState :=
  if String.eqb key "p"
  then or_keep (cycle_choice (pattern state) (available_patterns (emergency_only state)))
               set_pattern state
  else if String.eqb key "s"
  then or_keep (cycle_choice (speed state) SPEED_LABELS) set_speed state
  else if String.eqb (pattern state) "1"
  then or_keep (cycle_choice (chase_color state) CHASE_COLORS) set_chase_color state
  else if String.eqb (pattern state) "2"
  then or_keep (cycle_choice (random_palette state) RANDOM_PALETTES)
               set_random_palette state
  else if String.eqb (pattern state) "3"
  then or_keep (cycle_choice (bounce_color state) BOUNCE_COLORS) set_bounce_color state
  else state.

(** The state a fresh start builds from the settings of [state]: the same
    selections with the progress counters at their defaults. *)
Definition restarted (state : AppState) : AppState :=
  new_AppState (pattern state) (speed state) (chase_color state)
               (random_palette state) (bounce_color state)
               (max_brightness state) (brightness state)
               (input_mode state) (input_pin state) (analog_path state)
               (analog_max state) (emergency_only state).

(** Settings as every constructor of the program leaves them: selections
    that are keys of their tables, a pattern the mode allows, numbers in
    their ranges and durations already passed through [max(0.0, _)]. *)
Definition savable (state : AppState) (options : RunOptions) : Prop :=
  Py.mem (pattern state) (available_patterns (emergency_only state)) = true /\
  Py.mem (speed state) SPEED_LABELS = true /\
  Py.mem (chase_color state) CHASE_COLORS = true /\
  Py.mem (random_palette state) RANDOM_PALETTES = true /\
  Py.mem (bounce_color state) BOUNCE_COLORS = true /\
  In (input_mode state) INPUT_MODES /\
  0 <= brightness state <= 255 /\
  0 <= max_brightness state <= 255 /\
  1 <= analog_max state /\
  0 <= frames options /\
  Py.max_float float_zero (duration_seconds options) = duration_seconds options /\
  Py.max_float float_zero (start_delay_seconds options) = start_delay_seconds options.

(** The progress counters stand at the defaults of the constructor. *)
Definition at_start (state : AppState) : Prop :=
  emergency_step state = 0 /\ emergency_color_index state = 0 /\
  chase_position state = 0 /\ bounce_position state = 0 /\
  bounce_direction state = 1 /\ rainbow_offset state = 0.

(** A command line as the parser accepts it: an enumerated option, when
    given, is one of its choices. *)
Definition given_in (x : option string) (choices : list string) : Prop :=
  match x with
  | Some s => In s choices
  | None => True
  end.

Definition args_ok (args : Args) : Prop :=
  given_in (arg_pattern args) ["1"; "2"; "3"; "4"] /\
  given_in (arg_speed args) ["1"; "2"; "3"] /\
  given_in (arg_chase_color args) ["1"; "2"; "3"; "4"] /\
  given_in (arg_random_palette args) ["1"; "2"; "3"] /\
  given_in (arg_bounce_color args) ["1"; "2"; "3"; "4"] /\
  given_in (arg_pi_input_mode args) ["off"; "digital"; "analog"].

(** The command line whose only option is an empty [--analog-path]. *)
Definition empty_path_args : Args :=
  mkArgs None None None None None None None None None (Some "") None false None None None
         false.

(** Two states with the same selections and brightness. *)
Definition same_selection (s s' : AppState) : Prop :=
  pattern s' = pattern s /\ speed s' = speed s /\
  chase_color s' = chase_color s /\ random_palette s' = random_palette s /\
  bounce_color s' = bounce_color s /\ brightness s' = brightness s.

(** What a turn of the run loop relies on: a sink of [N] pixels,
    well-formed settings with a ceiling in range, and progress counters
    on the strip and on the waveform. *)
Definition run_ready (N : Z) (state : AppState) (w : World) : Prop :=
  sink_ok N w /\ state_ok state /\ mode_ok state /\
  0 <= max_brightness state <= 255 /\
  0 <= chase_position state < N /\
  0 <= bounce_position state < N /\
  (bounce_direction state = 1 \/ bounce_direction state = -1) /\
  0 <= emergency_step state < 28.

(** Surroundings of a run without a terminal: no key ever pending, a clock
    that stands still, no sensor attached and sleeps that all return. *)
Definition headless_env : Env :=
  mkEnv false (fun _ => None) (fun _ => S754_zero false)
        (fun _ => (fun _ => None, fun _ => None)) (fun _ _ => Ok tt).

(** Surroundings of a run at a terminal where [q] is the first key read. *)
Definition quitting_env : Env :=
  mkEnv true (fun _ => Some "q") (fun _ => S754_zero false)
        (fun _ => (fun _ => None, fun _ => None)) (fun _ _ => Ok tt).

(** The delays of a run are delays [time.sleep] accepts: the start delay,
    when one is set, and the frame delays of the table. *)
Definition delay_ok (env : Env) (options : RunOptions) : Prop :=
  (float_positive (start_delay_seconds options) = true ->
   time_sleep env 0 (start_delay_seconds options) = Ok tt) /\
  (forall call state d, get_delay state = Ok d -> time_sleep env call d = Ok tt).

(** A process at its start: no sink yet, nothing printed, output that is not
    a terminal and no sensor attached. *)
Definition fresh_world : World :=
  mkWorld None [] false (fun _ => 0) 0 (fun _ => None) (fun _ => None).

(** Where a bounce stands in its sweep: the number of steps since it last
    left pixel 0, from [0] to [2 * (N - 1) - 1]. *)
Definition bounce_phase (N : Z) (state : AppState) : Z :=
  if bounce_position state =? 0 then 0
  else if bounce_position state =? N - 1 then N - 1
  else if bounce_direction state =? 1 then bounce_position state
  else 2 * (N - 1) - bounce_position state.

(** The pixel lit at a phase of the sweep: up to the last pixel, then back. *)
Definition bounce_wave (N phase : Z) : Z :=
  if phase <=? N - 1 then phase else 2 * (N - 1) - phase.

(** The line a frame numbered [k] of [N] pixels makes when output is not a
    terminal: the label, one glyph per pixel, a newline. *)
Definition is_frame_line (N k : Z) (line : string) : Prop :=
  exists px : list Z,
    Py.len px = N /\
    line = (frame_prefix k ++ string_of_list_ascii (map glyph px) ++ LF)%string.

(** The line of the frame a world's sink flushed last. *)
Definition frame_text (w : World) : string :=
  frame_prefix (frame_of w) ++ string_of_list_ascii (map glyph (pixels_of w)) ++ LF.

(** Steps that write nothing and leave the kind of output alone. *)
Definition quiet (w w' : World) : Prop :=
  stdout w' = stdout w /\ stdout_isatty w' = stdout_isatty w.
(** * Properties *)

(** ** Checking a property on every position below a bound *)

Lemma range_forallb (P : Z -> bool) (n : Z) :
  forallb P (Py.range n) = true -> forall x, 0 <= x < n -> P x = true.
Proof.
  intros H x Hx. rewrite forallb_forall in H. apply H.
  unfold Py.range. apply in_map_iff. exists (Z.to_nat x). split.
  - lia.
  - apply in_seq. lia.
Qed.

Lemma land_255_mod (x : Z) : Z.land x 255 = x mod 256.
Proof. change 255 with (Z.ones 8). rewrite Z.land_ones by lia. reflexivity. Qed.

(** ** The colour wheel *)

Lemma wheel_check_all : forallb wheel_check (Py.range 256) = true.
Proof. vm_compute. reflexivity. Qed.

Lemma channel_bounds (c : Z) :
  0 <= red_of c <= 255 /\ 0 <= green_of c <= 255 /\ 0 <= blue_of c <= 255.
Proof.
  unfold red_of, green_of, blue_of. rewrite !land_255_mod.
  pose proof (Z.mod_pos_bound (Z.shiftr c 16) 256).
  pose proof (Z.mod_pos_bound (Z.shiftr c 8) 256).
  pose proof (Z.mod_pos_bound c 256). lia.
Qed.

(** [wheel] itself does not reduce its argument. *)
Lemma wheel_256_differs : wheel 256 <> wheel (256 mod 256).
Proof. vm_compute. discriminate. Qed.

(** ** The sink *)

Lemma store_app {A : Type} (done todo : list A) (x v : A) :
  Py.store (done ++ x :: todo) (List.length done) v = Ok (done ++ v :: todo)%list.
Proof.
  induction done as [| a done IH]; simpl.
  - reflexivity.
  - rewrite IH. reflexivity.
Qed.

Lemma for_each_fill (c : Z) (n : nat) :
  forall (done todo : list Z) (vs : VirtualStrip) (w : World),
    strip w = Some vs ->
    pixels vs = (done ++ todo)%list ->
    (n <= List.length todo)%nat ->
    Z.of_nat (List.length done + n) <= count vs ->
    for_each (map Z.of_nat (seq (List.length done) n))
             (fun i w => strip_setPixelColor i c w) w
    = Ok (with_strip (Some (with_pixels (done ++ repeat c n ++ skipn n todo) vs)) w).
Proof.
  induction n as [| n IH]; intros done todo vs w Hs Hpx Hn Hc.
  - simpl. rewrite <- Hpx. destruct w, vs; simpl in *. subst. reflexivity.
  - destruct todo as [| x todo]; [simpl in Hn; lia |].
    simpl seq. simpl map. simpl for_each.
    unfold strip_setPixelColor at 1, get_strip. rewrite Hs. simpl bind.
    unfold setPixelColor.
    replace ((0 <=? Z.of_nat (List.length done)) && (Z.of_nat (List.length done) <? count vs))
      with true by (symmetry; apply andb_true_intro; split; [apply Z.leb_le | apply Z.ltb_lt]; lia).
    rewrite Nat2Z.id, Hpx, store_app. simpl bind.
    replace (S (List.length done)) with (List.length (done ++ [c])%list)
      by (rewrite length_app; simpl; lia).
    rewrite (IH (done ++ [c])%list todo (with_pixels (done ++ c :: todo) vs)
                (with_strip (Some (with_pixels (done ++ c :: todo) vs)) w)).
    + simpl. rewrite <- app_assoc. reflexivity.
    + reflexivity.
    + simpl. rewrite <- app_assoc. reflexivity.
    + simpl in Hn. lia.
    + simpl. rewrite length_app. simpl. lia.
Qed.

Lemma strip_fill (N c : Z) (w : World) (vs : VirtualStrip) :
  strip w = Some vs -> count vs = N -> Py.len (pixels vs) = N ->
  for_each (Py.range N) (fun i w => strip_setPixelColor i c w) w
  = Ok (with_strip (Some (with_pixels (repeat c (Z.to_nat N)) vs)) w).
Proof.
  intros Hs Hc Hl. unfold Py.range, Py.len in *.
  pose proof (for_each_fill c (Z.to_nat N) [] (pixels vs) vs w Hs eq_refl) as H.
  simpl in H. rewrite H by lia.
  rewrite skipn_all2 by lia. rewrite app_nil_r. reflexivity.
Qed.

Lemma string_app_assoc (a b c : string) : (a ++ b) ++ c = a ++ b ++ c.
Proof. induction a as [| x a IH]; simpl; [reflexivity | now rewrite IH]. Qed.

Lemma string_length_app (a b : string) :
  String.length (a ++ b) = (String.length a + String.length b)%nat.
Proof. induction a as [| x a IH]; simpl; [reflexivity | now rewrite IH]. Qed.

Lemma concat_empty_cons (x : string) (l : list string) :
  String.concat "" (x :: l) = x ++ String.concat "" l.
Proof.
  destruct l as [| y l]; simpl; [| reflexivity].
  induction x as [| c x IH]; simpl; [reflexivity | now rewrite <- IH].
Qed.

Lemma render_lines_ok (rw : Z) (tail : string) :
  rw <> 0 -> exists l, render_lines rw tail = Ok l.
Proof.
  intros H. unfold render_lines. destruct (Z.eqb_spec rw 0); [contradiction |].
  destruct (rw <? 0); eexists; reflexivity.
Qed.

Lemma show_ok (vs : VirtualStrip) (tty : bool) :
  render_width vs <> 0 ->
  exists vs' out,
    show vs tty = Ok (vs', out) /\
    pixels vs' = pixels vs /\ count vs' = count vs /\
    render_width vs' = render_width vs /\ frame vs' = frame vs + 1 /\
    strip_brightness vs' = strip_brightness vs /\
    (tty = false -> out = [frame_line vs ++ LF]).
Proof.
  intros Hrw. unfold show. destruct tty; simpl negb; cbv iota.
  - match goal with |- context [render_lines ?a ?b] =>
      destruct (render_lines_ok a b Hrw) as [l Hl]; rewrite Hl end.
    simpl bind. do 2 eexists. split; [reflexivity |].
    repeat split; try reflexivity. discriminate.
  - do 2 eexists. split; [reflexivity |]. repeat split; try reflexivity.
    intros _. unfold frame_line. rewrite string_app_assoc. reflexivity.
Qed.

(** ** Chase *)

Lemma mem_keys {V : Type} (d : Py.dict V) (k : string) :
  Py.mem k d = true <-> In k (Py.keys d).
Proof.
  unfold Py.mem. induction d as [| [k' v] d IH]; simpl.
  - split; [discriminate | contradiction].
  - destruct (String.eqb_spec k k') as [-> | Hne].
    + split; auto.
    + rewrite IH. split; [auto | intros [H | H]; [congruence | exact H]].
Qed.

Lemma clear_strip_false (N : Z) (w : World) (vs : VirtualStrip) :
  strip w = Some vs -> count vs = N -> Py.len (pixels vs) = N ->
  clear_strip N false w
  = Ok (with_strip (Some (with_pixels (repeat 0 (Z.to_nat N)) vs)) w).
Proof.
  intros Hs Hc Hl. unfold clear_strip. rewrite Hs.
  change (Color 0 0 0) with 0.
  rewrite (strip_fill N 0 w vs Hs Hc Hl). reflexivity.
Qed.

Lemma repeat_split (N pos : Z) :
  0 <= pos < N ->
  repeat 0 (Z.to_nat N)
  = (repeat 0 (Z.to_nat pos) ++ 0 :: repeat 0 (Z.to_nat (N - pos - 1)))%list.
Proof.
  intros H.
  replace (Z.to_nat N) with (Z.to_nat pos + S (Z.to_nat (N - pos - 1)))%nat by lia.
  rewrite repeat_app. reflexivity.
Qed.

Lemma light_one (N pos color : Z) (w : World) (vs : VirtualStrip) :
  0 <= pos < N -> count vs = N ->
  strip_setPixelColor pos color
    (with_strip (Some (with_pixels (repeat 0 (Z.to_nat N)) vs)) w)
  = Ok (with_strip (Some (with_pixels (one_lit N pos color) vs)) w).
Proof.
  intros Hp Hc. unfold strip_setPixelColor, get_strip. simpl strip. simpl bind.
  unfold setPixelColor. simpl count. rewrite Hc.
  replace ((0 <=? pos) && (pos <? N)) with true
    by (symmetry; apply andb_true_intro; split; [apply Z.leb_le | apply Z.ltb_lt]; lia).
  simpl pixels. rewrite (repeat_split N pos Hp).
  replace (Z.to_nat pos) with (List.length (repeat 0 (Z.to_nat pos))) at 2
    by apply repeat_length.
  rewrite store_app. reflexivity.
Qed.

Lemma strip_show_ok (w : World) (vs : VirtualStrip) :
  strip w = Some vs -> render_width vs <> 0 ->
  exists vs' out,
    strip_show w = Ok (write out (with_strip (Some vs') w)) /\
    pixels vs' = pixels vs /\ count vs' = count vs /\
    render_width vs' = render_width vs /\ frame vs' = frame vs + 1 /\
    strip_brightness vs' = strip_brightness vs /\
    (stdout_isatty w = false -> out = [frame_line vs ++ LF]).
Proof.
  intros Hs Hrw. unfold strip_show, get_strip. rewrite Hs. simpl bind.
  destruct (show_ok vs (stdout_isatty w) Hrw) as (vs' & out & Hshow & H).
  rewrite Hshow. simpl bind. exists vs', out. split; [reflexivity | exact H].
Qed.

Lemma chase_step (N : Z) (state : AppState) (w : World) (vs : VirtualStrip) :
  strip w = Some vs -> count vs = N -> Py.len (pixels vs) = N ->
  render_width vs <> 0 ->
  0 <= chase_position state < N ->
  Py.mem (chase_color state) CHASE_COLORS = true ->
  exists vs' out,
    pattern_step_chase N state w
    = Ok (chase_next N state, write out (with_strip (Some vs') w)) /\
    pixels vs'
    = one_lit N (chase_position state)
        (active_color CHASE_COLORS (chase_color state) (rainbow_offset state)
                      (chase_position state)) /\
    count vs' = N /\ render_width vs' = render_width vs /\
    frame vs' = frame vs + 1 /\
    strip_brightness vs' = strip_brightness vs /\
    (stdout_isatty w = false ->
     out = [frame_prefix (frame vs + 1)
            ++ String.concat "" (map color_to_ascii (pixels vs')) ++ LF]).
Proof.
  intros Hs Hc Hl Hrw Hp Hk.
  unfold pattern_step_chase, get_strip. rewrite Hs. simpl bind.
  rewrite (clear_strip_false N w vs Hs Hc Hl). simpl bind.
  set (color := active_color _ _ _ _).
  set (w1 := with_strip _ w).
  assert (Hcol :
    (if String.eqb (chase_color state) "4"
     then Ok (wheel (Z.land (rainbow_offset state + chase_position state * 8) 255),
              set_rainbow_offset (Z.land (rainbow_offset state + 3) 255) state)
     else entry <- Py.item CHASE_COLORS (chase_color state) ;; Ok (snd entry, state))
    = Ok (color,
          if String.eqb (chase_color state) "4"
          then set_rainbow_offset (Z.land (rainbow_offset state + 3) 255) state
          else state)).
  { subst color. unfold active_color, Py.item.
    unfold Py.mem in Hk.
    destruct (String.eqb (chase_color state) "4"); [reflexivity |].
    destruct (Py.get CHASE_COLORS (chase_color state)); [reflexivity | discriminate]. }
  rewrite Hcol. simpl bind.
  assert (Hpos : chase_position
            (if String.eqb (chase_color state) "4"
             then set_rainbow_offset (Z.land (rainbow_offset state + 3) 255) state
             else state) = chase_position state)
    by (destruct (String.eqb (chase_color state) "4"); destruct state; reflexivity).
  rewrite Hpos. subst w1. rewrite (light_one N _ color w vs Hp Hc). simpl bind.
  destruct (strip_show_ok (with_strip (Some (with_pixels (one_lit N (chase_position state) color) vs)) w)
              (with_pixels (one_lit N (chase_position state) color) vs) eq_refl Hrw)
    as (vs' & out & Hshow & Hpx & Hcnt & Hrw' & Hfr & Hbr & Hout).
  rewrite Hshow. simpl bind. unfold Py.modulo.
  destruct (Z.eqb_spec N 0) as [-> | _]; [lia |]. simpl bind.
  exists vs', out. split; [| repeat split].
  - unfold chase_next. destruct (String.eqb (chase_color state) "4"); destruct state; reflexivity.
  - exact Hpx.
  - rewrite Hcnt. exact Hc.
  - exact Hrw'.
  - exact Hfr.
  - exact Hbr.
  - intros Htty. rewrite (Hout Htty). unfold frame_line. rewrite Hpx.
    simpl. rewrite string_app_assoc. reflexivity.
Qed.

Lemma wheel_lit (x : Z) : wheel (Z.land x 255) <> 0.
Proof.
  rewrite land_255_mod. pose proof (Z.mod_pos_bound x 256 eq_refl) as Hb.
  assert (Hc : wheel_check (x mod 256) = true)
    by (apply (range_forallb _ 256 wheel_check_all); lia).
  unfold wheel_check in Hc.
  apply andb_prop in Hc; destruct Hc as [Hc _].
  apply andb_prop in Hc; destruct Hc as [_ Hc].
  intros E. rewrite E in Hc. discriminate.
Qed.

Lemma chase_color_lit (key : string) (offset pos : Z) :
  Py.mem key CHASE_COLORS = true -> active_color CHASE_COLORS key offset pos <> 0.
Proof.
  intros H. apply mem_keys in H. unfold active_color.
  destruct (String.eqb key "4") eqn:E; [apply wheel_lit |].
  simpl in H. destruct H as [<- | [<- | [<- | [<- | []]]]];
    vm_compute; discriminate.
Qed.

Lemma lit_pixels_off (n : nat) : lit_pixels (repeat 0 n) = [].
Proof. induction n; simpl; [reflexivity | exact IHn]. Qed.

Lemma lit_pixels_one_lit (N pos color : Z) :
  color <> 0 -> lit_pixels (one_lit N pos color) = [color].
Proof.
  intros H. unfold one_lit, lit_pixels. rewrite filter_app. simpl.
  fold (lit_pixels (repeat 0 (Z.to_nat pos))).
  fold (lit_pixels (repeat 0 (Z.to_nat (N - pos - 1)))).
  rewrite !lit_pixels_off. destruct (Z.eqb_spec color 0); [contradiction | reflexivity].
Qed.

Lemma one_lit_nth (N pos color : Z) :
  0 <= pos < N ->
  Py.len (one_lit N pos color) = N /\
  nth_error (one_lit N pos color) (Z.to_nat pos) = Some color.
Proof.
  intros H. unfold one_lit, Py.len. split.
  - rewrite length_app. simpl. rewrite !repeat_length. lia.
  - rewrite nth_error_app2 by (rewrite repeat_length; lia).
    rewrite repeat_length, Nat.sub_diag. reflexivity.
Qed.

Lemma chase_step_ready (N : Z) (state : AppState) (w : World) :
  chase_ready N state w ->
  exists w',
    pattern_step_chase N state w = Ok (chase_next N state, w') /\
    chase_ready N (chase_next N state) w' /\
    pixels_of w'
    = one_lit N (chase_position state)
        (active_color CHASE_COLORS (chase_color state) (rainbow_offset state)
                      (chase_position state)) /\
    frame_of w' = frame_of w + 1 /\
    sink_brightness w' = sink_brightness w /\
    (stdout_isatty w = false ->
     stdout w'
     = (stdout w ++ [(frame_prefix (frame_of w + 1)
                      ++ String.concat "" (map color_to_ascii (pixels_of w')) ++ LF)%string])%list).
Proof.
  intros ((vs & Hs & Hc & Hl & Hrw) & Hp & Hk).
  destruct (chase_step N state w vs Hs Hc Hl Hrw Hp Hk)
    as (vs' & out & Hstep & Hpx & Hcnt & Hrw' & Hfr & Hbr & Hout).
  exists (write out (with_strip (Some vs') w)). split; [exact Hstep |].
  unfold pixels_of, frame_of, sink_brightness. simpl strip. rewrite Hs.
  repeat split.
  - exists vs'. simpl. repeat split; try assumption; try congruence.
    rewrite Hpx. apply one_lit_nth. exact Hp.
  - unfold chase_next.
    destruct (String.eqb (chase_color state) "4"); destruct state; simpl;
      apply Z.mod_pos_bound; lia.
  - unfold chase_next.
    destruct (String.eqb (chase_color state) "4"); destruct state; simpl;
      apply Z.mod_pos_bound; lia.
  - unfold chase_next.
    destruct (String.eqb (chase_color state) "4"); destruct state; exact Hk.
  - exact Hpx.
  - exact Hfr.
  - now rewrite Hbr.
  - intros Htty. simpl. rewrite (Hout Htty). reflexivity.
Qed.

Lemma chase_steps (N : Z) (k : nat) :
  forall state w,
    chase_ready N state w ->
    exists state' w',
      steps k (pattern_step_chase N) state w = Ok (state', w') /\
      chase_ready N state' w' /\
      chase_position state' = (chase_position state + Z.of_nat k) mod N /\
      frame_of w' = frame_of w + Z.of_nat k.
Proof.
  induction k as [| k IH]; intros state w Hr.
  - exists state, w. split; [reflexivity | split; [exact Hr | split]].
    + destruct Hr as (_ & Hp & _). change (Z.of_nat 0) with 0.
      rewrite Z.add_0_r, Z.mod_small; lia.
    + change (Z.of_nat 0) with 0. lia.
  - destruct (chase_step_ready N state w Hr) as (w1 & Hstep & Hr1 & _ & Hfr & _).
    destruct (IH _ _ Hr1) as (s' & w' & Hsteps & Hr' & Hpos & Hfr').
    exists s', w'. simpl steps. rewrite Hstep. simpl bind.
    split; [exact Hsteps | split; [exact Hr' | split]].
    + rewrite Hpos. destruct Hr as (_ & Hp & _).
      assert (E : chase_position (chase_next N state) = (chase_position state + 1) mod N)
        by (unfold chase_next;
            destruct (String.eqb (chase_color state) "4"); destruct state; reflexivity).
      rewrite E, Z.add_mod_idemp_l by lia. f_equal. lia.
    + lia.
Qed.

Lemma test_world_ok (N : Z) : 0 <= N -> sink_ok N (test_world N).
Proof.
  intros H. eexists. split; [reflexivity |]. simpl. unfold Py.len.
  rewrite repeat_length. repeat split; lia.
Qed.

Lemma chase_step_flushed (N : Z) (state : AppState) (w : World) :
  chase_ready N state w ->
  exists w',
    pattern_step_chase N state w = Ok (chase_next N state, w') /\
    flushed (one_lit N (chase_position state)
               (active_color CHASE_COLORS (chase_color state) (rainbow_offset state)
                             (chase_position state))) w w'.
Proof.
  intros ((vs & Hs & Hc & Hl & Hrw) & Hp & Hk).
  unfold pattern_step_chase, get_strip. rewrite Hs. simpl bind.
  rewrite (clear_strip_false N w vs Hs Hc Hl). simpl bind.
  set (color := active_color _ _ _ _).
  assert (Hcol :
    (if String.eqb (chase_color state) "4"
     then Ok (wheel (Z.land (rainbow_offset state + chase_position state * 8) 255),
              set_rainbow_offset (Z.land (rainbow_offset state + 3) 255) state)
     else entry <- Py.item CHASE_COLORS (chase_color state) ;; Ok (snd entry, state))
    = Ok (color,
          if String.eqb (chase_color state) "4"
          then set_rainbow_offset (Z.land (rainbow_offset state + 3) 255) state
          else state)).
  { subst color. unfold active_color, Py.item.
    unfold Py.mem in Hk.
    destruct (String.eqb (chase_color state) "4"); [reflexivity |].
    destruct (Py.get CHASE_COLORS (chase_color state)); [reflexivity | discriminate]. }
  rewrite Hcol. simpl bind.
  assert (Hpos : chase_position
            (if String.eqb (chase_color state) "4"
             then set_rainbow_offset (Z.land (rainbow_offset state + 3) 255) state
             else state) = chase_position state)
    by (destruct (String.eqb (chase_color state) "4"); destruct state; reflexivity).
  rewrite Hpos, (light_one N _ color w vs Hp Hc). simpl bind.
  unfold strip_show, get_strip. cbn [strip with_strip bind stdout_isatty].
  destruct (show_ok (with_pixels (one_lit N (chase_position state) color) vs)
                    (stdout_isatty w) Hrw) as (vs' & out & Hshow & _).
  rewrite Hshow. cbn [bind]. unfold Py.modulo.
  destruct (Z.eqb_spec N 0) as [-> | _]; [lia |]. cbn [bind].
  eexists. split.
  - unfold chase_next. destruct (String.eqb (chase_color state) "4"); destruct state;
      reflexivity.
  - exists vs, vs', out. split; [exact Hs | split; [exact Hshow | reflexivity]].
Qed.

Lemma glyphs_dark (n : nat) (rest : list Z) :
  String.concat "" (map color_to_ascii (repeat 0 n ++ rest))
  = dots n ++ String.concat "" (map color_to_ascii rest).
Proof.
  induction n as [| n IH]; [reflexivity |].
  cbn [repeat app map]. rewrite concat_empty_cons, IH. reflexivity.
Qed.

Lemma glyphs_one_lit (N pos color : Z) :
  String.concat "" (map color_to_ascii (one_lit N pos color))
  = dots (Z.to_nat pos) ++ color_to_ascii color ++ dots (Z.to_nat (N - pos - 1)).
Proof.
  unfold one_lit. rewrite glyphs_dark. cbn [map]. rewrite concat_empty_cons.
  rewrite <- (app_nil_r (repeat 0 (Z.to_nat (N - pos - 1)))), glyphs_dark.
  cbn [map String.concat]. f_equal. f_equal.
  induction (Z.to_nat (N - pos - 1)) as [| n IH]; [reflexivity |].
  simpl. now rewrite IH.
Qed.

Lemma lit_glyph (color : Z) : color <> 0 -> color_to_ascii color <> ".".
Proof.
  intros H. unfold color_to_ascii. destruct (Z.eqb_spec color 0); [contradiction |].
  cbv zeta.
  destruct (_ && _)%bool; [discriminate |].
  destruct (_ && _)%bool; [discriminate |].
  destruct (_ && _)%bool; discriminate.
Qed.

Lemma back_at_start (N pos k : Z) :
  0 <= pos < N -> 0 <= k -> ((pos + k) mod N = pos <-> k mod N = 0).
Proof.
  intros Hp Hk. pose proof (Z.mod_pos_bound k N ltac:(lia)) as Hr.
  rewrite <- (Z.add_mod_idemp_r pos k N) by lia.
  destruct (Z.lt_ge_cases (pos + k mod N) N) as [Hlt | Hge].
  - rewrite Z.mod_small by lia. lia.
  - replace (pos + k mod N) with (pos + k mod N - N + 1 * N) by lia.
    rewrite Z.mod_add by lia. rewrite Z.mod_small by lia. lia.
Qed.

(** C4. One chase step clears the strip, lights exactly the pixel at
    [chase_position] with the active colour (a fixed colour, or
    [wheel((rainbow_offset + chase_position * 8) mod 256)] for Rainbow, whose
    offset then advances by 3 modulo 256 and otherwise stays), then flushes
    one frame and moves [chase_position] to [(chase_position + 1) mod N].
    The flush comes after the pixel is lit: it is the [show] of the buffer
    with that one pixel lit, so the line written when output is not a
    terminal has one glyph that is not the dark one, at [chase_position].
    The position after [k] steps is [(chase_position + k) mod N]: it is back
    at its start exactly when [k] is a multiple of [N]. On a strip of 5 with
    a fixed colour the five frames light positions 0, 1, 2, 3, 4, one pixel
    each, in the buffer and in the lines written. *)
Theorem chase_step_contract :
  (forall N state w,
      chase_ready N state w ->
      let pos := chase_position state in
      let rainbow := String.eqb (chase_color state) "4" in
      let color :=
        if rainbow then wheel ((rainbow_offset state + pos * 8) mod 256)
        else match Py.get CHASE_COLORS (chase_color state) with
             | Some entry => snd entry
             | None => 0
             end in
      (exists state' w',
          pattern_step_chase N state w = Ok (state', w') /\
          color <> 0 /\
          pixels_of w' = one_lit N pos color /\
          lit_pixels (pixels_of w') = [color] /\
          frame_of w' = frame_of w + 1 /\
          chase_position state' = (pos + 1) mod N /\
          rainbow_offset state'
          = (if rainbow then (rainbow_offset state + 3) mod 256
             else rainbow_offset state) /\
          flushed (one_lit N pos color) w w' /\
          color_to_ascii color <> "." /\
          (stdout_isatty w = false ->
           stdout w'
           = (stdout w
              ++ [(frame_prefix (frame_of w + 1)
                   ++ dots (Z.to_nat pos) ++ color_to_ascii color
                   ++ dots (Z.to_nat (N - pos - 1)) ++ LF)%string])%list)) /\
      (forall k, exists state' w',
          steps k (pattern_step_chase N) state w = Ok (state', w') /\
          0 <= chase_position state' < N /\
          chase_position state' = (pos + Z.of_nat k) mod N /\
          (chase_position state' = pos <-> Z.of_nat k mod N = 0)) /\
      (exists state' w',
          steps (Z.to_nat N) (pattern_step_chase N) state w = Ok (state', w') /\
          chase_position state' = pos)) /\
  (forall key,
      In key ["1"; "2"; "3"] ->
      exists entry g,
        Py.get CHASE_COLORS key = Some entry /\
        color_to_ascii (snd entry) = g /\ g <> "." /\
        frames_of 5 (pattern_step_chase 5) (set_chase_color key default_state)
                  (test_world 5)
        = Ok [ [snd entry; 0; 0; 0; 0]; [0; snd entry; 0; 0; 0];
               [0; 0; snd entry; 0; 0]; [0; 0; 0; snd entry; 0];
               [0; 0; 0; 0; snd entry] ] /\
        output_of (steps 5 (pattern_step_chase 5) (set_chase_color key default_state)
                         (test_world 5))
        = Ok [ ("Frame 0001 | " ++ g ++ "...." ++ LF)%string;
               ("Frame 0002 | ." ++ g ++ "..." ++ LF)%string;
               ("Frame 0003 | .." ++ g ++ ".." ++ LF)%string;
               ("Frame 0004 | ..." ++ g ++ "." ++ LF)%string;
               ("Frame 0005 | ...." ++ g ++ LF)%string ]).
Proof.
  split.
  - intros N state w Hr pos rainbow color. subst pos rainbow.
    assert (Hcolor : color = active_color CHASE_COLORS (chase_color state)
                               (rainbow_offset state) (chase_position state))
      by (subst color; unfold active_color; now rewrite land_255_mod).
    assert (Hlit : color <> 0)
      by (rewrite Hcolor; apply chase_color_lit; apply Hr).
    split; [| split].
    + destruct (chase_step_ready N state w Hr)
        as (w' & Hstep & _ & Hpx & Hfr & _ & Hout).
      destruct (chase_step_flushed N state w Hr) as (w2 & Hstep2 & Hflush).
      rewrite Hstep in Hstep2. injection Hstep2 as <-.
      exists (chase_next N state), w'. rewrite <- Hcolor in Hpx, Hflush.
      split; [exact Hstep |]. split; [exact Hlit |]. split; [exact Hpx |].
      split; [rewrite Hpx; now apply lit_pixels_one_lit |].
      split; [exact Hfr |].
      split; [unfold chase_next; destruct (String.eqb (chase_color state) "4");
              destruct state; reflexivity |].
      split; [unfold chase_next;
              destruct (String.eqb (chase_color state) "4"); destruct state; simpl;
              [apply land_255_mod | reflexivity] |].
      split; [exact Hflush |]. split; [apply lit_glyph; exact Hlit |].
      intros Htty. rewrite (Hout Htty), Hpx, glyphs_one_lit.
      rewrite !string_app_assoc. reflexivity.
    + intros k. destruct (chase_steps N k state w Hr) as (s' & w' & H1 & H2 & H3 & _).
      exists s', w'. split; [exact H1 |]. split; [apply H2 |]. split; [exact H3 |].
      rewrite H3. apply back_at_start; [apply Hr | lia].
    + destruct (chase_steps N (Z.to_nat N) state w Hr) as (s' & w' & H1 & _ & H3 & _).
      exists s', w'. split; [exact H1 |]. rewrite H3.
      destruct Hr as (_ & Hp & _).
      rewrite Z2Nat.id by lia.
      replace (chase_position state + N) with (chase_position state + 1 * N) by lia.
      rewrite Z.mod_add by lia. apply Z.mod_small. exact Hp.
  - intros key [<- | [<- | [<- | []]]]; do 2 eexists;
      (split; [reflexivity |]); (split; [reflexivity |]);
      (split; [discriminate |]); split; vm_compute; reflexivity.
Qed.

Lemma chase_step_contract_witness :
  chase_ready 5 default_state (test_world 5) /\
  exists state' w',
    steps 5 (pattern_step_chase 5) default_state (test_world 5) = Ok (state', w') /\
    chase_position state' = 0.
Proof.
  assert (H : chase_ready 5 default_state (test_world 5)).
  { split; [apply test_world_ok; lia | split; [simpl; lia | reflexivity]]. }
  split; [exact H |].
  exact (proj2 (proj2 (proj1 chase_step_contract 5 default_state (test_world 5) H))).
Defined.

(** ** Bounce *)

Lemma bounce_step (N : Z) (state : AppState) (w : World) (vs : VirtualStrip) :
  strip w = Some vs -> count vs = N -> Py.len (pixels vs) = N ->
  render_width vs <> 0 ->
  0 <= bounce_position state < N ->
  Py.mem (bounce_color state) BOUNCE_COLORS = true ->
  exists vs' out,
    pattern_step_bounce N state w
    = Ok (bounce_next N state, write out (with_strip (Some vs') w)) /\
    pixels vs'
    = one_lit N (bounce_position state)
        (active_color BOUNCE_COLORS (bounce_color state) (rainbow_offset state)
                      (bounce_position state)) /\
    count vs' = N /\ render_width vs' = render_width vs /\
    frame vs' = frame vs + 1.
Proof.
  intros Hs Hc Hl Hrw Hp Hk.
  unfold pattern_step_bounce, get_strip. rewrite Hs. simpl bind.
  rewrite (clear_strip_false N w vs Hs Hc Hl). simpl bind.
  set (color := active_color _ _ _ _).
  set (w1 := with_strip _ w).
  set (state1 := if String.eqb (bounce_color state) "4"
                 then set_rainbow_offset (Z.land (rainbow_offset state + 3) 255) state
                 else state).
  assert (Hcol :
    (if String.eqb (bounce_color state) "4"
     then Ok (wheel (Z.land (rainbow_offset state + bounce_position state * 8) 255),
              set_rainbow_offset (Z.land (rainbow_offset state + 3) 255) state)
     else entry <- Py.item BOUNCE_COLORS (bounce_color state) ;; Ok (snd entry, state))
    = Ok (color, state1)).
  { subst color state1. unfold active_color, Py.item.
    unfold Py.mem in Hk.
    destruct (String.eqb (bounce_color state) "4"); [reflexivity |].
    destruct (Py.get BOUNCE_COLORS (bounce_color state)); [reflexivity | discriminate]. }
  rewrite Hcol. simpl bind.
  assert (Hpos : bounce_position state1 = bounce_position state)
    by (subst state1; destruct (String.eqb (bounce_color state) "4");
        destruct state; reflexivity).
  assert (Hdir : bounce_direction state1 = bounce_direction state)
    by (subst state1; destruct (String.eqb (bounce_color state) "4");
        destruct state; reflexivity).
  rewrite Hpos. subst w1. rewrite (light_one N _ color w vs Hp Hc). simpl bind.
  destruct (strip_show_ok
              (with_strip (Some (with_pixels (one_lit N (bounce_position state) color) vs)) w)
              (with_pixels (one_lit N (bounce_position state) color) vs) eq_refl Hrw)
    as (vs' & out & Hshow & Hpx & Hcnt & Hrw' & Hfr & _).
  rewrite Hshow. simpl bind.
  exists vs', out.
  split; [| split; [exact Hpx | split; [rewrite Hcnt; exact Hc | split; assumption]]].
  f_equal. f_equal. unfold bounce_next, bounce_turn. fold state1.
  rewrite <- Hdir, <- Hpos. clear Hcol Hpos Hdir. clearbody state1.
  destruct (bounce_position state1 =? N - 1);
    [| destruct (bounce_position state1 =? 0)];
    destruct state1; reflexivity.
Qed.

Lemma bounce_turn_cases (N : Z) (state : AppState) :
  2 <= N -> 0 <= bounce_position state < N ->
  (bounce_direction state = 1 \/ bounce_direction state = -1) ->
  (bounce_position state = N - 1 -> bounce_turn N state = -1) /\
  (bounce_position state = 0 -> bounce_turn N state = 1) /\
  (bounce_position state <> N - 1 -> bounce_position state <> 0 ->
   bounce_turn N state = bounce_direction state) /\
  (bounce_turn N state = 1 \/ bounce_turn N state = -1) /\
  0 <= bounce_position state + bounce_turn N state < N.
Proof.
  intros HN Hp Hd. unfold bounce_turn.
  destruct (Z.eqb_spec (bounce_position state) (N - 1));
    destruct (Z.eqb_spec (bounce_position state) 0); lia.
Qed.

Lemma bounce_next_fields (N : Z) (state : AppState) :
  bounce_position (bounce_next N state) = bounce_position state + bounce_turn N state /\
  bounce_direction (bounce_next N state) = bounce_turn N state /\
  bounce_color (bounce_next N state) = bounce_color state.
Proof.
  unfold bounce_next.
  destruct (String.eqb (bounce_color state) "4"); destruct state; repeat split.
Qed.

Lemma bounce_step_ready (N : Z) (state : AppState) (w : World) :
  2 <= N -> bounce_ready N state w ->
  exists w',
    pattern_step_bounce N state w = Ok (bounce_next N state, w') /\
    bounce_ready N (bounce_next N state) w' /\
    pixels_of w'
    = one_lit N (bounce_position state)
        (active_color BOUNCE_COLORS (bounce_color state) (rainbow_offset state)
                      (bounce_position state)).
Proof.
  intros HN ((vs & Hs & Hc & Hl & Hrw) & Hp & Hd & Hk).
  destruct (bounce_step N state w vs Hs Hc Hl Hrw Hp Hk)
    as (vs' & out & Hstep & Hpx & Hcnt & Hrw' & Hfr).
  exists (write out (with_strip (Some vs') w)). split; [exact Hstep |].
  destruct (bounce_next_fields N state) as (E1 & E2 & E3).
  destruct (bounce_turn_cases N state HN Hp Hd) as (_ & _ & _ & Ht & Hr).
  split; [| unfold pixels_of; simpl; exact Hpx].
  split; [| rewrite E1, E2, E3; auto].
  exists vs'. simpl. repeat split; try assumption; try congruence.
  rewrite Hpx. apply one_lit_nth. exact Hp.
Qed.

Lemma bounce_steps (N : Z) (k : nat) :
  2 <= N ->
  forall state w,
    bounce_ready N state w ->
    exists state' w',
      steps k (pattern_step_bounce N) state w = Ok (state', w') /\
      bounce_ready N state' w'.
Proof.
  intros HN. induction k as [| k IH]; intros state w Hr.
  - exists state, w. split; [reflexivity | exact Hr].
  - destruct (bounce_step_ready N state w HN Hr) as (w1 & Hstep & Hr1 & _).
    destruct (IH _ _ Hr1) as (s' & w' & Hsteps & Hr').
    exists s', w'. simpl steps. rewrite Hstep. simpl bind. auto.
Qed.

(** C2, for strips of at least two pixels. From a position in [[0, N)] and a
    direction in {+1, -1}, any number of bounce steps keeps the position in
    [[0, N)] and the direction in {+1, -1}; in one step the direction becomes
    -1 when the position is [N - 1], +1 when it is 0, and is left alone at
    every other position, and the position then moves by the new direction. *)
Theorem bounce_stays_on_strip :
  forall N state w,
    2 <= N -> bounce_ready N state w ->
    (exists state' w',
        pattern_step_bounce N state w = Ok (state', w') /\
        (bounce_position state = N - 1 -> bounce_direction state' = -1) /\
        (bounce_position state = 0 -> bounce_direction state' = 1) /\
        (bounce_direction state' <> bounce_direction state ->
         bounce_position state = N - 1 \/ bounce_position state = 0) /\
        bounce_position state' = bounce_position state + bounce_direction state' /\
        0 <= bounce_position state' < N) /\
    (forall k, exists state' w',
        steps k (pattern_step_bounce N) state w = Ok (state', w') /\
        0 <= bounce_position state' < N /\
        (bounce_direction state' = 1 \/ bounce_direction state' = -1)).
Proof.
  intros N state w HN Hr. split.
  - destruct (bounce_step_ready N state w HN Hr) as (w' & Hstep & _ & _).
    destruct Hr as (_ & Hp & Hd & _).
    destruct (bounce_next_fields N state) as (E1 & E2 & _).
    destruct (bounce_turn_cases N state HN Hp Hd) as (T1 & T2 & T3 & _ & T5).
    exists (bounce_next N state), w'. rewrite E1, E2.
    repeat split; try assumption; lia.
  - intros k. destruct (bounce_steps N k HN state w Hr) as (s' & w' & Hs & Hr').
    exists s', w'. split; [exact Hs |]. destruct Hr' as (_ & Hp & Hd & _). auto.
Qed.

Lemma bounce_stays_on_strip_witness :
  bounce_ready 3 default_state (test_world 3) /\
  exists state' w',
    steps 5 (pattern_step_bounce 3) default_state (test_world 3) = Ok (state', w') /\
    0 <= bounce_position state' < 3 /\
    (bounce_direction state' = 1 \/ bounce_direction state' = -1).
Proof.
  assert (H : bounce_ready 3 default_state (test_world 3)).
  { split; [apply test_world_ok; lia |].
    split; [simpl; lia | split; [left; reflexivity | reflexivity]]. }
  split; [exact H |].
  exact (proj2 (bounce_stays_on_strip 3 default_state (test_world 3) ltac:(lia) H) 5%nat).
Defined.

(** On a strip of three, from position 0 and direction +1, five steps light
    positions 0, 1, 2, 1, 0 and leave the position at 1 heading up again. *)
Example bounce_on_strip_of_three :
  frames_of 5 (pattern_step_bounce 3) default_state (test_world 3)
  = Ok [ [255; 0; 0]; [0; 255; 0]; [0; 0; 255]; [0; 255; 0]; [255; 0; 0] ] /\
  exists state' w',
    steps 5 (pattern_step_bounce 3) default_state (test_world 3) = Ok (state', w') /\
    bounce_position state' = 1 /\ bounce_direction state' = 1.
Proof.
  split; [vm_compute; reflexivity |].
  do 2 eexists. split; [vm_compute; reflexivity | split; reflexivity].
Qed.

(** On a strip of one the only position is both ends. *)
Lemma bounce_leaves_strip_of_one :
  exists state' w',
    pattern_step_bounce 1 default_state (test_world 1) = Ok (state', w') /\
    bounce_position default_state = 0 /\
    bounce_direction default_state = 1 /\
    bounce_direction state' = -1 /\
    ~ (0 <= bounce_position state' < 1).
Proof.
  do 2 eexists. split; [vm_compute; reflexivity |].
  simpl. repeat split; lia.
Qed.

(** ** The colour wheel as the steps call it *)

Lemma channels_check_all : forallb channels_check (Py.range 256) = true.
Proof. vm_compute. reflexivity. Qed.

Lemma wheel_hands_channels (x r g b : Z) :
  wheel_channels x = (r, g, b) -> wheel x = Color r g b.
Proof.
  unfold wheel_channels, wheel. cbv zeta.
  destruct (255 - x <? 85); [intros [= <- <- <-]; reflexivity |].
  destruct (255 - x <? 170); intros [= <- <- <-]; reflexivity.
Qed.

Lemma wheel_channels_in_range (x r g b : Z) :
  0 <= x <= 255 -> wheel_channels x = (r, g, b) ->
  0 <= r <= 255 /\ 0 <= g <= 255 /\ 0 <= b <= 255 /\ r + g + b = 255 /\
  wheel x = 65536 * r + 256 * g + b /\
  red_of (wheel x) = r /\ green_of (wheel x) = g /\ blue_of (wheel x) = b.
Proof.
  intros Hx Hc.
  assert (Hb : 0 <= r <= 255 /\ 0 <= g <= 255 /\ 0 <= b <= 255 /\ r + g + b = 255).
  { clear - Hx Hc. revert Hc. unfold wheel_channels. cbv zeta.
    destruct (Z.ltb_spec (255 - x) 85); [| destruct (Z.ltb_spec (255 - x) 170)];
      intros E; apply pair_equal_spec in E; destruct E as [E E3];
      apply pair_equal_spec in E; destruct E as [E1 E2]; lia. }
  assert (Hk : channels_check x = true)
    by (apply (range_forallb _ 256 channels_check_all); lia).
  unfold channels_check in Hk. rewrite Hc in Hk.
  apply andb_prop in Hk; destruct Hk as [Hk H4].
  apply andb_prop in Hk; destruct Hk as [Hk H3].
  apply andb_prop in Hk; destruct Hk as [H1 H2].
  apply Z.eqb_eq in H1, H2, H3, H4.
  destruct Hb as (B1 & B2 & B3 & B4). repeat split; assumption || lia.
Qed.

Lemma masked_channels (s : Z) :
  exists r g b,
    wheel_channels (s mod 256) = (r, g, b) /\
    0 <= r <= 255 /\ 0 <= g <= 255 /\ 0 <= b <= 255 /\
    wheel (Z.land s 255) = 65536 * r + 256 * g + b.
Proof.
  destruct (wheel_channels (s mod 256)) as [[r g] b] eqn:E. exists r, g, b.
  pose proof (Z.mod_pos_bound s 256 eq_refl) as Hs.
  destruct (wheel_channels_in_range (s mod 256) r g b ltac:(lia) E)
    as (H1 & H2 & H3 & _ & H5 & _).
  rewrite land_255_mod. repeat split; assumption || lia.
Qed.

(** C10, for the arguments the steps pass. [wheel] hands [Color] the three
    channels of [wheel_channels]; for every [x] in [[0, 255]] each of them
    lies in [[0, 255]], they add up to 255, and the packed colour is
    [65536 * r + 256 * g + b], from which they are read back unchanged. The
    rainbow steps of the chase and of the bounce call [wheel] on the sum
    [rainbow_offset + position * 8] reduced modulo 256: the pixel they light
    is packed from the channels of that reduced sum, which are in range,
    and the offset they leave is [(rainbow_offset + 3) mod 256]. *)
Theorem wheel_of_masked_argument :
  (forall x r g b, wheel_channels x = (r, g, b) -> wheel x = Color r g b) /\
  (forall x r g b,
      0 <= x <= 255 -> wheel_channels x = (r, g, b) ->
      0 <= r <= 255 /\ 0 <= g <= 255 /\ 0 <= b <= 255 /\ r + g + b = 255 /\
      wheel x = 65536 * r + 256 * g + b /\
      red_of (wheel x) = r /\ green_of (wheel x) = g /\ blue_of (wheel x) = b) /\
  (forall N state w,
      chase_ready N state w -> chase_color state = "4" ->
      exists state' w' r g b,
        pattern_step_chase N state w = Ok (state', w') /\
        wheel_channels ((rainbow_offset state + chase_position state * 8) mod 256)
        = (r, g, b) /\
        0 <= r <= 255 /\ 0 <= g <= 255 /\ 0 <= b <= 255 /\
        pixels_of w' = one_lit N (chase_position state) (65536 * r + 256 * g + b) /\
        rainbow_offset state' = (rainbow_offset state + 3) mod 256) /\
  (forall N state w,
      2 <= N -> bounce_ready N state w -> bounce_color state = "4" ->
      exists state' w' r g b,
        pattern_step_bounce N state w = Ok (state', w') /\
        wheel_channels ((rainbow_offset state + bounce_position state * 8) mod 256)
        = (r, g, b) /\
        0 <= r <= 255 /\ 0 <= g <= 255 /\ 0 <= b <= 255 /\
        pixels_of w' = one_lit N (bounce_position state) (65536 * r + 256 * g + b) /\
        rainbow_offset state' = (rainbow_offset state + 3) mod 256).
Proof.
  split; [exact wheel_hands_channels |]. split; [exact wheel_channels_in_range |].
  split.
  - intros N state w Hr Hkey.
    destruct (chase_step_ready N state w Hr) as (w' & Hstep & _ & Hpx & _).
    destruct (masked_channels (rainbow_offset state + chase_position state * 8))
      as (r & g & b & Hc & H1 & H2 & H3 & Hw).
    exists (chase_next N state), w', r, g, b.
    split; [exact Hstep |]. split; [exact Hc |].
    repeat (split; [assumption |]).
    unfold active_color in Hpx. rewrite Hkey in Hpx. cbn [String.eqb Ascii.eqb Bool.eqb] in Hpx.
    rewrite Hw in Hpx. split; [exact Hpx |].
    unfold chase_next. rewrite Hkey. cbn [String.eqb Ascii.eqb Bool.eqb].
    destruct state; cbn. apply land_255_mod.
  - intros N state w HN Hr Hkey.
    destruct (bounce_step_ready N state w HN Hr) as (w' & Hstep & _ & Hpx).
    destruct (masked_channels (rainbow_offset state + bounce_position state * 8))
      as (r & g & b & Hc & H1 & H2 & H3 & Hw).
    exists (bounce_next N state), w', r, g, b.
    split; [exact Hstep |]. split; [exact Hc |].
    repeat (split; [assumption |]).
    unfold active_color in Hpx. rewrite Hkey in Hpx. cbn [String.eqb Ascii.eqb Bool.eqb] in Hpx.
    rewrite Hw in Hpx. split; [exact Hpx |].
    unfold bounce_next. rewrite Hkey. cbn [String.eqb Ascii.eqb Bool.eqb].
    destruct state; cbn. apply land_255_mod.
Qed.

Lemma wheel_of_masked_argument_witness :
  0 <= 100 <= 255 /\ wheel_channels 100 = (0, 210, 45) /\
  wheel 100 = 65536 * 0 + 256 * 210 + 45.
Proof.
  split; [lia |]. split; [reflexivity |].
  exact (proj1 (proj2 (proj2 (proj2 (proj2
           (proj1 (proj2 wheel_of_masked_argument) 100 0 210 45 ltac:(lia) eq_refl)))))).
Defined.

(** ** Emergency SOS *)

Lemma subscript_nth {A : Type} (l : list A) (i : Z) (d : A) :
  0 <= i < Py.len l -> Py.subscript l i = Ok (nth (Z.to_nat i) l d).
Proof.
  intros H. unfold Py.subscript.
  assert (E0 : (i <? 0) = false) by (apply Z.ltb_ge; lia).
  assert (E1 : (Py.len l <=? i) = false) by (apply Z.leb_gt; lia).
  rewrite E0. cbv zeta. rewrite E0, E1. simpl orb. cbv iota.
  unfold Py.len in H.
  destruct (nth_error l (Z.to_nat i)) eqn:E.
  - now rewrite (nth_error_nth _ _ d E).
  - apply nth_error_None in E. lia.
Qed.

Lemma emergency_step_ready (N : Z) (state : AppState) (w : World) :
  emergency_ready N state w ->
  exists w',
    pattern_step_emergency N state w = Ok (emergency_next state, w') /\
    emergency_ready N (emergency_next state) w' /\
    pixels_of w' = repeat (emergency_frame_color state) (Z.to_nat N) /\
    frame_of w' = frame_of w + 1.
Proof.
  intros ((vs & Hs & Hc & Hl & Hrw) & Hstep & Hidx).
  unfold pattern_step_emergency, get_strip. rewrite Hs. cbn [bind].
  rewrite (subscript_nth EMERGENCY_SOS_STEPS _ 0) by exact Hstep. cbn [bind].
  rewrite (subscript_nth EMERGENCY_COLORS _ ("", 0)) by exact Hidx. cbn [bind].
  cbv zeta.
  change (if 0 <? nth (Z.to_nat (emergency_step state)) EMERGENCY_SOS_STEPS 0
          then snd (nth (Z.to_nat (emergency_color_index state)) EMERGENCY_COLORS ("", 0))
          else Color 0 0 0) with (emergency_frame_color state).
  rewrite (strip_fill N (emergency_frame_color state) w vs Hs Hc Hl). cbn [bind].
  destruct (strip_show_ok
              (with_strip (Some (with_pixels (repeat (emergency_frame_color state)
                                                     (Z.to_nat N)) vs)) w)
              (with_pixels (repeat (emergency_frame_color state) (Z.to_nat N)) vs)
              eq_refl Hrw)
    as (vs' & out & Hshow & Hpx & Hcnt & Hrw' & Hfr & _).
  rewrite Hshow. cbn [bind].
  exists (write out (with_strip (Some vs') w)).
  assert (Hnext :
    emergency_step (emergency_next state) = (emergency_step state + 1) mod 28 /\
    0 <= emergency_color_index (emergency_next state) < 3).
  { unfold emergency_next. change (Py.len EMERGENCY_SOS_STEPS) with 28.
    change (Py.len EMERGENCY_COLORS) with 3.
    destruct state; simpl in *.
    destruct (Z.leb_spec 28 (emergency_step0 + 1)); simpl.
    - replace (emergency_step0 + 1) with (0 + 1 * 28) by lia.
      rewrite Z.mod_add by lia. split; [reflexivity | apply Z.mod_pos_bound; lia].
    - rewrite Z.mod_small by lia. split; [reflexivity | lia]. }
  split; [| split; [| split]].
  - unfold emergency_next, Py.modulo.
    change (Py.len EMERGENCY_SOS_STEPS) with 28.
    change (Py.len EMERGENCY_COLORS) with 3. simpl (3 =? 0).
    destruct (28 <=? emergency_step (set_emergency_step (emergency_step state + 1) state));
      reflexivity.
  - split; [| split].
    + exists vs'. simpl. split; [reflexivity |].
      split; [rewrite Hcnt; exact Hc | split; [| rewrite Hrw'; exact Hrw]].
      rewrite Hpx. simpl. unfold Py.len. rewrite repeat_length.
      unfold Py.len in Hl. lia.
    + destruct Hnext as (-> & _). apply Z.mod_pos_bound. lia.
    + apply Hnext.
  - unfold pixels_of. simpl. exact Hpx.
  - unfold frame_of. simpl. rewrite Hs. exact Hfr.
Qed.

Lemma emergency_next_fields (state : AppState) :
  0 <= emergency_step state < 28 ->
  emergency_step (emergency_next state) = (emergency_step state + 1) mod 28 /\
  emergency_color_index (emergency_next state)
  = (if emergency_step state =? 27
     then (emergency_color_index state + 1) mod 3
     else emergency_color_index state).
Proof.
  intros H. unfold emergency_next. change (Py.len EMERGENCY_SOS_STEPS) with 28.
  change (Py.len EMERGENCY_COLORS) with 3.
  destruct state; simpl in *.
  destruct (Z.leb_spec 28 (emergency_step0 + 1));
    destruct (Z.eqb_spec emergency_step0 27); try lia; simpl.
  - subst. split; reflexivity.
  - rewrite Z.mod_small by lia. split; reflexivity.
Qed.

Lemma emergency_steps (N : Z) (k : nat) :
  forall state w,
    emergency_ready N state w ->
    exists state' w',
      steps k (pattern_step_emergency N) state w = Ok (state', w') /\
      emergency_ready N state' w' /\
      emergency_step state' = (emergency_step state + Z.of_nat k) mod 28 /\
      emergency_color_index state'
      = (emergency_color_index state + (emergency_step state + Z.of_nat k) / 28) mod 3.
Proof.
  induction k as [| k IH]; intros state w Hr.
  - exists state, w. split; [reflexivity | split; [exact Hr |]].
    destruct Hr as (_ & Hs & Hi). change (Z.of_nat 0) with 0. rewrite Z.add_0_r.
    rewrite (Z.div_small (emergency_step state) 28) by lia.
    rewrite Z.add_0_r, !Z.mod_small by lia. split; reflexivity.
  - destruct (emergency_step_ready N state w Hr) as (w1 & Hstep & Hr1 & _).
    destruct (IH _ _ Hr1) as (s' & w' & Hsteps & Hr' & Hs' & Hi').
    exists s', w'. simpl steps. rewrite Hstep. cbn [bind].
    split; [exact Hsteps | split; [exact Hr' |]].
    destruct Hr as (_ & Hs & Hi).
    destruct (emergency_next_fields state Hs) as (E1 & E2).
    rewrite Hs', Hi', E1, E2, Nat2Z.inj_succ. split.
    + rewrite Z.add_mod_idemp_l by lia. f_equal. lia.
    + destruct (Z.eqb_spec (emergency_step state) 27) as [E | E].
      * rewrite E. change ((27 + 1) mod 28) with 0.
        rewrite Z.add_mod_idemp_l by lia.
        replace (27 + Z.succ (Z.of_nat k)) with (Z.of_nat k + 1 * 28) by lia.
        rewrite Z.div_add by lia. rewrite Z.add_0_l. f_equal. lia.
      * rewrite (Z.mod_small (emergency_step state + 1)) by lia.
        replace (emergency_step state + Z.succ (Z.of_nat k))
          with (emergency_step state + 1 + Z.of_nat k) by lia.
        reflexivity.
Qed.

(** C5. The SOS waveform has 28 entries; from step 0, 28 emergency steps
    bring the step index back to 0 and advance the colour index by one
    modulo 3, and 84 steps bring the colour index back to where it was. *)
Theorem emergency_waveform_period :
  Py.len EMERGENCY_SOS_STEPS = 28 /\
  forall N state w,
    sink_ok N w ->
    emergency_step state = 0 ->
    0 <= emergency_color_index state < 3 ->
    (exists state' w',
        steps 28 (pattern_step_emergency N) state w = Ok (state', w') /\
        emergency_step state' = 0 /\
        emergency_color_index state' = (emergency_color_index state + 1) mod 3) /\
    (exists state' w',
        steps 84 (pattern_step_emergency N) state w = Ok (state', w') /\
        emergency_step state' = 0 /\
        emergency_color_index state' = emergency_color_index state).
Proof.
  split; [reflexivity |].
  intros N state w Hw Hs Hi.
  assert (Hr : emergency_ready N state w) by (repeat split; try assumption; lia).
  split.
  - destruct (emergency_steps N 28 state w Hr) as (s' & w' & H1 & _ & H2 & H3).
    exists s', w'. rewrite H2, H3, Hs. repeat split; try assumption.
  - destruct (emergency_steps N 84 state w Hr) as (s' & w' & H1 & _ & H2 & H3).
    exists s', w'. rewrite H2, H3, Hs. split; [exact H1 | split; [reflexivity |]].
    change ((0 + Z.of_nat 84) / 28) with (1 * 3).
    rewrite Z.mod_add by lia. apply Z.mod_small. exact Hi.
Qed.

Lemma emergency_waveform_period_witness :
  sink_ok 4 (test_world 4) /\
  exists state' w',
    steps 28 (pattern_step_emergency 4) default_state (test_world 4) = Ok (state', w') /\
    emergency_step state' = 0 /\
    emergency_color_index state' = (emergency_color_index default_state + 1) mod 3.
Proof.
  assert (H : sink_ok 4 (test_world 4)) by (apply test_world_ok; lia).
  split; [exact H |].
  exact (proj1 (proj2 emergency_waveform_period 4 default_state (test_world 4) H
                      eq_refl ltac:(simpl; lia))).
Defined.

(** ** Frame delay *)

(** C3, with the order of the table as it is. Emergency SOS always waits
    0.12 s; Chase, Random and Bounce wait the entry of the table for their
    pattern and speed; every entry lies in [[0.008, 0.30]]; and at each speed
    the Chase and Bounce delays are shorter than the Random delay. *)
Theorem get_delay_table :
  (forall state,
      pattern state = "4" -> get_delay state = Ok (Py.literal 12 100)) /\
  (forall state,
      In (pattern state) ["1"; "2"; "3"] ->
      In (speed state) ["1"; "2"; "3"] ->
      exists row d,
        Py.get SPEED_MAP (pattern state) = Some row /\
        Py.get row (speed state) = Some d /\
        get_delay state = Ok d /\
        float_le (Py.literal 8 1000) d = true /\
        float_le d (Py.literal 30 100) = true) /\
  (forall s,
      In s ["1"; "2"; "3"] ->
      exists chase random bounce,
        get_delay (with_pattern_speed "1" s) = Ok chase /\
        get_delay (with_pattern_speed "2" s) = Ok random /\
        get_delay (with_pattern_speed "3" s) = Ok bounce /\
        float_lt chase random = true /\
        float_lt bounce random = true).
Proof.
  split; [| split].
  - intros state H. unfold get_delay. rewrite H. reflexivity.
  - intros state Hp Hs. unfold get_delay.
    simpl in Hp, Hs.
    destruct Hp as [<- | [<- | [<- | []]]];
      destruct Hs as [<- | [<- | [<- | []]]];
      do 2 eexists; (split; [reflexivity |]); (split; [reflexivity |]);
      (split; [reflexivity |]); split; vm_compute; reflexivity.
  - intros s Hs. simpl in Hs.
    destruct Hs as [<- | [<- | [<- | []]]];
      do 3 eexists; (split; [reflexivity |]); (split; [reflexivity |]);
      (split; [reflexivity |]); split; vm_compute; reflexivity.
Qed.

Lemma get_delay_table_witness :
  pattern (with_pattern_speed "4" "1") = "4" /\
  get_delay (with_pattern_speed "4" "1") = Ok (Py.literal 12 100).
Proof.
  split; [reflexivity |].
  exact (proj1 get_delay_table (with_pattern_speed "4" "1") eq_refl).
Defined.

Lemma chase_delay_not_above_random :
  exists chase random,
    get_delay (with_pattern_speed "1" "1") = Ok chase /\
    get_delay (with_pattern_speed "2" "1") = Ok random /\
    chase = Py.literal 8 100 /\ random = Py.literal 30 100 /\
    float_lt random chase = false.
Proof. do 2 eexists. repeat split. Qed.

(** ** The rendered frame *)

Lemma color_to_ascii_glyph (c : Z) : color_to_ascii c = String (glyph c) "".
Proof.
  unfold glyph, color_to_ascii.
  destruct (c =? 0); [reflexivity |].
  destruct (_ && _); [reflexivity |].
  destruct (_ && _); [reflexivity |].
  destruct (_ && _); reflexivity.
Qed.

Lemma concat_glyphs (px : list Z) :
  String.concat "" (map color_to_ascii px) = string_of_list_ascii (map glyph px).
Proof.
  induction px as [| c px IH]; [reflexivity |].
  simpl map. simpl string_of_list_ascii. rewrite <- IH.
  simpl String.concat. rewrite color_to_ascii_glyph.
  destruct (map color_to_ascii px); reflexivity.
Qed.

Lemma string_of_list_ascii_length (l : list ascii) :
  String.length (string_of_list_ascii l) = List.length l.
Proof. induction l as [| a l IH]; simpl; [reflexivity | now rewrite IH]. Qed.

Lemma glyph_cases (c : Z) :
  let r := red_of c in
  let g := green_of c in
  let b := blue_of c in
  (c = 0 -> glyph c = "."%char) /\
  (c <> 0 -> 180 < r -> 180 < g -> 180 < b -> glyph c = "W"%char) /\
  (c <> 0 -> ~ (180 < r /\ 180 < g /\ 180 < b) ->
   (g <= r -> b <= r -> glyph c = "R"%char) /\
   (r < g -> b <= g -> glyph c = "G"%char) /\
   (r < b -> g < b -> glyph c = "B"%char)).
Proof.
  intros r g b. subst r g b. unfold glyph, color_to_ascii.
  fold (red_of c) (green_of c) (blue_of c).
  generalize (red_of c) (green_of c) (blue_of c). intros r g b.
  destruct (Z.eqb_spec c 0) as [E | E].
  - repeat split; intros; try reflexivity; contradiction.
  - split; [contradiction |].
    destruct (Z.ltb_spec 180 r); destruct (Z.ltb_spec 180 g);
      destruct (Z.ltb_spec 180 b); cbn [andb];
      (split; [intros; try reflexivity; lia |]); intros _ Hw;
      try (exfalso; apply Hw; repeat split; assumption);
      destruct (Z.leb_spec g r); destruct (Z.leb_spec b r);
      destruct (Z.leb_spec r g); destruct (Z.leb_spec b g);
      cbn [andb]; repeat split; intros; try reflexivity; lia.
Qed.

(** C9. When standard output is not a terminal, a flush writes one line:
    the prefix ["Frame %04d | "] carrying the frame counter (0 in a new sink,
    one more at each flush) followed by one glyph per pixel, each among
    ['.'], ['W'], ['R'], ['G'], ['B']: ['.'] for colour 0, ['W'] when the three
    channels exceed 180, otherwise the letter of the largest channel, red
    before green before blue on ties; the first flush of a new 4-pixel sink
    writes ["Frame 0001 | ...."]. *)
Theorem show_renders_glyph_line :
  (forall vs,
      exists vs',
        show vs false
        = Ok (vs', [("Frame " ++ Py.format_0d 4 (frame vs + 1) ++ " | "
                     ++ string_of_list_ascii (map glyph (pixels vs)) ++ LF)%string]) /\
        frame vs' = frame vs + 1 /\
        pixels vs' = pixels vs /\
        String.length (string_of_list_ascii (map glyph (pixels vs)))
        = List.length (pixels vs)) /\
  (forall c,
      let r := red_of c in
      let g := green_of c in
      let b := blue_of c in
      In (glyph c) ["."; "W"; "R"; "G"; "B"]%char /\
      (c = 0 -> glyph c = "."%char) /\
      (c <> 0 -> 180 < r -> 180 < g -> 180 < b -> glyph c = "W"%char) /\
      (c <> 0 -> ~ (180 < r /\ 180 < g /\ 180 < b) ->
       (g <= r -> b <= r -> glyph c = "R"%char) /\
       (r < g -> b <= g -> glyph c = "G"%char) /\
       (r < b -> g < b -> glyph c = "B"%char))) /\
  (forall count terminal_width, frame (new_VirtualStrip count terminal_width) = 0) /\
  (forall terminal_width,
      exists vs',
        show (new_VirtualStrip 4 terminal_width) false
        = Ok (vs', [("Frame 0001 | ...." ++ LF)%string])).
Proof.
  split; [| split; [| split]].
  - intros vs. eexists. split; [| split; [| split]].
    + unfold show. simpl negb. cbv iota. rewrite concat_glyphs.
      unfold frame_prefix. rewrite !string_app_assoc. reflexivity.
    + reflexivity.
    + reflexivity.
    + rewrite string_of_list_ascii_length. apply length_map.
  - intros c r g b. split; [| exact (glyph_cases c)].
    unfold glyph, color_to_ascii.
    destruct (c =? 0); [simpl; auto |].
    destruct (_ && _); [simpl; auto |].
    destruct (_ && _); [simpl; auto |].
    destruct (_ && _); simpl; auto 6.
  - reflexivity.
  - intros tw. eexists. reflexivity.
Qed.

Lemma show_renders_glyph_line_witness :
  glyph (Color 255 140 0) = "R"%char.
Proof.
  refine (proj1 (proj2 (proj2 (proj2 (proj1 (proj2 show_renders_glyph_line)
                                            (Color 255 140 0)))) _ _) _ _).
  - discriminate.
  - intros (_ & H & _). vm_compute in H. discriminate H.
  - vm_compute. discriminate.
  - vm_compute. discriminate.
Defined.

(** ** Rounding never exceeds an integer bound *)

Lemma digits2_pos_le (p : positive) :
  forall k, 0 <= k -> Zpos p < 2 ^ k -> Zpos (digits2_pos p) <= k.
Proof.
  induction p as [p IH | p IH |]; intros k Hk H; simpl digits2_pos.
  - assert (k <> 0) by (intros ->; simpl in H; lia).
    replace k with (Z.succ (k - 1)) in H by lia.
    rewrite Z.pow_succ_r in H by lia.
    specialize (IH (k - 1) ltac:(lia) ltac:(lia)). lia.
  - assert (k <> 0) by (intros ->; simpl in H; lia).
    replace k with (Z.succ (k - 1)) in H by lia.
    rewrite Z.pow_succ_r in H by lia.
    specialize (IH (k - 1) ltac:(lia) ltac:(lia)). lia.
  - assert (k <> 0) by (intros ->; simpl in H; lia). lia.
Qed.

Lemma shr_1_upper (mrs : shr_record) (U : Z) :
  0 <= shr_m mrs -> upper mrs <= 2 * U ->
  0 <= shr_m (shr_1 mrs) /\ upper (shr_1 mrs) <= U.
Proof.
  destruct mrs as [m r s]. unfold upper. intros H1 H2.
  destruct m as [| p | p]; [| destruct p |]; destruct r, s;
    cbn -[Z.mul Z.add] in *; lia.
Qed.

Lemma iter_shr_1_upper (p : positive) :
  forall mrs U,
    0 <= shr_m mrs -> upper mrs <= 2 ^ Zpos p * U ->
    0 <= shr_m (iter_pos shr_1 p mrs) /\ upper (iter_pos shr_1 p mrs) <= U.
Proof.
  induction p as [p IH | p IH |]; intros mrs U Hm Hu; simpl iter_pos.
  - replace (Zpos p~1) with (Zpos p + Zpos p + 1) in Hu by lia.
    rewrite !Z.pow_add_r in Hu by lia. change (2 ^ 1) with 2 in Hu.
    destruct (shr_1_upper mrs (2 ^ Zpos p * (2 ^ Zpos p * U)) Hm ltac:(lia)) as [H1 H2].
    destruct (IH _ _ H1 H2) as [H3 H4]. exact (IH _ _ H3 H4).
  - replace (Zpos p~0) with (Zpos p + Zpos p) in Hu by lia.
    rewrite Z.pow_add_r in Hu by lia.
    destruct (IH mrs (2 ^ Zpos p * U) Hm ltac:(lia)) as [H3 H4]. exact (IH _ _ H3 H4).
  - apply shr_1_upper; [exact Hm | exact Hu].
Qed.

Lemma upper_of_loc (m : Z) (l : location) :
  upper (shr_record_of_loc m l) = m + inexact l /\ shr_m (shr_record_of_loc m l) = m.
Proof. destruct l as [| []]; split; reflexivity. Qed.

Lemma shr_fexp_upper (m e : Z) (l : location) (B : Z) :
  0 <= m -> e <= 0 -> 0 <= B < 2 ^ 53 ->
  m + inexact l <= B * 2 ^ (- e) ->
  let '(mrs, e') := shr_fexp Py.prec Py.emax m e l in
  e' <= 0 /\ 0 <= shr_m mrs /\ upper mrs <= B * 2 ^ (- e').
Proof.
  intros Hm He HB Hu. unfold shr_fexp, shr.
  destruct (upper_of_loc m l) as [E1 E2].
  set (n := fexp Py.prec Py.emax (Zdigits2 m + e) - e).
  assert (Hn : n <= - e).
  { subst n. unfold fexp, emin, Py.prec, Py.emax.
    assert (Zdigits2 m <= 53 - e).
    { destruct m as [| p | p]; simpl Zdigits2; [lia | | lia].
      apply digits2_pos_le; [lia |].
      assert (inexact l >= 0) by (destruct l; simpl; lia).
      assert (0 < 2 ^ (- e)) by (apply Z.pow_pos_nonneg; lia).
      replace (53 - e) with (53 + - e) by lia.
      rewrite Z.pow_add_r by lia. nia. }
    lia. }
  destruct n as [| p | p] eqn:En.
  - rewrite E1, E2. repeat split; assumption.
  - assert (Hsplit : 2 ^ (- e) = 2 ^ Zpos p * 2 ^ (- (e + Zpos p)))
      by (rewrite <- Z.pow_add_r by lia; f_equal; lia).
    destruct (iter_shr_1_upper p (shr_record_of_loc m l) (B * 2 ^ (- (e + Zpos p))))
      as [H1 H2].
    + rewrite E2. exact Hm.
    + rewrite E1, Hsplit in *. lia.
    + repeat split; [lia | exact H1 | exact H2].
  - rewrite E1, E2. repeat split; assumption.
Qed.

Lemma round_nearest_even_upper (mrs : shr_record) :
  0 <= shr_m mrs ->
  0 <= round_nearest_even (shr_m mrs) (loc_of_shr_record mrs) <= upper mrs.
Proof.
  intros H. unfold upper. destruct mrs as [m r s]. simpl in *.
  destruct r, s; simpl; try destruct (Z.even m); lia.
Qed.

Lemma binary_round_aux_at_most (m e : Z) (l : location) (B : Z) :
  0 <= m -> e <= 0 -> 0 <= B < 2 ^ 53 ->
  m + inexact l <= B * 2 ^ (- e) ->
  float_at_most (binary_round_aux Py.prec Py.emax false m e l) B.
Proof.
  intros Hm He HB Hu. unfold binary_round_aux.
  pose proof (shr_fexp_upper m e l B Hm He HB Hu) as H1.
  destruct (shr_fexp Py.prec Py.emax m e l) as [mrs1 e1].
  destruct H1 as (He1 & Hm1 & Hu1).
  pose proof (round_nearest_even_upper mrs1 Hm1) as Hr.
  set (m2 := round_nearest_even (shr_m mrs1) (loc_of_shr_record mrs1)) in *.
  pose proof (shr_fexp_upper m2 e1 loc_Exact B ltac:(lia) He1 HB ltac:(simpl; lia)) as H2.
  destruct (shr_fexp Py.prec Py.emax m2 e1 loc_Exact) as [mrs2 e2].
  destruct H2 as (He2 & Hm2 & Hu2).
  assert (Hle : shr_m mrs2 <= upper mrs2)
    by (unfold upper; destruct (loc_of_shr_record mrs2); simpl; lia).
  destruct (shr_m mrs2) as [| p | p] eqn:E; cbv iota.
  - exact Logic.I.
  - change (Py.emax - Py.prec) with 971.
    destruct (Z.leb_spec e2 971); [| lia].
    split; [exact He2 | lia].
  - lia.
Qed.

Lemma small_int_float_check_all : forallb small_int_float_check (Py.range 256) = true.
Proof. vm_compute. reflexivity. Qed.

Lemma float_at_most_finite (x : Py.float) (B : Z) :
  float_at_most x B -> Py.overflow_check x = Ok x.
Proof. destruct x as [| | | [] m e]; simpl; intros H; try reflexivity; contradiction. Qed.

Lemma new_location_inexact (a r : Z) :
  inexact (new_location a r) = if r =? 0 then 0 else 1.
Proof.
  unfold new_location, new_location_even, new_location_odd.
  destruct (Z.even a); destruct (r =? 0); reflexivity.
Qed.

Lemma truediv_at_most (b a B : Z) :
  0 <= b -> 0 < a -> 0 <= B < 2 ^ 53 -> b <= B * a ->
  exists x, Py.truediv b a = Ok x /\ float_at_most x B.
Proof.
  intros Hb Ha HB Hle. unfold Py.truediv.
  destruct (Z.eqb_spec a 0); [lia |].
  replace (b <? 0) with false by (symmetry; apply Z.ltb_ge; lia).
  replace (a <? 0) with false by (symmetry; apply Z.ltb_ge; lia).
  simpl xorb. cbv zeta.
  destruct (Z.eqb_spec b 0); [eexists; split; [reflexivity | exact Logic.I] |].
  rewrite !Z.abs_eq by lia.
  unfold SFdiv_core_binary.
  set (e' := Z.min _ (0 - 0)).
  assert (He' : e' <= 0) by (subst e'; lia).
  set (m' := match 0 - 0 - e' with Z0 => b | Zpos _ => Z.shiftl b (0 - 0 - e') | Zneg _ => 0 end).
  assert (Hm' : m' = b * 2 ^ (- e')).
  { subst m'. replace (0 - 0 - e') with (- e') by lia.
    destruct (- e') as [| p | p] eqn:E; [simpl; lia | | lia].
    rewrite Z.shiftl_mul_pow2 by lia. reflexivity. }
  pose proof (Z.div_eucl_eq m' a ltac:(lia)) as Hdiv.
  pose proof (Z.mod_pos_bound m' a Ha) as Hmod.
  unfold Z.modulo in Hmod.
  destruct (Z.div_eucl m' a) as [q r].
  assert (Hp : 0 < 2 ^ (- e')) by (apply Z.pow_pos_nonneg; lia).
  assert (Hq : 0 <= q) by nia.
  assert (Hu : q + inexact (new_location a r) <= B * 2 ^ (- e')).
  { rewrite new_location_inexact. destruct (Z.eqb_spec r 0); nia. }
  pose proof (binary_round_aux_at_most q e' (new_location a r) B Hq He' HB Hu) as H.
  rewrite (float_at_most_finite _ _ H). eexists. split; [reflexivity | exact H].
Qed.

Lemma mul_int_at_most (x : Py.float) (n B : Z) :
  float_at_most x B -> 0 <= n <= 255 -> 0 <= B -> B * n < 2 ^ 53 ->
  exists y, Py.mul_int x n = Ok y /\ float_at_most y (B * n).
Proof.
  intros Hx Hn HB Hlt. unfold Py.mul_int.
  pose proof (range_forallb _ 256 small_int_float_check_all n ltac:(lia)) as Hc.
  unfold small_int_float_check in Hc.
  destruct (Py.float_of_int n) as [[s | s | | [] my ey] | ]; try discriminate; cbn [bind].
  - eexists. split; [reflexivity |].
    destruct x as [| | | [] mx ex]; simpl in *; try contradiction; exact Logic.I.
  - apply andb_prop in Hc. destruct Hc as [He Hm].
    apply Z.leb_le in He. apply Z.eqb_eq in Hm.
    eexists. split; [reflexivity |].
    destruct x as [| | | [] mx ex]; simpl in Hx; try contradiction; [exact Logic.I |].
    destruct Hx as [Hex Hmx]. unfold SFmul. simpl xorb.
    apply binary_round_aux_at_most; [lia | lia | nia |].
    simpl inexact. rewrite Pos2Z.inj_mul, Hm.
    replace (- (ex + ey)) with (- ex + - ey) by lia.
    rewrite Z.pow_add_r by lia.
    assert (0 < 2 ^ (- ey)) by (apply Z.pow_pos_nonneg; lia).
    nia.
Qed.

Lemma int_of_float_at_most (x : Py.float) (B : Z) :
  float_at_most x B -> 0 <= B ->
  exists z, Py.int_of_float x = Ok z /\ 0 <= z <= B.
Proof.
  intros Hx HB. destruct x as [| | | [] m e]; simpl in Hx; try contradiction.
  - exists 0. split; [reflexivity | lia].
  - destruct Hx as [He Hm]. unfold Py.int_of_float. eexists. split; [reflexivity |].
    assert (Hp : 0 < 2 ^ (- e)) by (apply Z.pow_pos_nonneg; lia).
    destruct (Z.leb_spec 0 e).
    + replace e with 0 in * by lia. simpl in *. lia.
    + split; [apply Z.div_pos; lia |].
      apply Z.div_le_upper_bound; [lia | lia].
Qed.

Lemma truediv_same (a : Z) :
  0 < a -> Py.truediv a a = Ok (S754_finite false 4503599627370496 (-52)).
Proof.
  intros Ha. unfold Py.truediv.
  destruct (Z.eqb_spec a 0); [lia |].
  replace (a <? 0) with false by (symmetry; apply Z.ltb_ge; lia).
  simpl xorb. cbv zeta. rewrite Z.abs_eq by lia.
  unfold SFdiv_core_binary.
  replace (Zdigits2 a + 0 - (Zdigits2 a + 0)) with 0 by lia.
  change (Z.min (fexp Py.prec Py.emax 0) (0 - 0)) with (-53).
  change (0 - 0 - -53) with 53. cbv iota.
  rewrite Z.shiftl_mul_pow2 by lia.
  assert (Hq : (a * 2 ^ 53) / a = 2 ^ 53)
    by (rewrite Z.mul_comm; apply Z.div_mul; lia).
  assert (Hr : (a * 2 ^ 53) mod a = 0)
    by (rewrite Z.mul_comm; apply Z.mod_mul; lia).
  unfold Z.div in Hq. unfold Z.modulo in Hr.
  destruct (Z.div_eucl (a * 2 ^ 53) a) as [q r].
  simpl in Hq, Hr. subst q r.
  assert (El : new_location a 0 = loc_Exact)
    by (unfold new_location, new_location_even, new_location_odd;
        destruct (Z.even a); reflexivity).
  rewrite El. vm_compute. reflexivity.
Qed.

(** ** Rounding stays within one unit *)

Lemma shr_1_cut (mrs : shr_record) (W X : Z) :
  0 <= shr_m mrs -> 0 < W -> cut (shr_m mrs) W X ->
  cut (shr_m (shr_1 mrs)) (2 * W) X.
Proof.
  destruct mrs as [m r s]. unfold cut. intros H1 HW H2.
  destruct m as [| p | p]; [| destruct p |]; cbn -[Z.mul Z.add] in *; lia.
Qed.

Lemma iter_shr_1_cut (p : positive) :
  forall mrs W X,
    0 <= shr_m mrs -> 0 < W -> cut (shr_m mrs) W X ->
    cut (shr_m (iter_pos shr_1 p mrs)) (2 ^ Zpos p * W) X.
Proof.
  assert (Hnn : forall mrs, 0 <= shr_m mrs -> 0 <= shr_m (shr_1 mrs)).
  { intros [m r s] H. destruct m as [| q | q]; [| destruct q |]; cbn in *; lia. }
  assert (Hit : forall q mrs, 0 <= shr_m mrs -> 0 <= shr_m (iter_pos shr_1 q mrs)).
  { induction q as [q IHq | q IHq |]; intros mrs H; simpl iter_pos; auto. }
  induction p as [p IH | p IH |]; intros mrs W X Hm HW Hc; simpl iter_pos.
  - replace (2 ^ Zpos p~1 * W) with (2 ^ Zpos p * (2 ^ Zpos p * (2 * W))).
    2:{ replace (Zpos p~1) with (Zpos p + Zpos p + 1) by lia.
        rewrite !Z.pow_add_r by lia. change (2 ^ 1) with 2. ring. }
    assert (0 < 2 ^ Zpos p) by (apply Z.pow_pos_nonneg; lia).
    apply IH; [apply Hit, Hnn, Hm | nia |].
    apply IH; [apply Hnn, Hm | lia |]. apply shr_1_cut; assumption.
  - replace (2 ^ Zpos p~0 * W) with (2 ^ Zpos p * (2 ^ Zpos p * W)).
    2:{ replace (Zpos p~0) with (Zpos p + Zpos p) by lia.
        rewrite !Z.pow_add_r by lia. ring. }
    assert (0 < 2 ^ Zpos p) by (apply Z.pow_pos_nonneg; lia).
    apply IH; [apply Hit, Hm | nia |]. apply IH; assumption.
  - change (2 ^ 1) with 2. apply shr_1_cut; assumption.
Qed.

Lemma shr_fexp_cut (m e : Z) (l : location) (d W X : Z) :
  0 <= m -> 0 <= d -> e <= d - 52 ->
  m + inexact l <= 2 ^ (d - e) ->
  0 < W -> cut m W X ->
  let '(mrs, e') := shr_fexp Py.prec Py.emax m e l in
  e <= e' <= d - 52 /\ 0 <= shr_m mrs /\ upper mrs <= 2 ^ (d - e') /\
  cut (shr_m mrs) (2 ^ (e' - e) * W) X.
Proof.
  intros Hm Hd He Hu HW Hc. unfold shr_fexp, shr.
  destruct (upper_of_loc m l) as [E1 E2].
  set (n := fexp Py.prec Py.emax (Zdigits2 m + e) - e).
  assert (Hn : n <= d - 52 - e).
  { subst n. unfold fexp, emin, Py.prec, Py.emax.
    assert (Zdigits2 m <= d - e + 1).
    { destruct m as [| p | p]; simpl Zdigits2; [lia | | lia].
      apply digits2_pos_le; [lia |].
      assert (inexact l >= 0) by (destruct l; simpl; lia).
      replace (d - e + 1) with (Z.succ (d - e)) by lia.
      rewrite Z.pow_succ_r by lia.
      assert (0 < 2 ^ (d - e)) by (apply Z.pow_pos_nonneg; lia). lia. }
    lia. }
  destruct n as [| p | p] eqn:En.
  - rewrite E1, E2, Z.sub_diag. change (2 ^ 0) with 1. rewrite Z.mul_1_l.
    repeat split; try assumption; try lia; apply Hc.
  - assert (Hsplit : 2 ^ (d - e) = 2 ^ Zpos p * 2 ^ (d - (e + Zpos p)))
      by (rewrite <- Z.pow_add_r by lia; f_equal; lia).
    destruct (iter_shr_1_upper p (shr_record_of_loc m l) (2 ^ (d - (e + Zpos p))))
      as [H1 H2].
    + rewrite E2. exact Hm.
    + rewrite E1, <- Hsplit. exact Hu.
    + replace (e + Zpos p - e) with (Zpos p) by lia.
      split; [lia |]. split; [exact H1 |]. split; [exact H2 |].
      apply iter_shr_1_cut; [rewrite E2; exact Hm | exact HW | rewrite E2; exact Hc].
  - rewrite E1, E2, Z.sub_diag. change (2 ^ 0) with 1. rewrite Z.mul_1_l.
    repeat split; try assumption; try lia; apply Hc.
Qed.

Lemma round_nearest_even_step (mrs : shr_record) :
  shr_m mrs <= round_nearest_even (shr_m mrs) (loc_of_shr_record mrs) <= shr_m mrs + 1.
Proof.
  destruct mrs as [m r s]. simpl.
  destruct r, s; simpl; try destruct (Z.even m); lia.
Qed.

Lemma binary_round_aux_near (m e : Z) (l : location) (d W X : Z) :
  0 <= m -> 0 <= d <= 1000 -> e <= d - 52 ->
  m + inexact l <= 2 ^ (d - e) ->
  0 < W -> cut m W X ->
  exists mf ef,
    float_is (binary_round_aux Py.prec Py.emax false m e l) mf ef /\
    e <= ef <= d - 52 /\ 0 <= mf /\ near mf (2 ^ (ef - e) * W) X.
Proof.
  intros Hm Hd He Hu HW Hc. unfold binary_round_aux.
  pose proof (shr_fexp_cut m e l d W X Hm ltac:(lia) He Hu HW Hc) as H1.
  destruct (shr_fexp Py.prec Py.emax m e l) as [mrs1 e1].
  destruct H1 as (He1 & Hm1 & Hu1 & Hc1).
  pose proof (round_nearest_even_upper mrs1 Hm1) as Hr.
  pose proof (round_nearest_even_step mrs1) as Hs.
  set (m2 := round_nearest_even (shr_m mrs1) (loc_of_shr_record mrs1)) in *.
  pose proof (shr_fexp_cut m2 e1 loc_Exact d 1 m2 ltac:(lia) ltac:(lia) ltac:(lia)
                ltac:(simpl; lia) ltac:(lia) ltac:(unfold cut; lia)) as H2.
  destruct (shr_fexp Py.prec Py.emax m2 e1 loc_Exact) as [mrs2 e2].
  destruct H2 as (He2 & Hm2 & _ & Hc2).
  rewrite Z.mul_1_r in Hc2.
  assert (Hnear : near (shr_m mrs2) (2 ^ (e2 - e) * W) X).
  { replace (e2 - e) with ((e2 - e1) + (e1 - e)) by lia.
    rewrite Z.pow_add_r by lia.
    set (S2 := 2 ^ (e2 - e1)) in *. set (S1 := 2 ^ (e1 - e)) in *.
    assert (0 < S1) by (apply Z.pow_pos_nonneg; lia).
    assert (0 < S2) by (apply Z.pow_pos_nonneg; lia).
    unfold cut, near in *. set (mf := shr_m mrs2) in *. set (m1 := shr_m mrs1) in *.
    set (V := S1 * W) in *. assert (0 < V) by nia.
    replace (S2 * S1 * W) with (S2 * V) by (subst V; ring).
    split.
    - apply Z.le_trans with (m1 * V); [| lia].
      replace ((mf - 1) * (S2 * V)) with (((mf - 1) * S2) * V) by ring.
      apply Z.mul_le_mono_nonneg_r; [lia | nia].
    - apply Z.lt_le_trans with ((m1 + 1) * V); [lia |].
      replace ((mf + 1) * (S2 * V)) with (((mf + 1) * S2) * V) by ring.
      apply Z.mul_le_mono_nonneg_r; [lia | nia]. }
  destruct (shr_m mrs2) as [| p | p] eqn:E; cbv iota.
  - exists 0, e2. split; [reflexivity |]. split; [lia |]. split; [lia | exact Hnear].
  - change (Py.emax - Py.prec) with 971.
    destruct (Z.leb_spec e2 971); [| lia].
    exists (Zpos p), e2. split; [split; reflexivity |]. split; [lia |].
    split; [lia | exact Hnear].
  - lia.
Qed.

Lemma digits2_pos_above (p : positive) : Zpos p < 2 ^ Zpos (digits2_pos p).
Proof.
  induction p as [p IH | p IH |]; simpl digits2_pos;
    rewrite ?Pos2Z.inj_succ, ?Z.pow_succ_r by lia; lia.
Qed.

Lemma Zdigits2_le (b a : Z) : 0 < b <= a -> Zdigits2 b <= Zdigits2 a.
Proof.
  intros H. destruct b as [| pb | pb]; [lia | | lia].
  destruct a as [| pa | pa]; [lia | | lia]. simpl.
  apply digits2_pos_le; [lia |].
  pose proof (digits2_pos_above pa). lia.
Qed.

Lemma float_is_finite (x : Py.float) (m e : Z) :
  float_is x m e -> Py.overflow_check x = Ok x.
Proof. destruct x as [[] | | | [] p e']; simpl; intros H; try reflexivity; contradiction. Qed.

Lemma truediv_near (b a : Z) :
  1 <= b <= a ->
  exists q mq eq,
    Py.truediv b a = Ok q /\ float_is q mq eq /\
    eq <= -52 /\ 0 <= mq /\ near mq a (b * 2 ^ (- eq)).
Proof.
  intros Hb. unfold Py.truediv.
  destruct (Z.eqb_spec a 0); [lia |].
  replace (b <? 0) with false by (symmetry; apply Z.ltb_ge; lia).
  replace (a <? 0) with false by (symmetry; apply Z.ltb_ge; lia).
  simpl xorb. cbv zeta.
  destruct (Z.eqb_spec b 0); [lia |].
  rewrite !Z.abs_eq by lia.
  unfold SFdiv_core_binary.
  set (e' := Z.min _ (0 - 0)).
  assert (He' : e' <= -52).
  { subst e'. pose proof (Zdigits2_le b a ltac:(lia)).
    unfold fexp, emin, Py.prec, Py.emax. lia. }
  set (m' := match 0 - 0 - e' with Z0 => b | Zpos _ => Z.shiftl b (0 - 0 - e') | Zneg _ => 0 end).
  assert (Hm' : m' = b * 2 ^ (- e')).
  { subst m'. replace (0 - 0 - e') with (- e') by lia.
    destruct (- e') as [| p | p] eqn:E; [simpl; lia | | lia].
    rewrite Z.shiftl_mul_pow2 by lia. reflexivity. }
  pose proof (Z.div_eucl_eq m' a ltac:(lia)) as Hdiv.
  pose proof (Z.mod_pos_bound m' a ltac:(lia)) as Hmod.
  unfold Z.modulo in Hmod.
  destruct (Z.div_eucl m' a) as [q r].
  assert (Hp : 0 < 2 ^ (- e')) by (apply Z.pow_pos_nonneg; lia).
  assert (Hq : 0 <= q) by nia.
  assert (Hu : q + inexact (new_location a r) <= 2 ^ (0 - e')).
  { rewrite new_location_inexact. replace (0 - e') with (- e') by lia.
    destruct (Z.eqb_spec r 0); nia. }
  destruct (binary_round_aux_near q e' (new_location a r) 0 a m' Hq ltac:(lia)
              ltac:(lia) Hu ltac:(lia) ltac:(unfold cut; lia))
    as (mf & ef & Hf & Hef & Hmf & Hn).
  rewrite (float_is_finite _ _ _ Hf).
  eexists _, mf, ef. split; [reflexivity |]. split; [exact Hf |].
  split; [lia |]. split; [exact Hmf |].
  unfold near in *. rewrite Hm' in Hn.
  assert (HS : 0 < 2 ^ (ef - e')) by (apply Z.pow_pos_nonneg; lia).
  assert (HT : 2 ^ (- e') = 2 ^ (- ef) * 2 ^ (ef - e'))
    by (rewrite <- Z.pow_add_r by lia; f_equal; lia).
  rewrite HT in Hn. set (S := 2 ^ (ef - e')) in *. set (T := 2 ^ (- ef)) in *.
  split.
  - apply Z.mul_le_mono_pos_r with S; [exact HS |]. lia.
  - apply Z.mul_lt_mono_pos_r with S; [exact HS |]. lia.
Qed.

Lemma mul_int_near (q : Py.float) (mq eq mb : Z) :
  float_is q mq eq -> 0 < mq -> eq <= -52 -> mq <= 2 ^ (- eq) + 1 ->
  1 <= mb <= 255 ->
  exists p mp ep,
    Py.mul_int q mb = Ok p /\ float_is p mp ep /\
    ep <= -44 /\ 0 <= mp /\ near mp (2 ^ (- eq)) (mq * mb * 2 ^ (- ep)).
Proof.
  intros Hq Hpos He Hmq Hmb. unfold Py.mul_int.
  pose proof (range_forallb _ 256 small_int_float_check_all mb ltac:(lia)) as Hc.
  unfold small_int_float_check in Hc.
  destruct (Py.float_of_int mb) as [[s | s | | [] mm em] | ]; try discriminate; cbn [bind].
  { apply Z.eqb_eq in Hc. lia. }
  apply andb_prop in Hc. destruct Hc as [Hem Hmm].
  apply Z.leb_le in Hem. apply Z.eqb_eq in Hmm.
  destruct q as [[] | | | [] pq eq']; simpl in Hq; try contradiction; try lia.
  destruct Hq as [-> ->]. unfold SFmul. simpl xorb.
  set (Tq := 2 ^ (- eq')) in *. set (Tm := 2 ^ (- em)) in *.
  assert (HTq : 2 ^ 52 <= Tq) by (apply Z.pow_le_mono_r; lia).
  assert (HTm : 0 < Tm) by (apply Z.pow_pos_nonneg; lia).
  assert (Hm : Zpos (pq * mm) = Zpos pq * mb * Tm) by (rewrite Pos2Z.inj_mul, Hmm; ring).
  assert (Hu : Zpos (pq * mm) + inexact loc_Exact <= 2 ^ (8 - (eq' + em))).
  { replace (8 - (eq' + em)) with (8 + (- eq' + - em)) by lia.
    rewrite !Z.pow_add_r by lia. fold Tq Tm. rewrite Hm. simpl inexact.
    change (2 ^ 8) with 256. change (2 ^ 52) with 4503599627370496 in HTq.
    assert (Zpos pq * mb <= 256 * Tq) by nia.
    replace (256 * (Tq * Tm)) with (256 * Tq * Tm) by ring.
    rewrite Z.add_0_r. apply Z.mul_le_mono_nonneg_r; lia. }
  destruct (binary_round_aux_near (Zpos (pq * mm)) (eq' + em) loc_Exact 8 1
              (Zpos (pq * mm)) ltac:(lia) ltac:(lia) ltac:(lia) Hu ltac:(lia)
              ltac:(unfold cut; lia))
    as (mp & ep & Hf & Hep & Hmp & Hn).
  eexists _, mp, ep. split; [reflexivity |]. split; [exact Hf |].
  split; [lia |]. split; [exact Hmp |].
  unfold near in *. rewrite Z.mul_1_r, Hm in Hn.
  set (S := 2 ^ (ep - (eq' + em))) in *. set (Tp := 2 ^ (- ep)).
  assert (HTp : 0 < Tp) by (apply Z.pow_pos_nonneg; lia).
  assert (HS : S * Tp = Tq * Tm).
  { subst S Tp Tq Tm. rewrite <- !Z.pow_add_r by lia. f_equal. lia. }
  destruct Hn as [Hlo Hhi]. split.
  - apply Z.mul_le_mono_pos_r with Tm; [exact HTm |].
    replace ((mp - 1) * Tq * Tm) with ((mp - 1) * (S * Tp)) by (rewrite HS; ring).
    replace (Zpos pq * mb * Tp * Tm) with (Zpos pq * mb * Tm * Tp) by ring.
    replace ((mp - 1) * (S * Tp)) with ((mp - 1) * S * Tp) by ring.
    apply Z.mul_le_mono_nonneg_r; lia.
  - apply Z.mul_lt_mono_pos_r with Tm; [exact HTm |].
    replace ((mp + 1) * Tq * Tm) with ((mp + 1) * (S * Tp)) by (rewrite HS; ring).
    replace (Zpos pq * mb * Tp * Tm) with (Zpos pq * mb * Tm * Tp) by ring.
    replace ((mp + 1) * (S * Tp)) with ((mp + 1) * S * Tp) by ring.
    apply Z.mul_lt_mono_pos_r; lia.
Qed.

Lemma floor_of_near (a b mb mq mp Tq Tp : Z) :
  1 <= a <= 2 ^ 32 -> 1 <= b <= a -> 1 <= mb <= 255 ->
  2 ^ 52 <= Tq -> 2 ^ 44 <= Tp ->
  near mq a (b * Tq) -> near mp Tq (mq * mb * Tp) ->
  (b * mb) / a - 1 <= mp / Tp <= (b * mb) / a /\
  ((b * mb) mod a <> 0 -> mp / Tp = (b * mb) / a).
Proof.
  change (2 ^ 32) with 4294967296. change (2 ^ 52) with 4503599627370496.
  change (2 ^ 44) with 17592186044416.
  intros Ha Hb Hmb HTq HTp [F1 F2] [F3 F4].
  pose proof (Z.div_mod (b * mb) a ltac:(lia)) as Hfl.
  pose proof (Z.mod_pos_bound (b * mb) a ltac:(lia)) as Hrem.
  pose proof (Z.div_mod mp Tp ltac:(lia)) as Hk.
  pose proof (Z.mod_pos_bound mp Tp ltac:(lia)) as Hkr.
  set (fl := (b * mb) / a) in *. set (k := mp / Tp) in *.
  set (rem := (b * mb) mod a) in *. set (kr := mp mod Tp) in *.
  assert (G1 : mq * a * mb * Tp <= (b * Tq + a) * mb * Tp).
  { apply Z.mul_le_mono_nonneg_r; [lia |]. apply Z.mul_le_mono_nonneg_r; lia. }
  assert (G2 : (b * Tq - a) * mb * Tp <= mq * a * mb * Tp).
  { apply Z.mul_le_mono_nonneg_r; [lia |]. apply Z.mul_le_mono_nonneg_r; lia. }
  assert (G3 : (mp - 1) * Tq * a <= mq * mb * Tp * a)
    by (apply Z.mul_le_mono_nonneg_r; lia).
  assert (G4 : mq * mb * Tp * a < (mp + 1) * Tq * a)
    by (apply Z.mul_lt_mono_pos_r; lia).
  assert (P1 : a * Tq <= 4294967296 * Tq) by (apply Z.mul_le_mono_nonneg_r; lia).
  assert (P2 : a * mb * Tp <= 1095216660480 * Tp)
    by (apply Z.mul_le_mono_nonneg_r; [lia | nia]).
  assert (P3 : 17592186044416 * Tq <= Tp * Tq)
    by (apply Z.mul_le_mono_nonneg_r; lia).
  assert (P4 : 4503599627370496 * Tp <= Tp * Tq)
    by (rewrite (Z.mul_comm Tp Tq); apply Z.mul_le_mono_nonneg_r; lia).
  assert (Upper : k <= fl).
  { destruct (Z.le_gt_cases k fl) as [H | H]; [exact H | exfalso].
    assert (E1 : (fl + 1) * (a * (Tp * Tq)) <= k * (a * (Tp * Tq)))
      by (apply Z.mul_le_mono_nonneg_r; nia).
    nia. }
  assert (Lower : forall j, j * a + (if j =? fl then 1 else a) <= b * mb -> j <= fl -> j <= k).
  { intros j Hj Hjf.
    destruct (Z.le_gt_cases j k) as [H | H]; [exact H | exfalso].
    assert (E1 : (k + 1) * (Tp * Tq * a) <= j * (Tp * Tq * a))
      by (apply Z.mul_le_mono_nonneg_r; nia).
    destruct (Z.eqb_spec j fl); nia. }
  split; [split; [| exact Upper] |].
  - apply Z.le_trans with (Z.max 0 (fl - 1)); [lia |].
    destruct (Z.le_gt_cases fl 0).
    + replace (Z.max 0 (fl - 1)) with 0 by lia.
      assert (0 <= mp) by nia. subst k. apply Z.div_pos; lia.
    + replace (Z.max 0 (fl - 1)) with (fl - 1) by lia.
      apply Lower; [| lia]. destruct (Z.eqb_spec (fl - 1) fl); lia.
  - intros Hne. apply Z.le_antisymm; [exact Upper |].
    apply Lower; [| lia]. rewrite Z.eqb_refl. lia.
Qed.

(** ** The command interpreter *)

Lemma item_mem {V : Type} (d : Py.dict V) (k : string) :
  Py.mem k d = true -> exists v, Py.item d k = Ok v.
Proof.
  unfold Py.mem, Py.item. destruct (Py.get d k); [eauto | discriminate].
Qed.

Lemma index_in (l : list string) (x : string) :
  In x l -> exists i, Py.index l x = Ok i /\ 0 <= i < Py.len l.
Proof.
  unfold Py.len. induction l as [| y l IH]; intros H; [contradiction |].
  simpl Py.index. destruct (String.eqb_spec x y) as [-> | Hne].
  - exists 0. split; [reflexivity | simpl List.length; lia].
  - destruct H as [H | H]; [congruence |].
    destruct (IH H) as (i & Hi & Hb). rewrite Hi. cbn [bind].
    exists (i + 1). split; [reflexivity | simpl List.length; lia].
Qed.

Lemma cycle_choice_ok {V : Type} (d : Py.dict V) (current : string) :
  Py.mem current d = true ->
  exists next, cycle_choice current d = Ok next /\ Py.mem next d = true.
Proof.
  intros H. apply mem_keys in H. unfold cycle_choice.
  destruct (index_in _ _ H) as (i & Hi & Hb). rewrite Hi. cbn [bind].
  unfold Py.modulo. destruct (Z.eqb_spec (Py.len (Py.keys d)) 0); [lia |].
  cbn [bind].
  pose proof (Z.mod_pos_bound (i + 1) (Py.len (Py.keys d)) ltac:(lia)) as Hj.
  rewrite (subscript_nth _ _ "" Hj). eexists. split; [reflexivity |].
  apply mem_keys. apply nth_In. unfold Py.len in *. lia.
Qed.

Lemma percent_ok (b mb : Z) :
  0 <= b <= 255 ->
  exists pct,
    (ratio <- Py.truediv (Z.max 0 b) (Z.max 1 mb) ;;
     percent <- Py.mul_int ratio 100 ;;
     Py.int_of_float percent) = Ok pct.
Proof.
  intros Hb.
  destruct (truediv_at_most (Z.max 0 b) (Z.max 1 mb) 255) as (x & Hx & Bx);
    try lia.
  rewrite Hx. cbn [bind].
  destruct (mul_int_at_most x 100 255 Bx) as (y & Hy & By); try lia.
  rewrite Hy. cbn [bind].
  destruct (int_of_float_at_most y (255 * 100) By) as (z & Hz & _); [lia |].
  exists z. exact Hz.
Qed.

Lemma status_detail_ok (state : AppState) :
  state_ok state -> exists detail, status_detail state = Ok detail.
Proof.
  intros (Hp & _ & Hc & Hr & Hb & Hi & _). unfold status_detail.
  destruct (String.eqb (pattern state) "1").
  { destruct (item_mem _ _ Hc) as (v & ->). eexists. reflexivity. }
  destruct (String.eqb (pattern state) "2").
  { destruct (item_mem _ _ Hr) as (v & ->). eexists. reflexivity. }
  destruct (String.eqb (pattern state) "3").
  { destruct (item_mem _ _ Hb) as (v & ->). eexists. reflexivity. }
  rewrite (subscript_nth EMERGENCY_COLORS _ ("", 0)) by exact Hi.
  eexists. reflexivity.
Qed.

Lemma print_status_ok (state : AppState) (w : World) :
  state_ok state -> exists line, print_status state w = Ok (print line w).
Proof.
  intros Hok. unfold print_status.
  destruct (status_detail_ok state Hok) as (detail & Hd).
  destruct Hok as (Hp & Hs & _ & _ & _ & _ & Hb).
  destruct (item_mem _ _ Hp) as (pn & ->). cbn [bind].
  destruct (item_mem _ _ Hs) as (sn & ->). cbn [bind].
  rewrite Hd. cbn [bind].
  destruct (percent_ok (brightness state) (max_brightness state) Hb) as (pct & Hpct).
  destruct (Py.truediv _ _) as [ratio |]; [| discriminate]. cbn [bind] in *.
  destruct (Py.mul_int ratio 100) as [percent |]; [| discriminate]. cbn [bind] in *.
  rewrite Hpct. cbn [bind]. eexists. reflexivity.
Qed.

Lemma allowed_is_pattern (emergency : bool) (k : string) :
  Py.mem k (available_patterns emergency) = true -> Py.mem k PATTERN_NAMES = true.
Proof.
  intros H. apply mem_keys in H. apply mem_keys.
  destruct emergency; simpl in *; intuition.
Qed.

Lemma set_strip_brightness_ok (value : Z) (w : World) :
  strip w <> None ->
  exists vs,
    strip w = Some vs /\
    set_strip_brightness value w
    = Ok (with_strip (Some (setBrightness vs (clamp_brightness value))) w).
Proof.
  intros H. unfold set_strip_brightness, get_strip.
  destruct (strip w) as [vs |]; [| contradiction]. exists vs. split; reflexivity.
Qed.

Lemma clamp_brightness_range (value : Z) : 0 <= clamp_brightness value <= 255.
Proof. unfold clamp_brightness. lia. Qed.

Ltac open_state state :=
  unfold state_ok, mode_ok in *; destruct state; simpl in *.

Lemma handle_key_ok (exe : string) (strf : Py.float -> string)
    (state : AppState) (options : RunOptions) (key : string) (w : World) :
  state_ok state -> mode_ok state -> strip w <> None ->
  exists state' w' go,
    handle_key exe strf state options key w = Ok (state', w', go) /\
    state_ok state' /\ mode_ok state' /\
    emergency_only state' = emergency_only state /\
    max_brightness state' = max_brightness state /\
    strip w' <> None.
Proof.
  intros Hok Hmode Hstrip. unfold handle_key. cbv zeta.
  destruct (Py.mem key (available_patterns (emergency_only state))) eqn:Hkey.
  { pose proof (allowed_is_pattern _ _ Hkey) as Hpat.
    assert (Hok' : state_ok (set_pattern key state)) by (open_state state; tauto).
    destruct (print_status_ok _ w Hok') as (line & ->). cbn [bind].
    do 3 eexists. split; [reflexivity |].
    split; [exact Hok' |]. open_state state. tauto. }
  destruct (String.eqb key "p").
  { destruct (cycle_choice_ok _ _ Hmode) as (next & -> & Hnext). cbn [bind].
    pose proof (allowed_is_pattern _ _ Hnext) as Hpat.
    assert (Hok' : state_ok (set_pattern next state)) by (open_state state; tauto).
    destruct (print_status_ok _ w Hok') as (line & ->). cbn [bind].
    do 3 eexists. split; [reflexivity |].
    split; [exact Hok' |]. open_state state. tauto. }
  destruct (String.eqb key "s").
  { destruct (cycle_choice_ok SPEED_LABELS (speed state)) as (next & -> & Hnext);
      [apply Hok |]. cbn [bind].
    assert (Hok' : state_ok (set_speed next state)) by (open_state state; tauto).
    destruct (print_status_ok _ w Hok') as (line & ->). cbn [bind].
    do 3 eexists. split; [reflexivity |].
    split; [exact Hok' |]. open_state state. tauto. }
  destruct (String.eqb key "c").
  { assert (Hc : exists state',
        (if String.eqb (pattern state) "1" then
           next <- cycle_choice (chase_color state) CHASE_COLORS ;;
           Ok (set_chase_color next state)
         else if String.eqb (pattern state) "2" then
           next <- cycle_choice (random_palette state) RANDOM_PALETTES ;;
           Ok (set_random_palette next state)
         else if String.eqb (pattern state) "3" then
           next <- cycle_choice (bounce_color state) BOUNCE_COLORS ;;
           Ok (set_bounce_color next state)
         else Ok state) = Ok state' /\
        state_ok state' /\ mode_ok state' /\
        emergency_only state' = emergency_only state /\
        max_brightness state' = max_brightness state).
    { destruct (String.eqb (pattern state) "1").
      { destruct (cycle_choice_ok CHASE_COLORS (chase_color state))
          as (next & -> & Hnext); [apply Hok |]. cbn [bind].
        eexists. split; [reflexivity |]. open_state state. tauto. }
      destruct (String.eqb (pattern state) "2").
      { destruct (cycle_choice_ok RANDOM_PALETTES (random_palette state))
          as (next & -> & Hnext); [apply Hok |]. cbn [bind].
        eexists. split; [reflexivity |]. open_state state. tauto. }
      destruct (String.eqb (pattern state) "3").
      { destruct (cycle_choice_ok BOUNCE_COLORS (bounce_color state))
          as (next & -> & Hnext); [apply Hok |]. cbn [bind].
        eexists. split; [reflexivity |]. open_state state. tauto. }
      eexists. split; [reflexivity |]. tauto. }
    destruct Hc as (state' & -> & Hok' & Hmode' & He & Hm). cbn [bind].
    destruct (print_status_ok _ w Hok') as (line & ->). cbn [bind].
    do 3 eexists. split; [reflexivity |]. tauto. }
  destruct (String.eqb key "+").
  { set (state' := set_brightness (clamp_brightness (brightness state + 16)) state).
    pose proof (clamp_brightness_range (brightness state + 16)) as Hb.
    assert (Hok' : state_ok state') by (subst state'; open_state state; tauto).
    destruct (set_strip_brightness_ok (brightness state') w Hstrip) as (vs & _ & ->).
    cbn [bind].
    destruct (print_status_ok state' (with_strip (Some (setBrightness vs
                (clamp_brightness (brightness state')))) w) Hok') as (line & ->).
    cbn [bind]. do 3 eexists. split; [reflexivity |].
    split; [exact Hok' |]. subst state'. open_state state.
    repeat split; try tauto. discriminate. }
  destruct (String.eqb key "-").
  { set (state' := set_brightness (clamp_brightness (brightness state - 16)) state).
    pose proof (clamp_brightness_range (brightness state - 16)) as Hb.
    assert (Hok' : state_ok state') by (subst state'; open_state state; tauto).
    destruct (set_strip_brightness_ok (brightness state') w Hstrip) as (vs & _ & ->).
    cbn [bind].
    destruct (print_status_ok state' (with_strip (Some (setBrightness vs
                (clamp_brightness (brightness state')))) w) Hok') as (line & ->).
    cbn [bind]. do 3 eexists. split; [reflexivity |].
    split; [exact Hok' |]. subst state'. open_state state.
    repeat split; try tauto. discriminate. }
  destruct (String.eqb key "h").
  { destruct (print_status_ok state (print SHORTCUTS_TEXT w) Hok) as (line & ->).
    cbn [bind]. do 3 eexists. split; [reflexivity |]. tauto. }
  destruct (String.eqb key CTRL_O).
  { do 3 eexists. split; [reflexivity |]. tauto. }
  destruct (String.eqb key "q"); do 3 eexists; (split; [reflexivity |]); tauto.
Qed.

Lemma handle_keys_ok (exe : string) (strf : Py.float -> string)
    (options : RunOptions) (keys : list string) :
  forall state w,
    state_ok state -> mode_ok state -> strip w <> None ->
    exists state' w' go,
      handle_keys exe strf state options keys w = Ok (state', w', go) /\
      state_ok state' /\ mode_ok state' /\
      emergency_only state' = emergency_only state /\
      max_brightness state' = max_brightness state /\
      strip w' <> None.
Proof.
  induction keys as [| key keys IH]; intros state w Hok Hmode Hstrip.
  - do 3 eexists. split; [reflexivity |]. tauto.
  - destruct (handle_key_ok exe strf state options key w Hok Hmode Hstrip)
      as (s1 & w1 & go & Hk & Hok1 & Hmode1 & He1 & Hm1 & Hs1).
    simpl handle_keys. rewrite Hk. cbn [bind]. destruct go.
    + destruct (IH s1 w1 Hok1 Hmode1 Hs1) as (s2 & w2 & go2 & -> & H).
      do 3 eexists. split; [reflexivity |].
      destruct H as (A & B & C & D & E).
      split; [exact A | split; [exact B | split; [congruence | split; [congruence | exact E]]]].
    + do 3 eexists. split; [reflexivity |]. tauto.
Qed.

Lemma normalize_mode_ok (state : AppState) :
  state_ok state ->
  state_ok (normalize_pattern_for_mode state) /\
  mode_ok (normalize_pattern_for_mode state) /\
  emergency_only (normalize_pattern_for_mode state) = emergency_only state /\
  brightness (normalize_pattern_for_mode state) = brightness state /\
  max_brightness (normalize_pattern_for_mode state) = max_brightness state.
Proof.
  intros Hok. unfold normalize_pattern_for_mode.
  destruct (emergency_only state) eqn:He.
  - open_state state. subst. tauto.
  - destruct (String.eqb_spec (pattern state) "4") as [E | E].
    + open_state state. subst. tauto.
    + repeat split; try assumption; try apply Hok.
      unfold mode_ok. rewrite He. destruct Hok as (Hp & _).
      apply mem_keys in Hp. apply mem_keys. simpl in *.
      destruct Hp as [H | [H | [H | [H | []]]]]; auto.
Qed.

Lemma mode_ok_pattern (state : AppState) :
  mode_ok state ->
  (emergency_only state = true -> pattern state = "4") /\
  (emergency_only state = false -> pattern state <> "4").
Proof.
  unfold mode_ok. intros H. apply mem_keys in H.
  destruct (emergency_only state); simpl in H; split; intros E; try discriminate.
  - destruct H as [H | []]. auto.
  - destruct H as [H | [H | [H | []]]]; rewrite <- H; discriminate.
Qed.

(** C6. In emergency-only mode the pattern is "4" after normalisation and
    after every keystroke, and the keys "1", "2" and "3" change nothing;
    outside that mode the pattern is never "4", neither after normalisation
    nor after any sequence of keystrokes. *)
Theorem pattern_pinned_by_mode :
  forall (exe : string) (strf : Py.float -> string) state options keys w,
    state_ok state -> strip w <> None ->
    let start := normalize_pattern_for_mode state in
    (emergency_only state = true -> pattern start = "4") /\
    (emergency_only state = false -> pattern start <> "4") /\
    (emergency_only state = true ->
     forall key, In key ["1"; "2"; "3"] ->
       handle_key exe strf start options key w = Ok (start, w, true)) /\
    exists state' w' go,
      handle_keys exe strf start options keys w = Ok (state', w', go) /\
      emergency_only state' = emergency_only state /\
      (emergency_only state = true -> pattern state' = "4") /\
      (emergency_only state = false -> pattern state' <> "4").
Proof.
  intros exe strf state options keys w Hok Hstrip start.
  destruct (normalize_mode_ok state Hok) as (Hok0 & Hmode0 & He0 & _).
  fold start in Hok0, Hmode0, He0.
  destruct (mode_ok_pattern start Hmode0) as (P1 & P2). rewrite He0 in P1, P2.
  split; [exact P1 | split; [exact P2 | split]].
  - intros He key Hkey. unfold handle_key. rewrite He0, He. simpl in Hkey.
    destruct Hkey as [<- | [<- | [<- | []]]]; reflexivity.
  - destruct (handle_keys_ok exe strf options keys start w Hok0 Hmode0 Hstrip)
      as (s' & w' & go & Hrun & _ & Hmode' & He' & _).
    exists s', w', go. rewrite He0 in He'.
    destruct (mode_ok_pattern s' Hmode') as (Q1 & Q2). rewrite He' in Q1, Q2.
    tauto.
Qed.

Lemma pattern_pinned_by_mode_witness :
  state_ok default_state /\ strip (test_world 4) <> None /\
  exists state' w' go,
    handle_keys "python3" (fun _ => "0.0") (normalize_pattern_for_mode default_state)
                default_options ["p"; "4"; "+"; "p"] (test_world 4)
    = Ok (state', w', go) /\
    pattern state' <> "4".
Proof.
  assert (H1 : state_ok default_state) by (repeat split; simpl; lia).
  assert (H2 : strip (test_world 4) <> None) by discriminate.
  split; [exact H1 | split; [exact H2 |]].
  destruct (pattern_pinned_by_mode "python3" (fun _ => "0.0") default_state
              default_options ["p"; "4"; "+"; "p"] (test_world 4) H1 H2)
    as (_ & _ & _ & s' & w' & go & Hrun & _ & _ & Hp).
  exists s', w', go. split; [exact Hrun | exact (Hp eq_refl)].
Defined.

(** ** The sensor response *)

Lemma one_times_check_all : forallb one_times_check (Py.range 256) = true.
Proof. vm_compute. reflexivity. Qed.

Lemma zero_times_check_all : forallb zero_times_check (Py.range 256) = true.
Proof. vm_compute. reflexivity. Qed.

Lemma clamp_brightness_id (value : Z) :
  0 <= value <= 255 -> clamp_brightness value = value.
Proof. unfold clamp_brightness. lia. Qed.

(** The scaling of a sample, as [apply_pi_input_response] computes it. *)
Lemma analog_scale (sample amax mb : Z) :
  1 <= amax -> 0 <= mb <= 255 ->
  let bounded := Z.max 0 (Z.min amax sample) in
  exists ratio product scaled,
    Py.truediv bounded amax = Ok ratio /\
    Py.mul_int ratio mb = Ok product /\
    Py.int_of_float product = Ok scaled /\
    0 <= scaled <= mb /\
    (sample <= 0 -> scaled = 0) /\
    (amax <= sample -> scaled = mb).
Proof.
  intros Ha Hmb bounded.
  destruct (truediv_at_most bounded amax 1) as (ratio & Hr & Br);
    try (subst bounded; lia).
  destruct (mul_int_at_most ratio mb 1 Br) as (product & Hp & Bp); try lia.
  destruct (int_of_float_at_most product (1 * mb) Bp) as (scaled & Hs & Bs); [lia |].
  exists ratio, product, scaled.
  split; [exact Hr | split; [exact Hp | split; [exact Hs | split; [lia | split]]]].
  - intros Hle. assert (E : bounded = 0) by (subst bounded; lia).
    rewrite E in Hr. unfold Py.truediv in Hr.
    destruct (Z.eqb_spec amax 0); [lia |]. simpl in Hr.
    replace (amax <? 0) with false in Hr by (symmetry; apply Z.ltb_ge; lia).
    injection Hr as <-.
    pose proof (range_forallb _ 256 zero_times_check_all mb ltac:(lia)) as Hc.
    unfold zero_times_check in Hc. rewrite Hp in Hc. cbn [bind] in Hc.
    rewrite Hs in Hc. apply Z.eqb_eq in Hc. exact Hc.
  - intros Hle. assert (E : bounded = amax) by (subst bounded; lia).
    rewrite E, truediv_same in Hr by lia. injection Hr as <-.
    pose proof (range_forallb _ 256 one_times_check_all mb ltac:(lia)) as Hc.
    unfold one_times_check, float_one in Hc. rewrite Hp in Hc. cbn [bind] in Hc.
    rewrite Hs in Hc. apply Z.eqb_eq in Hc. exact Hc.
Qed.

Lemma int_of_float_is (x : Py.float) (m e : Z) :
  float_is x m e -> e < 0 -> Py.int_of_float x = Ok (m / 2 ^ (- e)).
Proof.
  destruct x as [[] | | | [] p e']; simpl; intros H He; try contradiction.
  - subst m. reflexivity.
  - destruct H as [-> ->]. destruct (Z.leb_spec 0 e'); [lia | reflexivity].
Qed.

Lemma analog_floor (sample amax mb : Z) :
  1 <= amax <= 2 ^ 32 -> 0 <= mb <= 255 ->
  let bounded := Z.max 0 (Z.min amax sample) in
  forall ratio product scaled,
    Py.truediv bounded amax = Ok ratio ->
    Py.mul_int ratio mb = Ok product ->
    Py.int_of_float product = Ok scaled ->
    (bounded * mb) / amax - 1 <= scaled <= (bounded * mb) / amax /\
    ((bounded * mb) mod amax <> 0 -> scaled = (bounded * mb) / amax).
Proof.
  intros Ha Hmb bounded ratio product scaled Hr Hp Hs.
  destruct (analog_scale sample amax mb ltac:(lia) Hmb)
    as (r0 & p0 & s0 & Hr0 & Hp0 & Hs0 & Hb0 & H0 & _).
  fold bounded in Hr0. rewrite Hr in Hr0. injection Hr0 as <-.
  rewrite Hp in Hp0. injection Hp0 as <-.
  rewrite Hs in Hs0. injection Hs0 as <-.
  destruct (Z.eq_dec bounded 0) as [Eb | Nb].
  { rewrite (H0 ltac:(subst bounded; lia)), Eb. cbn [Z.mul].
    rewrite Z.div_0_l, Z.mod_0_l by lia. split; [lia | intros H; contradiction]. }
  destruct (Z.eq_dec mb 0) as [Em | Nm].
  { subst mb. rewrite Z.mul_0_r, Z.div_0_l, Z.mod_0_l by lia.
    split; [lia | intros H; contradiction]. }
  assert (Hbd : 1 <= bounded <= amax) by (subst bounded; lia).
  destruct (truediv_near bounded amax Hbd) as (q & mq & eq & Hq & Hfq & Heq & Hmq & Hnq).
  rewrite Hr in Hq. injection Hq as <-.
  set (Tq := 2 ^ (- eq)) in *.
  assert (HTq : 2 ^ 52 <= Tq) by (apply Z.pow_le_mono_r; lia).
  change (2 ^ 32) with 4294967296 in Ha.
  assert (Hpos : 0 < mq).
  { destruct Hnq as [_ H]. change (2 ^ 52) with 4503599627370496 in HTq. nia. }
  assert (Hle : mq <= Tq + 1).
  { destruct Hnq as [H _].
    assert ((mq - 1) * amax <= Tq * amax) by nia.
    apply Z.mul_le_mono_pos_r in H1; lia. }
  destruct (mul_int_near ratio mq eq mb Hfq Hpos Heq Hle ltac:(lia))
    as (p & mp & ep & Hp' & Hfp & Hep & Hmp & Hnp).
  rewrite Hp in Hp'. injection Hp' as <-.
  rewrite (int_of_float_is product mp ep Hfp ltac:(lia)) in Hs. injection Hs as <-.
  apply (floor_of_near amax bounded mb mq mp Tq (2 ^ (- ep)));
    try assumption; try lia.
  apply Z.pow_le_mono_r; lia.
Qed.

Lemma analog_response (state : AppState) (w : World) (vs : VirtualStrip) (sample : Z) :
  String.eqb (input_mode state) "off" = false ->
  String.eqb (input_mode state) "digital" = false ->
  strip w = Some vs -> 0 <= max_brightness state <= 255 ->
  sysfs w (analog_path state) = Some sample ->
  let amax := Z.max 1 (analog_max state) in
  exists ratio product scaled,
    Py.truediv (Z.max 0 (Z.min amax sample)) amax = Ok ratio /\
    Py.mul_int ratio (max_brightness state) = Ok product /\
    Py.int_of_float product = Ok scaled /\
    0 <= scaled <= max_brightness state /\
    (sample <= 0 -> scaled = 0) /\
    (amax <= sample -> scaled = max_brightness state) /\
    apply_pi_input_response state w
    = Ok (set_brightness scaled state, with_strip (Some (setBrightness vs scaled)) w).
Proof.
  intros Hoff Hdig Hs Hmb Hsample amax.
  destruct (analog_scale sample amax (max_brightness state) ltac:(subst amax; lia) Hmb)
    as (ratio & product & scaled & Hr & Hp & Hi & Hb & H0 & H1).
  exists ratio, product, scaled.
  repeat (split; [assumption |]).
  unfold apply_pi_input_response, read_analog_input. rewrite Hoff, Hdig, Hsample.
  fold amax. rewrite Hr. cbn [bind]. rewrite Hp. cbn [bind]. rewrite Hi. cbn [bind].
  unfold set_strip_brightness, get_strip. rewrite Hs. cbn [bind].
  assert (E : brightness (set_brightness (clamp_brightness scaled) state)
              = clamp_brightness scaled) by (destruct state; reflexivity).
  rewrite E, !clamp_brightness_id by lia. reflexivity.
Qed.

(** C7. In analog mode with a sample present, the brightness of the state and
    of the sink becomes [int((bounded / analog_max) * max_brightness)], with
    [bounded] the sample clamped to [[0, analog_max]] and the quotient and
    the product taken in binary64 as the program does, the quotient being
    rounded before the product. The result lies in [[0, max_brightness]], is
    0 for a sample of 0 (or below) and is exactly [max_brightness] for a
    sample of [analog_max] or above. For [analog_max] up to [2 ^ 32] it is
    the floor of [bounded * max_brightness / analog_max] whenever that
    quotient is not an integer, and that integer or one less when it is.
    When the read yields no sample, in digital or analog mode, state and
    sink are left as they were. *)
Theorem analog_response_scales :
  (forall state w sample,
      input_mode state = "analog" ->
      strip w <> None ->
      1 <= analog_max state ->
      0 <= max_brightness state <= 255 ->
      read_analog_input (analog_path state) w = Some sample ->
      let bounded := Z.max 0 (Z.min (analog_max state) sample) in
      let exact := bounded * max_brightness state in
      exists ratio product scaled state' w',
        Py.truediv bounded (analog_max state) = Ok ratio /\
        Py.mul_int ratio (max_brightness state) = Ok product /\
        Py.int_of_float product = Ok scaled /\
        apply_pi_input_response state w = Ok (state', w') /\
        brightness state' = scaled /\
        sink_brightness w' = Some scaled /\
        max_brightness state' = max_brightness state /\
        0 <= scaled <= max_brightness state /\
        (sample <= 0 -> scaled = 0) /\
        (analog_max state <= sample -> scaled = max_brightness state) /\
        (analog_max state <= 2 ^ 32 ->
         exact / analog_max state - 1 <= scaled <= exact / analog_max state /\
         (exact mod analog_max state <> 0 -> scaled = exact / analog_max state))) /\
  (forall state w,
      (input_mode state = "digital" /\
       read_digital_input (input_pin state) w = None) \/
      (input_mode state = "analog" /\
       read_analog_input (analog_path state) w = None) ->
      apply_pi_input_response state w = Ok (state, w)).
Proof.
  split.
  - intros state w sample Hmode Hstrip Hamax Hmb Hsample bounded exact.
    destruct (strip w) as [vs |] eqn:Hs; [| contradiction].
    destruct (analog_response state w vs sample) as
      (ratio & product & scaled & Hr & Hp & Hi & Hb & H0 & H1 & Hrun);
      try assumption; try (rewrite Hmode; reflexivity).
    rewrite (Z.max_r 1 (analog_max state)) in * by lia.
    exists ratio, product, scaled, (set_brightness scaled state),
      (with_strip (Some (setBrightness vs scaled)) w).
    repeat (split; [assumption |]).
    split; [destruct state; reflexivity |].
    split; [unfold sink_brightness; simpl; f_equal; lia |].
    split; [destruct state; reflexivity |].
    split; [lia |]. split; [exact H0 |]. split; [exact H1 |].
    intros Hbig.
    exact (analog_floor sample (analog_max state) (max_brightness state)
             (conj Hamax Hbig) Hmb ratio product scaled Hr Hp Hi).
  - intros state w [[Hmode Hread] | [Hmode Hread]];
      unfold apply_pi_input_response; rewrite Hmode, Hread; reflexivity.
Qed.

Lemma analog_response_scales_witness :
  exists state' w',
    apply_pi_input_response (analog_state 4095 200) (sensor_world 4 None (Some 5000))
    = Ok (state', w') /\
    brightness state' = 200 /\ sink_brightness w' = Some 200.
Proof.
  destruct (proj1 analog_response_scales (analog_state 4095 200)
              (sensor_world 4 None (Some 5000)) 5000 eq_refl
              ltac:(discriminate) ltac:(simpl; lia) ltac:(simpl; lia) eq_refl)
    as (ratio & product & scaled & s' & w' & _ & _ & _ & Hrun & Hb & Hsink & _ & _ & _
        & Hmax & _).
  exists s', w'. rewrite Hb, Hsink, (Hmax ltac:(simpl; lia)).
  split; [exact Hrun | split; reflexivity].
Defined.

(** The quotient is rounded before the product is taken: a sample of 29 out
    of 100 at a maximal brightness of 100 gives 28, one below the floor of
    [29 * 100 / 100]. *)
Example analog_sample_29_of_100 :
  exists state' w',
    apply_pi_input_response (analog_state 100 100) (sensor_world 4 None (Some 29))
    = Ok (state', w') /\
    brightness state' = 28 /\
    (Z.max 0 (Z.min 100 29) * 100) / 100 = 29.
Proof.
  do 2 eexists. split; [vm_compute; reflexivity | split; reflexivity].
Qed.

Lemma sensor_response_bounds (state : AppState) (w : World) :
  strip w <> None -> 0 <= max_brightness state <= 255 ->
  exists state' w',
    apply_pi_input_response state w = Ok (state', w') /\
    max_brightness state' = max_brightness state /\
    ((state' = state /\ w' = w) \/
     (0 <= brightness state' <= max_brightness state' /\
      sink_brightness w' = Some (brightness state'))).
Proof.
  intros Hstrip Hmb. destruct (strip w) as [vs |] eqn:Hs; [| contradiction].
  unfold apply_pi_input_response.
  destruct (String.eqb (input_mode state) "off") eqn:Hoff.
  { exists state, w. auto. }
  destruct (String.eqb (input_mode state) "digital") eqn:Hdig.
  { destruct (read_digital_input (input_pin state) w) as [v |].
    - unfold set_strip_brightness, get_strip. rewrite Hs. cbn [bind].
      do 2 eexists. split; [reflexivity |].
      split; [destruct state; reflexivity |]. right.
      unfold sink_brightness. destruct state; simpl in *.
      destruct (0 <? v); unfold clamp_brightness; split; try lia; f_equal; lia.
    - exists state, w. auto. }
  destruct (read_analog_input (analog_path state) w) as [sample |] eqn:Hread.
  - destruct (analog_response state w vs sample Hoff Hdig Hs Hmb Hread)
      as (ratio & product & scaled & _ & _ & _ & Hb & _ & _ & Hrun).
    unfold apply_pi_input_response in Hrun. rewrite Hoff, Hdig, Hread in Hrun.
    rewrite Hrun. do 2 eexists. split; [reflexivity |].
    split; [destruct state; reflexivity |]. right.
    unfold sink_brightness. destruct state; simpl in *.
    split; [lia | f_equal; lia].
  - exists state, w. auto.
Qed.

(** ** Persisted settings *)

Lemma as_int_ok (ios : string -> option Z) (value : json) (default : Z) :
  int_convertible value -> exists n, as_int ios value default = Ok n.
Proof.
  unfold as_int, py_int. destruct value as [| b | n | x | s | l | d]; simpl;
    intros H; try (eexists; reflexivity).
  - destruct x as [| | | sg m e]; simpl; try contradiction; eexists; reflexivity.
  - destruct (ios s); eexists; reflexivity.
Qed.

Lemma as_float_ok (fos : string -> option Py.float) (value : json) (default : Py.float) :
  float_convertible value -> exists x, as_float fos value default = Ok x.
Proof.
  unfold as_float, py_float. destruct value as [| b | n | x | s | l | d]; simpl;
    intros H; try (eexists; reflexivity).
  - destruct b; eexists; reflexivity.
  - unfold Py.float_of_int, Py.overflow_check in *.
    destruct (binary_normalize Py.prec Py.emax n 0 false); simpl;
      try (eexists; reflexivity). contradiction H. reflexivity.
  - destruct (fos s); eexists; reflexivity.
Qed.

Lemma enum_fallback {V : Type} (value : json) (table : Py.dict V) (default : string) :
  Py.mem default table = true ->
  (if Py.mem (as_str value default) table then as_str value default else default)
  = enum_or_default value table default /\
  Py.mem (enum_or_default value table default) table = true.
Proof.
  intros Hd. unfold enum_or_default, as_str.
  destruct value as [| b | n | x | s | l | d];
    try (split; [rewrite Hd; reflexivity | exact Hd]).
  destruct (Py.mem s table) eqn:E; split; try reflexivity; assumption.
Qed.


Lemma enum_kept {V : Type} (value : json) (table : Py.dict V) (default : string) :
  Py.mem (as_str value default) table = true ->
  as_str value default = enum_or_default value table default.
Proof.
  unfold enum_or_default, as_str. destruct value; try reflexivity.
  intros ->. reflexivity.
Qed.

Lemma enum_replaced {V : Type} (value : json) (table : Py.dict V) (default : string) :
  Py.mem (as_str value default) table = false ->
  default = enum_or_default value table default.
Proof.
  unfold enum_or_default, as_str. destruct value; try reflexivity.
  intros ->. reflexivity.
Qed.

Lemma fallback_fields {V : Type} (table : Py.dict V) (default : string)
    (state : AppState) :
  fallback pattern set_pattern table default state
  = set_pattern (if Py.mem (pattern state) table then pattern state else default) state /\
  fallback speed set_speed table default state
  = set_speed (if Py.mem (speed state) table then speed state else default) state /\
  fallback chase_color set_chase_color table default state
  = set_chase_color
      (if Py.mem (chase_color state) table then chase_color state else default) state /\
  fallback random_palette set_random_palette table default state
  = set_random_palette
      (if Py.mem (random_palette state) table then random_palette state else default)
      state /\
  fallback bounce_color set_bounce_color table default state
  = set_bounce_color
      (if Py.mem (bounce_color state) table then bounce_color state else default) state.
Proof.
  unfold fallback. destruct state; simpl.
  repeat split; match goal with |- context [Py.mem ?x table] => destruct (Py.mem x table) end;
    reflexivity.
Qed.

Lemma headless_settings_ok :
  forall (ios : string -> option Z) (fos : string -> option Py.float) data,
    settings_convertible data ->
    exists state options test_mode,
      state_options_from_headless_data ios fos data = Ok (state, options, test_mode) /\
      state_ok state /\ mode_ok state /\
      pattern state
      = (if emergency_only state then "4"
         else if String.eqb (enum_or_default (dict_get data "pattern") PATTERN_NAMES "1") "4"
              then "1"
              else enum_or_default (dict_get data "pattern") PATTERN_NAMES "1") /\
      speed state = enum_or_default (dict_get data "speed") SPEED_LABELS "2" /\
      chase_color state = enum_or_default (dict_get data "chase_color") CHASE_COLORS "1" /\
      random_palette state
      = enum_or_default (dict_get data "random_palette") RANDOM_PALETTES "1" /\
      bounce_color state = enum_or_default (dict_get data "bounce_color") BOUNCE_COLORS "1" /\
      In (input_mode state) INPUT_MODES /\
      emergency_only state = as_bool (dict_get data "emergency_only") false /\
      0 <= brightness state <= 255 /\ 0 <= max_brightness state <= 255 /\
      1 <= analog_max state /\ 0 <= frames options.
Proof.
  intros ios fos data (H1 & H2 & H3 & H4 & H5 & H6 & H7).
  unfold state_options_from_headless_data. cbv zeta.
  destruct (as_int_ok ios _ LED_BRIGHTNESS H1) as (b & ->). cbn [bind].
  destruct (as_int_ok ios _ LED_BRIGHTNESS H2) as (mb & ->). cbn [bind].
  destruct (as_int_ok ios _ 23 H3) as (pin & ->). cbn [bind].
  destruct (as_int_ok ios _ 4095 H4) as (amax & ->). cbn [bind].
  destruct (as_int_ok ios _ 0 H5) as (fr & ->). cbn [bind].
  destruct (as_float_ok fos _ float_zero H6) as (dur & ->). cbn [bind].
  destruct (as_float_ok fos _ float_zero H7) as (delay & ->). cbn [bind].
  do 3 eexists. split; [reflexivity |].
  pose proof (clamp_brightness_range b) as Hb.
  pose proof (clamp_brightness_range mb) as Hmb.
  unfold new_AppState.
  rewrite (proj1 (fallback_fields PATTERN_NAMES "1" _)). cbn [set_pattern pattern].
  rewrite (proj1 (proj2 (fallback_fields SPEED_LABELS "2" _))). cbn [set_speed speed].
  rewrite (proj1 (proj2 (proj2 (fallback_fields CHASE_COLORS "1" _)))).
  cbn [set_chase_color chase_color].
  rewrite (proj1 (proj2 (proj2 (proj2 (fallback_fields RANDOM_PALETTES "1" _))))).
  cbn [set_random_palette random_palette].
  rewrite (proj2 (proj2 (proj2 (proj2 (fallback_fields BOUNCE_COLORS "1" _))))).
  cbn [set_bounce_color bounce_color input_mode].
  rewrite (proj1 (enum_fallback (dict_get data "pattern") PATTERN_NAMES "1" eq_refl)).
  rewrite (proj1 (enum_fallback (dict_get data "speed") SPEED_LABELS "2" eq_refl)).
  rewrite (proj1 (enum_fallback (dict_get data "chase_color") CHASE_COLORS "1" eq_refl)).
  rewrite (proj1 (enum_fallback (dict_get data "random_palette") RANDOM_PALETTES "1" eq_refl)).
  rewrite (proj1 (enum_fallback (dict_get data "bounce_color") BOUNCE_COLORS "1" eq_refl)).
  pose proof (proj2 (enum_fallback (dict_get data "pattern") PATTERN_NAMES "1" eq_refl)) as Mp.
  pose proof (proj2 (enum_fallback (dict_get data "speed") SPEED_LABELS "2" eq_refl)) as Ms.
  pose proof (proj2 (enum_fallback (dict_get data "chase_color") CHASE_COLORS "1" eq_refl))
    as Mc.
  pose proof (proj2 (enum_fallback (dict_get data "random_palette") RANDOM_PALETTES "1"
                                   eq_refl)) as Mr.
  pose proof (proj2 (enum_fallback (dict_get data "bounce_color") BOUNCE_COLORS "1" eq_refl))
    as Mb.
  set (p := enum_or_default (dict_get data "pattern") PATTERN_NAMES "1") in *.
  set (im := as_str (dict_get (dict_or_empty (dict_get data "input")) "mode") "off").
  set (eo := as_bool (dict_get data "emergency_only") false).
  assert (Him : exists im',
    (if existsb (String.eqb im) INPUT_MODES then
       mkAppState p (enum_or_default (dict_get data "speed") SPEED_LABELS "2")
         (enum_or_default (dict_get data "chase_color") CHASE_COLORS "1")
         (enum_or_default (dict_get data "random_palette") RANDOM_PALETTES "1")
         (enum_or_default (dict_get data "bounce_color") BOUNCE_COLORS "1")
         (clamp_brightness mb) (clamp_brightness b) im pin
         (as_str (dict_get (dict_or_empty (dict_get data "input")) "analog_path")
                 DEFAULT_ANALOG_PATH)
         (Z.max 1 amax) eo 0 0 0 0 1 0
     else
       set_input_mode "off"
         (mkAppState p (enum_or_default (dict_get data "speed") SPEED_LABELS "2")
            (enum_or_default (dict_get data "chase_color") CHASE_COLORS "1")
            (enum_or_default (dict_get data "random_palette") RANDOM_PALETTES "1")
            (enum_or_default (dict_get data "bounce_color") BOUNCE_COLORS "1")
            (clamp_brightness mb) (clamp_brightness b) im pin
            (as_str (dict_get (dict_or_empty (dict_get data "input")) "analog_path")
                    DEFAULT_ANALOG_PATH)
            (Z.max 1 amax) eo 0 0 0 0 1 0))
    = mkAppState p (enum_or_default (dict_get data "speed") SPEED_LABELS "2")
        (enum_or_default (dict_get data "chase_color") CHASE_COLORS "1")
        (enum_or_default (dict_get data "random_palette") RANDOM_PALETTES "1")
        (enum_or_default (dict_get data "bounce_color") BOUNCE_COLORS "1")
        (clamp_brightness mb) (clamp_brightness b) im' pin
        (as_str (dict_get (dict_or_empty (dict_get data "input")) "analog_path")
                DEFAULT_ANALOG_PATH)
        (Z.max 1 amax) eo 0 0 0 0 1 0 /\ In im' INPUT_MODES).
  { destruct (existsb (String.eqb im) INPUT_MODES) eqn:Em.
    - exists im. split; [reflexivity |].
      apply existsb_exists in Em. destruct Em as (x & Hx & Ex).
      apply String.eqb_eq in Ex. subst x. exact Hx.
    - exists "off". split; [reflexivity | simpl; auto]. }
  destruct Him as (im' & -> & Him).
  match goal with
  | |- state_ok (normalize_pattern_for_mode ?R) /\ _ =>
      assert (HR : state_ok R)
        by (unfold state_ok;
            cbn [pattern speed chase_color random_palette bounce_color
                 emergency_color_index brightness];
            repeat split; try assumption; lia);
      destruct (normalize_mode_ok R HR) as (N1 & N2 & _)
  end.
  split; [exact N1 | split; [exact N2 |]].
  unfold normalize_pattern_for_mode. cbn [emergency_only pattern].
  destruct eo; [| destruct (String.eqb p "4")];
    cbn [set_pattern pattern speed chase_color random_palette bounce_color
         input_mode emergency_only brightness max_brightness analog_max frames];
    repeat split; try reflexivity; try assumption; lia.
Qed.

Lemma as_int_value (ios : string -> option Z) (value : json) (default : Z) :
  int_convertible value ->
  as_int ios value default = Ok (int_or_default ios value default).
Proof.
  unfold as_int, py_int, int_or_default.
  destruct value as [| b | n | x | s | l | d]; simpl; intros H; try reflexivity.
  - destruct x as [| | | sg m e]; simpl; try contradiction; reflexivity.
  - destruct (ios s); reflexivity.
Qed.

Lemma as_float_value (fos : string -> option Py.float) (value : json)
    (default : Py.float) :
  float_convertible value ->
  as_float fos value default = Ok (float_or_default fos value default).
Proof.
  unfold as_float, py_float, float_or_default.
  destruct value as [| b | n | x | s | l | d]; simpl; intros H; try reflexivity.
  - destruct b; reflexivity.
  - unfold Py.float_of_int, Py.overflow_check in *.
    destruct (binary_normalize Py.prec Py.emax n 0 false); simpl;
      try reflexivity. contradiction H. reflexivity.
  - destruct (fos s); reflexivity.
Qed.

Lemma normalize_keeps (state : AppState) :
  let s' := normalize_pattern_for_mode state in
  speed s' = speed state /\ chase_color s' = chase_color state /\
  random_palette s' = random_palette state /\ bounce_color s' = bounce_color state /\
  max_brightness s' = max_brightness state /\ brightness s' = brightness state /\
  input_mode s' = input_mode state /\ input_pin s' = input_pin state /\
  analog_path s' = analog_path state /\ analog_max s' = analog_max state /\
  emergency_only s' = emergency_only state /\
  emergency_step s' = emergency_step state /\
  emergency_color_index s' = emergency_color_index state /\
  chase_position s' = chase_position state /\
  bounce_position s' = bounce_position state /\
  bounce_direction s' = bounce_direction state /\
  rainbow_offset s' = rainbow_offset state.
Proof.
  unfold normalize_pattern_for_mode.
  destruct state as [p s c r b mb br im ip ap am eo es ei cp bp bd ro]. cbn.
  destruct eo; [| destruct (String.eqb p "4")]; cbn; repeat split.
Qed.

Lemma headless_settings_numbers :
  forall (ios : string -> option Z) (fos : string -> option Py.float) data,
    settings_convertible data ->
    let input := dict_or_empty (dict_get data "input") in
    let run := dict_or_empty (dict_get data "run") in
    exists state options test_mode,
      state_options_from_headless_data ios fos data = Ok (state, options, test_mode) /\
      input_mode state = choice_or_default (dict_get input "mode") INPUT_MODES "off" /\
      brightness state
      = clamp_brightness (int_or_default ios (dict_get data "brightness") LED_BRIGHTNESS) /\
      max_brightness state
      = clamp_brightness
          (int_or_default ios (dict_get data "max_brightness") LED_BRIGHTNESS) /\
      input_pin state = int_or_default ios (dict_get input "pin") 23 /\
      analog_path state = as_str (dict_get input "analog_path") DEFAULT_ANALOG_PATH /\
      analog_max state = Z.max 1 (int_or_default ios (dict_get input "analog_max") 4095) /\
      test_mode = as_bool (dict_get data "test") false /\
      frames options = Z.max 0 (int_or_default ios (dict_get run "frames") 0) /\
      duration_seconds options
      = Py.max_float float_zero
          (float_or_default fos (dict_get run "duration_seconds") float_zero) /\
      start_delay_seconds options
      = Py.max_float float_zero
          (float_or_default fos (dict_get run "start_delay_seconds") float_zero) /\
      emergency_step state = 0 /\ emergency_color_index state = 0 /\
      chase_position state = 0 /\ bounce_position state = 0 /\
      bounce_direction state = 1 /\ rainbow_offset state = 0.
Proof.
  intros ios fos data (H1 & H2 & H3 & H4 & H5 & H6 & H7) input run.
  subst input run. unfold state_options_from_headless_data. cbv zeta.
  rewrite (as_int_value ios _ LED_BRIGHTNESS H1). cbn [bind].
  rewrite (as_int_value ios _ LED_BRIGHTNESS H2). cbn [bind].
  rewrite (as_int_value ios _ 23 H3). cbn [bind].
  rewrite (as_int_value ios _ 4095 H4). cbn [bind].
  rewrite (as_int_value ios _ 0 H5). cbn [bind].
  rewrite (as_float_value fos _ float_zero H6). cbn [bind].
  rewrite (as_float_value fos _ float_zero H7). cbn [bind].
  do 3 eexists. split; [reflexivity |].
  match goal with
  | |- context [normalize_pattern_for_mode ?R] =>
      destruct (normalize_keeps R)
        as (_ & _ & _ & _ & K5 & K6 & K7 & K8 & K9 & K10 & _ & K12 & K13 & K14 & K15 & K16 & K17);
      rewrite K5, K6, K7, K8, K9, K10, K12, K13, K14, K15, K16, K17; clear K5 K6 K7 K8 K9 K10 K12 K13 K14 K15 K16 K17
  end.
  unfold new_AppState.
  rewrite (proj1 (fallback_fields PATTERN_NAMES "1" _)). cbn [set_pattern pattern].
  rewrite (proj1 (proj2 (fallback_fields SPEED_LABELS "2" _))). cbn [set_speed speed].
  rewrite (proj1 (proj2 (proj2 (fallback_fields CHASE_COLORS "1" _)))).
  cbn [set_chase_color chase_color].
  rewrite (proj1 (proj2 (proj2 (proj2 (fallback_fields RANDOM_PALETTES "1" _))))).
  cbn [set_random_palette random_palette].
  rewrite (proj2 (proj2 (proj2 (proj2 (fallback_fields BOUNCE_COLORS "1" _))))).
  cbn [set_bounce_color bounce_color input_mode].
  assert (Hmode :
    (if existsb (String.eqb (as_str (dict_get (dict_or_empty (dict_get data "input")) "mode") "off")) INPUT_MODES
     then as_str (dict_get (dict_or_empty (dict_get data "input")) "mode") "off" else "off")
    = choice_or_default (dict_get (dict_or_empty (dict_get data "input")) "mode") INPUT_MODES "off").
  { unfold choice_or_default, as_str. destruct (dict_get (dict_or_empty (dict_get data "input")) "mode"); reflexivity. }
  rewrite <- Hmode.
  destruct (existsb _ INPUT_MODES);
    cbn [set_input_mode input_mode brightness max_brightness input_pin analog_path
         analog_max frames duration_seconds start_delay_seconds emergency_step
         emergency_color_index chase_position bounce_position bounce_direction
         rainbow_offset];
    repeat split.
Qed.

Lemma existsb_eqb_In (x : string) (l : list string) :
  existsb (String.eqb x) l = true <-> In x l.
Proof.
  rewrite existsb_exists. split.
  - intros (y & Hy & E). apply String.eqb_eq in E. subst y. exact Hy.
  - intros H. exists x. split; [exact H | apply String.eqb_refl].
Qed.

Lemma as_bool_cases (value : json) (default : bool) :
  (forall b, value = JBool b -> as_bool value default = b) /\
  (forall s, value = JStr s ->
     (In (Py.lower (Py.strip s)) ["1"; "true"; "yes"; "y"; "on"] ->
      as_bool value default = true) /\
     (In (Py.lower (Py.strip s)) ["0"; "false"; "no"; "n"; "off"] ->
      as_bool value default = false) /\
     (~ In (Py.lower (Py.strip s))
           ["1"; "true"; "yes"; "y"; "on"; "0"; "false"; "no"; "n"; "off"] ->
      as_bool value default = default)) /\
  ((forall b, value <> JBool b) -> (forall s, value <> JStr s) ->
   as_bool value default = default).
Proof.
  split; [intros b ->; reflexivity |]. split.
  - intros s ->. unfold as_bool. cbv zeta.
    set (n := Py.lower (Py.strip s)).
    destruct (existsb (String.eqb n) ["1"; "true"; "yes"; "y"; "on"]) eqn:E1.
    + apply existsb_eqb_In in E1. split; [reflexivity |]. split.
      * intros H. exfalso. simpl in E1, H.
        destruct E1 as [E | [E | [E | [E | [E | []]]]]]; rewrite <- E in H;
          destruct H as [H | [H | [H | [H | [H | []]]]]]; discriminate H.
      * intros H. exfalso. apply H. simpl in *. tauto.
    + assert (N1 : ~ In n ["1"; "true"; "yes"; "y"; "on"])
        by (intros H; apply existsb_eqb_In in H; congruence).
      destruct (existsb (String.eqb n) ["0"; "false"; "no"; "n"; "off"]) eqn:E2.
      * apply existsb_eqb_In in E2. split; [intros H; contradiction |].
        split; [reflexivity |]. intros H. exfalso. apply H. simpl in *. tauto.
      * assert (N2 : ~ In n ["0"; "false"; "no"; "n"; "off"])
          by (intros H; apply existsb_eqb_In in H; congruence).
        split; [intros H; contradiction |]. split; [intros H; contradiction |].
        reflexivity.
  - intros Hb Hs. destruct value; try reflexivity.
    + exfalso. exact (Hb b eq_refl).
    + exfalso. exact (Hs s eq_refl).
Qed.

(** C8, with coercion as the loader performs it. The loader returns for
    every record whose integer fields hold no infinite float and whose
    duration fields hold no integer beyond the binary64 range, and every
    field of the result is determined as follows. An enumerated field keeps
    a string that is a key of its table and takes its default otherwise
    (absent, of another type, or out of the enumeration), so a pattern
    outside the enumeration becomes "1"; in emergency-only mode the pattern
    is "4" whatever was given, and otherwise a "4" becomes "1". The path
    keeps a string and takes its default otherwise. The two flags are
    coerced by [as_bool]. An integer or duration field is coerced, as
    [int_or_default] and [float_or_default] tell, and then clamped:
    brightness and ceiling into [[0, 255]], [analog_max] to at least 1, the
    frame count and the durations to at least 0; the pin is not clamped.
    The fields of [input] and [run] count as absent when that section is not
    an object. The progress counters stand at their defaults. The empty
    record yields the defaults throughout. [as_bool] keeps a boolean, reads
    a string that is, stripped and in lower case, one of 1, true, yes, y, on
    as true and one of 0, false, no, n, off as false, and gives the default
    for every other string and every value of another type. *)
Theorem headless_settings_defaults :
  (forall (ios : string -> option Z) (fos : string -> option Py.float) data,
      settings_convertible data ->
      let input := dict_or_empty (dict_get data "input") in
      let run := dict_or_empty (dict_get data "run") in
      exists state options test_mode,
        state_options_from_headless_data ios fos data = Ok (state, options, test_mode) /\
        state_ok state /\ mode_ok state /\
        pattern state
        = (if emergency_only state then "4"
           else if String.eqb (enum_or_default (dict_get data "pattern") PATTERN_NAMES "1")
                              "4"
                then "1"
                else enum_or_default (dict_get data "pattern") PATTERN_NAMES "1") /\
        speed state = enum_or_default (dict_get data "speed") SPEED_LABELS "2" /\
        chase_color state
        = enum_or_default (dict_get data "chase_color") CHASE_COLORS "1" /\
        random_palette state
        = enum_or_default (dict_get data "random_palette") RANDOM_PALETTES "1" /\
        bounce_color state
        = enum_or_default (dict_get data "bounce_color") BOUNCE_COLORS "1" /\
        input_mode state = choice_or_default (dict_get input "mode") INPUT_MODES "off" /\
        emergency_only state = as_bool (dict_get data "emergency_only") false /\
        test_mode = as_bool (dict_get data "test") false /\
        brightness state
        = clamp_brightness
            (int_or_default ios (dict_get data "brightness") LED_BRIGHTNESS) /\
        max_brightness state
        = clamp_brightness
            (int_or_default ios (dict_get data "max_brightness") LED_BRIGHTNESS) /\
        input_pin state = int_or_default ios (dict_get input "pin") 23 /\
        analog_path state = as_str (dict_get input "analog_path") DEFAULT_ANALOG_PATH /\
        analog_max state
        = Z.max 1 (int_or_default ios (dict_get input "analog_max") 4095) /\
        frames options = Z.max 0 (int_or_default ios (dict_get run "frames") 0) /\
        duration_seconds options
        = Py.max_float float_zero
            (float_or_default fos (dict_get run "duration_seconds") float_zero) /\
        start_delay_seconds options
        = Py.max_float float_zero
            (float_or_default fos (dict_get run "start_delay_seconds") float_zero) /\
        emergency_step state = 0 /\ emergency_color_index state = 0 /\
        chase_position state = 0 /\ bounce_position state = 0 /\
        bounce_direction state = 1 /\ rainbow_offset state = 0 /\
        0 <= brightness state <= 255 /\ 0 <= max_brightness state <= 255 /\
        1 <= analog_max state /\ 0 <= frames options) /\
  (forall ios fos,
      state_options_from_headless_data ios fos [] = Ok (default_state, default_options, false)) /\
  (forall ios fos,
      exists state options test_mode,
        state_options_from_headless_data ios fos odd_pattern_settings
        = Ok (state, options, test_mode) /\ pattern state = "1") /\
  (forall value default,
      (forall b, value = JBool b -> as_bool value default = b) /\
      (forall s, value = JStr s ->
         (In (Py.lower (Py.strip s)) ["1"; "true"; "yes"; "y"; "on"] ->
          as_bool value default = true) /\
         (In (Py.lower (Py.strip s)) ["0"; "false"; "no"; "n"; "off"] ->
          as_bool value default = false) /\
         (~ In (Py.lower (Py.strip s))
               ["1"; "true"; "yes"; "y"; "on"; "0"; "false"; "no"; "n"; "off"] ->
          as_bool value default = default)) /\
      ((forall b, value <> JBool b) -> (forall s, value <> JStr s) ->
       as_bool value default = default)).
Proof.
  split; [| split; [| split; [| exact as_bool_cases]]].
  - intros ios fos data Hc input run.
    destruct (headless_settings_ok ios fos data Hc)
      as (s & o & t & Hrun & A1 & A2 & A3 & A4 & A5 & A6 & A7 & _ & A9 & A10 & A11
          & A12 & A13).
    destruct (headless_settings_numbers ios fos data Hc)
      as (s2 & o2 & t2 & Hrun2 & B1 & B2 & B3 & B4 & B5 & B6 & B7 & B8 & B9 & B10
          & B11 & B12 & B13 & B14 & B15 & B16).
    rewrite Hrun in Hrun2. injection Hrun2 as <- <- <-.
    exists s, o, t.
    repeat (split; [assumption |]). exact A13.
  - intros ios fos. reflexivity.
  - intros ios fos. do 3 eexists. split; reflexivity.
Qed.

Lemma headless_settings_defaults_witness :
  settings_convertible coerced_settings /\
  exists state options test_mode,
    state_options_from_headless_data (fun _ => None) (fun _ => None) coerced_settings
    = Ok (state, options, test_mode) /\
    pattern state = "4".
Proof.
  assert (H : settings_convertible coerced_settings) by (repeat split).
  split; [exact H |].
  destruct (proj1 headless_settings_defaults (fun _ => None) (fun _ => None)
                  coerced_settings H)
    as (s & o & t & Hrun & _ & _ & Hp & _ & _ & _ & _ & _ & He & _).
  exists s, o, t. split; [exact Hrun |]. rewrite Hp, He. reflexivity.
Defined.

Lemma headless_settings_coerced :
  exists state options test_mode,
    (forall ios fos,
        state_options_from_headless_data ios fos coerced_settings
        = Ok (state, options, test_mode)) /\
    brightness state = 1 /\ brightness state <> LED_BRIGHTNESS /\
    emergency_only state = true /\ emergency_only state <> false.
Proof.
  do 3 eexists. split; [intros ios fos; reflexivity |].
  simpl. repeat split; discriminate.
Qed.

(** An infinite float in an integer field is not caught by [as_int]. *)
Example headless_settings_overflow :
  forall ios fos,
    state_options_from_headless_data ios fos
      [("brightness", JFloat (S754_infinity false))]
    = Raise OverflowError.
Proof. intros ios fos. reflexivity. Qed.

(** The loader clamps brightness and ceiling separately. *)
Example headless_settings_above_ceiling :
  forall ios fos,
    exists state options test_mode,
      state_options_from_headless_data ios fos
        [("brightness", JInt 200); ("max_brightness", JInt 100)]
      = Ok (state, options, test_mode) /\
      brightness state = 200 /\ max_brightness state = 100.
Proof. intros ios fos. do 3 eexists. split; [reflexivity | split; reflexivity]. Qed.

(** ** Brightness *)

Example state_from_no_args :
  state_from_args no_args = (default_state, default_options).
Proof. reflexivity. Qed.

Lemma handle_key_brightness (exe : string) (strf : Py.float -> string)
    (state : AppState) (options : RunOptions) (w : World) (up : bool) :
  state_ok state -> strip w <> None ->
  let key := if up then "+" else "-" in
  let target :=
    clamp_brightness (if up then brightness state + 16 else brightness state - 16) in
  exists line vs,
    strip w = Some vs /\
    handle_key exe strf state options key w
    = Ok (set_brightness target state,
          print line (with_strip (Some (setBrightness vs target)) w), true).
Proof.
  intros Hok Hstrip key target.
  pose proof (clamp_brightness_range
                (if up then brightness state + 16 else brightness state - 16)) as Hb.
  fold target in Hb.
  assert (Hok' : state_ok (set_brightness target state)) by (open_state state; tauto).
  assert (Hbr : brightness (set_brightness target state) = target)
    by (destruct state; reflexivity).
  destruct (set_strip_brightness_ok target w Hstrip) as (vs & Hs & Hset).
  rewrite (clamp_brightness_id target Hb) in Hset.
  destruct (print_status_ok (set_brightness target state)
              (with_strip (Some (setBrightness vs target)) w) Hok') as (line & Hprint).
  exists line, vs. split; [exact Hs |].
  unfold handle_key. cbv zeta.
  assert (Hmem : Py.mem key (available_patterns (emergency_only state)) = false)
    by (subst key; destruct up; destruct (emergency_only state); reflexivity).
  rewrite Hmem. subst key target.
  destruct up; cbn [String.eqb Ascii.eqb Bool.eqb andb];
    rewrite Hbr, Hset; cbn [bind]; rewrite Hprint; reflexivity.
Qed.

Lemma state_from_args_brightness (args : Args) :
  0 <= brightness (fst (state_from_args args))
    <= max_brightness (fst (state_from_args args)) /\
  max_brightness (fst (state_from_args args)) <= 255.
Proof.
  unfold state_from_args. cbv zeta. cbn [fst]. unfold new_AppState.
  cbn [set_brightness brightness max_brightness].
  pose proof (clamp_brightness_range (if_given (arg_brightness args) LED_BRIGHTNESS)).
  pose proof (clamp_brightness_range (if_given (arg_max_brightness args) LED_BRIGHTNESS)).
  unfold normalize_pattern_for_mode. cbn [emergency_only pattern].
  destruct (arg_emergency_only args); [| destruct (String.eqb _ "4")];
    cbn [set_pattern brightness max_brightness]; lia.
Qed.

Lemma override_brightness {A : Type} (x : option A)
    (f : A -> AppState -> AppState) (state : AppState) :
  (forall a s, brightness (f a s) = brightness s) ->
  brightness (override x f state) = brightness state.
Proof. intros H. destruct x; simpl; [apply H | reflexivity]. Qed.

Lemma override_max_brightness {A : Type} (x : option A)
    (f : A -> AppState -> AppState) (state : AppState) :
  (forall a s, max_brightness (f a s) = max_brightness s) ->
  max_brightness (override x f state) = max_brightness state.
Proof. intros H. destruct x; simpl; [apply H | reflexivity]. Qed.

Lemma normalize_brightness (state : AppState) :
  brightness (normalize_pattern_for_mode state) = brightness state /\
  max_brightness (normalize_pattern_for_mode state) = max_brightness state.
Proof.
  unfold normalize_pattern_for_mode.
  destruct (emergency_only state); [| destruct (String.eqb _ "4")];
    destruct state; split; reflexivity.
Qed.

Ltac field_kept := intros ? []; reflexivity.

Ltac keep_through_override :=
  match goal with
  | |- context [brightness (override ?x ?f ?s)] =>
      rewrite (override_brightness x f s) by field_kept
  | |- context [max_brightness (override ?x ?f ?s)] =>
      rewrite (override_max_brightness x f s) by field_kept
  end.

Lemma emergency_flag_brightness (flag : bool) (state : AppState) :
  brightness (if flag then set_emergency_only true state else state)
  = brightness state /\
  max_brightness (if flag then set_emergency_only true state else state)
  = max_brightness state.
Proof. destruct flag; destruct state; split; reflexivity. Qed.

Lemma set_brightness_fields (v : Z) (state : AppState) :
  brightness (set_brightness v state) = v /\
  max_brightness (set_brightness v state) = max_brightness state.
Proof. destruct state; split; reflexivity. Qed.

Lemma set_max_brightness_fields (v : Z) (state : AppState) :
  brightness (set_max_brightness v state) = brightness state /\
  max_brightness (set_max_brightness v state) = v.
Proof. destruct state; split; reflexivity. Qed.

Lemma apply_cli_overrides_brightness (state : AppState) (options : RunOptions)
    (args : Args) :
  0 <= brightness state -> 0 <= max_brightness state <= 255 ->
  0 <= brightness (fst (apply_cli_overrides state options args))
    <= max_brightness (fst (apply_cli_overrides state options args)) /\
  max_brightness (fst (apply_cli_overrides state options args)) <= 255.
Proof.
  intros Hb Hmb. unfold apply_cli_overrides. cbv zeta. cbn [fst].
  rewrite (proj1 (normalize_brightness _)), (proj2 (normalize_brightness _)).
  rewrite (proj1 (emergency_flag_brightness _ _)), (proj2 (emergency_flag_brightness _ _)).
  repeat keep_through_override.
  rewrite (proj1 (set_brightness_fields _ _)), (proj2 (set_brightness_fields _ _)).
  repeat keep_through_override.
  set (early :=
         override (arg_bounce_color args) set_bounce_color
           (override (arg_random_palette args) set_random_palette
              (override (arg_chase_color args) set_chase_color
                 (override (arg_speed args) set_speed
                    (override (arg_pattern args) set_pattern state))))).
  assert (Eb : brightness early = brightness state)
    by (subst early; repeat keep_through_override; reflexivity).
  assert (Em : max_brightness early = max_brightness state)
    by (subst early; repeat keep_through_override; reflexivity).
  destruct (arg_max_brightness args) as [vm |], (arg_brightness args) as [vb |];
    cbn [override];
    rewrite ?(proj1 (set_brightness_fields _ _)), ?(proj2 (set_brightness_fields _ _)),
            ?(proj1 (set_max_brightness_fields _ _)),
            ?(proj2 (set_max_brightness_fields _ _)), ?Eb, ?Em;
    try pose proof (clamp_brightness_range vm);
    try pose proof (clamp_brightness_range vb); lia.
Qed.

(** C1, as the program bounds brightness. A ['+'] or ['-'] keystroke moves
    the brightness by 16 and clamps it to [[0, 255]], leaving the ceiling
    alone and passing the value to the sink; a sensor response that applies
    a sample leaves [0 <= brightness <= max_brightness <= 255] when the
    ceiling is in [[0, 255]]; loaded settings have brightness and ceiling
    each in [[0, 255]]; the command-line constructor and the command-line
    overrides (also applied to loaded settings) leave
    [0 <= brightness <= max_brightness <= 255]. *)
Theorem brightness_bounds_after_mutation :
  (forall (exe : string) (strf : Py.float -> string) state options w key,
      state_ok state -> strip w <> None -> key = "+" \/ key = "-" ->
      exists state' w',
        handle_key exe strf state options key w = Ok (state', w', true) /\
        brightness state'
        = clamp_brightness (if String.eqb key "+" then brightness state + 16
                            else brightness state - 16) /\
        0 <= brightness state' <= 255 /\
        max_brightness state' = max_brightness state /\
        sink_brightness w' = Some (brightness state')) /\
  (forall state w,
      strip w <> None -> 0 <= max_brightness state <= 255 ->
      exists state' w',
        apply_pi_input_response state w = Ok (state', w') /\
        max_brightness state' = max_brightness state /\
        ((state' = state /\ w' = w) \/
         (0 <= brightness state' <= max_brightness state' /\
          max_brightness state' <= 255 /\
          sink_brightness w' = Some (brightness state')))) /\
  (forall (ios : string -> option Z) (fos : string -> option Py.float) data,
      settings_convertible data ->
      exists state options test_mode,
        state_options_from_headless_data ios fos data = Ok (state, options, test_mode) /\
        0 <= brightness state <= 255 /\ 0 <= max_brightness state <= 255) /\
  (forall args,
      let state := fst (state_from_args args) in
      0 <= brightness state <= max_brightness state /\ max_brightness state <= 255) /\
  (forall state options args,
      0 <= brightness state -> 0 <= max_brightness state <= 255 ->
      let state' := fst (apply_cli_overrides state options args) in
      0 <= brightness state' <= max_brightness state' /\ max_brightness state' <= 255) /\
  (forall (ios : string -> option Z) (fos : string -> option Py.float) data args,
      settings_convertible data ->
      exists state options test_mode,
        state_options_from_headless_data ios fos data = Ok (state, options, test_mode) /\
        let state' := fst (apply_cli_overrides state options args) in
        0 <= brightness state' <= max_brightness state' /\ max_brightness state' <= 255).
Proof.
  split; [| split; [| split; [| split; [| split]]]].
  - intros exe strf state options w key Hok Hstrip Hkey.
    assert (Hup : exists up : bool, key = if up then "+" else "-")
      by (destruct Hkey as [-> | ->]; [exists true | exists false]; reflexivity).
    destruct Hup as (up & ->).
    destruct (handle_key_brightness exe strf state options w up Hok Hstrip)
      as (line & vs & Hs & Hrun).
    rewrite Hrun. do 2 eexists. split; [reflexivity |].
    rewrite (proj1 (set_brightness_fields _ _)), (proj2 (set_brightness_fields _ _)).
    pose proof (clamp_brightness_range
                  (if up then brightness state + 16 else brightness state - 16)) as Hb.
    split; [destruct up; reflexivity |].
    split; [exact Hb | split; [reflexivity |]].
    unfold sink_brightness. simpl. f_equal. unfold clamp_brightness in *. lia.
  - intros state w Hstrip Hmb.
    destruct (sensor_response_bounds state w Hstrip Hmb) as (s' & w' & Hrun & Hm & H).
    exists s', w'. split; [exact Hrun | split; [exact Hm |]].
    destruct H as [H | [Hb Hs]]; [left; exact H | right].
    split; [exact Hb | split; [lia | exact Hs]].
  - intros ios fos data Hsafe.
    destruct (headless_settings_ok ios fos data Hsafe)
      as (s & o & t & Hrun & _ & _ & _ & _ & _ & _ & _ & _ & _ & Hb & Hm & _).
    exists s, o, t. auto.
  - intros args. exact (state_from_args_brightness args).
  - intros state options args Hb Hm.
    exact (apply_cli_overrides_brightness state options args Hb Hm).
  - intros ios fos data args Hsafe.
    destruct (headless_settings_ok ios fos data Hsafe)
      as (s & o & t & Hrun & _ & _ & _ & _ & _ & _ & _ & _ & _ & Hb & Hm & _).
    exists s, o, t. split; [exact Hrun |].
    apply apply_cli_overrides_brightness; lia.
Qed.

Lemma brightness_bounds_after_mutation_witness :
  state_ok default_state /\ strip (test_world 4) <> None /\
  exists state' w',
    handle_key "python3" (fun _ => "0.0") default_state default_options "-" (test_world 4)
    = Ok (state', w', true) /\
    0 <= brightness state' <= 255.
Proof.
  assert (H1 : state_ok default_state) by (repeat split; simpl; lia).
  assert (H2 : strip (test_world 4) <> None) by discriminate.
  split; [exact H1 | split; [exact H2 |]].
  destruct (proj1 brightness_bounds_after_mutation "python3" (fun _ => "0.0")
                  default_state default_options (test_world 4) "-" H1 H2
                  (or_intror eq_refl))
    as (s' & w' & Hrun & _ & Hb & _).
  exists s', w'. split; [exact Hrun | exact Hb].
Defined.

Lemma keystroke_exceeds_max_brightness :
  exists state' w',
    (forall exe strf,
        handle_key exe strf dimmed_state default_options "+" (test_world 4)
        = Ok (state', w', true)) /\
    brightness dimmed_state = 100 /\ max_brightness dimmed_state = 100 /\
    brightness state' = 116 /\ max_brightness state' = 100 /\
    ~ (brightness state' <= max_brightness state').
Proof.
  do 2 eexists. split; [intros exe strf; vm_compute; reflexivity |].
  simpl. repeat split; lia.
Qed.

(** * Further properties *)

(** ** Writing one pixel *)

Lemma store_spec {A : Type} (l : list A) :
  forall (i : nat) (v : A),
    (i < List.length l)%nat ->
    exists l',
      Py.store l i v = Ok l' /\ List.length l' = List.length l /\
      nth_error l' i = Some v /\
      forall j, j <> i -> nth_error l' j = nth_error l j.
Proof.
  induction l as [| a l IH]; intros i v Hi; [simpl in Hi; lia |].
  destruct i as [| i].
  - exists (v :: l). repeat split.
    intros [| j] Hj; [contradiction | reflexivity].
  - destruct (IH i v ltac:(simpl in Hi; lia)) as (l' & Hs & Hl & Hn & Ho).
    exists (a :: l'). simpl. rewrite Hs. cbn [bind].
    repeat split; [now rewrite Hl | exact Hn |].
    intros [| j] Hj; [reflexivity | simpl; apply Ho; lia].
Qed.

Lemma store_out_of_range {A : Type} (l : list A) :
  forall (i : nat) (v : A),
    (List.length l <= i)%nat -> Py.store l i v = Raise IndexError.
Proof.
  induction l as [| a l IH]; intros i v Hi; [reflexivity |].
  destruct i as [| i]; [simpl in Hi; lia |].
  simpl. rewrite IH by (simpl in Hi; lia). reflexivity.
Qed.

(** X1. On a sink that holds one pixel per position, [setPixelColor] never
    fails: an index in [[0, count)] replaces that pixel and no other, any
    other index (negative, or [count] and above) leaves the sink as it was;
    the length of the buffer, the brightness and the frame counter are kept. *)
Theorem setPixelColor_contract :
  forall vs n color,
    Py.len (pixels vs) = count vs ->
    exists vs',
      setPixelColor vs n color = Ok vs' /\
      count vs' = count vs /\ Py.len (pixels vs') = count vs /\
      strip_brightness vs' = strip_brightness vs /\ frame vs' = frame vs /\
      (0 <= n < count vs ->
       nth_error (pixels vs') (Z.to_nat n) = Some color /\
       forall j, j <> Z.to_nat n -> nth_error (pixels vs') j = nth_error (pixels vs) j) /\
      (~ (0 <= n < count vs) -> vs' = vs).
Proof.
  intros vs n color Hlen. unfold setPixelColor.
  destruct (Z.leb_spec 0 n); destruct (Z.ltb_spec n (count vs)); cbn [andb];
    try (exists vs; repeat split; try assumption; lia).
  unfold Py.len in Hlen.
  destruct (store_spec (pixels vs) (Z.to_nat n) color ltac:(lia))
    as (px & Hs & Hl & Hn & Ho).
  rewrite Hs. cbn [bind]. exists (with_pixels px vs). simpl.
  repeat split; try assumption; try lia.
  unfold Py.len. lia.
Qed.

Lemma setPixelColor_contract_witness :
  exists vs',
    setPixelColor (new_VirtualStrip 4 80) 7 (Color 255 0 0) = Ok vs' /\
    vs' = new_VirtualStrip 4 80.
Proof.
  destruct (setPixelColor_contract (new_VirtualStrip 4 80) 7 (Color 255 0 0) eq_refl)
    as (vs' & Hs & _ & _ & _ & _ & _ & Hout).
  exists vs'. split; [exact Hs |]. apply Hout. simpl. lia.
Defined.


(** ** Blanking the strip *)

(** X2. Without a sink [clear_strip] and the final cleanup do nothing. With
    the software sink, [clear_strip] turns every pixel off; it flushes one
    frame when asked to show and none otherwise; the final cleanup blanks
    the pixels without flushing a frame and writes a single newline only
    when output is a terminal on which a frame has been drawn. *)
Theorem clear_strip_contract :
  (forall N show_now w,
      strip w = None ->
      clear_strip N show_now w = Ok w /\ final_cleanup N w = Ok w) /\
  (forall N show_now w,
      sink_ok N w ->
      exists w',
        clear_strip N show_now w = Ok w' /\
        sink_ok N w' /\
        pixels_of w' = repeat 0 (Z.to_nat N) /\
        frame_of w' = (if show_now then frame_of w + 1 else frame_of w) /\
        sink_brightness w' = sink_brightness w /\
        (show_now = false -> stdout w' = stdout w)) /\
  (forall N w vs,
      sink_ok N w -> strip w = Some vs ->
      exists w',
        final_cleanup N w = Ok w' /\
        pixels_of w' = repeat 0 (Z.to_nat N) /\
        frame_of w' = frame_of w /\
        stdout w'
        = (stdout w ++ (if stdout_isatty w && has_animated vs then [LF] else []))%list).
Proof.
  split; [| split].
  - intros N show_now w Hs. unfold final_cleanup, clear_strip. rewrite Hs.
    split; reflexivity.
  - intros N show_now w (vs & Hs & Hc & Hl & Hrw).
    unfold clear_strip. rewrite Hs. change (Color 0 0 0) with 0.
    rewrite (strip_fill N 0 w vs Hs Hc Hl). cbn [bind].
    assert (Hok : sink_ok N (with_strip (Some (with_pixels (repeat 0 (Z.to_nat N)) vs)) w)).
    { eexists. split; [reflexivity |]. simpl. unfold Py.len. rewrite repeat_length.
      unfold Py.len in Hl. repeat split; try assumption; lia. }
    destruct show_now.
    + destruct (strip_show_ok
                  (with_strip (Some (with_pixels (repeat 0 (Z.to_nat N)) vs)) w)
                  (with_pixels (repeat 0 (Z.to_nat N)) vs) eq_refl Hrw)
        as (vs' & out & Hshow & Hpx & Hcnt & Hrw' & Hfr & Hbr & _).
      rewrite Hshow. eexists. split; [reflexivity |].
      unfold pixels_of, frame_of, sink_brightness. simpl. rewrite Hs.
      split; [| split; [exact Hpx | split; [exact Hfr | split; [now rewrite Hbr | discriminate]]]].
      exists vs'. simpl. split; [reflexivity |].
      split; [rewrite Hcnt; exact Hc | split; [| rewrite Hrw'; exact Hrw]].
      rewrite Hpx. simpl. unfold Py.len. rewrite repeat_length.
      unfold Py.len in Hl. lia.
    + eexists. split; [reflexivity |]. split; [exact Hok |].
      unfold pixels_of, frame_of, sink_brightness. simpl. rewrite Hs.
      repeat split.
  - intros N w vs (vs0 & Hs0 & Hc & Hl & Hrw) Hs.
    assert (vs0 = vs) by congruence. subst vs0.
    unfold final_cleanup. rewrite Hs.
    rewrite (clear_strip_false N w vs Hs Hc Hl). cbn [bind].
    unfold get_strip. simpl strip. cbn [bind].
    eexists. split; [reflexivity |].
    unfold pixels_of, frame_of, finish. simpl. rewrite Hs. repeat split.
Qed.

Lemma clear_strip_contract_witness :
  exists w',
    clear_strip 4 true (test_world 4) = Ok w' /\
    pixels_of w' = [0; 0; 0; 0] /\ frame_of w' = 1.
Proof.
  destruct (proj1 (proj2 clear_strip_contract) 4 true (test_world 4)
                  (test_world_ok 4 ltac:(lia)))
    as (w' & Hrun & _ & Hpx & Hfr & _).
  exists w'. split; [exact Hrun | split; [exact Hpx | exact Hfr]].
Defined.


(** ** Packing colours *)

Lemma lor_shiftl_add (hi lo k : Z) :
  0 <= k -> 0 <= lo < 2 ^ k -> Z.lor (Z.shiftl hi k) lo = hi * 2 ^ k + lo.
Proof.
  intros Hk Hlo. rewrite Z.shiftl_mul_pow2 by lia.
  assert (H0 : Z.land (hi * 2 ^ k) lo = 0).
  { apply Z.bits_inj'. intros n Hn. rewrite Z.land_spec, Z.bits_0.
    destruct (Z.ltb_spec n k).
    - rewrite Z.mul_pow2_bits_low by lia. reflexivity.
    - rewrite <- (Z.mod_small lo (2 ^ k)) by lia.
      rewrite Z.mod_pow2_bits_high by lia. apply andb_false_r. }
  rewrite Z.add_nocarry_lxor by exact H0. symmetry. apply Z.lxor_lor. exact H0.
Qed.

Lemma Color_value (r g b : Z) :
  Color r g b = 65536 * (r mod 256) + 256 * (g mod 256) + b mod 256.
Proof.
  unfold Color. rewrite !land_255_mod.
  pose proof (Z.mod_pos_bound r 256 eq_refl).
  pose proof (Z.mod_pos_bound g 256 eq_refl).
  pose proof (Z.mod_pos_bound b 256 eq_refl).
  rewrite <- Z.lor_assoc.
  rewrite (lor_shiftl_add (g mod 256) (b mod 256) 8) by (change (2 ^ 8) with 256; lia).
  rewrite lor_shiftl_add by (change (2 ^ 16) with 65536; change (2 ^ 8) with 256; lia).
  change (2 ^ 16) with 65536. change (2 ^ 8) with 256. lia.
Qed.

Lemma color_to_ascii_dot (c : Z) : color_to_ascii c = "." <-> c = 0.
Proof.
  unfold color_to_ascii. destruct (Z.eqb_spec c 0) as [E | E].
  - split; [intros _; exact E | reflexivity].
  - split; [| contradiction].
    destruct (_ && _); [discriminate |].
    destruct (_ && _); [discriminate |].
    destruct (_ && _); discriminate.
Qed.

(** X3. [Color] packs any three integers into a 24-bit value from which the
    shifts and masks of [color_to_ascii] read each channel back reduced
    modulo 256; a packed colour is drawn as the dark glyph '.' exactly when
    all three channels are multiples of 256, so a pixel with a channel in
    [[1, 255]] is never drawn as off. *)
Theorem Color_round_trip :
  forall r g b,
    0 <= Color r g b < 2 ^ 24 /\
    red_of (Color r g b) = r mod 256 /\
    green_of (Color r g b) = g mod 256 /\
    blue_of (Color r g b) = b mod 256 /\
    (color_to_ascii (Color r g b) = "." <->
     r mod 256 = 0 /\ g mod 256 = 0 /\ b mod 256 = 0).
Proof.
  intros r g b. rewrite color_to_ascii_dot, Color_value.
  pose proof (Z.mod_pos_bound r 256 eq_refl).
  pose proof (Z.mod_pos_bound g 256 eq_refl).
  pose proof (Z.mod_pos_bound b 256 eq_refl).
  generalize dependent (r mod 256). generalize dependent (g mod 256).
  generalize dependent (b mod 256). intros b' Hb g' Hg r' Hr.
  unfold red_of, green_of, blue_of.
  rewrite !land_255_mod, !Z.shiftr_div_pow2 by lia.
  change (2 ^ 24) with 16777216. change (2 ^ 16) with 65536. change (2 ^ 8) with 256.
  split; [lia |].
  split; [| split; [| split]].
  - replace ((65536 * r' + 256 * g' + b') / 65536) with r'
      by (apply Z.div_unique with (r := 256 * g' + b'); lia).
    apply Z.mod_small; lia.
  - replace ((65536 * r' + 256 * g' + b') / 256) with (256 * r' + g')
      by (apply Z.div_unique with (r := b'); lia).
    symmetry. apply Z.mod_unique with (q := r'); lia.
  - symmetry. apply Z.mod_unique with (q := 256 * r' + g'); lia.
  - lia.
Qed.


(** ** Drawing a frame on a terminal *)

Lemma take_drop (n : nat) (s : string) : Py.take n s ++ Py.drop n s = s.
Proof.
  revert s. induction n as [| n IH]; intros [| c s]; simpl; try reflexivity.
  now rewrite IH.
Qed.

Lemma length_take (n : nat) (s : string) :
  String.length (Py.take n s) = Nat.min n (String.length s).
Proof.
  revert s. induction n as [| n IH]; intros [| c s]; simpl; try reflexivity.
  now rewrite IH.
Qed.

Lemma length_drop (n : nat) (s : string) :
  String.length (Py.drop n s) = (String.length s - n)%nat.
Proof.
  revert s. induction n as [| n IH]; intros [| c s]; simpl; try reflexivity.
  now rewrite IH.
Qed.

Lemma slices_concat (w : nat) :
  (0 < w)%nat ->
  forall fuel s, (String.length s <= fuel)%nat ->
    String.concat "" (slices fuel w s) = s.
Proof.
  intros Hw. induction fuel as [| fuel IH]; intros s Hs.
  - destruct s; [reflexivity | simpl in Hs; lia].
  - destruct s as [| c s]; [reflexivity |].
    cbn [slices]. rewrite concat_empty_cons, IH, take_drop; [reflexivity |].
    rewrite length_drop. simpl String.length in *. lia.
Qed.

Lemma slices_lengths (w : nat) :
  forall fuel s line,
    In line (slices fuel w s) ->
    (String.length line <= w)%nat /\
    ((0 < w)%nat -> (1 <= String.length line)%nat).
Proof.
  induction fuel as [| fuel IH]; intros s line Hin; [contradiction |].
  destruct s as [| c s]; [contradiction |].
  cbn [slices] in Hin. destruct Hin as [<- | Hin]; [| exact (IH _ _ Hin)].
  rewrite length_take. simpl String.length. lia.
Qed.

Lemma length_spaces (n : nat) : String.length (Py.spaces n) = n.
Proof. induction n as [| n IH]; simpl; [reflexivity | now rewrite IH]. Qed.

Lemma length_ljust (w : Z) (s : string) :
  String.length (Py.ljust w s) = Nat.max (Z.to_nat w) (String.length s).
Proof. unfold Py.ljust. rewrite string_length_app, length_spaces. lia. Qed.

(** X4. On a terminal, [show] of a sink of positive width never fails and
    loses no pixel: the lines it draws, joined end to end, are the frame
    label followed by one glyph per pixel in order; every line after the
    first holds between 1 and [render_width] glyphs; each line is written
    after an erase-line sequence, padded to the width, and the cursor is
    first moved up only when a frame was drawn before. When the width
    leaves ten columns after the label, every chunk written is exactly
    [render_width] characters long. *)
Theorem show_on_terminal :
  forall vs,
    1 <= render_width vs ->
    exists vs' lines,
      show vs true
      = Ok (vs',
            ((if has_animated vs
              then [(ESC ++ "[" ++ Py.str_int (rendered_lines vs) ++ "A" ++ CR)%string]
              else [])
             ++ flat_map (fun line =>
                            [(ESC ++ "[2K" ++ CR)%string;
                             (Py.ljust (render_width vs) line ++ LF)%string])
                         lines)%list) /\
      String.concat "" lines = frame_line vs /\
      (forall line, In line (tl lines) ->
                    1 <= Z.of_nat (String.length line) <= render_width vs) /\
      (Z.of_nat (String.length (frame_prefix (frame vs + 1))) + 10 <= render_width vs ->
       forall line, In line lines ->
                    Z.of_nat (String.length (Py.ljust (render_width vs) line))
                    = render_width vs) /\
      pixels vs' = pixels vs /\ frame vs' = frame vs + 1 /\
      has_animated vs' = true /\
      rendered_lines vs' = Py.len lines + 1.
Proof.
  intros vs Hw. unfold show. cbn [negb]. cbv zeta.
  unfold render_lines.
  destruct (Z.eqb_spec (render_width vs) 0) as [E | _]; [lia |].
  destruct (Z.ltb_spec (render_width vs) 0) as [E | _]; [lia |].
  cbn [bind].
  set (prefix := frame_prefix (frame vs + 1)).
  set (ascii_pixels := String.concat "" (map color_to_ascii (pixels vs))).
  set (cap := Z.to_nat (Z.max 10 (render_width vs - Z.of_nat (String.length prefix)))).
  set (rest := slices (String.length (Py.drop cap ascii_pixels))
                      (Z.to_nat (render_width vs)) (Py.drop cap ascii_pixels)).
  exists (mkVirtualStrip (count vs) (pixels vs) (strip_brightness vs) (frame vs + 1)
                         (render_width vs)
                         (Py.len (map (Py.ljust (render_width vs))
                                      ((prefix ++ Py.take cap ascii_pixels) :: rest)) + 1)
                         true),
         ((prefix ++ Py.take cap ascii_pixels) :: rest).
  split.
  { f_equal. f_equal. f_equal. generalize ((prefix ++ Py.take cap ascii_pixels) :: rest).
    intros l. induction l as [| x l IH]; [reflexivity |].
    cbn [map flat_map app]. now rewrite IH. }
  split.
  { rewrite concat_empty_cons. unfold rest.
    rewrite slices_concat by lia. rewrite string_app_assoc, take_drop. reflexivity. }
  split.
  { cbn [tl]. intros line Hin. apply slices_lengths in Hin. lia. }
  split.
  { intros Hroom line [<- | Hin]; rewrite length_ljust.
    - rewrite string_length_app, length_take. fold prefix in Hroom. lia.
    - apply slices_lengths in Hin. lia. }
  cbn. unfold Py.len. rewrite length_map. repeat split.
Qed.

Lemma show_on_terminal_witness :
  exists vs' lines,
    show (new_VirtualStrip 30 22) true
    = Ok (vs', flat_map (fun line => [(ESC ++ "[2K" ++ CR)%string;
                                      (Py.ljust 20 line ++ LF)%string]) lines) /\
    String.concat "" lines = frame_line (new_VirtualStrip 30 22) /\
    rendered_lines vs' = Py.len lines + 1.
Proof.
  destruct (show_on_terminal (new_VirtualStrip 30 22) ltac:(simpl; lia))
    as (vs' & lines & Hshow & Hcat & _ & _ & _ & _ & _ & Hrl).
  exists vs', lines. split; [exact Hshow | split; [exact Hcat | exact Hrl]].
Defined.


(** ** The random pattern *)

Lemma subscript_nth_default (l : list Z) (i : Z) :
  0 <= i < Py.len l -> Py.subscript l i = Ok (nth (Z.to_nat i) l 0).
Proof.
  intros Hi. unfold Py.subscript, Py.len in *.
  destruct (Z.ltb_spec i 0); [lia |].
  destruct (Z.ltb_spec i 0); [lia |]. destruct (Z.leb_spec (Z.of_nat (List.length l)) i); [lia |].
  cbn [orb].
  destruct (nth_error l (Z.to_nat i)) eqn:E.
  - now rewrite (nth_error_nth _ _ _ E).
  - apply nth_error_None in E. lia.
Qed.

Lemma random_pixel_step (palette : option (list Z)) (done todo : list Z) (x : Z)
    (vs : VirtualStrip) (w : World) :
  palette <> Some [] ->
  strip w = Some vs ->
  pixels vs = (done ++ x :: todo)%list ->
  Z.of_nat (List.length done) < count vs ->
  random_pixel palette (Z.of_nat (List.length done)) w
  = Ok (after_draws (draws_per_pixel palette)
          (with_pixels (done ++ drawn_color palette (rand w) (rand_pos w) :: todo) vs) w).
Proof.
  intros Hp Hs Hpx Hc.
  assert (Hset : forall c w1, strip w1 = Some vs ->
            strip_setPixelColor (Z.of_nat (List.length done)) c w1
            = Ok (with_strip (Some (with_pixels (done ++ c :: todo) vs)) w1)).
  { intros c w1 Hs1. unfold strip_setPixelColor, get_strip. rewrite Hs1. cbn [bind].
    unfold setPixelColor.
    replace ((0 <=? Z.of_nat (List.length done)) && (Z.of_nat (List.length done) <? count vs))
      with true by (symmetry; apply andb_true_intro; split; [apply Z.leb_le | apply Z.ltb_lt]; lia).
    rewrite Nat2Z.id, Hpx, store_app. reflexivity. }
  destruct palette as [colors |]; unfold random_pixel.
  - destruct colors as [| c0 colors]; [congruence |].
    unfold choice, draw. cbv zeta. cbn [bind].
    set (l := c0 :: colors).
    assert (Hl : 0 < Py.len l) by (unfold Py.len, l; simpl List.length; lia).
    rewrite subscript_nth_default by (apply Z.mod_pos_bound; exact Hl).
    cbn [bind]. rewrite Hset by exact Hs.
    unfold after_draws, with_strip, drawn_color, draws_per_pixel. cbn.
    replace (rand_pos w + 1)%nat with (S (rand_pos w)) by lia. reflexivity.
  - unfold randint, draw. cbn -[Z.modulo Color].
    rewrite Hset by exact Hs.
    unfold after_draws, with_strip, drawn_color, draws_per_pixel. cbn -[Z.modulo Color].
    replace (rand_pos w + 3)%nat with (S (S (S (rand_pos w)))) by lia.
    reflexivity.
Qed.

Lemma for_each_random (palette : option (list Z)) (n : nat) :
  palette <> Some [] ->
  forall (done todo : list Z) (vs : VirtualStrip) (w : World),
    strip w = Some vs ->
    pixels vs = (done ++ todo)%list ->
    (n <= List.length todo)%nat ->
    Z.of_nat (List.length done + n) <= count vs ->
    for_each (map Z.of_nat (seq (List.length done) n)) (random_pixel palette) w
    = Ok (after_draws (draws_per_pixel palette * n)
            (with_pixels (done ++ map (random_color palette (rand w) (rand_pos w)) (seq 0 n)
                               ++ skipn n todo) vs) w).
Proof.
  intros Hp. induction n as [| n IH]; intros done todo vs w Hs Hpx Hn Hc.
  - cbn [seq map for_each skipn app]. rewrite <- Hpx. unfold after_draws.
    rewrite Nat.mul_0_r, Nat.add_0_r.
    destruct w, vs; simpl in *. subst. reflexivity.
  - destruct todo as [| x todo]; [simpl in Hn; lia |].
    cbn [seq map for_each].
    rewrite (random_pixel_step palette done todo x vs w Hp Hs Hpx) by lia.
    cbn [bind].
    set (c := drawn_color palette (rand w) (rand_pos w)).
    replace (S (List.length done)) with (List.length (done ++ [c])%list)
      by (rewrite length_app; simpl; lia).
    rewrite (IH (done ++ [c])%list todo (with_pixels (done ++ c :: todo) vs)).
    + unfold after_draws, with_pixels. cbn.
      rewrite <- app_assoc. cbn [app].
      assert (E0 : c = random_color palette (rand w) (rand_pos w) 0)
        by (unfold random_color, c; f_equal; lia).
      assert (E1 : map (random_color palette (rand w)
                          (rand_pos w + draws_per_pixel palette)) (seq 0 n)
                   = map (random_color palette (rand w) (rand_pos w)) (seq 1 n)).
      { rewrite <- seq_shift, map_map. apply map_ext. intros i.
        unfold random_color. f_equal. lia. }
      rewrite E0, E1.
      replace (rand_pos w + draws_per_pixel palette + draws_per_pixel palette * n)%nat
        with (rand_pos w + draws_per_pixel palette * S n)%nat by lia.
      reflexivity.
    + reflexivity.
    + cbn. rewrite <- app_assoc. reflexivity.
    + simpl in Hn. lia.
    + cbn [count with_pixels]. rewrite length_app. simpl List.length. lia.
Qed.

Lemma Color_range (r g b : Z) : 0 <= Color r g b < 2 ^ 24.
Proof.
  rewrite Color_value.
  pose proof (Z.mod_pos_bound r 256 eq_refl).
  pose proof (Z.mod_pos_bound g 256 eq_refl).
  pose proof (Z.mod_pos_bound b 256 eq_refl).
  change (2 ^ 24) with 16777216. lia.
Qed.

Lemma drawn_color_in (palette : option (list Z)) (rand : nat -> Z) (pos : nat) :
  palette <> Some [] ->
  match palette with
  | Some colors => In (drawn_color palette rand pos) colors
  | None => 0 <= drawn_color palette rand pos < 2 ^ 24
  end.
Proof.
  intros Hp. destruct palette as [colors |]; unfold drawn_color.
  - destruct colors as [| c0 colors]; [congruence |].
    apply nth_In.
    assert (0 < Py.len (c0 :: colors)) by (unfold Py.len; simpl List.length; lia).
    pose proof (Z.mod_pos_bound (rand pos) _ H). unfold Py.len in *. lia.
  - apply Color_range.
Qed.

Lemma palette_not_empty (key name : string) (palette : option (list Z)) :
  Py.get RANDOM_PALETTES key = Some (name, palette) -> palette <> Some [].
Proof.
  unfold RANDOM_PALETTES. cbn [Py.get].
  repeat (destruct (String.eqb key _); [intros [= <- <-]; discriminate |]).
  discriminate.
Qed.

Lemma random_step :
  forall N state w name palette,
    sink_ok N w ->
    Py.get RANDOM_PALETTES (random_palette state) = Some (name, palette) ->
    exists w',
      pattern_step_random N state w = Ok (state, w') /\
      sink_ok N w' /\
      frame_of w' = frame_of w + 1 /\
      sink_brightness w' = sink_brightness w /\
      pixels_of w'
      = map (random_color palette (rand w) (rand_pos w)) (seq 0 (Z.to_nat N)) /\
      rand_pos w' = (rand_pos w + draws_per_pixel palette * Z.to_nat N)%nat /\
      (forall c, In c (pixels_of w') ->
                 match palette with
                 | Some colors => In c colors
                 | None => 0 <= c < 2 ^ 24
                 end).
Proof.
  intros N state w name palette (vs & Hs & Hc & Hl & Hrw) Hget.
  pose proof (palette_not_empty _ _ _ Hget) as Hp.
  unfold pattern_step_random, get_strip, Py.item. rewrite Hs, Hget. cbn [bind snd].
  unfold Py.range.
  pose proof (for_each_random palette (Z.to_nat N) Hp [] (pixels vs) vs w Hs eq_refl) as H.
  cbn [List.length app Nat.add] in H. unfold Py.len in Hl.
  rewrite H by lia. clear H. cbn [bind].
  rewrite skipn_all2, app_nil_r by lia.
  set (px := map (random_color palette (rand w) (rand_pos w)) (seq 0 (Z.to_nat N))).
  set (w1 := after_draws _ _ w).
  destruct (strip_show_ok w1 (with_pixels px vs) eq_refl Hrw)
    as (vs' & out & Hshow & Hpx & Hcnt & Hrw' & Hfr & Hbr & _).
  rewrite Hshow. cbn [bind]. eexists. split; [reflexivity |].
  assert (Hlen : List.length px = Z.to_nat N)
    by (unfold px; now rewrite length_map, length_seq).
  unfold pixels_of, frame_of, sink_brightness. cbn. rewrite Hs, Hpx. cbn [pixels with_pixels].
  split.
  { exists vs'. split; [reflexivity |]. rewrite Hcnt, Hpx, Hrw'. cbn.
    unfold Py.len. rewrite Hlen. repeat split; try assumption; lia. }
  split; [exact Hfr |]. split; [now rewrite Hbr |]. split; [reflexivity |].
  split; [reflexivity |].
  intros c Hin. unfold px in Hin. apply in_map_iff in Hin as (i & <- & _).
  apply drawn_color_in. exact Hp.
Qed.

(** X5. One step of the random pattern, on a sink of [N] pixels and with a
    palette key of the table: the step succeeds and leaves the animation
    state as it was; exactly one frame is flushed; pixel [i] gets the colour
    of the draws made for it, in order, three draws per pixel for the
    unrestricted palette (one per channel, each reduced to [[0, 255]]) and
    one draw per pixel otherwise; so every pixel is a colour of the chosen
    palette, or a packed 24-bit colour for the unrestricted one, and no
    pixel of the previous frame survives. *)
Theorem random_step_contract :
  forall N state w name palette,
    sink_ok N w ->
    Py.get RANDOM_PALETTES (random_palette state) = Some (name, palette) ->
    exists w',
      pattern_step_random N state w = Ok (state, w') /\
      sink_ok N w' /\
      frame_of w' = frame_of w + 1 /\
      sink_brightness w' = sink_brightness w /\
      pixels_of w'
      = map (random_color palette (rand w) (rand_pos w)) (seq 0 (Z.to_nat N)) /\
      rand_pos w' = (rand_pos w + draws_per_pixel palette * Z.to_nat N)%nat /\
      (forall c, In c (pixels_of w') ->
                 match palette with
                 | Some colors => In c colors
                 | None => 0 <= c < 2 ^ 24
                 end).
Proof. exact random_step. Qed.

Lemma random_step_contract_witness :
  exists w',
    pattern_step_random 4 (set_random_palette "2" default_state) (test_world 4)
    = Ok (set_random_palette "2" default_state, w') /\
    frame_of w' = 1 /\ rand_pos w' = 4%nat /\
    pixels_of w' = [Color 255 0 0; Color 255 0 0; Color 255 0 0; Color 255 0 0].
Proof.
  destruct (random_step_contract 4 (set_random_palette "2" default_state) (test_world 4)
              "Warm" (Some [Color 255 0 0; Color 255 120 0; Color 255 255 0])
              (test_world_ok 4 ltac:(lia)) eq_refl)
    as (w' & Hrun & _ & Hfr & _ & Hpx & Hpos & _).
  exists w'. split; [exact Hrun |]. split; [exact Hfr |]. split; [exact Hpos |].
  rewrite Hpx. reflexivity.
Defined.


(** ** The frames of the emergency pattern *)

Lemma emergency_steps_frames (N : Z) (k : nat) :
  forall state w,
    emergency_ready N state w ->
    exists state' w',
      steps k (pattern_step_emergency N) state w = Ok (state', w') /\
      emergency_ready N state' w' /\
      emergency_step state' = (emergency_step state + Z.of_nat k) mod 28 /\
      emergency_color_index state'
      = (emergency_color_index state + (emergency_step state + Z.of_nat k) / 28) mod 3 /\
      frame_of w' = frame_of w + Z.of_nat k.
Proof.
  induction k as [| k IH]; intros state w Hr.
  - destruct (emergency_steps N 0 state w Hr) as (s' & w' & Hsteps & Hr' & Hs' & Hi').
    exists s', w'. repeat split; try assumption; try apply Hr'.
    simpl in Hsteps. injection Hsteps as <- <-. simpl. lia.
  - destruct (emergency_step_ready N state w Hr) as (w1 & Hstep & Hr1 & _ & Hf1).
    destruct (IH _ _ Hr1) as (s' & w' & Hsteps & Hr' & _ & _ & Hf').
    destruct (emergency_steps N (S k) state w Hr) as (s2 & w2 & Hsteps2 & _ & Hs2 & Hi2).
    assert (E : Ok (s2, w2) = Ok (s', w')).
    { rewrite <- Hsteps2. cbn [steps]. rewrite Hstep. cbn [bind]. exact Hsteps. }
    injection E as -> ->.
    exists s', w'. repeat split; try assumption; try apply Hr'. lia.
Qed.

(** X6. The emergency pattern paints the whole strip in one colour at every
    frame: started with step index [s] and colour index [c], the frame
    drawn after [k] earlier ones is lit, in the colour of index
    [(c + (s + k) / 28) mod 3], when entry [(s + k) mod 28] of the waveform
    is positive, and is dark otherwise; the [k] earlier steps flush exactly
    [k] frames. *)
Theorem emergency_frame_uniform :
  forall N state w (k : nat),
    sink_ok N w ->
    0 <= emergency_step state < 28 ->
    0 <= emergency_color_index state < 3 ->
    exists state' w' state'' w'',
      steps k (pattern_step_emergency N) state w = Ok (state', w') /\
      frame_of w' = frame_of w + Z.of_nat k /\
      pattern_step_emergency N state' w' = Ok (state'', w'') /\
      pixels_of w''
      = repeat
          (if 0 <? nth (Z.to_nat ((emergency_step state + Z.of_nat k) mod 28))
                       EMERGENCY_SOS_STEPS 0
           then snd (nth (Z.to_nat ((emergency_color_index state
                                     + (emergency_step state + Z.of_nat k) / 28) mod 3))
                         EMERGENCY_COLORS ("", 0))
           else Color 0 0 0)
          (Z.to_nat N).
Proof.
  intros N state w k Hw Hs Hi.
  destruct (emergency_steps_frames N k state w (conj Hw (conj Hs Hi)))
    as (s' & w' & Hsteps & Hr' & Hs' & Hi' & Hf').
  destruct (emergency_step_ready N s' w' Hr') as (w'' & Hstep & _ & Hpx & _).
  exists s', w', (emergency_next s'), w''.
  split; [exact Hsteps | split; [exact Hf' | split; [exact Hstep |]]].
  rewrite Hpx. unfold emergency_frame_color. rewrite Hs', Hi'. reflexivity.
Qed.

Lemma emergency_frame_uniform_witness :
  exists state' w' state'' w'',
    steps 6 (pattern_step_emergency 3) default_state (test_world 3) = Ok (state', w') /\
    pattern_step_emergency 3 state' w' = Ok (state'', w'') /\
    pixels_of w'' = [Color 255 0 0; Color 255 0 0; Color 255 0 0].
Proof.
  destruct (emergency_frame_uniform 3 default_state (test_world 3) 6
              (test_world_ok 3 ltac:(lia)) ltac:(simpl; lia) ltac:(simpl; lia))
    as (s' & w' & s'' & w'' & Hsteps & _ & Hstep & Hpx).
  exists s', w', s'', w''. split; [exact Hsteps | split; [exact Hstep |]].
  rewrite Hpx. reflexivity.
Defined.


(** ** The sensor response as a whole *)

Lemma brightness_only (state : AppState) (w : World) (vs : VirtualStrip) (b : Z) :
  strip w = Some vs -> 0 <= b <= 255 ->
  let state' := set_brightness b state in
  let w' := with_strip (Some (setBrightness vs b)) w in
  state' = set_brightness (brightness state') state /\
  brightness state' = b /\ sink_brightness w' = Some b /\
  pixels_of w' = pixels_of w /\ frame_of w' = frame_of w /\
  stdout w' = stdout w /\ rand_pos w' = rand_pos w /\
  (forall N, sink_ok N w -> sink_ok N w').
Proof.
  intros Hs Hb. unfold pixels_of, frame_of, sink_brightness. cbn. rewrite Hs.
  split; [destruct state; reflexivity |].
  split; [destruct state; reflexivity |].
  split; [f_equal; lia |].
  repeat (split; [reflexivity |]).
  intros N (vs0 & Hs0 & Hc & Hl & Hrw). rewrite Hs in Hs0. injection Hs0 as <-.
  exists (setBrightness vs b). cbn. repeat split; assumption.
Qed.

Lemma set_strip_brightness_twice (w : World) (vs : VirtualStrip) (b : Z) :
  0 <= b <= 255 ->
  set_strip_brightness b (with_strip (Some (setBrightness vs b)) w)
  = Ok (with_strip (Some (setBrightness vs b)) w).
Proof.
  intros Hb. unfold set_strip_brightness, get_strip. cbn.
  rewrite clamp_brightness_id by exact Hb.
  unfold with_strip, setBrightness. cbn.
  replace (Z.max 0 (Z.min 255 (Z.max 0 (Z.min 255 b)))) with (Z.max 0 (Z.min 255 b)) by lia.
  reflexivity.
Qed.

Ltac unchanged state w Hkeep :=
  exists state, w; rewrite Hkeep;
  split; [reflexivity |]; split; [reflexivity |]; split; [now left |];
  repeat (split; [reflexivity |]);
  split; [intros ? ?; assumption |];
  split; [intros _; split; reflexivity |]; split.

Lemma sensor_response_kept :
  forall state w,
    strip w <> None -> 0 <= max_brightness state <= 255 ->
    exists state' w',
      apply_pi_input_response state w = Ok (state', w') /\
      state' = set_brightness (brightness state') state /\
      ((state' = state /\ w' = w) \/
       (0 <= brightness state' <= max_brightness state /\
        sink_brightness w' = Some (brightness state'))) /\
      pixels_of w' = pixels_of w /\ frame_of w' = frame_of w /\
      stdout w' = stdout w /\ rand_pos w' = rand_pos w /\
      (forall N, sink_ok N w -> sink_ok N w') /\
      (input_mode state = "off" -> state' = state /\ w' = w) /\
      (input_mode state = "digital" ->
       forall v, read_digital_input (input_pin state) w = Some v ->
                 brightness state' = (if 0 <? v then max_brightness state else 0) /\
                 sink_brightness w' = Some (brightness state')) /\
      apply_pi_input_response state' w' = Ok (state', w').
Proof.
  intros state w Hstrip Hmb. destruct (strip w) as [vs |] eqn:Hs; [| contradiction].
  assert (Hkeep : set_brightness (brightness state) state = state)
    by (destruct state; reflexivity).
  unfold apply_pi_input_response at 1.
  destruct (String.eqb_spec (input_mode state) "off") as [Eoff | Hoff].
  { unchanged state w Hkeep.
    - intros Ed. rewrite Eoff in Ed. discriminate.
    - unfold apply_pi_input_response. rewrite Eoff. reflexivity. }
  destruct (String.eqb_spec (input_mode state) "digital") as [Edig | Hdig].
  - destruct (read_digital_input (input_pin state) w) as [v |] eqn:Hread.
    + set (b := if 0 <? v then max_brightness state else 0).
      assert (Hb : 0 <= b <= 255) by (unfold b; destruct (0 <? v); lia).
      assert (Hb' : 0 <= b <= max_brightness state) by (unfold b; destruct (0 <? v); lia).
      destruct (brightness_only state w vs b Hs Hb) as (H1 & H2 & H3 & H4 & H5 & H6 & H7 & H8).
      unfold set_strip_brightness, get_strip. rewrite Hs. cbn [bind].
      rewrite H2, clamp_brightness_id by exact Hb.
      exists (set_brightness b state), (with_strip (Some (setBrightness vs b)) w).
      split; [reflexivity |]. split; [exact H1 |].
      split; [right; rewrite H2, H3; split; [exact Hb' | reflexivity] |].
      repeat (split; [assumption |]).
      split; [intros E; contradiction |].
      split; [intros _ v' [= <-]; rewrite H2, H3; split; reflexivity |].
      unfold apply_pi_input_response.
      replace (input_mode (set_brightness b state)) with (input_mode state)
        by (destruct state; reflexivity).
      replace (input_pin (set_brightness b state)) with (input_pin state)
        by (destruct state; reflexivity).
      replace (max_brightness (set_brightness b state)) with (max_brightness state)
        by (destruct state; reflexivity).
      rewrite Edig. cbn [String.eqb Ascii.eqb Bool.eqb andb].
      unfold read_digital_input in *. cbn [gpio with_strip]. rewrite Hread.
      fold b.
      replace (set_brightness b (set_brightness b state)) with (set_brightness b state)
        by (destruct state; reflexivity).
      rewrite H2, set_strip_brightness_twice by exact Hb. reflexivity.
    + unchanged state w Hkeep.
      * intros _ v Hv. discriminate.
      * unfold apply_pi_input_response. rewrite Edig, Hread. reflexivity.
  - destruct (read_analog_input (analog_path state) w) as [sample |] eqn:Hread.
    + destruct (analog_response state w vs sample) as
        (ratio & product & b & Hr & Hp & Hi & Hb' & _ & _ & Hrun);
        try assumption; try (apply String.eqb_neq; assumption).
      unfold apply_pi_input_response in Hrun.
      rewrite (proj2 (String.eqb_neq _ _) Hoff), (proj2 (String.eqb_neq _ _) Hdig), Hread
        in Hrun.
      rewrite Hrun.
      assert (Hb : 0 <= b <= 255) by lia.
      destruct (brightness_only state w vs b Hs Hb) as (H1 & H2 & H3 & H4 & H5 & H6 & H7 & H8).
      exists (set_brightness b state), (with_strip (Some (setBrightness vs b)) w).
      split; [reflexivity |]. split; [exact H1 |].
      split; [right; rewrite H2, H3; split; [exact Hb' | reflexivity] |].
      repeat (split; [assumption |]).
      split; [intros E; contradiction |].
      split; [intros E; contradiction |].
      unfold apply_pi_input_response.
      replace (input_mode (set_brightness b state)) with (input_mode state)
        by (destruct state; reflexivity).
      replace (analog_path (set_brightness b state)) with (analog_path state)
        by (destruct state; reflexivity).
      replace (analog_max (set_brightness b state)) with (analog_max state)
        by (destruct state; reflexivity).
      replace (max_brightness (set_brightness b state)) with (max_brightness state)
        by (destruct state; reflexivity).
      rewrite (proj2 (String.eqb_neq _ _) Hoff), (proj2 (String.eqb_neq _ _) Hdig).
      unfold read_analog_input in *. cbn [sysfs with_strip]. rewrite Hread.
      cbv zeta. rewrite Hr. cbn [bind]. rewrite Hp. cbn [bind]. rewrite Hi. cbn [bind].
      rewrite clamp_brightness_id by exact Hb.
      replace (set_brightness b (set_brightness b state)) with (set_brightness b state)
        by (destruct state; reflexivity).
      rewrite H2, set_strip_brightness_twice by exact Hb. reflexivity.
    + unchanged state w Hkeep.
      * intros E; contradiction.
      * unfold apply_pi_input_response.
        rewrite (proj2 (String.eqb_neq _ _) Hoff), (proj2 (String.eqb_neq _ _) Hdig), Hread.
        reflexivity.
Qed.

Lemma response_as_analog (state state' : AppState) (w w' : World) :
  input_mode state <> "off" -> input_mode state <> "digital" ->
  apply_pi_input_response state w = Ok (state', w') ->
  apply_pi_input_response (set_input_mode "analog" state) w
  = Ok (set_input_mode "analog" state', w').
Proof.
  intros Hoff Hdig. unfold apply_pi_input_response.
  rewrite (proj2 (String.eqb_neq _ _) Hoff), (proj2 (String.eqb_neq _ _) Hdig).
  destruct state as [p s c r b mb br im ip ap am eo es ei cp bp bd ro].
  cbn [set_input_mode input_mode analog_path analog_max max_brightness
       String.eqb Ascii.eqb Bool.eqb].
  destruct (read_analog_input ap w) as [sample |].
  - cbv zeta.
    destruct (Py.truediv _ _) as [ratio |]; cbn [bind]; [| discriminate].
    destruct (Py.mul_int ratio mb) as [product |]; cbn [bind]; [| discriminate].
    destruct (Py.int_of_float product) as [scaled |]; cbn [bind]; [| discriminate].
    cbn [set_brightness brightness].
    destruct (set_strip_brightness _ w) as [w1 |]; cbn [bind]; [| discriminate].
    intros [= <- <-]. reflexivity.
  - intros [= <- <-]. reflexivity.
Qed.

(** X7. The sensor response touches the brightness and nothing else. With a
    sink present and a ceiling in [[0, 255]] it never fails; the new state is
    the old one with, at most, another brightness, which is at most the
    ceiling; pixels, frame counter, output and the random stream are as
    before, and the sink keeps its shape. In mode off nothing changes even
    when a sensor answers; in digital mode a positive level gives the
    ceiling and any other level gives 0, and the sink receives the same
    value. Every mode other than off and digital is handled as analog: the
    response is the one the same state gives in mode analog, the mode
    itself being kept. Applying the response again to the unchanged sensors
    changes nothing more. *)
Theorem sensor_response_only_brightness :
  forall state w,
    strip w <> None -> 0 <= max_brightness state <= 255 ->
    exists state' w',
      apply_pi_input_response state w = Ok (state', w') /\
      state' = set_brightness (brightness state') state /\
      ((state' = state /\ w' = w) \/
       (0 <= brightness state' <= max_brightness state /\
        sink_brightness w' = Some (brightness state'))) /\
      pixels_of w' = pixels_of w /\ frame_of w' = frame_of w /\
      stdout w' = stdout w /\ rand_pos w' = rand_pos w /\
      (forall N, sink_ok N w -> sink_ok N w') /\
      (input_mode state = "off" -> state' = state /\ w' = w) /\
      (input_mode state = "digital" ->
       forall v, read_digital_input (input_pin state) w = Some v ->
                 brightness state' = (if 0 <? v then max_brightness state else 0) /\
                 sink_brightness w' = Some (brightness state')) /\
      (input_mode state <> "off" -> input_mode state <> "digital" ->
       apply_pi_input_response (set_input_mode "analog" state) w
       = Ok (set_input_mode "analog" state', w') /\
       input_mode state' = input_mode state) /\
      apply_pi_input_response state' w' = Ok (state', w').
Proof.
  intros state w Hstrip Hmb.
  destruct (sensor_response_kept state w Hstrip Hmb)
    as (s' & w' & Hrun & H1 & H2 & H3 & H4 & H5 & H6 & H7 & H8 & H9 & H10).
  exists s', w'. repeat (split; [assumption |]).
  split; [| exact H10].
  intros Hoff Hdig. split; [exact (response_as_analog state s' w w' Hoff Hdig Hrun) |].
  rewrite H1. destruct state; reflexivity.
Qed.

Lemma sensor_response_only_brightness_witness :
  exists state' w',
    apply_pi_input_response (set_brightness 10 (set_input_mode "digital" default_state))
                            (sensor_world 4 (Some 1) None)
    = Ok (state', w') /\
    brightness state' = 255 /\ sink_brightness w' = Some 255 /\
    pixels_of w' = [0; 0; 0; 0].
Proof.
  destruct (sensor_response_only_brightness
              (set_brightness 10 (set_input_mode "digital" default_state))
              (sensor_world 4 (Some 1) None) ltac:(discriminate) ltac:(simpl; lia))
    as (s' & w' & Hrun & _ & _ & Hpx & _ & _ & _ & _ & _ & Hdig & _).
  exists s', w'. split; [exact Hrun |].
  destruct (Hdig eq_refl 1 eq_refl) as (Hb & Hsink).
  rewrite Hsink, Hb, Hpx. repeat split.
Defined.


(** ** Cycling through a table *)

Lemma index_absent (l : list string) (x : string) :
  ~ In x l -> Py.index l x = Raise ValueError.
Proof.
  induction l as [| y l IH]; intros H; [reflexivity |].
  simpl Py.index. destruct (String.eqb_spec x y) as [-> | Hne].
  - exfalso. apply H. now left.
  - rewrite IH; [reflexivity |]. intros Hin. apply H. now right.
Qed.

Lemma index_nth (l : list string) :
  NoDup l ->
  forall i, (i < List.length l)%nat -> Py.index l (nth i l "") = Ok (Z.of_nat i).
Proof.
  induction 1 as [| y l Hy Hnd IH]; intros i Hi; [simpl in Hi; lia |].
  destruct i as [| i]; simpl Py.index; simpl nth.
  - rewrite String.eqb_refl. reflexivity.
  - simpl in Hi.
    destruct (String.eqb_spec (nth i l "") y) as [E | _].
    + exfalso. apply Hy. rewrite <- E. apply nth_In. lia.
    + rewrite IH by lia. cbn [bind]. f_equal. lia.
Qed.

Lemma cycle_choice_nth {V : Type} (choices : Py.dict V) (i : nat) :
  NoDup (Py.keys choices) ->
  (i < List.length (Py.keys choices))%nat ->
  cycle_choice (nth i (Py.keys choices) "") choices
  = Ok (nth ((i + 1) mod List.length (Py.keys choices)) (Py.keys choices) "").
Proof.
  intros Hnd Hi. unfold cycle_choice. rewrite index_nth by assumption. cbn [bind].
  unfold Py.modulo, Py.len.
  destruct (Z.eqb_spec (Z.of_nat (List.length (Py.keys choices))) 0); [lia |].
  cbn [bind].
  assert (E : (Z.of_nat i + 1) mod Z.of_nat (List.length (Py.keys choices))
              = Z.of_nat ((i + 1) mod List.length (Py.keys choices))).
  { rewrite Nat2Z.inj_mod. f_equal. lia. }
  rewrite E.
  assert (Hlt : ((i + 1) mod List.length (Py.keys choices)
                 < List.length (Py.keys choices))%nat)
    by (apply Nat.mod_upper_bound; lia).
  rewrite (subscript_nth _ _ "") by (unfold Py.len; lia).
  rewrite Nat2Z.id. reflexivity.
Qed.

Lemma cycle_times_nth {V : Type} (choices : Py.dict V) :
  NoDup (Py.keys choices) ->
  forall (k i : nat),
    (i < List.length (Py.keys choices))%nat ->
    cycle_times k (nth i (Py.keys choices) "") choices
    = Ok (nth ((i + k) mod List.length (Py.keys choices)) (Py.keys choices) "").
Proof.
  intros Hnd. induction k as [| k IH]; intros i Hi.
  - cbn [cycle_times]. rewrite Nat.add_0_r, Nat.mod_small by exact Hi. reflexivity.
  - cbn [cycle_times]. rewrite cycle_choice_nth by assumption. cbn [bind].
    rewrite IH by (apply Nat.mod_upper_bound; lia).
    rewrite Nat.Div0.add_mod_idemp_l. do 2 f_equal. f_equal. lia.
Qed.

(** X8. On a table with distinct keys, as every dictionary has,
    [cycle_choice] moves from the key at position [i] to the key at position
    [i + 1], wrapping from the last to the first; a value that is not a key
    raises [ValueError]; [k] presses from a key come back to it exactly when
    [k] is a multiple of the number of keys, so a full round visits every
    key once. *)
Theorem cycle_choice_cycles :
  forall (V : Type) (choices : Py.dict V),
    NoDup (Py.keys choices) ->
    (forall current,
        ~ In current (Py.keys choices) ->
        cycle_choice current choices = Raise ValueError) /\
    (forall (i k : nat),
        (i < List.length (Py.keys choices))%nat ->
        cycle_times k (nth i (Py.keys choices) "") choices
        = Ok (nth ((i + k) mod List.length (Py.keys choices)) (Py.keys choices) "")) /\
    (forall current (k : nat),
        In current (Py.keys choices) ->
        (cycle_times k current choices = Ok current
         <-> (k mod List.length (Py.keys choices) = 0)%nat)).
Proof.
  intros V choices Hnd. split; [| split].
  - intros current H. unfold cycle_choice. rewrite index_absent by exact H. reflexivity.
  - intros i k Hi. apply cycle_times_nth; assumption.
  - intros current k Hin.
    destruct (In_nth _ _ "" Hin) as (i & Hi & <-).
    rewrite cycle_times_nth by assumption.
    set (n := List.length (Py.keys choices)) in *.
    assert (Hlt : ((i + k) mod n < n)%nat) by (apply Nat.mod_upper_bound; lia).
    split.
    + intros [= E]. apply (proj1 (NoDup_nth _ "") Hnd) in E; try assumption.
      pose proof (Nat.div_mod_eq (i + k) n). pose proof (Nat.div_mod_eq k n).
      pose proof (Nat.mod_upper_bound k n ltac:(lia)).
      rewrite E in H.
      assert (k mod n = n * ((i + k) / n - k / n))%nat by nia.
      destruct ((i + k) / n - k / n)%nat; nia.
    + intros E. do 2 f_equal.
      rewrite <- Nat.Div0.add_mod_idemp_r, E, Nat.add_0_r. apply Nat.mod_small. exact Hi.
Qed.

Lemma cycle_choice_cycles_witness :
  cycle_choice "3" SPEED_LABELS = Ok "1" /\
  cycle_choice "9" SPEED_LABELS = Raise ValueError /\
  cycle_times 3 "2" SPEED_LABELS = Ok "2".
Proof.
  assert (Hnd : NoDup (Py.keys SPEED_LABELS)).
  { repeat constructor; simpl; intuition discriminate. }
  destruct (cycle_choice_cycles string SPEED_LABELS Hnd) as (Habs & Hnth & Hper).
  split; [exact (Hnth 2%nat 1%nat ltac:(simpl; lia)) |].
  split; [apply Habs; simpl; intuition discriminate |].
  apply (Hper "2" 3%nat); [simpl; auto | reflexivity].
Defined.


(** ** What a keystroke leaves alone *)

Lemma only_output_refl (w : World) : only_output w w.
Proof. repeat split; auto. exists []. now rewrite app_nil_r. Qed.

Lemma only_output_trans (w1 w2 w3 : World) :
  only_output w1 w2 -> only_output w2 w3 -> only_output w1 w3.
Proof.
  intros (P1 & F1 & R1 & S1 & o1 & O1) (P2 & F2 & R2 & S2 & o2 & O2).
  repeat split; try congruence; auto.
  exists (o1 ++ o2)%list. rewrite O2, O1, app_assoc. reflexivity.
Qed.

Lemma only_output_print (s : string) (w : World) : only_output w (print s w).
Proof.
  unfold only_output, pixels_of, frame_of, print, write. cbn.
  split; [reflexivity |]. split; [reflexivity |]. split; [reflexivity |].
  split; [intros N H; exact H |]. eexists. reflexivity.
Qed.

Lemma only_output_brightness (w : World) (vs : VirtualStrip) (b : Z) :
  strip w = Some vs -> only_output w (with_strip (Some (setBrightness vs b)) w).
Proof.
  intros Hs. unfold only_output, pixels_of, frame_of. cbn. rewrite Hs.
  split; [reflexivity |]. split; [reflexivity |]. split; [reflexivity |].
  split; [| exists []; now rewrite app_nil_r].
  intros N (vs0 & Hs0 & Hc & Hl & Hrw). rewrite Hs in Hs0. injection Hs0 as <-.
  exists (setBrightness vs b). cbn. repeat split; assumption.
Qed.

Lemma key_not_allowed (emergency : bool) (key : string) :
  ~ In key ["1"; "2"; "3"; "4"] -> Py.mem key (available_patterns emergency) = false.
Proof.
  intros H. destruct (Py.mem key (available_patterns emergency)) eqn:E; [| reflexivity].
  exfalso. apply H. apply mem_keys in E. destruct emergency; simpl in *; tauto.
Qed.

Lemma handle_key_kept :
  forall exe strf state options key w,
    state_ok state -> mode_ok state -> strip w <> None ->
    exists state' w' go,
      handle_key exe strf state options key w = Ok (state', w', go) /\
      same_progress state state' /\ same_setup state state' /\
      only_output w w' /\
      (go = false <-> key = "q") /\
      (key = "q" \/ ~ In key KNOWN_KEYS -> state' = state /\ w' = w).
Proof.
  intros exe strf state options key w Hok Hmode Hstrip.
  unfold handle_key. cbv zeta.
  destruct (Py.mem key (available_patterns (emergency_only state))) eqn:Hkey.
  { pose proof (allowed_is_pattern _ _ Hkey) as Hpat.
    assert (Hin : In key ["1"; "2"; "3"; "4"])
      by (apply mem_keys in Hpat; simpl in *; tauto).
    assert (Hok' : state_ok (set_pattern key state)) by (open_state state; tauto).
    destruct (print_status_ok _ w Hok') as (line & ->). cbn [bind].
    do 3 eexists. split; [reflexivity |].
    split; [destruct state; repeat split |].
    split; [destruct state; repeat split |].
    split; [apply only_output_print |].
    split; [split; [discriminate | intros ->; simpl in Hin; intuition discriminate] |].
    intros [-> | Hn]; [simpl in Hin; intuition discriminate |].
    exfalso. apply Hn. unfold KNOWN_KEYS. simpl in *. tauto. }
  destruct (String.eqb_spec key "p") as [-> | Hp].
  { destruct (cycle_choice_ok _ _ Hmode) as (next & -> & Hnext). cbn [bind].
    pose proof (allowed_is_pattern _ _ Hnext) as Hpat.
    assert (Hok' : state_ok (set_pattern next state)) by (open_state state; tauto).
    destruct (print_status_ok _ w Hok') as (line & ->). cbn [bind].
    do 3 eexists. split; [reflexivity |].
    split; [destruct state; repeat split |].
    split; [destruct state; repeat split |].
    split; [apply only_output_print |].
    split; [split; discriminate |].
    intros [H | Hn]; [discriminate |].
    exfalso. apply Hn. unfold KNOWN_KEYS. simpl. tauto. }
  destruct (String.eqb_spec key "s") as [-> | Hs].
  { destruct (cycle_choice_ok SPEED_LABELS (speed state)) as (next & -> & Hnext);
      [apply Hok |]. cbn [bind].
    assert (Hok' : state_ok (set_speed next state)) by (open_state state; tauto).
    destruct (print_status_ok _ w Hok') as (line & ->). cbn [bind].
    do 3 eexists. split; [reflexivity |].
    split; [destruct state; repeat split |].
    split; [destruct state; repeat split |].
    split; [apply only_output_print |].
    split; [split; discriminate |].
    intros [H | Hn]; [discriminate |].
    exfalso. apply Hn. unfold KNOWN_KEYS. simpl. tauto. }
  destruct (String.eqb_spec key "c") as [-> | Hc].
  { assert (Hc : exists state',
        (if String.eqb (pattern state) "1" then
           next <- cycle_choice (chase_color state) CHASE_COLORS ;;
           Ok (set_chase_color next state)
         else if String.eqb (pattern state) "2" then
           next <- cycle_choice (random_palette state) RANDOM_PALETTES ;;
           Ok (set_random_palette next state)
         else if String.eqb (pattern state) "3" then
           next <- cycle_choice (bounce_color state) BOUNCE_COLORS ;;
           Ok (set_bounce_color next state)
         else Ok state) = Ok state' /\
        state_ok state' /\ same_progress state state' /\ same_setup state state').
    { destruct (String.eqb (pattern state) "1").
      { destruct (cycle_choice_ok CHASE_COLORS (chase_color state))
          as (next & -> & Hnext); [apply Hok |]. cbn [bind].
        eexists. split; [reflexivity |].
        split; [open_state state; tauto |]. destruct state; repeat split. }
      destruct (String.eqb (pattern state) "2").
      { destruct (cycle_choice_ok RANDOM_PALETTES (random_palette state))
          as (next & -> & Hnext); [apply Hok |]. cbn [bind].
        eexists. split; [reflexivity |].
        split; [open_state state; tauto |]. destruct state; repeat split. }
      destruct (String.eqb (pattern state) "3").
      { destruct (cycle_choice_ok BOUNCE_COLORS (bounce_color state))
          as (next & -> & Hnext); [apply Hok |]. cbn [bind].
        eexists. split; [reflexivity |].
        split; [open_state state; tauto |]. destruct state; repeat split. }
      eexists. split; [reflexivity |]. split; [exact Hok |]. repeat split. }
    destruct Hc as (state' & -> & Hok' & Hpr & Hse). cbn [bind].
    destruct (print_status_ok _ w Hok') as (line & ->). cbn [bind].
    do 3 eexists. split; [reflexivity |].
    split; [exact Hpr |]. split; [exact Hse |].
    split; [apply only_output_print |].
    split; [split; discriminate |].
    intros [H | Hn]; [discriminate |].
    exfalso. apply Hn. unfold KNOWN_KEYS. simpl. tauto. }
  destruct (String.eqb_spec key "+") as [-> | Hplus].
  { set (state' := set_brightness (clamp_brightness (brightness state + 16)) state).
    pose proof (clamp_brightness_range (brightness state + 16)) as Hb.
    assert (Hok' : state_ok state') by (subst state'; open_state state; tauto).
    destruct (set_strip_brightness_ok (brightness state') w Hstrip) as (vs & Hvs & ->).
    cbn [bind].
    destruct (print_status_ok state' (with_strip (Some (setBrightness vs
                (clamp_brightness (brightness state')))) w) Hok') as (line & ->).
    cbn [bind]. do 3 eexists. split; [reflexivity |].
    split; [subst state'; destruct state; repeat split |].
    split; [subst state'; destruct state; repeat split |].
    split; [eapply only_output_trans;
            [apply only_output_brightness; exact Hvs | apply only_output_print] |].
    split; [split; discriminate |].
    intros [H | Hn]; [discriminate |].
    exfalso. apply Hn. unfold KNOWN_KEYS. simpl. tauto. }
  destruct (String.eqb_spec key "-") as [-> | Hminus].
  { set (state' := set_brightness (clamp_brightness (brightness state - 16)) state).
    pose proof (clamp_brightness_range (brightness state - 16)) as Hb.
    assert (Hok' : state_ok state') by (subst state'; open_state state; tauto).
    destruct (set_strip_brightness_ok (brightness state') w Hstrip) as (vs & Hvs & ->).
    cbn [bind].
    destruct (print_status_ok state' (with_strip (Some (setBrightness vs
                (clamp_brightness (brightness state')))) w) Hok') as (line & ->).
    cbn [bind]. do 3 eexists. split; [reflexivity |].
    split; [subst state'; destruct state; repeat split |].
    split; [subst state'; destruct state; repeat split |].
    split; [eapply only_output_trans;
            [apply only_output_brightness; exact Hvs | apply only_output_print] |].
    split; [split; discriminate |].
    intros [H | Hn]; [discriminate |].
    exfalso. apply Hn. unfold KNOWN_KEYS. simpl. tauto. }
  destruct (String.eqb_spec key "h") as [-> | Hh].
  { destruct (print_status_ok state (print SHORTCUTS_TEXT w) Hok) as (line & ->).
    cbn [bind]. do 3 eexists. split; [reflexivity |].
    split; [repeat split |]. split; [repeat split |].
    split; [eapply only_output_trans; apply only_output_print |].
    split; [split; discriminate |].
    intros [H | Hn]; [discriminate |].
    exfalso. apply Hn. unfold KNOWN_KEYS. simpl. tauto. }
  destruct (String.eqb_spec key CTRL_O) as [-> | Ho].
  { do 3 eexists. split; [reflexivity |].
    split; [repeat split |]. split; [repeat split |].
    split; [eapply only_output_trans; apply only_output_print |].
    split; [split; discriminate |].
    intros [H | Hn]; [discriminate |].
    exfalso. apply Hn. unfold KNOWN_KEYS. simpl. tauto. }
  destruct (String.eqb_spec key "q") as [-> | Hq].
  { do 3 eexists. split; [reflexivity |].
    split; [repeat split |]. split; [repeat split |].
    split; [apply only_output_refl |].
    split; [split; reflexivity |]. intros _. split; reflexivity. }
  do 3 eexists. split; [reflexivity |].
  split; [repeat split |]. split; [repeat split |].
  split; [apply only_output_refl |].
  split; [split; [discriminate | intros E; contradiction] |].
  intros _. split; reflexivity.
Qed.

(** X9. A keystroke, on a well-formed state with a sink present, never
    fails and never disturbs the animation: the progress counters, the
    brightness ceiling, the sensor set-up and the emergency-only mode are
    kept, the pixels, the frame counter and the random stream are
    untouched, and output is only added to. The loop is asked to stop by
    'q' and by no other key; 'q' and every key outside the shortcut list
    leave state and world exactly as they were. *)
Theorem handle_key_frame :
  forall exe strf state options key w,
    state_ok state -> mode_ok state -> strip w <> None ->
    exists state' w' go,
      handle_key exe strf state options key w = Ok (state', w', go) /\
      same_progress state state' /\ same_setup state state' /\
      only_output w w' /\
      (go = false <-> key = "q") /\
      (key = "q" \/ ~ In key KNOWN_KEYS -> state' = state /\ w' = w).
Proof. exact handle_key_kept. Qed.

Lemma handle_key_frame_witness :
  exists w',
    (forall exe strf,
        handle_key exe strf default_state default_options "x" (test_world 4)
        = Ok (default_state, w', true)) /\
    w' = test_world 4.
Proof.
  exists (test_world 4). split; [| reflexivity].
  intros exe strf.
  destruct (handle_key_frame exe strf default_state default_options "x" (test_world 4))
    as (s' & w' & go & Hrun & _ & _ & _ & Hgo & Hsame);
    [repeat split; simpl; lia | reflexivity | discriminate |].
  destruct Hsame as [-> ->].
  { right. unfold KNOWN_KEYS. simpl. intuition discriminate. }
  rewrite Hrun. f_equal. f_equal.
  destruct go; [reflexivity |]. discriminate (proj1 Hgo eq_refl).
Defined.


(** ** The cycling keys *)

Lemma handle_key_cycling (exe : string) (strf : Py.float -> string)
    (state : AppState) (options : RunOptions) (key : string) (w : World) :
  In key ["p"; "s"; "c"] ->
  state_ok state -> mode_ok state ->
  state_ok (pressed key state) /\ mode_ok (pressed key state) /\
  exists line,
    handle_key exe strf state options key w
    = Ok (pressed key state, print line w, true).
Proof.
  intros Hkey Hok Hmode.
  assert (Hmem : Py.mem key (available_patterns (emergency_only state)) = false).
  { apply key_not_allowed. simpl in *. intuition (subst; discriminate). }
  unfold handle_key, pressed. cbv zeta. rewrite Hmem.
  destruct Hkey as [<- | [<- | [<- | []]]]; cbn [String.eqb Ascii.eqb Bool.eqb andb].
  - destruct (cycle_choice_ok _ _ Hmode) as (next & -> & Hnext). cbn [bind or_keep].
    pose proof (allowed_is_pattern _ _ Hnext) as Hpat.
    assert (Hok' : state_ok (set_pattern next state)) by (open_state state; tauto).
    destruct (print_status_ok _ w Hok') as (line & ->). cbn [bind].
    split; [exact Hok' |]. split; [open_state state; tauto |].
    exists line. reflexivity.
  - destruct (cycle_choice_ok SPEED_LABELS (speed state)) as (next & -> & Hnext);
      [apply Hok |]. cbn [bind or_keep].
    assert (Hok' : state_ok (set_speed next state)) by (open_state state; tauto).
    destruct (print_status_ok _ w Hok') as (line & ->). cbn [bind].
    split; [exact Hok' |]. split; [open_state state; tauto |].
    exists line. reflexivity.
  - destruct (String.eqb (pattern state) "1").
    { destruct (cycle_choice_ok CHASE_COLORS (chase_color state))
        as (next & -> & Hnext); [apply Hok |]. cbn [bind or_keep].
      assert (Hok' : state_ok (set_chase_color next state)) by (open_state state; tauto).
      destruct (print_status_ok _ w Hok') as (line & ->). cbn [bind].
      split; [exact Hok' |]. split; [open_state state; tauto |].
      exists line. reflexivity. }
    destruct (String.eqb (pattern state) "2").
    { destruct (cycle_choice_ok RANDOM_PALETTES (random_palette state))
        as (next & -> & Hnext); [apply Hok |]. cbn [bind or_keep].
      assert (Hok' : state_ok (set_random_palette next state))
        by (open_state state; tauto).
      destruct (print_status_ok _ w Hok') as (line & ->). cbn [bind].
      split; [exact Hok' |]. split; [open_state state; tauto |].
      exists line. reflexivity. }
    destruct (String.eqb (pattern state) "3").
    { destruct (cycle_choice_ok BOUNCE_COLORS (bounce_color state))
        as (next & -> & Hnext); [apply Hok |]. cbn [bind or_keep].
      assert (Hok' : state_ok (set_bounce_color next state))
        by (open_state state; tauto).
      destruct (print_status_ok _ w Hok') as (line & ->). cbn [bind].
      split; [exact Hok' |]. split; [open_state state; tauto |].
      exists line. reflexivity. }
    cbn [bind].
    destruct (print_status_ok _ w Hok) as (line & ->). cbn [bind].
    split; [exact Hok |]. split; [exact Hmode |]. exists line. reflexivity.
Qed.

Lemma handle_keys_cycling (exe : string) (strf : Py.float -> string)
    (options : RunOptions) (key : string) (n : nat) :
  In key ["p"; "s"; "c"] ->
  forall state w,
    state_ok state -> mode_ok state ->
    exists w',
      handle_keys exe strf state options (repeat key n) w
      = Ok (Nat.iter n (pressed key) state, w', true) /\
      only_output w w'.
Proof.
  intros Hkey. induction n as [| n IH]; intros state w Hok Hmode.
  - exists w. split; [reflexivity | apply only_output_refl].
  - destruct (handle_key_cycling exe strf state options key w Hkey Hok Hmode)
      as (Hok' & Hmode' & line & Hrun).
    destruct (IH (pressed key state) (print line w) Hok' Hmode') as (w' & Hrest & Hout).
    exists w'. cbn [repeat handle_keys]. rewrite Hrun. cbn [bind].
    rewrite Hrest. split.
    + rewrite Nat.iter_succ_r. reflexivity.
    + eapply only_output_trans; [apply only_output_print | exact Hout].
Qed.

Ltac enum_key H :=
  apply mem_keys in H; vm_compute in H;
  repeat (destruct H as [H | H]); try contradiction; subst.

Ltac few_presses k Hk :=
  vm_compute in Hk;
  destruct k as [| [| [| [| k]]]]; try lia;
  vm_compute; intros E; discriminate E.

Lemma pressed_period (state : AppState) (key : string) :
  In key ["p"; "s"; "c"] -> state_ok state -> mode_ok state ->
  Nat.iter (key_period state key) (pressed key) state = state /\
  forall k, (0 < k < key_period state key)%nat ->
            Nat.iter k (pressed key) state <> state.
Proof.
  intros Hkey (Hp & Hs & Hc & Hr & Hb & _) Hm. unfold mode_ok in Hm.
  destruct state as [p s c r b mb br im ip ap am eo es ei cp bp bd ro].
  cbn [pattern speed chase_color random_palette bounce_color emergency_only] in *.
  destruct Hkey as [<- | [<- | [<- | []]]].
  - clear Hs Hc Hr Hb Hp. destruct eo; enum_key Hm;
      (split; [reflexivity | intros k Hk; few_presses k Hk]).
  - clear Hp Hc Hr Hb Hm. enum_key Hs;
      (split; [reflexivity | intros k Hk; few_presses k Hk]).
  - clear Hm Hs. enum_key Hp.
    + clear Hr Hb. enum_key Hc; (split; [reflexivity | intros k Hk; few_presses k Hk]).
    + clear Hc Hb. enum_key Hr; (split; [reflexivity | intros k Hk; few_presses k Hk]).
    + clear Hc Hr. enum_key Hb; (split; [reflexivity | intros k Hk; few_presses k Hk]).
    + split; [reflexivity | intros k Hk; few_presses k Hk].
Qed.

(** X10. The keys 'p', 's' and 'c' step through a table and come round:
    pressed as many times as the table has entries (the patterns the mode
    allows for 'p', the three speeds for 's', the colours or palettes of the
    current pattern for 'c', a single press in the emergency pattern, which
    has no colour option) they give back the very state they started from,
    and every smaller number of presses gives a different state. The loop
    is never asked to stop, and the world only gains output. *)
Theorem cycling_keys_round :
  forall exe strf state options key w,
    In key ["p"; "s"; "c"] -> state_ok state -> mode_ok state ->
    (exists w',
        handle_keys exe strf state options (repeat key (key_period state key)) w
        = Ok (state, w', true) /\
        only_output w w') /\
    (forall k, (0 < k < key_period state key)%nat ->
       exists state' w',
         handle_keys exe strf state options (repeat key k) w = Ok (state', w', true) /\
         state' <> state).
Proof.
  intros exe strf state options key w Hkey Hok Hmode.
  destruct (pressed_period state key Hkey Hok Hmode) as (Hround & Hless).
  split.
  - destruct (handle_keys_cycling exe strf options key (key_period state key) Hkey
                state w Hok Hmode) as (w' & Hrun & Hout).
    exists w'. rewrite Hrun, Hround. split; [reflexivity | exact Hout].
  - intros k Hk.
    destruct (handle_keys_cycling exe strf options key k Hkey state w Hok Hmode)
      as (w' & Hrun & _).
    exists (Nat.iter k (pressed key) state), w'. split; [exact Hrun | exact (Hless k Hk)].
Qed.

Lemma cycling_keys_round_witness :
  exists w',
    handle_keys "python3" (fun _ => "0.0") default_state default_options
                ["s"; "s"; "s"] (test_world 4)
    = Ok (default_state, w', true).
Proof.
  destruct (proj1 (cycling_keys_round "python3" (fun _ => "0.0") default_state default_options "s"
                     (test_world 4) ltac:(simpl; tauto)
                     ltac:(repeat split; simpl; lia) eq_refl))
    as (w' & Hrun & _).
  exists w'. exact Hrun.
Defined.


(** ** The brightness keys *)

Lemma brightness_key_pair (exe : string) (strf : Py.float -> string)
    (state : AppState) (options : RunOptions) (w : World) (up : bool) :
  state_ok state -> strip w <> None ->
  let first := if up then "+" else "-" in
  let second := if up then "-" else "+" in
  let target :=
    if up then Z.min (brightness state) 239 else Z.max (brightness state) 16 in
  exists w',
    handle_keys exe strf state options [first; second] w
    = Ok (set_brightness target state, w', true) /\
    sink_brightness w' = Some target /\ only_output w w'.
Proof.
  intros Hok Hstrip first second target.
  destruct (handle_key_brightness exe strf state options w up Hok Hstrip)
    as (line1 & vs & Hs & Hrun1).
  set (mid := clamp_brightness
                (if up then brightness state + 16 else brightness state - 16)) in *.
  assert (Hb : 0 <= brightness state <= 255) by apply Hok.
  assert (Hmid : 0 <= mid <= 255) by apply clamp_brightness_range.
  assert (Hok1 : state_ok (set_brightness mid state)) by (open_state state; tauto).
  set (w1 := print line1 (with_strip (Some (setBrightness vs mid)) w)) in *.
  destruct (handle_key_brightness exe strf (set_brightness mid state) options w1
              (negb up) Hok1 ltac:(discriminate))
    as (line2 & vs1 & Hs1 & Hrun2).
  assert (Hbr : brightness (set_brightness mid state) = mid) by (destruct state; reflexivity).
  rewrite Hbr in Hrun2.
  assert (Et : clamp_brightness (if negb up then mid + 16 else mid - 16) = target).
  { subst mid target. unfold clamp_brightness. destruct up; cbn [negb]; lia. }
  rewrite Et in Hrun2.
  eexists. split; [| split].
  - cbn [handle_keys]. subst first second.
    replace (if up then "+" else "-") with (if up then "+" else "-") by reflexivity.
    rewrite Hrun1. cbn [bind].
    replace (if up then "-" else "+") with (if negb up then "+" else "-")
      by (destruct up; reflexivity).
    rewrite Hrun2. cbn [bind].
    replace (set_brightness target (set_brightness mid state))
      with (set_brightness target state) by (destruct state; reflexivity).
    reflexivity.
  - unfold sink_brightness, print, write. cbn. f_equal.
    subst target. destruct up; lia.
  - eapply only_output_trans;
      [eapply only_output_trans;
       [apply (only_output_brightness w vs mid Hs) | apply only_output_print] |].
    eapply only_output_trans;
      [apply (only_output_brightness w1 vs1 target Hs1) | apply only_output_print].
Qed.

(** X11. The brightness keys do not undo each other at the ends of the
    range: '+' followed by '-' leaves the brightness at
    [min(brightness, 239)] and '-' followed by '+' at [max(brightness, 16)],
    in the state and in the sink alike, every other field being kept; so
    the pair restores the brightness exactly when it started at most at
    239, respectively at least at 16. *)
Theorem brightness_keys_compose :
  forall exe strf state options w,
    state_ok state -> strip w <> None ->
    (exists w',
        handle_keys exe strf state options ["+"; "-"] w
        = Ok (set_brightness (Z.min (brightness state) 239) state, w', true) /\
        sink_brightness w' = Some (Z.min (brightness state) 239) /\
        only_output w w') /\
    (exists w',
        handle_keys exe strf state options ["-"; "+"] w
        = Ok (set_brightness (Z.max (brightness state) 16) state, w', true) /\
        sink_brightness w' = Some (Z.max (brightness state) 16) /\
        only_output w w').
Proof.
  intros exe strf state options w Hok Hstrip. split.
  - exact (brightness_key_pair exe strf state options w true Hok Hstrip).
  - exact (brightness_key_pair exe strf state options w false Hok Hstrip).
Qed.

Lemma brightness_keys_compose_witness :
  exists w',
    handle_keys "python3" (fun _ => "0.0") default_state default_options
                ["+"; "-"] (test_world 4)
    = Ok (set_brightness 239 default_state, w', true) /\
    sink_brightness w' = Some 239.
Proof.
  destruct (proj1 (brightness_keys_compose "python3" (fun _ => "0.0") default_state
                     default_options (test_world 4)
                     ltac:(repeat split; simpl; lia) ltac:(discriminate)))
    as (w' & Hrun & Hsink & _).
  exists w'. split; [exact Hrun | exact Hsink].
Defined.


(** ** The status line *)

(** X12. On a well-formed state [print_status] prints exactly one line and
    never fails; the line names the pattern, the speed, the brightness and
    the option of the current pattern. The percentage it shows is computed
    in binary64 from the brightness and the ceiling (a ceiling below 1
    counting as 1): it lies in [[0, 100]] whenever the brightness does not
    exceed that ceiling, is 0 at brightness 0 and is exactly 100 when the
    brightness equals a ceiling of at least 1. A pattern that is not a key
    of the table of names raises [KeyError] and prints nothing. *)
Theorem print_status_line :
  (forall state w,
      state_ok state ->
      exists pattern_name speed_name detail pct,
        Py.get PATTERN_NAMES (pattern state) = Some pattern_name /\
        Py.get SPEED_LABELS (speed state) = Some speed_name /\
        status_detail state = Ok detail /\
        print_status state w
        = Ok (print ("Pattern: " ++ pattern_name ++ " | Speed: " ++ speed_name
                     ++ " | Brightness: " ++ Py.str_int (brightness state)
                     ++ " (" ++ Py.str_int pct ++ "%) | " ++ detail) w) /\
        (brightness state <= Z.max 1 (max_brightness state) -> 0 <= pct <= 100) /\
        (brightness state = 0 -> pct = 0) /\
        (1 <= max_brightness state -> brightness state = max_brightness state ->
         pct = 100)) /\
  (forall state w,
      Py.mem (pattern state) PATTERN_NAMES = false ->
      print_status state w = Raise KeyError).
Proof.
  split.
  - intros state w Hok.
    destruct (status_detail_ok state Hok) as (detail & Hd).
    destruct Hok as (Hp & Hs & _ & _ & _ & _ & Hb).
    unfold print_status, Py.item. unfold Py.mem in Hp, Hs.
    destruct (Py.get PATTERN_NAMES (pattern state)) as [pn |]; [| discriminate].
    destruct (Py.get SPEED_LABELS (speed state)) as [sn |]; [| discriminate].
    cbn [bind]. rewrite Hd. cbn [bind].
    destruct (percent_ok (brightness state) (max_brightness state) Hb) as (pct & Hpct).
    destruct (Py.truediv _ _) as [ratio |] eqn:Hr; [| discriminate]. cbn [bind] in *.
    destruct (Py.mul_int ratio 100) as [percent |] eqn:Hm; [| discriminate].
    cbn [bind] in *. rewrite Hpct. cbn [bind].
    exists pn, sn, detail, pct. repeat (split; [reflexivity |]).
    assert (Hscale : brightness state <= Z.max 1 (max_brightness state) ->
              0 <= pct <= 100 /\
              (brightness state <= 0 -> pct = 0) /\
              (Z.max 1 (max_brightness state) <= brightness state -> pct = 100)).
    { intros Hle.
      destruct (analog_scale (brightness state) (Z.max 1 (max_brightness state)) 100
                  ltac:(lia) ltac:(lia))
        as (ratio' & product' & scaled & Hr' & Hp' & Hi' & H1 & H2 & H3).
      replace (Z.max 0 (Z.min (Z.max 1 (max_brightness state)) (brightness state)))
        with (Z.max 0 (brightness state)) in Hr' by lia.
      rewrite Hr in Hr'. injection Hr' as <-.
      rewrite Hm in Hp'. injection Hp' as <-.
      rewrite Hpct in Hi'. injection Hi' as <-.
      repeat split; try assumption; lia. }
    split; [intros H; apply Hscale; exact H |].
    split; [intros H; apply Hscale; lia |].
    intros H1 H2. apply Hscale; lia.
  - intros state w H. unfold print_status, Py.item. unfold Py.mem in H.
    destruct (Py.get PATTERN_NAMES (pattern state)); [discriminate | reflexivity].
Qed.

Lemma print_status_line_witness :
  exists line,
    print_status default_state (test_world 4) = Ok (print line (test_world 4)) /\
    line = "Pattern: Chase | Speed: Medium | Brightness: 255 (100%) | Color: Orange".
Proof.
  destruct (proj1 print_status_line default_state (test_world 4)
                  ltac:(repeat split; simpl; lia))
    as (pn & sn & detail & pct & Hp & Hs & Hd & Hrun & _ & _ & Hfull).
  eexists. split; [exact Hrun |].
  rewrite (Hfull ltac:(simpl; lia) eq_refl).
  injection Hp as <-. injection Hs as <-. injection Hd as <-. reflexivity.
Defined.


(** ** When the loader fails *)

Lemma as_int_cases (ios : string -> option Z) (value : json) (default : Z) :
  (int_convertible value /\ exists n, as_int ios value default = Ok n) \/
  (~ int_convertible value /\ as_int ios value default = Raise OverflowError).
Proof.
  destruct value as [| b | n | x | s | l | d];
    try (left; split; [exact Logic.I | apply as_int_ok; exact Logic.I]).
  destruct x as [| sg | | sg m e];
    try (left; split; [exact Logic.I | apply as_int_ok; exact Logic.I]).
  right. split; [intros H; exact H | reflexivity].
Qed.

Lemma as_float_cases (fos : string -> option Py.float) (value : json)
    (default : Py.float) :
  (float_convertible value /\ exists x, as_float fos value default = Ok x) \/
  (~ float_convertible value /\ as_float fos value default = Raise OverflowError).
Proof.
  destruct value as [| b | n | x | s | l | d];
    try (left; split; [exact Logic.I | apply as_float_ok; exact Logic.I]).
  unfold float_convertible, as_float, py_float, Py.float_of_int, Py.overflow_check.
  destruct (binary_normalize Py.prec Py.emax n 0 false);
    try (left; split; [discriminate | eexists; reflexivity]).
  right. split; [intros H; apply H; reflexivity | reflexivity].
Qed.

Lemma loader_cases (ios : string -> option Z) (fos : string -> option Py.float)
    (data : Py.dict json) :
  (settings_convertible data /\
   exists r, state_options_from_headless_data ios fos data = Ok r) \/
  (~ settings_convertible data /\
   state_options_from_headless_data ios fos data = Raise OverflowError).
Proof.
  unfold settings_convertible, state_options_from_headless_data. cbv zeta.
  destruct (as_int_cases ios (dict_get data "brightness") LED_BRIGHTNESS)
    as [(C1 & b & ->) | (C1 & ->)]; [cbn [bind] | right; split; [tauto | reflexivity]].
  destruct (as_int_cases ios (dict_get data "max_brightness") LED_BRIGHTNESS)
    as [(C2 & mb & ->) | (C2 & ->)]; [cbn [bind] | right; split; [tauto | reflexivity]].
  destruct (as_int_cases ios (dict_get (dict_or_empty (dict_get data "input")) "pin") 23)
    as [(C3 & pin & ->) | (C3 & ->)]; [cbn [bind] | right; split; [tauto | reflexivity]].
  destruct (as_int_cases ios (dict_get (dict_or_empty (dict_get data "input")) "analog_max")
                         4095)
    as [(C4 & amax & ->) | (C4 & ->)]; [cbn [bind] | right; split; [tauto | reflexivity]].
  destruct (as_int_cases ios (dict_get (dict_or_empty (dict_get data "run")) "frames") 0)
    as [(C5 & fr & ->) | (C5 & ->)]; [cbn [bind] | right; split; [tauto | reflexivity]].
  destruct (as_float_cases fos (dict_get (dict_or_empty (dict_get data "run"))
                                         "duration_seconds") float_zero)
    as [(C6 & dur & ->) | (C6 & ->)]; [cbn [bind] | right; split; [tauto | reflexivity]].
  destruct (as_float_cases fos (dict_get (dict_or_empty (dict_get data "run"))
                                         "start_delay_seconds") float_zero)
    as [(C7 & delay & ->) | (C7 & ->)]; [cbn [bind] | right; split; [tauto | reflexivity]].
  left. split; [tauto |]. eexists. reflexivity.
Qed.

(** X13. The settings loader fails in one way only. It returns exactly for
    the records whose integer fields (brightness, max_brightness, input
    pin, analog_max, frames) hold no infinite float and whose two duration
    fields hold no integer beyond the binary64 range; for every other record
    it raises [OverflowError], which [as_int] and [as_float] do not catch.
    No other exception leaves it, whatever the types of the values. *)
Theorem loader_fails_only_on_overflow :
  forall ios fos data,
    (settings_convertible data <->
     exists result, state_options_from_headless_data ios fos data = Ok result) /\
    (~ settings_convertible data <->
     state_options_from_headless_data ios fos data = Raise OverflowError) /\
    (forall e, state_options_from_headless_data ios fos data = Raise e ->
               e = OverflowError).
Proof.
  intros ios fos data.
  destruct (loader_cases ios fos data) as [(C & r & Hr) | (C & Hr)].
  - split; [split; [intros _; exists r; exact Hr | intros _; exact C] |].
    split; [split; [intros H; contradiction | rewrite Hr; discriminate] |].
    intros e He. rewrite Hr in He. discriminate.
  - split; [split; [intros H; contradiction |
                    intros (r & H); rewrite Hr in H; discriminate] |].
    split; [split; [intros _; exact Hr | intros _; exact C] |].
    intros e He. rewrite Hr in He. injection He as <-. reflexivity.
Qed.


(** ** Saving and loading the settings *)

Lemma max_float_idempotent (x : Py.float) :
  Py.max_float float_zero (Py.max_float float_zero x) = Py.max_float float_zero x.
Proof.
  unfold Py.max_float. destruct (SFltb float_zero x) eqn:E; [now rewrite E |].
  reflexivity.
Qed.

Lemma load_saved (ios : string -> option Z) (fos : string -> option Py.float)
    (state : AppState) (options : RunOptions) (test_mode : bool) :
  savable state options ->
  state_options_from_headless_data ios fos (headless_payload state options test_mode)
  = Ok (restarted state, options, test_mode).
Proof.
  intros (Hp & Hs & Hc & Hr & Hb & Him & Hbr & Hmb & Ham & Hfr & Hdur & Hdel).
  destruct state as [p s c r b mb br im ip ap am eo es ei cp bp bd ro].
  destruct options as [fr dur del].
  cbn [pattern speed chase_color random_palette bounce_color input_mode brightness
       max_brightness analog_max emergency_only frames duration_seconds
       start_delay_seconds] in *.
  unfold state_options_from_headless_data, headless_payload, restarted. cbv zeta.
  cbn [dict_get dict_or_empty Py.get String.eqb Ascii.eqb Bool.eqb andb
       pattern speed chase_color random_palette bounce_color input_mode brightness
       max_brightness analog_max emergency_only frames duration_seconds
       start_delay_seconds input_pin analog_path as_int as_float as_str as_bool
       py_int py_float except_type_value bind].
  pose proof (allowed_is_pattern _ _ Hp) as Hpat.
  unfold new_AppState.
  unfold fallback at 5 10 15. cbn [pattern]. rewrite Hpat.
  unfold fallback at 4 8 12. cbn [speed]. rewrite Hs.
  unfold fallback at 3 6 9. cbn [chase_color]. rewrite Hc.
  unfold fallback at 2 4 6. cbn [random_palette]. rewrite Hr.
  unfold fallback. cbn [bounce_color]. rewrite Hb.
  cbn [input_mode].
  assert (Em : existsb (String.eqb im) INPUT_MODES = true).
  { apply existsb_exists. exists im. split; [exact Him | apply String.eqb_refl]. }
  rewrite Em.
  assert (En : forall st, Py.mem (pattern st) (available_patterns (emergency_only st)) = true ->
                          normalize_pattern_for_mode st = st).
  { intros st H. destruct (mode_ok_pattern st H) as (H1 & H2).
    unfold normalize_pattern_for_mode. destruct (emergency_only st) eqn:E.
    - rewrite <- (H1 eq_refl). destruct st; reflexivity.
    - destruct (String.eqb_spec (pattern st) "4") as [E4 | _]; [| reflexivity].
      exfalso. exact (H2 eq_refl E4). }
  rewrite En by exact Hp.
  rewrite Hdur, Hdel, !clamp_brightness_id, !Z.max_r by lia. reflexivity.
Qed.

Lemma at_start_restarted (state : AppState) : at_start state -> restarted state = state.
Proof.
  intros (H1 & H2 & H3 & H4 & H5 & H6). destruct state; cbn in *. subst. reflexivity.
Qed.

Lemma at_start_normalize (state : AppState) :
  at_start state -> at_start (normalize_pattern_for_mode state).
Proof.
  intros H. unfold normalize_pattern_for_mode.
  destruct (emergency_only state); [destruct state; exact H |].
  destruct (String.eqb (pattern state) "4"); [destruct state; exact H | exact H].
Qed.

Lemma at_start_fallback {V : Type} (table : Py.dict V) (default : string)
    (state : AppState) :
  at_start state ->
  at_start (fallback pattern set_pattern table default state) /\
  at_start (fallback speed set_speed table default state) /\
  at_start (fallback chase_color set_chase_color table default state) /\
  at_start (fallback random_palette set_random_palette table default state) /\
  at_start (fallback bounce_color set_bounce_color table default state).
Proof.
  intros H. unfold fallback.
  split; [| split; [| split; [| split]]];
    match goal with |- context [Py.mem ?x table] => destruct (Py.mem x table) end;
    try exact H; destruct state; exact H.
Qed.

Lemma loaded_at_start (ios : string -> option Z) (fos : string -> option Py.float)
    (data : Py.dict json) (state : AppState) (options : RunOptions) (test_mode : bool) :
  state_options_from_headless_data ios fos data = Ok (state, options, test_mode) ->
  at_start state /\
  Py.max_float float_zero (duration_seconds options) = duration_seconds options /\
  Py.max_float float_zero (start_delay_seconds options) = start_delay_seconds options.
Proof.
  unfold state_options_from_headless_data. cbv zeta. intros H.
  repeat match type of H with
         | bind ?c _ = _ => destruct c; cbn [bind] in H; [| discriminate H]
         end.
  injection H as <- <- <-. split.
  - apply at_start_normalize.
    match goal with |- at_start (if _ then ?st else _) =>
      assert (Hst : at_start st) end.
    { apply at_start_fallback, at_start_fallback, at_start_fallback,
        at_start_fallback, at_start_fallback. repeat split. }
    match type of Hst with at_start ?st => revert Hst; generalize st end.
    intros st Hst.
    match goal with |- at_start (if ?c then _ else _) => destruct c end;
      [exact Hst |].
    destruct st; exact Hst.
  - cbn [duration_seconds start_delay_seconds].
    split; apply max_float_idempotent.
Qed.

(** X14. The record [save_headless_config] writes and the loader agree.
    For settings as the program's constructors leave them (selections that
    are keys of their tables, a pattern the mode allows, brightness and
    ceiling in [[0, 255]], analog_max at least 1, frames at least 0,
    durations already clamped at 0.0), loading the saved record gives back
    the same settings, the same run options and the same test flag, with
    the progress counters at their defaults. Whatever the loader returns
    is of that kind and starts from those defaults, so saving a loaded
    configuration and loading it again changes nothing. *)
Theorem settings_round_trip :
  forall ios fos,
    (forall state options test_mode,
        savable state options ->
        state_options_from_headless_data ios fos
          (headless_payload state options test_mode)
        = Ok (restarted state, options, test_mode)) /\
    (forall data state options test_mode,
        state_options_from_headless_data ios fos data
        = Ok (state, options, test_mode) ->
        savable state options /\ at_start state /\
        state_options_from_headless_data ios fos
          (headless_payload state options test_mode)
        = Ok (state, options, test_mode)).
Proof.
  intros ios fos. split; [intros; apply load_saved; assumption |].
  intros data state options test_mode Hload.
  destruct (loaded_at_start ios fos data state options test_mode Hload)
    as (Hstart & Hdur & Hdel).
  assert (Hsav : savable state options).
  { destruct (loader_cases ios fos data) as [(C & _) | (_ & Hr)];
      [| rewrite Hr in Hload; discriminate].
    destruct (headless_settings_ok ios fos data C)
      as (st & op & tm & Hrun & Hok & Hmode & _ & _ & _ & _ & _ & Him & _ & Hb & Hmb & Ham & Hfr).
    rewrite Hrun in Hload. injection Hload as -> -> ->.
    destruct Hok as (_ & Hs & Hc & Hr & Hbc & _ & _).
    repeat (split; [assumption |]). exact Hdel. }
  split; [exact Hsav | split; [exact Hstart |]].
  rewrite (load_saved ios fos state options test_mode Hsav).
  rewrite (at_start_restarted state Hstart). reflexivity.
Qed.

Lemma settings_round_trip_witness :
  state_options_from_headless_data (fun _ => None) (fun _ => None)
    (headless_payload (set_chase_position 7 default_state) default_options true)
  = Ok (default_state, default_options, true).
Proof.
  apply (proj1 (settings_round_trip (fun _ => None) (fun _ => None))
               (set_chase_position 7 default_state) default_options true).
  unfold savable. simpl. repeat split; auto; lia.
Defined.


(** ** The two ways of reading the command line *)

Lemma str_or_given (x : option string) (choices : list string) (default : string) :
  given_in x choices -> ~ In "" choices -> str_or x default = if_given x default.
Proof.
  destruct x as [s |]; [| reflexivity]. simpl. intros Hin Hne.
  destruct (String.eqb_spec s "") as [-> | _]; [contradiction | reflexivity].
Qed.

Lemma override_setters (state : AppState) :
  (forall x, override x set_pattern state
             = set_pattern (if_given x (pattern state)) state) /\
  (forall x, override x set_speed state = set_speed (if_given x (speed state)) state) /\
  (forall x, override x set_chase_color state
             = set_chase_color (if_given x (chase_color state)) state) /\
  (forall x, override x set_random_palette state
             = set_random_palette (if_given x (random_palette state)) state) /\
  (forall x, override x set_bounce_color state
             = set_bounce_color (if_given x (bounce_color state)) state) /\
  (forall x, override x (fun v => set_max_brightness (clamp_brightness v)) state
             = set_max_brightness
                 (if_given (option_map clamp_brightness x) (max_brightness state)) state) /\
  (forall x, override x (fun v => set_brightness (clamp_brightness v)) state
             = set_brightness
                 (if_given (option_map clamp_brightness x) (brightness state)) state) /\
  (forall x, override x set_input_mode state
             = set_input_mode (if_given x (input_mode state)) state) /\
  (forall x, override x set_input_pin state
             = set_input_pin (if_given x (input_pin state)) state) /\
  (forall x, override x set_analog_path state
             = set_analog_path (if_given x (analog_path state)) state) /\
  (forall x, override x (fun v => set_analog_max (Z.max 1 v)) state
             = set_analog_max (if_given (option_map (Z.max 1) x) (analog_max state)) state).
Proof.
  destruct state. repeat split; intros [v |]; reflexivity.
Qed.

Lemma overrides_of_defaults (args : Args) :
  args_ok args ->
  (forall s, arg_analog_path args = Some s -> s <> "") ->
  apply_cli_overrides default_state default_options args = state_from_args args.
Proof.
  intros (Hp & Hs & Hc & Hr & Hb & Hm) Hpath.
  unfold apply_cli_overrides, state_from_args. cbv zeta.
  rewrite (str_or_given _ _ "1" Hp) by (simpl; intuition discriminate).
  rewrite (str_or_given _ _ "2" Hs) by (simpl; intuition discriminate).
  rewrite (str_or_given _ _ "1" Hc) by (simpl; intuition discriminate).
  rewrite (str_or_given _ _ "1" Hr) by (simpl; intuition discriminate).
  rewrite (str_or_given _ _ "1" Hb) by (simpl; intuition discriminate).
  rewrite (str_or_given _ _ "off" Hm) by (simpl; intuition discriminate).
  assert (Ep : str_or (arg_analog_path args) DEFAULT_ANALOG_PATH
               = if_given (arg_analog_path args) DEFAULT_ANALOG_PATH).
  { destruct (arg_analog_path args) as [s |]; [| reflexivity]. simpl.
    destruct (String.eqb_spec s "") as [E | _]; [| reflexivity].
    exfalso. exact (Hpath s eq_refl E). }
  rewrite Ep. clear Hp Hs Hc Hr Hb Hm Hpath Ep.
  destruct args as [xp xs xc xr xb xbr xmb xm xpin xpath xam xt xfr xdur xdel xeo].
  cbn [arg_pattern arg_speed arg_chase_color arg_random_palette arg_bounce_color
       arg_brightness arg_max_brightness arg_pi_input_mode arg_pi_input_pin
       arg_analog_path arg_analog_max arg_frames arg_duration_seconds
       arg_start_delay_seconds arg_emergency_only].
  f_equal.
  - f_equal. unfold default_state, new_AppState.
    repeat (first
      [ rewrite (proj1 (override_setters _))
      | rewrite (proj1 (proj2 (override_setters _)))
      | rewrite (proj1 (proj2 (proj2 (override_setters _))))
      | rewrite (proj1 (proj2 (proj2 (proj2 (override_setters _)))))
      | rewrite (proj1 (proj2 (proj2 (proj2 (proj2 (override_setters _))))))
      | rewrite (proj1 (proj2 (proj2 (proj2 (proj2 (proj2 (override_setters _)))))))
      | rewrite (proj1 (proj2 (proj2 (proj2 (proj2 (proj2 (proj2 (override_setters _))))))))
      | rewrite (proj1 (proj2 (proj2 (proj2 (proj2 (proj2 (proj2 (proj2
                   (override_setters _)))))))))
      | rewrite (proj1 (proj2 (proj2 (proj2 (proj2 (proj2 (proj2 (proj2 (proj2
                   (override_setters _))))))))))
      | rewrite (proj1 (proj2 (proj2 (proj2 (proj2 (proj2 (proj2 (proj2 (proj2 (proj2
                   (override_setters _)))))))))))
      | rewrite (proj2 (proj2 (proj2 (proj2 (proj2 (proj2 (proj2 (proj2 (proj2 (proj2
                   (override_setters _))))))))))) ];
      cbn [set_pattern set_speed set_chase_color set_random_palette set_bounce_color
           set_max_brightness set_brightness set_input_mode set_input_pin
           set_analog_path set_analog_max pattern speed chase_color random_palette
           bounce_color max_brightness brightness input_mode input_pin analog_path
           analog_max]).
    destruct xbr, xmb, xam, xeo; reflexivity.
  - unfold default_options. destruct xfr, xdur, xdel; reflexivity.
Qed.

Lemma normalize_savable (state : AppState) (options : RunOptions) :
  Py.mem (pattern state) PATTERN_NAMES = true ->
  Py.mem (speed state) SPEED_LABELS = true ->
  Py.mem (chase_color state) CHASE_COLORS = true ->
  Py.mem (random_palette state) RANDOM_PALETTES = true ->
  Py.mem (bounce_color state) BOUNCE_COLORS = true ->
  In (input_mode state) INPUT_MODES ->
  0 <= brightness state <= 255 -> 0 <= max_brightness state <= 255 ->
  1 <= analog_max state -> 0 <= frames options ->
  Py.max_float float_zero (duration_seconds options) = duration_seconds options ->
  Py.max_float float_zero (start_delay_seconds options) = start_delay_seconds options ->
  savable (normalize_pattern_for_mode state) options.
Proof.
  intros Hp Hs Hc Hr Hb Him Hbr Hmb Ham Hfr Hdur Hdel.
  unfold savable, normalize_pattern_for_mode.
  destruct (emergency_only state) eqn:He.
  - destruct state; cbn in *. subst. repeat split; try assumption; try lia.
  - destruct (String.eqb_spec (pattern state) "4") as [E | E].
    + destruct state; cbn in *. subst. repeat split; try assumption; try lia.
    + rewrite He. repeat split; try assumption; try lia.
      apply mem_keys in Hp. apply mem_keys. simpl in *.
      destruct Hp as [H | [H | [H | [H | []]]]]; auto; congruence.
Qed.

Lemma given_mem {V : Type} (x : option string) (choices : list string)
    (table : Py.dict V) (current : string) :
  given_in x choices ->
  (forall s, In s choices -> Py.mem s table = true) ->
  Py.mem current table = true ->
  Py.mem (if_given x current) table = true.
Proof. destruct x as [s |]; simpl; auto. Qed.

Lemma given_mode (x : option string) (current : string) :
  given_in x ["off"; "digital"; "analog"] -> In current INPUT_MODES ->
  In (if_given x current) INPUT_MODES.
Proof. destruct x as [s |]; simpl; auto. Qed.

Ltac choices_in_table :=
  intros ? ?; apply mem_keys; simpl in *; tauto.

Lemma overrides_savable (state : AppState) (options : RunOptions) (args : Args) :
  savable state options -> args_ok args ->
  savable (fst (apply_cli_overrides state options args))
          (snd (apply_cli_overrides state options args)) /\
  same_progress state (fst (apply_cli_overrides state options args)) /\
  brightness (fst (apply_cli_overrides state options args))
  <= max_brightness (fst (apply_cli_overrides state options args)) /\
  (emergency_only state = true \/ arg_emergency_only args = true <->
   emergency_only (fst (apply_cli_overrides state options args)) = true).
Proof.
  intros (Sp & Ss & Sc & Sr & Sb & Sim & Sbr & Smb & Sam & Sfr & Sdur & Sdel)
         (Hp & Hs & Hc & Hr & Hb & Hm).
  pose proof (allowed_is_pattern _ _ Sp) as Spat.
  unfold apply_cli_overrides. cbv zeta. cbn [fst snd].
  destruct args as [xp xs xc xr xb xbr xmb xm xpin xpath xam xt xfr xdur xdel xeo].
  destruct state as [p s c r b mb br im ip ap am eo es ei cp bp bd ro].
  destruct options as [fr dur del].
  cbn [arg_pattern arg_speed arg_chase_color arg_random_palette arg_bounce_color
       arg_brightness arg_max_brightness arg_pi_input_mode arg_pi_input_pin
       arg_analog_path arg_analog_max arg_frames arg_duration_seconds
       arg_start_delay_seconds arg_emergency_only
       pattern speed chase_color random_palette bounce_color max_brightness brightness
       input_mode input_pin analog_path analog_max emergency_only frames
       duration_seconds start_delay_seconds] in *.
  repeat (first
    [ rewrite (proj1 (override_setters _))
    | rewrite (proj1 (proj2 (override_setters _)))
    | rewrite (proj1 (proj2 (proj2 (override_setters _))))
    | rewrite (proj1 (proj2 (proj2 (proj2 (override_setters _)))))
    | rewrite (proj1 (proj2 (proj2 (proj2 (proj2 (override_setters _))))))
    | rewrite (proj1 (proj2 (proj2 (proj2 (proj2 (proj2 (override_setters _)))))))
    | rewrite (proj1 (proj2 (proj2 (proj2 (proj2 (proj2 (proj2 (override_setters _))))))))
    | rewrite (proj1 (proj2 (proj2 (proj2 (proj2 (proj2 (proj2 (proj2
                 (override_setters _)))))))))
    | rewrite (proj1 (proj2 (proj2 (proj2 (proj2 (proj2 (proj2 (proj2 (proj2
                 (override_setters _))))))))))
    | rewrite (proj1 (proj2 (proj2 (proj2 (proj2 (proj2 (proj2 (proj2 (proj2 (proj2
                 (override_setters _)))))))))))
    | rewrite (proj2 (proj2 (proj2 (proj2 (proj2 (proj2 (proj2 (proj2 (proj2 (proj2
                 (override_setters _))))))))))) ];
    cbn [set_pattern set_speed set_chase_color set_random_palette set_bounce_color
         set_max_brightness set_brightness set_input_mode set_input_pin
         set_analog_path set_analog_max pattern speed chase_color random_palette
         bounce_color max_brightness brightness input_mode input_pin analog_path
         analog_max]).
  set (mb' := if_given (option_map clamp_brightness xmb) mb).
  set (br' := Z.min (if_given (option_map clamp_brightness xbr) br) mb').
  set (am' := if_given (option_map (Z.max 1) xam) am).
  assert (Hmb' : 0 <= mb' <= 255)
    by (subst mb'; destruct xmb; cbn; [apply clamp_brightness_range | lia]).
  assert (Hbr' : 0 <= br' <= mb').
  { subst br'. destruct xbr; cbn; [| lia].
    pose proof (clamp_brightness_range z). lia. }
  assert (Ham' : 1 <= am') by (subst am'; destruct xam; cbn; lia).
  match goal with |- savable (normalize_pattern_for_mode ?st) ?op /\ _ =>
    set (st0 := st); set (op0 := op) end.
  assert (Hsav : savable (normalize_pattern_for_mode st0) op0).
  { apply normalize_savable; subst st0 op0.
    - destruct xeo; cbn; apply (given_mem xp _ PATTERN_NAMES p Hp); auto;
        choices_in_table.
    - destruct xeo; cbn; apply (given_mem xs _ SPEED_LABELS s Hs); auto;
        choices_in_table.
    - destruct xeo; cbn; apply (given_mem xc _ CHASE_COLORS c Hc); auto;
        choices_in_table.
    - destruct xeo; cbn; apply (given_mem xr _ RANDOM_PALETTES r Hr); auto;
        choices_in_table.
    - destruct xeo; cbn; apply (given_mem xb _ BOUNCE_COLORS b Hb); auto;
        choices_in_table.
    - destruct xeo; cbn [input_mode set_emergency_only]; apply given_mode; assumption.
    - destruct xeo; cbn [brightness set_emergency_only]; lia.
    - destruct xeo; cbn [max_brightness set_emergency_only]; lia.
    - destruct xeo; cbn [analog_max set_emergency_only]; lia.
    - destruct xfr, xdur, xdel; cbn; lia.
    - destruct xfr, xdur, xdel; cbn; try assumption; apply max_float_idempotent.
    - destruct xfr, xdur, xdel; cbn; try assumption; apply max_float_idempotent. }
  split; [exact Hsav |].
  subst st0. unfold normalize_pattern_for_mode.
  destruct xeo, eo; cbn [set_emergency_only emergency_only];
    repeat match goal with
           | |- context [String.eqb ?a "4"] => destruct (String.eqb a "4")
           end;
    cbn [set_pattern];
    (split; [repeat split |]);
    (split; [cbn [brightness max_brightness]; lia |]);
    cbn [emergency_only]; intuition discriminate.
Qed.

Lemma state_from_args_savable (args : Args) :
  args_ok args ->
  savable (fst (state_from_args args)) (snd (state_from_args args)) /\
  at_start (fst (state_from_args args)) /\
  brightness (fst (state_from_args args)) <= max_brightness (fst (state_from_args args)) /\
  emergency_only (fst (state_from_args args)) = arg_emergency_only args.
Proof.
  intros (Hp & Hs & Hc & Hr & Hb & Hm).
  unfold state_from_args. cbv zeta. cbn [fst snd].
  rewrite (str_or_given _ _ "1" Hp) by (simpl; intuition discriminate).
  rewrite (str_or_given _ _ "2" Hs) by (simpl; intuition discriminate).
  rewrite (str_or_given _ _ "1" Hc) by (simpl; intuition discriminate).
  rewrite (str_or_given _ _ "1" Hr) by (simpl; intuition discriminate).
  rewrite (str_or_given _ _ "1" Hb) by (simpl; intuition discriminate).
  rewrite (str_or_given _ _ "off" Hm) by (simpl; intuition discriminate).
  unfold new_AppState. cbn [set_brightness brightness max_brightness].
  pose proof (clamp_brightness_range (if_given (arg_brightness args) LED_BRIGHTNESS)).
  pose proof (clamp_brightness_range (if_given (arg_max_brightness args) LED_BRIGHTNESS)).
  split; [| split; [| split]].
  - apply normalize_savable;
      cbn [pattern speed chase_color random_palette bounce_color input_mode brightness
           max_brightness analog_max frames duration_seconds start_delay_seconds];
      try lia; try apply max_float_idempotent.
    + apply (given_mem _ _ PATTERN_NAMES "1" Hp); [choices_in_table | reflexivity].
    + apply (given_mem _ _ SPEED_LABELS "2" Hs); [choices_in_table | reflexivity].
    + apply (given_mem _ _ CHASE_COLORS "1" Hc); [choices_in_table | reflexivity].
    + apply (given_mem _ _ RANDOM_PALETTES "1" Hr); [choices_in_table | reflexivity].
    + apply (given_mem _ _ BOUNCE_COLORS "1" Hb); [choices_in_table | reflexivity].
    + apply given_mode; [exact Hm | simpl; auto].
  - apply at_start_normalize. repeat split.
  - rewrite (proj1 (normalize_brightness _)), (proj2 (normalize_brightness _)).
    cbn [brightness max_brightness]. lia.
  - unfold normalize_pattern_for_mode. cbn [emergency_only pattern].
    destruct (arg_emergency_only args); [reflexivity |].
    destruct (String.eqb _ "4"); reflexivity.
Qed.

(** X15. The two ways of building the start state from the command line
    agree: for options the parser accepts, [state_from_args] gives exactly
    what [apply_cli_overrides] gives on the default state and options (the
    settings an empty configuration loads), provided [--analog-path] is not
    the empty string; with an empty path the first falls back to the
    default path while the second keeps the empty string. *)
Theorem command_line_paths_agree :
  (forall ios fos,
      state_options_from_headless_data ios fos []
      = Ok (default_state, default_options, false)) /\
  (forall args,
      args_ok args ->
      (forall s, arg_analog_path args = Some s -> s <> "") ->
      apply_cli_overrides default_state default_options args = state_from_args args) /\
  analog_path (fst (state_from_args empty_path_args)) = DEFAULT_ANALOG_PATH /\
  analog_path (fst (apply_cli_overrides default_state default_options empty_path_args))
  = "".
Proof.
  split; [intros ios fos; reflexivity |].
  split; [exact overrides_of_defaults |].
  split; reflexivity.
Qed.

Lemma command_line_paths_agree_witness :
  apply_cli_overrides default_state default_options
    (mkArgs (Some "4") None None None None (Some 300) (Some 100) None None None None
            false (Some 5) None None false)
  = state_from_args
      (mkArgs (Some "4") None None None None (Some 300) (Some 100) None None None None
              false (Some 5) None None false).
Proof.
  apply (proj1 (proj2 command_line_paths_agree)).
  - unfold args_ok. simpl. tauto.
  - intros s H. discriminate H.
Defined.

(** X16. Every way of building the settings leaves them well formed, which
    is what saving and running rely on. For options the parser accepts,
    [state_from_args] yields selections that are keys of their tables, a
    pattern the mode allows, [0 <= brightness <= max_brightness <= 255],
    [analog_max >= 1], [frames >= 0], durations clamped at 0.0 and the
    progress counters at their defaults; [apply_cli_overrides] keeps
    well-formed settings well formed, keeps the progress counters, brings
    the brightness under the ceiling, and leaves the emergency-only mode on
    exactly when it was on before or the flag is given. *)
Theorem settings_stay_well_formed :
  (forall args,
      args_ok args ->
      savable (fst (state_from_args args)) (snd (state_from_args args)) /\
      at_start (fst (state_from_args args)) /\
      brightness (fst (state_from_args args))
      <= max_brightness (fst (state_from_args args)) /\
      emergency_only (fst (state_from_args args)) = arg_emergency_only args) /\
  (forall state options args,
      savable state options -> args_ok args ->
      savable (fst (apply_cli_overrides state options args))
              (snd (apply_cli_overrides state options args)) /\
      same_progress state (fst (apply_cli_overrides state options args)) /\
      brightness (fst (apply_cli_overrides state options args))
      <= max_brightness (fst (apply_cli_overrides state options args)) /\
      (emergency_only state = true \/ arg_emergency_only args = true <->
       emergency_only (fst (apply_cli_overrides state options args)) = true)).
Proof.
  split; [exact state_from_args_savable | exact overrides_savable].
Qed.

Lemma settings_stay_well_formed_witness :
  savable (fst (state_from_args no_args)) (snd (state_from_args no_args)) /\
  at_start (fst (state_from_args no_args)).
Proof.
  destruct (proj1 settings_stay_well_formed no_args) as (H1 & H2 & _).
  - unfold args_ok. simpl. tauto.
  - split; [exact H1 | exact H2].
Defined.


(** ** The run loop *)

Lemma chase_next_kept (N : Z) (state : AppState) :
  same_selection state (chase_next N state) /\ same_setup state (chase_next N state) /\
  bounce_position (chase_next N state) = bounce_position state /\
  bounce_direction (chase_next N state) = bounce_direction state /\
  emergency_step (chase_next N state) = emergency_step state /\
  emergency_color_index (chase_next N state) = emergency_color_index state.
Proof.
  unfold chase_next. destruct (String.eqb (chase_color state) "4");
    destruct state; repeat split.
Qed.

Lemma bounce_next_kept (N : Z) (state : AppState) :
  same_selection state (bounce_next N state) /\ same_setup state (bounce_next N state) /\
  chase_position (bounce_next N state) = chase_position state /\
  emergency_step (bounce_next N state) = emergency_step state /\
  emergency_color_index (bounce_next N state) = emergency_color_index state.
Proof.
  unfold bounce_next. destruct (String.eqb (bounce_color state) "4");
    destruct state; repeat split.
Qed.

Lemma emergency_next_kept (state : AppState) :
  same_selection state (emergency_next state) /\
  same_setup state (emergency_next state) /\
  chase_position (emergency_next state) = chase_position state /\
  bounce_position (emergency_next state) = bounce_position state /\
  bounce_direction (emergency_next state) = bounce_direction state.
Proof.
  unfold emergency_next.
  destruct (Py.len EMERGENCY_SOS_STEPS <=? _); destruct state; repeat split.
Qed.

Lemma run_ready_kept (N : Z) (state state' : AppState) (w w' : World) :
  run_ready N state w ->
  sink_ok N w' ->
  same_selection state state' -> same_setup state state' ->
  0 <= chase_position state' < N ->
  0 <= bounce_position state' < N ->
  (bounce_direction state' = 1 \/ bounce_direction state' = -1) ->
  0 <= emergency_step state' < 28 ->
  0 <= emergency_color_index state' < 3 ->
  run_ready N state' w'.
Proof.
  intros (_ & Hok & Hmode & Hmb & _) Hsink (S1 & S2 & S3 & S4 & S5 & S6)
         (T1 & T2 & T3 & T4 & T5 & T6) Hc Hb Hd He Hi.
  unfold run_ready, state_ok, mode_ok in *.
  rewrite S1, S2, S3, S4, S5, S6, T1, T6.
  repeat split; try assumption; try tauto; try lia.
Qed.

Lemma pattern_step_ready (N : Z) (state : AppState) (w : World) :
  2 <= N -> run_ready N state w ->
  exists state' w',
    pattern_step N state w = Ok (state', w') /\
    run_ready N state' w' /\
    frame_of w' = frame_of w + 1 /\
    same_selection state state' /\ same_setup state state'.
Proof.
  intros HN Hr.
  pose proof Hr as (Hsink & Hok & Hmode & Hmb & Hcp & Hbp & Hbd & Hes).
  pose proof Hok as (Hp & Hs & Hc & Hrp & Hb & Hei & Hbr).
  unfold pattern_step.
  destruct (String.eqb_spec (pattern state) "1") as [E1 | N1].
  { destruct (chase_step_ready N state w (conj Hsink (conj Hcp Hc)))
      as (w' & Hstep & (Hsink' & Hcp' & _) & _ & Hfr & _).
    destruct (chase_next_kept N state) as (K1 & K2 & K3 & K4 & K5 & K6).
    exists (chase_next N state), w'. split; [exact Hstep |].
    split; [| split; [exact Hfr | split; assumption]].
    apply (run_ready_kept N state _ w w' Hr Hsink' K1 K2); try assumption;
      congruence. }
  destruct (String.eqb_spec (pattern state) "2") as [E2 | N2].
  { unfold Py.mem in Hrp.
    destruct (Py.get RANDOM_PALETTES (random_palette state)) as [[name palette] |] eqn:Hg;
      [| discriminate].
    destruct (random_step N state w name palette Hsink Hg)
      as (w' & Hstep & Hsink' & Hfr & _).
    exists state, w'. split; [exact Hstep |].
    split; [| split; [exact Hfr | split; repeat split]].
    apply (run_ready_kept N state _ w w' Hr Hsink'); try assumption;
      repeat split; reflexivity. }
  destruct (String.eqb_spec (pattern state) "3") as [E3 | N3].
  { destruct Hsink as (vs & Hvs & Hcnt & Hlen & Hrw).
    destruct (bounce_step N state w vs Hvs Hcnt Hlen Hrw Hbp Hb)
      as (vs' & out & Hstep & Hpx & Hcnt' & Hrw' & Hfr).
    assert (Hready : bounce_ready N state w).
    { split; [exists vs; repeat split; assumption |].
      split; [exact Hbp | split; [exact Hbd | exact Hb]]. }
    destruct (bounce_step_ready N state w HN Hready)
      as (w' & Hstep' & (Hsink' & Hbp' & Hbd' & _) & _).
    rewrite Hstep in Hstep'. injection Hstep' as <-.
    destruct (bounce_next_kept N state) as (K1 & K2 & K3 & K4 & K5).
    eexists _, _. split; [exact Hstep |].
    split; [| split; [| split; assumption]].
    - apply (run_ready_kept N state _ w _ Hr Hsink' K1 K2); try assumption;
        congruence.
    - unfold frame_of. cbn. rewrite Hvs. exact Hfr. }
  { destruct (emergency_step_ready N state w (conj Hsink (conj Hes Hei)))
      as (w' & Hstep & (Hsink' & Hes' & Hei') & _ & Hfr).
    destruct (emergency_next_kept state) as (K1 & K2 & K3 & K4 & K5).
    exists (emergency_next state), w'. split; [exact Hstep |].
    split; [| split; [exact Hfr | split; assumption]].
    apply (run_ready_kept N state _ w w' Hr Hsink' K1 K2); try assumption;
      congruence. }
Qed.

Lemma get_delay_ok (state : AppState) :
  state_ok state -> exists d, get_delay state = Ok d.
Proof.
  intros (Hp & Hs & _). apply mem_keys in Hp. apply mem_keys in Hs.
  unfold get_delay. simpl in Hp, Hs.
  destruct Hp as [<- | [<- | [<- | [<- | []]]]];
    destruct Hs as [<- | [<- | [<- | []]]];
    eexists; reflexivity.
Qed.

Lemma headless_delay_ok (options : RunOptions) : delay_ok headless_env options.
Proof. split; intros; reflexivity. Qed.

Lemma with_sensors_ready (N : Z) (state : AppState) (w : World)
    (s : (Z -> option Z) * (string -> option Z)) :
  run_ready N state w -> run_ready N state (with_sensors s w).
Proof.
  intros (Hsink & Hrest). split; [| exact Hrest].
  destruct Hsink as (vs & Hvs & H). exists vs. split; [exact Hvs | exact H].
Qed.

Lemma handle_key_ready (exe : string) (strf : Py.float -> string) (N : Z)
    (state : AppState) (options : RunOptions) (key : string) (w : World) :
  run_ready N state w ->
  exists state' w' go,
    handle_key exe strf state options key w = Ok (state', w', go) /\
    run_ready N state' w' /\ same_setup state state' /\
    frame_of w' = frame_of w /\
    (go = false <-> key = "q") /\
    (key = "q" -> state' = state /\ w' = w).
Proof.
  intros Hr.
  pose proof Hr as (Hsink & Hok & Hmode & Hmb & Hcp & Hbp & Hbd & Hes).
  assert (Hstrip : strip w <> None)
    by (destruct Hsink as (vs & -> & _); discriminate).
  destruct (handle_key_kept exe strf state options key w Hok Hmode Hstrip)
    as (state' & w' & go & Hrun & (P1 & P2 & P3 & P4 & P5 & P6) & Hsetup
        & (_ & Hfr & _ & Hshape & _) & Hgo & Hsame).
  destruct (handle_key_ok exe strf state options key w Hok Hmode Hstrip)
    as (s2 & w2 & go2 & Hrun2 & Hok' & Hmode' & _ & Hmb' & _).
  rewrite Hrun in Hrun2. injection Hrun2 as <- <- <-.
  exists state', w', go. split; [exact Hrun |].
  split; [| split; [exact Hsetup | split; [exact Hfr | split; [exact Hgo |]]]].
  - unfold run_ready. rewrite Hmb', P3, P4, P5, P1.
    split; [apply Hshape; exact Hsink |].
    split; [exact Hok' |]. split; [exact Hmode' |].
    repeat split; try tauto; lia.
  - intros E. apply Hsame. now left.
Qed.

Lemma sensor_response_ready (N : Z) (state : AppState) (w : World) :
  run_ready N state w ->
  exists state' w',
    apply_pi_input_response state w = Ok (state', w') /\
    run_ready N state' w' /\ same_setup state state' /\
    frame_of w' = frame_of w.
Proof.
  intros Hr.
  pose proof Hr as (Hsink & Hok & Hmode & Hmb & Hcp & Hbp & Hbd & Hes).
  assert (Hstrip : strip w <> None)
    by (destruct Hsink as (vs & -> & _); discriminate).
  destruct (sensor_response_kept state w Hstrip Hmb)
    as (state' & w' & Hrun & Hst & Hcases & _ & Hfr & _ & _ & Hshape & _).
  exists state', w'. split; [exact Hrun |].
  assert (Hb : 0 <= brightness state' <= 255).
  { destruct Hcases as [(-> & _) | (H & _)]; [apply Hok | lia]. }
  revert Hb. rewrite Hst. generalize (brightness state'). intros b Hb.
  split; [| split; [destruct state; repeat split | exact Hfr]].
  split; [apply Hshape; exact Hsink |].
  unfold state_ok, mode_ok in *.
  destruct state; cbn in *.
  repeat split; try assumption; try tauto; try lia.
Qed.

Lemma same_setup_trans (s1 s2 s3 : AppState) :
  same_setup s1 s2 -> same_setup s2 s3 -> same_setup s1 s3.
Proof.
  intros (A1 & A2 & A3 & A4 & A5 & A6) (B1 & B2 & B3 & B4 & B5 & B6).
  repeat split; congruence.
Qed.

Lemma loop_body_ready (exe : string) (strf : Py.float -> string) (N : Z)
    (state : AppState) (options : RunOptions) (key : option string) (w : World) :
  2 <= N -> run_ready N state w ->
  exists state' w' go,
    loop_body exe strf N state options key w = Ok (state', w', go) /\
    run_ready N state' w' /\ same_setup state state' /\
    (go = false <-> key = Some "q") /\
    (go = true -> frame_of w' = frame_of w + 1) /\
    (go = false -> state' = state /\ w' = w).
Proof.
  intros HN Hr. unfold loop_body.
  assert (Hkey : exists state1 w1 go,
             match key with
             | Some k => handle_key exe strf state options k w
             | None => Ok (state, w, true)
             end = Ok (state1, w1, go) /\
             run_ready N state1 w1 /\ same_setup state state1 /\
             frame_of w1 = frame_of w /\
             (go = false <-> key = Some "q") /\
             (go = false -> state1 = state /\ w1 = w)).
  { destruct key as [k |].
    - destruct (handle_key_ready exe strf N state options k w Hr)
        as (s1 & w1 & go & Hrun & Hr1 & Hset & Hfr & Hgo & Hq).
      exists s1, w1, go. repeat (split; [assumption |]).
      split.
      + split; [intros E; f_equal; apply Hgo; exact E |
                intros [= E]; apply Hgo; exact E].
      + intros E. apply Hq, Hgo, E.
    - exists state, w, true. split; [reflexivity |]. split; [exact Hr |].
      split; [repeat split |]. split; [reflexivity |].
      split; [split; discriminate | discriminate]. }
  destruct Hkey as (s1 & w1 & go & -> & Hr1 & Hset1 & Hfr1 & Hgo & Hq). cbn [bind].
  destruct go.
  - destruct (sensor_response_ready N s1 w1 Hr1) as (s2 & w2 & -> & Hr2 & Hset2 & Hfr2).
    cbn [bind].
    destruct (pattern_step_ready N s2 w2 HN Hr2) as (s3 & w3 & -> & Hr3 & Hfr3 & _ & Hset3).
    cbn [bind]. exists s3, w3, true. split; [reflexivity |].
    split; [exact Hr3 |].
    split; [eapply same_setup_trans; [exact Hset1 |];
            eapply same_setup_trans; [exact Hset2 | exact Hset3] |].
    split; [exact Hgo |]. split; [intros _; lia | discriminate].
  - exists s1, w1, false. split; [reflexivity |]. split; [exact Hr1 |].
    split; [exact Hset1 |]. split; [exact Hgo |]. split; [discriminate | exact Hq].
Qed.

Lemma with_sensors_frame (s : (Z -> option Z) * (string -> option Z)) (w : World) :
  frame_of (with_sensors s w) = frame_of w.
Proof. reflexivity. Qed.

Lemma loop_from_ready (exe : string) (strf : Py.float -> string) (N : Z) (env : Env)
    (options : RunOptions) (start_time : Py.float) :
  2 <= N ->
  (forall call state d, get_delay state = Ok d -> time_sleep env call d = Ok tt) ->
  forall (turns : nat) (state : AppState) (w : World) (fc : Z) (reads : nat),
    run_ready N state w -> 0 <= fc ->
    exists state' w' fc' stopped,
      loop_from N exe strf env turns options start_time state w fc reads
      = Ok (state', w', fc', stopped) /\
      run_ready N state' w' /\ same_setup state state' /\
      frame_of w' = frame_of w + (fc' - fc) /\
      fc <= fc' <= fc + Z.of_nat turns /\
      (stopped = false -> fc' = fc + Z.of_nat turns) /\
      (0 < frames options -> fc < frames options ->
       fc' <= frames options /\
       (frames options <= fc + Z.of_nat turns -> stopped = true)) /\
      ((forall k, poll_key env k <> Some "q") ->
       float_positive (duration_seconds options) = false ->
       (0 < frames options -> fc < frames options ->
        frames options <= fc + Z.of_nat turns -> fc' = frames options) /\
       (frames options <= 0 -> stopped = false)).
Proof.
  intros HN Hsl. induction turns as [| t IH]; intros state w fc reads Hr Hfc.
  - exists state, w, fc, false. split; [reflexivity |].
    split; [exact Hr |]. split; [repeat split |].
    cbn [Z.of_nat]. repeat split; try lia; try reflexivity.
  - cbn [loop_from].
    pose proof (with_sensors_ready N state w (sensors_at env (Z.to_nat fc)) Hr) as Hr0.
    destruct (loop_body_ready exe strf N state options (poll_key env (Z.to_nat fc))
                _ HN Hr0)
      as (s1 & w1 & go & -> & Hr1 & Hset1 & Hgo & Hgo1 & Hgo0).
    cbn [bind]. destruct go; cbn [negb].
    + specialize (Hgo1 eq_refl). rewrite with_sensors_frame in Hgo1.
      assert (Hrec : forall reads',
                 exists state' w' fc' stopped,
                   (d <- get_delay s1 ;; _ <- time_sleep env (Z.to_nat (fc + 1)) d ;;
                    loop_from N exe strf env t options start_time s1 w1 (fc + 1) reads')
                   = Ok (state', w', fc', stopped) /\
                   run_ready N state' w' /\ same_setup state state' /\
                   frame_of w' = frame_of w + (fc' - fc) /\
                   fc + 1 <= fc' <= fc + 1 + Z.of_nat t /\
                   (stopped = false -> fc' = fc + 1 + Z.of_nat t) /\
                   (0 < frames options -> fc + 1 < frames options ->
                    fc' <= frames options /\
                    (frames options <= fc + 1 + Z.of_nat t -> stopped = true)) /\
                   ((forall k, poll_key env k <> Some "q") ->
                    float_positive (duration_seconds options) = false ->
                    (0 < frames options -> fc + 1 < frames options ->
                     frames options <= fc + 1 + Z.of_nat t -> fc' = frames options) /\
                    (frames options <= 0 -> stopped = false))).
      { intros reads'.
        destruct Hr1 as (Hsink1 & Hok1 & Hrest1).
        destruct (get_delay_ok s1 Hok1) as (d & Hd). rewrite Hd. cbn [bind].
        rewrite (Hsl _ _ _ Hd). cbn [bind].
        destruct (IH s1 w1 (fc + 1) reads' (conj Hsink1 (conj Hok1 Hrest1)) ltac:(lia))
          as (s' & w' & fc' & st & Hrun & Hr' & Hset' & Hfr' & Hb' & Hns & Hlim & Hex).
        exists s', w', fc', st. split; [exact Hrun |]. split; [exact Hr' |].
        split; [eapply same_setup_trans; eassumption |].
        split; [lia |]. repeat (split; [assumption |]). exact Hex. }
      destruct ((0 <? frames options) && (frames options <=? fc + 1)) eqn:Elim.
      { apply andb_prop in Elim. destruct Elim as [E1 E2].
        apply Z.ltb_lt in E1. apply Z.leb_le in E2.
        exists s1, w1, (fc + 1), true. split; [reflexivity |].
        split; [exact Hr1 |]. split; [exact Hset1 |]. split; [lia |]. split; [lia |].
        split; [discriminate |]. split; [intros _ H; split; [lia | reflexivity] |].
        intros _ _. split; [intros; lia | intros; exfalso; lia]. }
      assert (Hnl : 0 < frames options -> fc + 1 < frames options).
      { intros H. apply andb_false_iff in Elim. destruct Elim as [E | E].
        - apply Z.ltb_ge in E. lia.
        - apply Z.leb_gt in E. exact E. }
      destruct (float_positive (duration_seconds options)) eqn:Edur.
      * destruct (SFleb _ _).
        { exists s1, w1, (fc + 1), true. split; [reflexivity |].
          split; [exact Hr1 |]. split; [exact Hset1 |]. split; [lia |]. split; [lia |].
          split; [discriminate |].
          split; [intros H _; split; [specialize (Hnl H); lia | reflexivity] |].
          intros _ H. discriminate H. }
        destruct (Hrec (S reads))
          as (s' & w' & fc' & st & Hrun & Hr' & Hset' & Hfr' & Hb' & Hns & Hlim & Hex).
        exists s', w', fc', st. split; [exact Hrun |].
        split; [exact Hr' |]. split; [exact Hset' |]. split; [lia |]. split; [lia |].
        split; [intros H; specialize (Hns H); lia |].
        split; [intros H1 H2; destruct (Hlim H1 (Hnl H1)) as (L1 & L2);
                split; [exact L1 | intros H3; apply L2; lia] |].
        intros _ H. discriminate H.
      * destruct (Hrec reads)
          as (s' & w' & fc' & st & Hrun & Hr' & Hset' & Hfr' & Hb' & Hns & Hlim & Hex).
        exists s', w', fc', st. split; [exact Hrun |].
        split; [exact Hr' |]. split; [exact Hset' |]. split; [lia |]. split; [lia |].
        split; [intros H; specialize (Hns H); lia |].
        split; [intros H1 H2; destruct (Hlim H1 (Hnl H1)) as (L1 & L2);
                split; [exact L1 | intros H3; apply L2; lia] |].
        intros Hq _. destruct (Hex Hq eq_refl) as (X1 & X2).
        split; [intros H1 H2 H3; apply X1; try assumption; [apply Hnl; exact H1 | lia]
               | exact X2].
    + destruct (Hgo0 eq_refl) as (-> & ->).
      exists state, (with_sensors (sensors_at env (Z.to_nat fc)) w), fc, true.
      split; [reflexivity |]. split; [exact Hr0 |]. split; [repeat split |].
      rewrite with_sensors_frame.
      split; [lia |]. split; [lia |]. split; [discriminate |].
      split; [intros H1 H2; split; [lia | reflexivity] |].
      intros Hq _. exfalso. apply (Hq (Z.to_nat fc)). apply Hgo. reflexivity.
Qed.

Lemma start_delay_step (env : Env) (options : RunOptions) :
  (if float_positive (start_delay_seconds options)
   then time_sleep env 0 (Py.max_float (S754_zero false) (start_delay_seconds options))
   else Ok tt)
  = (if float_positive (start_delay_seconds options)
     then time_sleep env 0 (start_delay_seconds options)
     else Ok tt).
Proof.
  destruct (float_positive (start_delay_seconds options)) eqn:E; [| reflexivity].
  unfold Py.max_float. unfold float_positive in E. rewrite E. reflexivity.
Qed.

Lemma run_loop_ready (exe : string) (strf : Py.float -> string) (N : Z) (env : Env)
    (turns : nat) (state : AppState) (options : RunOptions) (w : World) :
  2 <= N -> run_ready N state w -> delay_ok env options ->
  exists state' w' n stopped,
    run_loop N exe strf env turns state options w = Ok (state', w', n, stopped) /\
    run_ready N state' w' /\ same_setup state state' /\
    frame_of w' = frame_of w + n /\
    0 <= n <= Z.of_nat turns /\
    (stopped = false -> n = Z.of_nat turns) /\
    (0 < frames options ->
     n <= frames options /\ (frames options <= Z.of_nat turns -> stopped = true)) /\
    ((forall k, poll_key env k <> Some "q") ->
     float_positive (duration_seconds options) = false ->
     (0 < frames options -> frames options <= Z.of_nat turns -> n = frames options) /\
     (frames options <= 0 -> stopped = false)) /\
    (poll_key env 0 = Some "q" -> (0 < turns)%nat ->
     n = 0 /\ stopped = true /\ state' = state).
Proof.
  intros HN Hr Hsleep. unfold run_loop.
  pose proof Hr as (Hsink & Hok & Hrest).
  destruct Hsink as (vs & Hvs & Hshape).
  unfold get_strip. rewrite Hvs. cbn [bind].
  destruct (print_status_ok state
              (print "Test mode: realtime ASCII overlay (press q to quit)." w) Hok)
    as (line & ->).
  cbn [bind].
  set (w0 := print line (print "Test mode: realtime ASCII overlay (press q to quit)." w)).
  assert (Hr0 : run_ready N state w0).
  { split; [| split; assumption]. exists vs. split; [exact Hvs | exact Hshape]. }
  assert (Hf0 : frame_of w0 = frame_of w) by reflexivity.
  assert (Hdelay : (if float_positive (start_delay_seconds options)
                    then time_sleep env 0 (Py.max_float (S754_zero false)
                                                        (start_delay_seconds options))
                    else Ok tt) = Ok tt).
  { rewrite (start_delay_step env options).
    destruct (float_positive (start_delay_seconds options)) eqn:E;
      [apply (proj1 Hsleep); exact E | reflexivity]. }
  rewrite Hdelay. cbn [bind].
  destruct (loop_from_ready exe strf N env options (monotonic env 0) HN (proj2 Hsleep)
              turns state w0 0 0%nat Hr0 ltac:(lia))
    as (s' & w' & n & st & Hrun & Hr' & Hset & Hfr & Hb & Hns & Hlim & Hex).
  exists s', w', n, st. split; [exact Hrun |]. split; [exact Hr' |].
  split; [exact Hset |]. split; [lia |]. split; [lia |].
  split; [intros H; specialize (Hns H); lia |].
  split.
  { intros H. destruct (Hlim H H) as (L1 & L2). split; [exact L1 | intros; apply L2; lia]. }
  split.
  { intros Hq Hd. destruct (Hex Hq Hd) as (X1 & X2).
    split; [intros; apply X1; lia | exact X2]. }
  intros Hq Ht. destruct turns as [| t]; [lia |].
  cbn [loop_from] in Hrun. change (Z.to_nat 0) with 0%nat in Hrun.
  pose proof (with_sensors_ready N state w0 (sensors_at env 0%nat) Hr0) as Hr1.
  destruct (loop_body_ready exe strf N state options (poll_key env 0%nat) _ HN Hr1)
    as (s1 & w1 & go & Hbody & _ & _ & Hgo & _ & Hgo0).
  rewrite Hbody in Hrun. cbn [bind] in Hrun.
  assert (go = false) by (apply Hgo; exact Hq). subst go.
  cbn [negb] in Hrun. injection Hrun as <- <- <- <-.
  destruct (Hgo0 eq_refl) as (-> & _). repeat split.
Qed.

Lemma run_loop_bad_delay (exe : string) (strf : Py.float -> string) (N : Z) (env : Env)
    (turns : nat) (state : AppState) (options : RunOptions) (w : World) (e : exn) :
  strip w <> None -> state_ok state ->
  float_positive (start_delay_seconds options) = true ->
  time_sleep env 0 (start_delay_seconds options) = Raise e ->
  run_loop N exe strf env turns state options w = Raise e.
Proof.
  intros Hs Hok Hpos Hsleep. unfold run_loop, get_strip.
  destruct (strip w) as [vs |]; [| contradiction]. cbn [bind].
  destruct (print_status_ok state
              (print "Test mode: realtime ASCII overlay (press q to quit)." w) Hok)
    as (line & ->).
  cbn [bind]. rewrite (start_delay_step env options), Hpos, Hsleep. reflexivity.
Qed.

Lemma loop_from_fails (exe : string) (strf : Py.float -> string) (N : Z) (env : Env)
    (options : RunOptions) (start_time : Py.float) :
  2 <= N ->
  forall (turns : nat) (state : AppState) (w : World) (fc : Z) (reads : nat) (e : exn),
    run_ready N state w -> 0 <= fc ->
    loop_from N exe strf env turns options start_time state w fc reads = Raise e ->
    exists call d s,
      (0 < call)%nat /\ state_ok s /\ get_delay s = Ok d /\
      time_sleep env call d = Raise e.
Proof.
  intros HN. induction turns as [| t IH]; intros state w fc reads e Hr Hfc H.
  - discriminate H.
  - cbn [loop_from] in H.
    pose proof (with_sensors_ready N state w (sensors_at env (Z.to_nat fc)) Hr) as Hr0.
    destruct (loop_body_ready exe strf N state options (poll_key env (Z.to_nat fc))
                _ HN Hr0)
      as (s1 & w1 & go & Hbody & Hr1 & _).
    rewrite Hbody in H. cbn [bind] in H.
    destruct go; cbn [negb] in H; [| discriminate H].
    assert (Hmore : forall reads',
               (d <- get_delay s1 ;; _ <- time_sleep env (Z.to_nat (fc + 1)) d ;;
                loop_from N exe strf env t options start_time s1 w1 (fc + 1) reads')
               = Raise e ->
               exists call d s,
                 (0 < call)%nat /\ state_ok s /\ get_delay s = Ok d /\
                 time_sleep env call d = Raise e).
    { intros reads' E.
      destruct (get_delay_ok s1 (proj1 (proj2 Hr1))) as (d & Hd).
      rewrite Hd in E. cbn [bind] in E.
      destruct (time_sleep env (Z.to_nat (fc + 1)) d) as [[] | e'] eqn:Es;
        cbn [bind] in E.
      - exact (IH s1 w1 (fc + 1) reads' e Hr1 ltac:(lia) E).
      - injection E as <-. exists (Z.to_nat (fc + 1)), d, s1.
        split; [lia |]. split; [exact (proj1 (proj2 Hr1)) |].
        split; [exact Hd | exact Es]. }
    destruct ((0 <? frames options) && (frames options <=? fc + 1));
      [discriminate H |].
    destruct (float_positive (duration_seconds options)).
    + destruct (SFleb _ _); [discriminate H | exact (Hmore _ H)].
    + exact (Hmore _ H).
Qed.

Lemma run_loop_fails (exe : string) (strf : Py.float -> string) (N : Z) (env : Env)
    (turns : nat) (state : AppState) (options : RunOptions) (w : World) (e : exn) :
  2 <= N -> run_ready N state w ->
  run_loop N exe strf env turns state options w = Raise e ->
  (float_positive (start_delay_seconds options) = true /\
   time_sleep env 0 (start_delay_seconds options) = Raise e) \/
  (exists call d s,
      (0 < call)%nat /\ state_ok s /\ get_delay s = Ok d /\
      time_sleep env call d = Raise e).
Proof.
  intros HN Hr H. unfold run_loop in H.
  pose proof Hr as (Hsink & Hok & Hrest).
  destruct Hsink as (vs & Hvs & Hshape).
  unfold get_strip in H. rewrite Hvs in H. cbn [bind] in H.
  destruct (print_status_ok state
              (print "Test mode: realtime ASCII overlay (press q to quit)." w) Hok)
    as (line & Hline).
  rewrite Hline in H. cbn [bind] in H.
  set (w0 := print line (print "Test mode: realtime ASCII overlay (press q to quit)." w))
    in H.
  assert (Hr0 : run_ready N state w0).
  { split; [| split; assumption]. exists vs. split; [exact Hvs | exact Hshape]. }
  rewrite (start_delay_step env options) in H.
  destruct (float_positive (start_delay_seconds options)).
  - destruct (time_sleep env 0 _) as [[] | e'] eqn:Es; cbn [bind] in H.
    + right.
      exact (loop_from_fails exe strf N env options _ HN _ _ _ _ _ _ Hr0 (Z.le_refl 0) H).
    + injection H as <-. left. split; reflexivity.
  - cbn [bind] in H. right.
    exact (loop_from_fails exe strf N env options _ HN _ _ _ _ _ _ Hr0 (Z.le_refl 0) H).
Qed.

(** X17. [run_loop] fails only where [time.sleep] fails. From a well-formed
    start (a sink of [N >= 2] pixels, settings that are keys of their
    tables, a ceiling in [[0, 255]], progress counters on the strip and on
    the waveform) and when [time.sleep] accepts the delays of the run, it
    never raises, whatever keys are pressed and whatever the sensors and the
    clock answer: every turn leaves a well-formed state and sink, the
    ceiling, the sensor set-up and the emergency-only mode are never
    changed, and the sink has flushed exactly as many frames as the loop
    counted. From such a start every error it raises is one [time.sleep]
    raised, for the start delay or for the frame delay of a well-formed
    state after a frame. A start delay that [time.sleep] rejects makes it
    raise that error before the first frame. Without a sink it raises
    [RuntimeError] before printing anything. *)
Theorem run_loop_never_fails :
  (forall N exe strf env turns state options w,
      2 <= N -> run_ready N state w -> delay_ok env options ->
      exists state' w' n stopped,
        run_loop N exe strf env turns state options w = Ok (state', w', n, stopped) /\
        run_ready N state' w' /\ same_setup state state' /\
        frame_of w' = frame_of w + n /\
        0 <= n <= Z.of_nat turns /\
        (stopped = false -> n = Z.of_nat turns)) /\
  (forall N exe strf env turns state options w e,
      2 <= N -> run_ready N state w ->
      run_loop N exe strf env turns state options w = Raise e ->
      (float_positive (start_delay_seconds options) = true /\
       time_sleep env 0 (start_delay_seconds options) = Raise e) \/
      (exists call d s,
          (0 < call)%nat /\ state_ok s /\ get_delay s = Ok d /\
          time_sleep env call d = Raise e)) /\
  (forall N exe strf env turns state options w e,
      strip w <> None -> state_ok state ->
      float_positive (start_delay_seconds options) = true ->
      time_sleep env 0 (start_delay_seconds options) = Raise e ->
      run_loop N exe strf env turns state options w = Raise e) /\
  (forall N exe strf env turns state options w,
      strip w = None ->
      run_loop N exe strf env turns state options w = Raise RuntimeError).
Proof.
  split; [| split; [| split]].
  - intros N exe strf env turns state options w HN Hr Hd.
    destruct (run_loop_ready exe strf N env turns state options w HN Hr Hd)
      as (s' & w' & n & st & H1 & H2 & H3 & H4 & H5 & H6 & _).
    exists s', w', n, st. repeat (split; [assumption |]). exact H6.
  - intros N exe strf env turns state options w e.
    apply run_loop_fails.
  - intros N exe strf env turns state options w e.
    apply run_loop_bad_delay.
  - intros N exe strf env turns state options w Hs.
    unfold run_loop, get_strip. rewrite Hs. reflexivity.
Qed.

Lemma default_run_ready : run_ready 4 default_state (test_world 4).
Proof.
  split; [apply test_world_ok; lia |].
  split; [repeat split; simpl; lia |].
  split; [reflexivity |]. simpl. repeat split; try lia; now left.
Qed.

Lemma run_loop_never_fails_witness :
  exists state' w' n stopped,
    run_loop 4 "python3" (fun _ => "0.0") headless_env 5 default_state default_options
             (test_world 4)
    = Ok (state', w', n, stopped) /\
    frame_of w' = n.
Proof.
  destruct (proj1 run_loop_never_fails 4 "python3" (fun _ => "0.0") headless_env 5%nat
              default_state default_options (test_world 4) ltac:(lia) default_run_ready
              (headless_delay_ok default_options))
    as (s' & w' & n & st & Hrun & _ & _ & Hfr & _).
  exists s', w', n, st. split; [exact Hrun | exact Hfr].
Defined.

(** X18. When [run_loop] stops, given that [time.sleep] accepts the delays
    of the run. With a frame limit [frames > 0] it stops
    within [frames] turns and never flushes more than [frames] frames; when
    no 'q' is read and no duration is set it flushes exactly [frames]
    frames. With neither a frame limit nor a duration, and no 'q', it never
    stops: after any number of turns it has flushed one frame per turn.
    When 'q' is the first key read it stops at once, with no frame drawn
    and the state untouched. *)
Theorem run_loop_stops :
  forall N exe strf env turns state options w,
    2 <= N -> run_ready N state w -> delay_ok env options ->
    exists state' w' n stopped,
      run_loop N exe strf env turns state options w = Ok (state', w', n, stopped) /\
      frame_of w' = frame_of w + n /\
      (0 < frames options ->
       n <= frames options /\ (frames options <= Z.of_nat turns -> stopped = true)) /\
      ((forall k, poll_key env k <> Some "q") ->
       float_positive (duration_seconds options) = false ->
       (0 < frames options -> frames options <= Z.of_nat turns -> n = frames options) /\
       (frames options <= 0 -> stopped = false /\ n = Z.of_nat turns)) /\
      (poll_key env 0 = Some "q" -> (0 < turns)%nat ->
       n = 0 /\ stopped = true /\ state' = state).
Proof.
  intros N exe strf env turns state options w HN Hr Hd.
  destruct (run_loop_ready exe strf N env turns state options w HN Hr Hd)
    as (s' & w' & n & st & H1 & _ & _ & H4 & _ & H6 & H7 & H8 & H9).
  exists s', w', n, st. split; [exact H1 |]. split; [exact H4 |].
  split; [exact H7 |]. split; [| exact H9].
  intros Hq Hdur. destruct (H8 Hq Hdur) as (X1 & X2). split; [exact X1 |].
  intros H. specialize (X2 H). split; [exact X2 | apply H6; exact X2].
Qed.

Lemma run_loop_stops_witness :
  exists state' w' stopped,
    run_loop 4 "python3" (fun _ => "0.0") headless_env 10 default_state
             (mkRunOptions 3 float_zero float_zero) (test_world 4)
    = Ok (state', w', 3, stopped) /\
    frame_of w' = 3.
Proof.
  destruct (run_loop_stops 4 "python3" (fun _ => "0.0") headless_env 10%nat
              default_state (mkRunOptions 3 float_zero float_zero) (test_world 4)
              ltac:(lia) default_run_ready (headless_delay_ok _))
    as (s' & w' & n & st & Hrun & Hfr & _ & Hex & _).
  destruct (Hex ltac:(intros k; discriminate) eq_refl) as (Hn & _).
  specialize (Hn ltac:(simpl; lia) ltac:(simpl; lia)). simpl in Hn. subst n.
  exists s', w', st. split; [exact Hrun | exact Hfr].
Defined.


(** ** A whole run in test mode *)

Lemma start_ready (state : AppState) (options : RunOptions) (w : World)
    (vs : VirtualStrip) :
  savable state options -> at_start state ->
  strip w = Some vs -> count vs = LED_COUNT -> Py.len (pixels vs) = LED_COUNT ->
  render_width vs <> 0 ->
  run_ready LED_COUNT state w.
Proof.
  intros (Sp & Ss & Sc & Sr & Sb & Sim & Sbr & Smb & Sam & Sfr & Sdur & Sdel)
         (A1 & A2 & A3 & A4 & A5 & A6) Hs Hc Hl Hrw.
  unfold run_ready, state_ok, mode_ok. rewrite A1, A2, A3, A4, A5.
  pose proof (allowed_is_pattern _ _ Sp) as Hpat.
  split; [exists vs; repeat split; assumption |].
  unfold LED_COUNT. repeat split; try assumption; try lia; now left.
Qed.

Lemma main_test_mode_ready (exe : string) (strf : Py.float -> string) (env : Env)
    (tw : Z) (turns : nat) (state : AppState) (options : RunOptions) (w : World) :
  savable state options -> at_start state ->
  exists w0,
    run_ready LED_COUNT state w0 /\
    frame_of w0 = 0 /\ pixels_of w0 = repeat 0 (Z.to_nat LED_COUNT) /\
    sink_brightness w0 = Some (brightness state) /\
    main_test_mode exe strf env tw turns state options w
    = run_loop LED_COUNT exe strf env turns state options w0.
Proof.
  intros Hsav Hstart.
  pose proof Hsav as (_ & _ & _ & _ & _ & _ & Sbr & Smb & _).
  unfold main_test_mode. cbv zeta.
  set (w1 := init_virtual_strip LED_COUNT tw
               (print "Running in --test ASCII mode (hardware disabled)." w)).
  assert (Hs1 : strip w1 = Some (new_VirtualStrip LED_COUNT tw)) by reflexivity.
  unfold get_strip at 1. rewrite Hs1. cbn [bind].
  rewrite (clear_strip_false LED_COUNT w1 _ Hs1 eq_refl eq_refl). cbn [bind].
  unfold apply_brightness_from_state. cbv zeta.
  replace (set_max_brightness _ (set_brightness _ state)) with state.
  2:{ rewrite (clamp_brightness_id (brightness state)) by exact Sbr.
      destruct state as [p s c r b mb br im ip ap am eo es ei cp bp bd ro]; cbn in *.
      rewrite (clamp_brightness_id mb) by exact Smb. reflexivity. }
  unfold set_strip_brightness, get_strip. cbn [strip with_strip bind].
  rewrite (clamp_brightness_id (brightness state)) by exact Sbr.
  eexists. split; [| split; [| split; [| split; [| reflexivity]]]].
  - apply (start_ready state options _
             (setBrightness (with_pixels (repeat 0 (Z.to_nat LED_COUNT))
                                         (new_VirtualStrip LED_COUNT tw))
                            (brightness state)) Hsav Hstart).
    + reflexivity.
    + reflexivity.
    + cbn [setBrightness with_pixels pixels]. unfold Py.len.
      rewrite repeat_length. reflexivity.
    + cbn [setBrightness with_pixels new_VirtualStrip render_width]. lia.
  - reflexivity.
  - reflexivity.
  - unfold sink_brightness. cbn. f_equal. lia.
Qed.

Lemma final_cleanup_blanks (N : Z) (w : World) :
  sink_ok N w ->
  exists w',
    final_cleanup N w = Ok w' /\
    pixels_of w' = repeat 0 (Z.to_nat N) /\ frame_of w' = frame_of w.
Proof.
  intros (vs & Hs & Hc & Hl & Hrw).
  unfold final_cleanup. rewrite Hs.
  rewrite (clear_strip_false N w vs Hs Hc Hl). cbn [bind].
  unfold get_strip. simpl strip. cbn [bind].
  eexists. split; [reflexivity |].
  unfold pixels_of, frame_of, finish. simpl. rewrite Hs. split; reflexivity.
Qed.

(** X19. A whole run in test mode, from settings as the constructors leave
    them (progress counters at their defaults) and with delays that
    [time.sleep] accepts: the start-up (notice, software sink of 120
    pixels, blanking, brightness) and the loop never raise; the sink has
    flushed exactly the frames the loop counted, at most [frames] of them
    when a frame limit is set and exactly [frames] when no 'q' is read and
    no duration is set; the settings other than the selections changed by
    keys are kept; and the final cleanup then leaves every pixel off
    without flushing another frame. *)
Theorem test_run_end_to_end :
  forall exe strf env tw turns state options w,
    savable state options -> at_start state -> delay_ok env options ->
    exists state' w' n stopped w'',
      main_test_mode exe strf env tw turns state options w
      = Ok (state', w', n, stopped) /\
      frame_of w' = n /\ 0 <= n <= Z.of_nat turns /\
      same_setup state state' /\
      (0 < frames options ->
       n <= frames options /\ (frames options <= Z.of_nat turns -> stopped = true)) /\
      ((forall k, poll_key env k <> Some "q") ->
       float_positive (duration_seconds options) = false ->
       0 < frames options -> frames options <= Z.of_nat turns -> n = frames options) /\
      final_cleanup LED_COUNT w' = Ok w'' /\
      pixels_of w'' = repeat 0 (Z.to_nat LED_COUNT) /\
      frame_of w'' = n.
Proof.
  intros exe strf env tw turns state options w Hsav Hstart Hdelay.
  destruct (main_test_mode_ready exe strf env tw turns state options w Hsav Hstart)
    as (w0 & Hr0 & Hf0 & _ & _ & ->).
  destruct (run_loop_ready exe strf LED_COUNT env turns state options w0
              ltac:(unfold LED_COUNT; lia) Hr0 Hdelay)
    as (s' & w' & n & st & Hrun & Hr' & Hset & Hfr & Hb & _ & Hlim & Hex & _).
  destruct Hr' as (Hsink' & _).
  destruct (final_cleanup_blanks LED_COUNT w' Hsink') as (w'' & Hfin & Hpx & Hfr'').
  exists s', w', n, st, w''. split; [exact Hrun |].
  split; [lia |]. split; [exact Hb |]. split; [exact Hset |]. split; [exact Hlim |].
  split; [intros Hq Hd H1 H2; apply (proj1 (Hex Hq Hd)); assumption |].
  split; [exact Hfin |]. split; [exact Hpx | lia].
Qed.

Lemma test_run_end_to_end_witness :
  exists state' w' stopped w'',
    main_test_mode "python3" (fun _ => "0.0") headless_env 80 5 default_state
                   (mkRunOptions 2 float_zero float_zero) fresh_world
    = Ok (state', w', 2, stopped) /\
    final_cleanup LED_COUNT w' = Ok w'' /\ frame_of w'' = 2.
Proof.
  destruct (test_run_end_to_end "python3" (fun _ => "0.0") headless_env 80 5%nat
              default_state (mkRunOptions 2 float_zero float_zero) fresh_world)
    as (s' & w' & n & st & w'' & Hrun & _ & _ & _ & _ & Hex & Hfin & _ & Hfr).
  - unfold savable. simpl. repeat split; auto; lia.
  - repeat split.
  - apply headless_delay_ok.
  - assert (Hn : n = 2).
    { apply Hex; [intros k; discriminate | reflexivity | simpl; lia | simpl; lia]. }
    rewrite Hn in Hrun, Hfr.
    exists s', w', st, w''. split; [exact Hrun | split; [exact Hfin | exact Hfr]].
Defined.


(** ** The sweep of the bounce pattern *)

Lemma bounce_phase_range (N : Z) (state : AppState) :
  2 <= N -> 0 <= bounce_position state < N ->
  (bounce_direction state = 1 \/ bounce_direction state = -1) ->
  0 <= bounce_phase N state < 2 * (N - 1) /\
  bounce_position state = bounce_wave N (bounce_phase N state).
Proof.
  intros HN Hp Hd. unfold bounce_phase, bounce_wave.
  destruct (Z.eqb_spec (bounce_position state) 0) as [E0 | E0].
  { destruct (Z.leb_spec 0 (N - 1)); lia. }
  destruct (Z.eqb_spec (bounce_position state) (N - 1)) as [E1 | E1].
  { destruct (Z.leb_spec (N - 1) (N - 1)); lia. }
  destruct (Z.eqb_spec (bounce_direction state) 1) as [E2 | E2].
  { destruct (Z.leb_spec (bounce_position state) (N - 1)); lia. }
  destruct (Z.leb_spec (2 * (N - 1) - bounce_position state) (N - 1)); lia.
Qed.

Lemma bounce_phase_next (N : Z) (state : AppState) :
  2 <= N -> 0 <= bounce_position state < N ->
  (bounce_direction state = 1 \/ bounce_direction state = -1) ->
  bounce_phase N (bounce_next N state) = (bounce_phase N state + 1) mod (2 * (N - 1)).
Proof.
  intros HN Hp Hd.
  destruct (bounce_next_fields N state) as (E1 & E2 & _).
  destruct (bounce_turn_cases N state HN Hp Hd) as (T1 & T2 & T3 & T4 & T5).
  unfold bounce_phase at 1. rewrite E1, E2.
  unfold bounce_phase.
  assert (Hwrap : (2 * (N - 1) - 1 + 1) mod (2 * (N - 1)) = 0).
  { replace (2 * (N - 1) - 1 + 1) with (1 * (2 * (N - 1))) by lia.
    apply Z.mod_mul. lia. }
  destruct (Z.eqb_spec (bounce_position state) 0) as [P0 | P0].
  { rewrite (T2 P0), P0. rewrite Z.mod_small by lia.
    change (0 + 1) with 1. change (1 =? 0) with false. change (1 =? 1) with true.
    cbv iota. destruct (Z.eqb_spec 1 (N - 1)); lia. }
  destruct (Z.eqb_spec (bounce_position state) (N - 1)) as [P1 | P1].
  { rewrite (T1 P1), P1.
    destruct (Z.eqb_spec (N - 1 + -1) 0) as [A | A].
    - replace (N - 1 + 1) with (1 * (2 * (N - 1))) by lia.
      rewrite Z.mod_mul by lia. reflexivity.
    - rewrite Z.mod_small by lia.
      destruct (Z.eqb_spec (N - 1 + -1) (N - 1)); [lia |].
      change (-1 =? 1) with false. cbv iota. lia. }
  rewrite (T3 P1 P0).
  destruct (Z.eqb_spec (bounce_direction state) 1) as [D | D].
  - rewrite D. rewrite Z.mod_small by lia.
    destruct (Z.eqb_spec (bounce_position state + 1) 0); [lia |].
    change (1 =? 1) with true. cbv iota.
    destruct (Z.eqb_spec (bounce_position state + 1) (N - 1)); lia.
  - assert (D' : bounce_direction state = -1) by lia. rewrite D'.
    destruct (Z.eqb_spec (bounce_position state + -1) 0) as [A | A].
    + replace (2 * (N - 1) - bounce_position state + 1) with (1 * (2 * (N - 1))) by lia.
      rewrite Z.mod_mul by lia. reflexivity.
    + rewrite Z.mod_small by lia.
      destruct (Z.eqb_spec (bounce_position state + -1) (N - 1)); [lia |].
      change (-1 =? 1) with false. cbv iota. lia.
Qed.

Lemma bounce_sweep (N : Z) (k : nat) :
  2 <= N ->
  forall state w,
    bounce_ready N state w ->
    exists state' w',
      steps k (pattern_step_bounce N) state w = Ok (state', w') /\
      bounce_ready N state' w' /\
      bounce_phase N state' = (bounce_phase N state + Z.of_nat k) mod (2 * (N - 1)).
Proof.
  intros HN. induction k as [| k IH]; intros state w Hr.
  - exists state, w. split; [reflexivity | split; [exact Hr |]].
    destruct Hr as (_ & Hp & Hd & _).
    destruct (bounce_phase_range N state HN Hp Hd) as (Hph & _).
    change (Z.of_nat 0) with 0. rewrite Z.add_0_r, Z.mod_small by lia. reflexivity.
  - destruct (bounce_step_ready N state w HN Hr) as (w1 & Hstep & Hr1 & _).
    destruct (IH _ _ Hr1) as (s' & w' & Hsteps & Hr' & Hph').
    exists s', w'. cbn [steps]. rewrite Hstep. cbn [bind].
    split; [exact Hsteps | split; [exact Hr' |]].
    destruct Hr as (_ & Hp & Hd & _).
    rewrite Hph', (bounce_phase_next N state HN Hp Hd), Nat2Z.inj_succ.
    rewrite Z.add_mod_idemp_l by lia. f_equal. lia.
Qed.

(** X20. The bounce pattern sweeps the whole strip. On a strip of [N >= 2]
    pixels the lit pixel follows a triangle wave of period [2 * (N - 1)]:
    [k] steps after standing at phase [p] of the sweep it stands at phase
    [(p + k) mod (2 * (N - 1))], that is at pixel [phase] on the way up and
    at pixel [2 * (N - 1) - phase] on the way back; started at pixel 0 it is
    back at pixel 0 after every [2 * (N - 1)] steps and reaches the last
    pixel [N - 1] steps after each start. *)
Theorem bounce_sweeps_strip :
  forall N state w (k : nat),
    2 <= N -> bounce_ready N state w ->
    exists state' w',
      steps k (pattern_step_bounce N) state w = Ok (state', w') /\
      bounce_position state'
      = bounce_wave N ((bounce_phase N state + Z.of_nat k) mod (2 * (N - 1))) /\
      (bounce_position state = 0 ->
       (Z.of_nat k mod (2 * (N - 1)) = 0 -> bounce_position state' = 0) /\
       (Z.of_nat k mod (2 * (N - 1)) = N - 1 -> bounce_position state' = N - 1)).
Proof.
  intros N state w k HN Hr.
  destruct (bounce_sweep N k HN state w Hr) as (s' & w' & Hsteps & Hr' & Hph).
  exists s', w'. split; [exact Hsteps |].
  destruct Hr' as (_ & Hp' & Hd' & _).
  destruct (bounce_phase_range N s' HN Hp' Hd') as (_ & Hpos).
  rewrite Hpos, Hph. split; [reflexivity |].
  intros H0. unfold bounce_phase at 1 2. rewrite H0. cbn [Z.eqb Z.add].
  split; intros ->; unfold bounce_wave.
  - destruct (Z.leb_spec 0 (N - 1)); lia.
  - destruct (Z.leb_spec (N - 1) (N - 1)); lia.
Qed.

Lemma bounce_sweeps_strip_witness :
  exists state' w',
    steps 6 (pattern_step_bounce 4) default_state (test_world 4) = Ok (state', w') /\
    bounce_position state' = 0.
Proof.
  destruct (bounce_sweeps_strip 4 default_state (test_world 4) 6 ltac:(lia))
    as (s' & w' & Hsteps & _ & Hzero).
  - split; [apply test_world_ok; lia |]. simpl. repeat split; try lia; auto.
  - exists s', w'. split; [exact Hsteps |]. apply Hzero; reflexivity.
Defined.


(** ** The interactive set-up *)

Lemma ask_choice_mem {V : Type} (line default : string) (options : Py.dict V) :
  Py.mem default options = true ->
  Py.mem (ask_choice line default options) options = true.
Proof.
  intros Hd. unfold ask_choice.
  destruct (Py.mem (or_default (Py.strip line) default) options) eqn:E; assumption.
Qed.

Lemma ask_int_range (ios : string -> option Z) (line : string)
    (default minimum maximum : Z) :
  minimum <= default <= maximum ->
  minimum <= ask_int ios line default minimum maximum <= maximum.
Proof.
  intros H. unfold ask_int.
  destruct (String.eqb (Py.strip line) ""); [exact H |].
  destruct (ios (Py.strip line)); lia.
Qed.

Lemma ask_float_clamped (fos : string -> option Py.float) (line : string) :
  Py.max_float float_zero (ask_float fos line float_zero float_zero)
  = ask_float fos line float_zero float_zero.
Proof.
  unfold ask_float.
  destruct (String.eqb (Py.strip line) ""); [reflexivity |].
  destruct (fos (Py.strip line)); [apply max_float_idempotent | reflexivity].
Qed.

Lemma or_default_not_empty (x default : string) :
  default <> "" -> or_default x default <> "".
Proof.
  intros H. unfold or_default.
  destruct (String.eqb_spec x ""); assumption.
Qed.

(** X21. Whatever is typed at the prompts, the settings [interactive_setup]
    builds are well formed: every selection is a key of its table, the
    pattern is one the mode allows, [0 <= brightness <= max_brightness <=
    255], the pin lies in [[0, 40]], [analog_max] in [[1, 999999]], frames
    in [[0, 10000000]], the durations are clamped at 0.0, the sensor path
    is not empty and the progress counters stand at their defaults; sixteen
    blank answers give exactly the default settings. *)
Theorem interactive_settings_well_formed :
  forall ios fos answers,
    let result := interactive_setup ios fos answers in
    let state := fst (fst result) in
    let options := snd (fst result) in
    savable state options /\ at_start state /\
    brightness state <= max_brightness state /\
    0 <= input_pin state <= 40 /\ analog_max state <= 999999 /\
    frames options <= 10000000 /\ analog_path state <> "" /\
    ((forall i, Py.strip (answers i) = "") ->
     result = (default_state, default_options, false)).
Proof.
  intros ios fos answers result state options.
  subst state options result. unfold interactive_setup. cbv zeta. cbn [fst snd].
  pose proof (ask_int_range ios (answers 5%nat) LED_BRIGHTNESS 0 255
                ltac:(unfold LED_BRIGHTNESS; lia)) as Hmb.
  pose proof (ask_int_range ios (answers 6%nat) _ 0 255 Hmb) as Hbr.
  pose proof (ask_int_range ios (answers 8%nat) 23 0 40 ltac:(lia)) as Hpin.
  pose proof (ask_int_range ios (answers 10%nat) 4095 1 999999 ltac:(lia)) as Ham.
  pose proof (ask_int_range ios (answers 13%nat) 0 0 10000000 ltac:(lia)) as Hfr.
  set (mb := ask_int ios (answers 5%nat) LED_BRIGHTNESS 0 255) in *.
  set (br := ask_int ios (answers 6%nat) mb 0 255) in *.
  set (pin := ask_int ios (answers 8%nat) 23 0 40) in *.
  set (am := ask_int ios (answers 10%nat) 4095 1 999999) in *.
  set (fr := ask_int ios (answers 13%nat) 0 0 10000000) in *.
  split; [| split; [| split; [| split; [| split; [| split; [| split]]]]]].
  - apply normalize_savable;
      cbn [pattern speed chase_color random_palette bounce_color input_mode brightness
           max_brightness analog_max frames duration_seconds start_delay_seconds
           new_AppState];
      try (apply ask_choice_mem; reflexivity); try lia;
      try apply ask_float_clamped.
    pose proof (ask_choice_mem (answers 7%nat) "off" INPUT_MODE_NAMES eq_refl) as H.
    apply mem_keys in H. exact H.
  - apply at_start_normalize. repeat split.
  - rewrite (proj1 (normalize_brightness _)), (proj2 (normalize_brightness _)).
    cbn [brightness max_brightness new_AppState]. lia.
  - unfold normalize_pattern_for_mode.
    destruct (emergency_only _); [| destruct (String.eqb _ "4")];
      cbn [new_AppState set_pattern input_pin]; exact Hpin.
  - unfold normalize_pattern_for_mode.
    destruct (emergency_only _); [| destruct (String.eqb _ "4")];
      cbn [new_AppState set_pattern analog_max]; lia.
  - cbn [frames]. lia.
  - unfold normalize_pattern_for_mode.
    destruct (emergency_only _); [| destruct (String.eqb _ "4")];
      cbn [new_AppState set_pattern analog_path];
      apply or_default_not_empty; discriminate.
  - intros Hblank. subst mb br pin am fr.
    unfold ask_choice, ask_int, ask_float, ask_yes_no.
    rewrite !Hblank. reflexivity.
Qed.


(** ** Command-line options over loaded settings *)

(** X22. [apply_cli_overrides] lets the command line win field by field and
    keeps everything it is not told about. A given speed, colour, palette,
    input mode, pin or path replaces the loaded one and an absent one keeps
    it; a given ceiling or brightness is clamped to [[0, 255]], a given
    [analog_max] raised to at least 1, given frames to at least 0 and given
    durations to at least 0.0; the brightness is then cut to the ceiling in
    force. The emergency-only mode is on when it was loaded on or the flag
    is given, and it decides the pattern last: "4" in that mode whatever
    [--pattern] says, and otherwise the given (else the loaded) pattern,
    with "4" replaced by "1". *)
Theorem overrides_take_precedence :
  forall state options args,
    let state' := fst (apply_cli_overrides state options args) in
    let options' := snd (apply_cli_overrides state options args) in
    speed state' = if_given (arg_speed args) (speed state) /\
    chase_color state' = if_given (arg_chase_color args) (chase_color state) /\
    random_palette state' = if_given (arg_random_palette args) (random_palette state) /\
    bounce_color state' = if_given (arg_bounce_color args) (bounce_color state) /\
    max_brightness state'
    = if_given (option_map clamp_brightness (arg_max_brightness args))
               (max_brightness state) /\
    brightness state'
    = Z.min (if_given (option_map clamp_brightness (arg_brightness args))
                      (brightness state))
            (max_brightness state') /\
    input_mode state' = if_given (arg_pi_input_mode args) (input_mode state) /\
    input_pin state' = if_given (arg_pi_input_pin args) (input_pin state) /\
    analog_path state' = if_given (arg_analog_path args) (analog_path state) /\
    analog_max state'
    = if_given (option_map (Z.max 1) (arg_analog_max args)) (analog_max state) /\
    emergency_only state' = emergency_only state || arg_emergency_only args /\
    pattern state'
    = (if emergency_only state' then "4"
       else if String.eqb (if_given (arg_pattern args) (pattern state)) "4" then "1"
            else if_given (arg_pattern args) (pattern state)) /\
    same_progress state state' /\
    frames options' = if_given (option_map (Z.max 0) (arg_frames args)) (frames options) /\
    duration_seconds options'
    = if_given (option_map (Py.max_float float_zero) (arg_duration_seconds args))
               (duration_seconds options) /\
    start_delay_seconds options'
    = if_given (option_map (Py.max_float float_zero) (arg_start_delay_seconds args))
               (start_delay_seconds options).
Proof.
  intros state options args state' options'. subst state' options'.
  unfold apply_cli_overrides. cbv zeta. cbn [fst snd].
  destruct args as [xp xs xc xr xb xbr xmb xm xpin xpath xam xt xfr xdur xdel xeo].
  destruct state as [p s c r b mb br im ip ap am eo es ei cp bp bd ro].
  destruct options as [fr dur del].
  cbn [arg_pattern arg_speed arg_chase_color arg_random_palette arg_bounce_color
       arg_brightness arg_max_brightness arg_pi_input_mode arg_pi_input_pin
       arg_analog_path arg_analog_max arg_frames arg_duration_seconds
       arg_start_delay_seconds arg_emergency_only
       pattern speed chase_color random_palette bounce_color max_brightness brightness
       input_mode input_pin analog_path analog_max emergency_only frames
       duration_seconds start_delay_seconds].
  repeat (first
    [ rewrite (proj1 (override_setters _))
    | rewrite (proj1 (proj2 (override_setters _)))
    | rewrite (proj1 (proj2 (proj2 (override_setters _))))
    | rewrite (proj1 (proj2 (proj2 (proj2 (override_setters _)))))
    | rewrite (proj1 (proj2 (proj2 (proj2 (proj2 (override_setters _))))))
    | rewrite (proj1 (proj2 (proj2 (proj2 (proj2 (proj2 (override_setters _)))))))
    | rewrite (proj1 (proj2 (proj2 (proj2 (proj2 (proj2 (proj2 (override_setters _))))))))
    | rewrite (proj1 (proj2 (proj2 (proj2 (proj2 (proj2 (proj2 (proj2
                 (override_setters _)))))))))
    | rewrite (proj1 (proj2 (proj2 (proj2 (proj2 (proj2 (proj2 (proj2 (proj2
                 (override_setters _))))))))))
    | rewrite (proj1 (proj2 (proj2 (proj2 (proj2 (proj2 (proj2 (proj2 (proj2 (proj2
                 (override_setters _)))))))))))
    | rewrite (proj2 (proj2 (proj2 (proj2 (proj2 (proj2 (proj2 (proj2 (proj2 (proj2
                 (override_setters _))))))))))) ];
    cbn [set_pattern set_speed set_chase_color set_random_palette set_bounce_color
         set_max_brightness set_brightness set_input_mode set_input_pin
         set_analog_path set_analog_max pattern speed chase_color random_palette
         bounce_color max_brightness brightness input_mode input_pin analog_path
         analog_max]).
  unfold normalize_pattern_for_mode.
  destruct xeo, eo; cbn [set_emergency_only emergency_only pattern orb];
    try (destruct (String.eqb (if_given xp p) "4"));
    cbn [set_pattern speed chase_color random_palette bounce_color max_brightness
         brightness input_mode input_pin analog_path analog_max emergency_only pattern];
    (repeat (split; [reflexivity |]));
    (split; [repeat split |]);
    destruct xfr, xdur, xdel; repeat split.
Qed.


(** ** The output of a run that is not at a terminal *)

Ltac bind_inv H x E :=
  match type of H with
  | bind ?c _ = Ok _ =>
      destruct c as [x |] eqn:E; cbn [bind] in H; [| discriminate H]
  end.

Lemma quiet_refl (w : World) : quiet w w.
Proof. split; reflexivity. Qed.

Lemma quiet_trans (w1 w2 w3 : World) : quiet w1 w2 -> quiet w2 w3 -> quiet w1 w3.
Proof. intros (A & B) (C & D). split; congruence. Qed.

Lemma setPixelColor_quiet (n color : Z) (w w' : World) :
  strip_setPixelColor n color w = Ok w' -> quiet w w'.
Proof.
  unfold strip_setPixelColor. intros H. bind_inv H vs E1. bind_inv H vs' E2.
  injection H as <-. split; reflexivity.
Qed.

Lemma for_each_quiet (body : Z -> World -> result World) :
  (forall i w w', body i w = Ok w' -> quiet w w') ->
  forall l w w', for_each l body w = Ok w' -> quiet w w'.
Proof.
  intros Hbody. induction l as [| i l IH]; intros w w' H; cbn [for_each] in H.
  - injection H as <-. apply quiet_refl.
  - bind_inv H w1 E1.
    eapply quiet_trans; [eapply Hbody; exact E1 | eapply IH; exact H].
Qed.

Lemma clear_strip_quiet (N : Z) (w w' : World) :
  clear_strip N false w = Ok w' -> quiet w w'.
Proof.
  unfold clear_strip. intros H. destruct (strip w); [| injection H as <-; apply quiet_refl].
  bind_inv H w1 E1. injection H as <-.
  eapply for_each_quiet; [| exact E1]. intros i x y. apply setPixelColor_quiet.
Qed.

Lemma random_pixel_quiet (palette : option (list Z)) (i : Z) (w w' : World) :
  random_pixel palette i w = Ok w' -> quiet w w'.
Proof.
  unfold random_pixel. destruct palette as [colors |]; intros H.
  - bind_inv H cw E1. destruct cw as [c w1].
    apply setPixelColor_quiet in H.
    eapply quiet_trans; [| exact H].
    unfold choice in E1. destruct colors as [| c0 colors]; [discriminate |].
    unfold draw in E1. cbv zeta in E1.
    bind_inv E1 v E2. injection E1 as _ <-. split; reflexivity.
  - unfold randint, draw in H. cbv zeta in H.
    apply setPixelColor_quiet in H. destruct H as (A & B). split; [exact A | exact B].
Qed.

Lemma strip_show_line (w w' : World) :
  stdout_isatty w = false -> strip_show w = Ok w' ->
  stdout w' = (stdout w ++ [frame_text w'])%list /\ stdout_isatty w' = false.
Proof.
  intros Htty H. unfold strip_show in H. bind_inv H vs E1.
  unfold get_strip in E1. destruct (strip w) as [vs0 |] eqn:Hs; [| discriminate].
  injection E1 as <-. rewrite Htty in H. unfold show in H. cbn [negb bind] in H.
  cbv zeta in H. cbn [bind] in H. injection H as <-.
  unfold frame_text, frame_of, pixels_of. cbn. rewrite concat_glyphs.
  split; [reflexivity | exact Htty].
Qed.

Lemma pattern_step_line (N : Z) (state state' : AppState) (w w' : World) :
  stdout_isatty w = false ->
  pattern_step N state w = Ok (state', w') ->
  stdout w' = (stdout w ++ [frame_text w'])%list /\ stdout_isatty w' = false.
Proof.
  intros Htty H.
  assert (Hend : forall w1, quiet w w1 -> strip_show w1 = Ok w' ->
             stdout w' = (stdout w ++ [frame_text w'])%list /\ stdout_isatty w' = false).
  { intros w1 (A & B) Hshow. rewrite <- A. apply strip_show_line; [congruence | exact Hshow]. }
  unfold pattern_step in H.
  destruct (String.eqb (pattern state) "1").
  { unfold pattern_step_chase in H. bind_inv H vs E1. bind_inv H w1 E2.
    bind_inv H cs E3. destruct cs as [color st]. bind_inv H w2 E4. bind_inv H w3 E5.
    bind_inv H next E6. injection H as _ <-.
    apply (Hend w2); [| exact E5].
    eapply quiet_trans; [eapply clear_strip_quiet; exact E2 |
                         eapply setPixelColor_quiet; exact E4]. }
  destruct (String.eqb (pattern state) "2").
  { unfold pattern_step_random in H. bind_inv H vs E1. bind_inv H entry E2.
    bind_inv H w1 E3. bind_inv H w2 E4. injection H as _ <-.
    apply (Hend w1); [| exact E4].
    eapply for_each_quiet; [| exact E3]. intros i x y. apply random_pixel_quiet. }
  destruct (String.eqb (pattern state) "3").
  { unfold pattern_step_bounce in H. bind_inv H vs E1. bind_inv H w1 E2.
    bind_inv H cs E3. destruct cs as [color st]. bind_inv H w2 E4. bind_inv H w3 E5.
    injection H as _ <-.
    apply (Hend w2); [| exact E5].
    eapply quiet_trans; [eapply clear_strip_quiet; exact E2 |
                         eapply setPixelColor_quiet; exact E4]. }
  unfold pattern_step_emergency in H. bind_inv H vs E1. bind_inv H level E2.
  bind_inv H entry E3. cbv zeta in H. bind_inv H w1 E4. bind_inv H w2 E5.
  assert (Hw : w' = w2).
  { destruct (Py.len EMERGENCY_SOS_STEPS <=? _); [bind_inv H next E6 |];
      injection H as _ <-; reflexivity. }
  subst w'. apply (Hend w1); [| exact E5].
  eapply for_each_quiet; [| exact E4]. intros i x y. apply setPixelColor_quiet.
Qed.

Lemma sensor_response_quiet (state state' : AppState) (w w' : World) :
  apply_pi_input_response state w = Ok (state', w') -> quiet w w'.
Proof.
  unfold apply_pi_input_response. intros H.
  destruct (String.eqb (input_mode state) "off");
    [injection H as _ <-; apply quiet_refl |].
  destruct (String.eqb (input_mode state) "digital").
  - destruct (read_digital_input (input_pin state) w);
      [| injection H as _ <-; apply quiet_refl].
    cbv zeta in H. bind_inv H w1 E1. injection H as _ <-.
    unfold set_strip_brightness in E1. bind_inv E1 vs E2. injection E1 as <-.
    split; reflexivity.
  - destruct (read_analog_input (analog_path state) w);
      [| injection H as _ <-; apply quiet_refl].
    cbv zeta in H. bind_inv H ratio E1. bind_inv H product E2. bind_inv H scaled E3.
    bind_inv H w1 E4. injection H as _ <-.
    unfold set_strip_brightness in E4. bind_inv E4 vs E5. injection E4 as <-.
    split; reflexivity.
Qed.

Lemma loop_body_line (exe : string) (strf : Py.float -> string) (N : Z)
    (state state' : AppState) (options : RunOptions) (w w' : World) :
  stdout_isatty w = false ->
  loop_body exe strf N state options None w = Ok (state', w', true) ->
  stdout w' = (stdout w ++ [frame_text w'])%list /\ stdout_isatty w' = false.
Proof.
  intros Htty H. unfold loop_body in H. cbn [bind] in H.
  bind_inv H sw E1. destruct sw as [s1 w1]. bind_inv H sw E2. destruct sw as [s2 w2].
  injection H as _ <-.
  destruct (sensor_response_quiet _ _ _ _ E1) as (A & B).
  rewrite <- A. apply (pattern_step_line N s1 s2 w1 w2); [congruence | exact E2].
Qed.

Lemma frame_text_line (N : Z) (w : World) :
  sink_ok N w -> is_frame_line N (frame_of w) (frame_text w).
Proof.
  intros (vs & Hs & _ & Hl & _). exists (pixels vs). split; [exact Hl |].
  unfold frame_text, frame_of, pixels_of. rewrite Hs. reflexivity.
Qed.

Lemma loop_from_lines (exe : string) (strf : Py.float -> string) (N : Z) (env : Env)
    (options : RunOptions) (start_time : Py.float) :
  2 <= N -> stdin_isatty env = false ->
  forall (turns : nat) (state : AppState) (w : World) (fc : Z) (reads : nat)
         (state' : AppState) (w' : World) (fc' : Z) (stopped : bool),
    run_ready N state w -> stdout_isatty w = false ->
    loop_from N exe strf env turns options start_time state w fc reads
    = Ok (state', w', fc', stopped) ->
    exists lines,
      stdout w' = (stdout w ++ lines)%list /\
      Z.of_nat (List.length lines) = fc' - fc /\
      forall k, (k < List.length lines)%nat ->
                is_frame_line N (frame_of w + Z.of_nat k + 1) (nth k lines "").
Proof.
  intros HN Hhead. induction turns as [| t IH];
    intros state w fc reads state' w' fc' stopped Hr Htty H.
  - cbn [loop_from] in H. injection H as <- <- <- <-. exists [].
    rewrite app_nil_r. split; [reflexivity |]. split; [simpl; lia |].
    intros k Hk. simpl in Hk. lia.
  - cbn [loop_from] in H.
    assert (Hkey : poll_key env (Z.to_nat fc) = None)
      by (unfold poll_key; rewrite Hhead; reflexivity).
    rewrite Hkey in H.
    pose proof (with_sensors_ready N state w (sensors_at env (Z.to_nat fc)) Hr) as Hr0.
    destruct (loop_body_ready exe strf N state options None _ HN Hr0)
      as (s1 & w1 & go & Hbody & Hr1 & _ & Hgo & Hgo1 & _).
    rewrite Hbody in H. cbn [bind] in H.
    destruct go; [| discriminate (proj1 Hgo eq_refl)].
    cbn [negb] in H. specialize (Hgo1 eq_refl). rewrite with_sensors_frame in Hgo1.
    destruct (loop_body_line exe strf N state s1 options
                (with_sensors (sensors_at env (Z.to_nat fc)) w) w1 Htty Hbody)
      as (Hout & Htty1).
    cbn [with_sensors stdout] in Hout.
    pose proof (frame_text_line N w1 (proj1 Hr1)) as Hline. rewrite Hgo1 in Hline.
    assert (Hone : forall st,
               (Ok (s1, w1, fc + 1, st) : result (AppState * World * Z * bool))
               = Ok (state', w', fc', stopped) ->
               exists lines,
                 stdout w' = (stdout w ++ lines)%list /\
                 Z.of_nat (List.length lines) = fc' - fc /\
                 forall k, (k < List.length lines)%nat ->
                           is_frame_line N (frame_of w + Z.of_nat k + 1) (nth k lines "")).
    { intros st E. injection E as <- <- <- <-. exists [frame_text w1].
      split; [exact Hout |]. split; [simpl; lia |].
      intros k Hk. simpl in Hk. assert (k = 0%nat) by lia. subst k.
      cbn [nth Z.of_nat]. rewrite Z.add_0_r. exact Hline. }
    assert (Hmore : forall reads',
               (d <- get_delay s1 ;; _ <- time_sleep env (Z.to_nat (fc + 1)) d ;;
                loop_from N exe strf env t options start_time s1 w1 (fc + 1) reads')
               = Ok (state', w', fc', stopped) ->
               exists lines,
                 stdout w' = (stdout w ++ lines)%list /\
                 Z.of_nat (List.length lines) = fc' - fc /\
                 forall k, (k < List.length lines)%nat ->
                           is_frame_line N (frame_of w + Z.of_nat k + 1) (nth k lines "")).
    { intros reads' E. bind_inv E d E1. bind_inv E u E2.
      destruct (IH s1 w1 (fc + 1) reads' state' w' fc' stopped Hr1 Htty1 E)
        as (lines & L1 & L2 & L3).
      exists (frame_text w1 :: lines). split; [| split].
      - rewrite L1, Hout, <- app_assoc. reflexivity.
      - cbn [List.length]. lia.
      - intros k Hk. destruct k as [| k].
        + cbn [nth Z.of_nat]. rewrite Z.add_0_r. exact Hline.
        + cbn [nth]. cbn [List.length] in Hk.
          specialize (L3 k ltac:(lia)). rewrite Hgo1 in L3.
          replace (frame_of w + Z.of_nat (S k) + 1) with (frame_of w + 1 + Z.of_nat k + 1)
            by lia.
          exact L3. }
    destruct ((0 <? frames options) && (frames options <=? fc + 1));
      [exact (Hone _ H) |].
    destruct (float_positive (duration_seconds options)).
    + destruct (SFleb _ _); [exact (Hone _ H) | exact (Hmore _ H)].
    + exact (Hmore _ H).
Qed.

(** X23. What a run writes when neither standard input nor standard output
    is a terminal and [time.sleep] accepts the delays of the run: the
    banner, the status line [print_status] gives for the
    start state, and then exactly one line per frame and nothing else, the
    line of the [k]-th frame being the label of frame number
    [frame + k] followed by one glyph for each of the [N] pixels. *)
Theorem piped_run_output :
  forall N exe strf env turns state options w,
    2 <= N -> run_ready N state w -> delay_ok env options ->
    stdin_isatty env = false -> stdout_isatty w = false ->
    exists state' w' n stopped status lines,
      run_loop N exe strf env turns state options w = Ok (state', w', n, stopped) /\
      print_status state w = Ok (print status w) /\
      stdout w'
      = (stdout w
         ++ [("Test mode: realtime ASCII overlay (press q to quit)." ++ LF)%string;
             (status ++ LF)%string]
         ++ lines)%list /\
      Z.of_nat (List.length lines) = n /\
      forall k, (k < List.length lines)%nat ->
                is_frame_line N (frame_of w + Z.of_nat k + 1) (nth k lines "").
Proof.
  intros N exe strf env turns state options w HN Hr Hsleep Hhead Htty.
  pose proof Hr as (Hsink & Hok & Hrest).
  destruct Hsink as (vs & Hvs & Hshape).
  destruct (print_status_ok state w Hok) as (status & Hstatus).
  unfold run_loop, get_strip. rewrite Hvs. cbn [bind].
  destruct (print_status_ok state
              (print "Test mode: realtime ASCII overlay (press q to quit)." w) Hok)
    as (line & Hline).
  assert (line = status).
  { unfold print_status in Hstatus, Hline.
    destruct (Py.item PATTERN_NAMES (pattern state)); [| discriminate].
    destruct (Py.item SPEED_LABELS (speed state)); [| discriminate].
    destruct (status_detail state); [| discriminate].
    destruct (Py.truediv _ _); [| discriminate].
    cbn [bind] in *. destruct (Py.mul_int _ 100); [| discriminate].
    cbn [bind] in *. destruct (Py.int_of_float _); [| discriminate].
    cbn [bind] in *. unfold print, write in *.
    injection Hstatus as Es. injection Hline as El.
    apply app_inv_head in Es. apply app_inv_head in El.
    injection Es as Es. injection El as El.
    rewrite Es in El.
    clear - El. revert El. generalize LF. intros lf El.
    revert status El. induction line as [| c line IHl]; intros [| c' status] El.
    - reflexivity.
    - exfalso. destruct lf; simpl in El; [discriminate |].
      injection El as _ El. apply (f_equal String.length) in El.
      rewrite string_length_app in El. simpl in El. lia.
    - exfalso. destruct lf; simpl in El; [discriminate |].
      injection El as _ El. apply (f_equal String.length) in El.
      rewrite string_length_app in El. simpl in El. lia.
    - simpl in El. injection El as -> El. f_equal. apply IHl. exact El. }
  subst line. rewrite Hline. cbn [bind].
  set (w0 := print status (print "Test mode: realtime ASCII overlay (press q to quit)." w)).
  assert (Hr0 : run_ready N state w0).
  { split; [| split; assumption]. exists vs. split; [exact Hvs | exact Hshape]. }
  assert (Hdelay : (if float_positive (start_delay_seconds options)
                    then time_sleep env 0 (Py.max_float (S754_zero false)
                                                        (start_delay_seconds options))
                    else Ok tt) = Ok tt).
  { rewrite (start_delay_step env options).
    destruct (float_positive (start_delay_seconds options)) eqn:E;
      [apply (proj1 Hsleep); exact E | reflexivity]. }
  rewrite Hdelay. cbn [bind].
  destruct (loop_from_ready exe strf N env options (monotonic env 0) HN (proj2 Hsleep)
              turns state w0 0 0%nat Hr0 ltac:(lia))
    as (s' & w' & n & st & Hrun & _).
  destruct (loop_from_lines exe strf N env options (monotonic env 0) HN Hhead turns
              state w0 0 0%nat s' w' n st Hr0 Htty Hrun)
    as (lines & L1 & L2 & L3).
  exists s', w', n, st, status, lines.
  split; [exact Hrun |]. split; [exact Hstatus |].
  split; [| split; [lia | exact L3]].
  rewrite L1. subst w0. unfold print, write. cbn [stdout].
  rewrite <- !app_assoc. reflexivity.
Qed.

Lemma piped_run_output_witness :
  exists state' w' stopped status lines,
    run_loop 4 "python3" (fun _ => "0.0") headless_env 10 default_state
             (mkRunOptions 2 float_zero float_zero) (test_world 4)
    = Ok (state', w', 2, stopped) /\
    stdout w'
    = ([("Test mode: realtime ASCII overlay (press q to quit)." ++ LF)%string;
        (status ++ LF)%string] ++ lines)%list /\
    List.length lines = 2%nat.
Proof.
  destruct (piped_run_output 4 "python3" (fun _ => "0.0") headless_env 10%nat
              default_state (mkRunOptions 2 float_zero float_zero) (test_world 4)
              ltac:(lia) default_run_ready (headless_delay_ok _) eq_refl eq_refl)
    as (s' & w' & n & st & status & lines & Hrun & _ & Hout & Hlen & _).
  assert (Hn : n = 2).
  { assert (H := Hrun). vm_compute in H. injection H as _ _ H _. symmetry. exact H. }
  rewrite Hn in Hrun, Hlen.
  exists s', w', st, status, lines. split; [exact Hrun |]. split; [exact Hout | lia].
Defined.
